(** * A shallow embedding of the d9vk translation layer

    This development embeds, function by function, the parts of the
    d9vk sources that the specification's testable properties talk
    about, and proves or refutes each property on the embedding:

    - [DxvkImage], [DxvkMemoryChunk], [DxvkMemoryAllocator] :
      [dxvk_image.h] (view-format compatibility) and [dxvk_memory.cpp]
      (chunk free lists, the per-type allocation policy);
    - [DxvkCsCmd], [CsEvent] : the producer side of the command stream
      (chunks handed to the worker thread);
    - [D3D11ImmediateContext], [D3D11Device] : [d3d11_context_imm.cpp]
      (Map, MapBuffer, MapImage, WaitForResource, Flush, FlushImplicit)
      and the view constructors of [d3d11_device.cpp];
    - [D3D9DeviceEx] : [d3d9_device.cpp] (render states, render
      targets, the multisample binding, the flush policy).

    Machine integers are [Z] with the wrap-around written out, C++
    pointers are [option]s or indices into the owning container, and
    everything the code asks of the outside world (the Vulkan driver,
    the GPU's progress, the clock) is an explicit field of the state. *)

From Stdlib Require Import ZArith Lia List Bool Ascii String.
From Stdlib Require Import Floats.
From stdpp Require Import base numbers list strings gmap.

Open Scope Z_scope.

(** ** Machine arithmetic *)

Definition u32 (x : Z) : Z := x mod 2 ^ 32.
Definition u64 (x : Z) : Z := x mod 2 ^ 64.

(** [a & b != 0], the way the sources test a flag bit. *)
Definition testFlag (bits flag : Z) : bool := negb (Z.land bits flag =? 0).

(** [bits & ~flag] *)
Definition clearFlag (bits flag : Z) : Z := Z.land bits (Z.lnot flag).

(** ** HRESULT codes

    The numeric values are those of the platform headers, read as signed
    32-bit integers; [FAILED] is the header's sign test. *)

Module HResult.
Definition HRESULT := Z.
Definition S_OK : HRESULT := 0.
Definition S_FALSE : HRESULT := 1.
Definition E_INVALIDARG : HRESULT := 0x80070057 - 2 ^ 32.
Definition DXGI_ERROR_INVALID_CALL : HRESULT := 0x887A0001 - 2 ^ 32.
Definition DXGI_ERROR_WAS_STILL_DRAWING : HRESULT := 0x887A000A - 2 ^ 32.
Definition D3D_OK : HRESULT := 0.
Definition D3DERR_INVALIDCALL : HRESULT := 0x8876086C - 2 ^ 32.
Definition D3DERR_WASSTILLDRAWING : HRESULT := 0x8876021C - 2 ^ 32.
Definition FAILED (hr : HRESULT) : bool := hr <? 0.
End HResult.
Export HResult.

(** * dxvk: images and device memory *)

Definition VkFormat := Z.
Definition VkDeviceSize := Z.
Definition VkMemoryPropertyFlags := Z.

Definition VK_NULL_HANDLE : Z := 0.
Definition VK_MEMORY_PROPERTY_DEVICE_LOCAL_BIT : Z := 0x1.
Definition VK_MEMORY_PROPERTY_HOST_VISIBLE_BIT : Z := 0x2.

(** ** dxvk_image.h *)

Module DxvkImage.

Record DxvkImageCreateInfo := {
  type : Z;          (* VkImageType: 0 = 1D, 1 = 2D, 2 = 3D *)
  format : VkFormat;
  layout : Z;
}.

Record t := mk {
  m_info : DxvkImageCreateInfo;
  m_viewFormats : list VkFormat;
}.

(** The [for] loop of [isViewCompatible]: the index runs over
    [m_viewFormats] for as long as [result] is still false. *)
Fixpoint isViewCompatible_loop
  (viewFormats : list VkFormat) (fmt : VkFormat) (result : bool) : bool :=
  match viewFormats with
  | [] => result
  | vf :: rest =>
      if negb result
      then isViewCompatible_loop rest fmt (result || (vf =? fmt))
      else result
  end.

Definition isViewCompatible (img : t) (fmt : VkFormat) : bool :=
  isViewCompatible_loop (m_viewFormats img) fmt (format (m_info img) =? fmt).

End DxvkImage.

(** ** dxvk_memory.cpp *)

Module FreeSlice.
Record t := mk { offset : VkDeviceSize; length : VkDeviceSize }.
End FreeSlice.
Abbreviation FreeSlice := FreeSlice.t.

Record DxvkDeviceMemory := {
  memHandle : Z;
  memPointer : Z;
  memSize : VkDeviceSize;
  memFlags : VkMemoryPropertyFlags;
  priority : float;
}.

(** [DxvkDeviceMemory()] *)
Definition nullDeviceMemory : DxvkDeviceMemory :=
  {| memHandle := VK_NULL_HANDLE; memPointer := 0; memSize := 0;
     memFlags := 0; priority := 0%float |}.

(** A pointer to a chunk is the chunk's position in its memory type's
    [chunks] vector (chunks are never removed from it). *)
Definition ChunkPtr := nat.

(** A non-null [DxvkMemory]. The null object [DxvkMemory()], which tests
    false, is [None] wherever a [DxvkMemory] is returned. The back
    pointer [m_alloc] is left out: there is one allocator. *)
Module DxvkMemory.
Record t := mk {
  m_chunk : option ChunkPtr;
  m_type : Z;
  m_memory : Z;
  m_offset : VkDeviceSize;
  m_length : VkDeviceSize;
  m_mapPtr : Z;
}.
End DxvkMemory.
Abbreviation DxvkMemory := DxvkMemory.t.

(** Modelled from the spec: [dxvk::align] lives in the utility headers,
    which are not part of the sources at hand. The spec only says that
    allocations are aligned upward to the requirement's alignment; the
    definition is the usual mask computation [(what + to - 1) & ~(to - 1)]
    on 64-bit unsigned integers. *)
Definition align (what to : VkDeviceSize) : VkDeviceSize :=
  Z.land (u64 (what + to - 1)) (Z.lnot (u64 (to - 1))).

Module DxvkMemoryChunk.

Record t := mk {
  m_type : Z;
  m_memory : DxvkDeviceMemory;
  m_freeList : list FreeSlice;
}.

(** The constructor: the entire chunk is marked as free. *)
Definition new (type : Z) (memory : DxvkDeviceMemory) : t :=
  {| m_type := type; m_memory := memory;
     m_freeList := [FreeSlice.mk 0 (memSize memory)] |}.

(** The selection loop of [alloc]. [i] is the position of the iterator
    [slice], [best] the position of [bestSlice] and [bestLen] the length
    of the slice [bestSlice] points to. *)
Fixpoint pickSlice (slices : list FreeSlice) (size : VkDeviceSize)
  (i best : nat) (bestLen : VkDeviceSize) : nat :=
  match slices with
  | [] => best
  | slice :: rest =>
      if FreeSlice.length slice =? size then i
      else if FreeSlice.length slice >? bestLen
           then pickSlice rest size (S i) i (FreeSlice.length slice)
           else pickSlice rest size (S i) best bestLen
  end.

Definition bestSliceIndex (freeList : list FreeSlice) (size : VkDeviceSize) : nat :=
  match freeList with
  | [] => 0%nat
  | first :: _ => pickSlice freeList size 0 0 (FreeSlice.length first)
  end.

(** [if (cond) m_freeList.push_back(s)] *)
Definition pushIf (cond : bool) (s : FreeSlice) (l : list FreeSlice) : list FreeSlice :=
  if cond then l ++ [s] else l.

(** [DxvkMemoryChunk::alloc]; [this] is the chunk's own address. *)
Definition alloc (this : ChunkPtr) (c : t)
  (flags : VkMemoryPropertyFlags) (size align_ : VkDeviceSize) (prio : float)
  : option DxvkMemory * t :=
  if negb (memFlags (m_memory c) =? flags)
     || negb (PrimFloat.eqb (priority (m_memory c)) prio)
  then (None, c)
  else
    let best := bestSliceIndex (m_freeList c) size in
    match m_freeList c !! best with
    | None => (None, c)
    | Some bestSlice =>
        let sliceStart := FreeSlice.offset bestSlice in
        let sliceEnd := u64 (FreeSlice.offset bestSlice + FreeSlice.length bestSlice) in
        let allocStart := align sliceStart align_ in
        let allocEnd := align (u64 (allocStart + size)) align_ in
        if allocEnd >? sliceEnd then (None, c)
        else
          let l0 := delete best (m_freeList c) in
          let l1 := pushIf (negb (allocStart =? sliceStart))
                      (FreeSlice.mk sliceStart (u64 (allocStart - sliceStart))) l0 in
          let l2 := pushIf (negb (allocEnd =? sliceEnd))
                      (FreeSlice.mk allocEnd (u64 (sliceEnd - allocEnd))) l1 in
          (Some {| DxvkMemory.m_chunk := Some this;
                   DxvkMemory.m_type := m_type c;
                   DxvkMemory.m_memory := memHandle (m_memory c);
                   DxvkMemory.m_offset := allocStart;
                   DxvkMemory.m_length := u64 (allocEnd - allocStart);
                   DxvkMemory.m_mapPtr := memPointer (m_memory c) + allocStart |},
           {| m_type := m_type c; m_memory := m_memory c; m_freeList := l2 |})
    end.

(** The [while] loop of [free]: entries adjacent to the block being
    returned are erased and absorbed into it. The result is the list of
    the entries kept, and the grown block. *)
Fixpoint free_loop (l : list FreeSlice) (offset length : VkDeviceSize)
  : list FreeSlice * VkDeviceSize * VkDeviceSize :=
  match l with
  | [] => ([], offset, length)
  | curr :: rest =>
      if FreeSlice.offset curr =? u64 (offset + length) then
        free_loop rest offset (u64 (length + FreeSlice.length curr))
      else if u64 (FreeSlice.offset curr + FreeSlice.length curr) =? offset then
        free_loop rest (u64 (offset - FreeSlice.length curr))
                  (u64 (length + FreeSlice.length curr))
      else
        let '(kept, o, len) := free_loop rest offset length in
        (curr :: kept, o, len)
  end.

(** [DxvkMemoryChunk::free] *)
Definition free (c : t) (offset length : VkDeviceSize) : t :=
  let '(kept, o, len) := free_loop (m_freeList c) offset length in
  {| m_type := m_type c; m_memory := m_memory c;
     m_freeList := kept ++ [FreeSlice.mk o len] |}.

End DxvkMemoryChunk.
Abbreviation DxvkMemoryChunk := DxvkMemoryChunk.t.

Module DxvkMemoryAllocator.

Record DxvkMemoryStats := {
  memoryAllocated : VkDeviceSize;
  memoryUsed : VkDeviceSize;
}.

Record DxvkMemoryHeap := {
  chunkSize : VkDeviceSize;
  stats : DxvkMemoryStats;
}.

Record DxvkMemoryType := {
  heapId : Z;
  memTypeId : Z;
  chunks : list DxvkMemoryChunk;
}.

Record VkMemoryDedicatedAllocateInfoKHR := {
  image : Z;
  buffer : Z;
}.

(** What [tryAllocDeviceMemory] hands to [vkAllocateMemory]: the
    [pNext] chain holds the priority structure when memory priorities
    are in use, followed by the dedicated-allocation structure if any. *)
Record VkMemoryAllocateInfo := {
  allocationSize : VkDeviceSize;
  memoryTypeIndex : Z;
  pNextPriority : option float;
  pNextDedicated : option VkMemoryDedicatedAllocateInfoKHR;
}.

(** The driver's answer to one [vkAllocateMemory] and to the
    [vkMapMemory] that may follow it: the handle, respectively the
    pointer, on [VK_SUCCESS]. *)
Record VkResponse := {
  allocateMemory : option Z;
  mapMemory : option Z;
}.

(** The allocator as seen from one memory type: the type, its heap, the
    device's memory-priority feature, and the Vulkan driver, which is
    the list of the answers it is going to give, together with a record
    of the allocation calls made so far (oldest first). *)
Record t := mk {
  heap : DxvkMemoryHeap;
  type : DxvkMemoryType;
  memoryPriority : bool;
  vkAnswers : list VkResponse;
  vkAllocateCalls : list VkMemoryAllocateInfo;
  heapNotifications : list (Z * VkDeviceSize);
}.

Definition setChunks (s : t) (cs : list DxvkMemoryChunk) : t :=
  mk (heap s)
     {| heapId := heapId (type s); memTypeId := memTypeId (type s); chunks := cs |}
     (memoryPriority s) (vkAnswers s) (vkAllocateCalls s) (heapNotifications s).

Definition setStats (s : t) (st : DxvkMemoryStats) : t :=
  mk {| chunkSize := chunkSize (heap s); stats := st |}
     (type s) (memoryPriority s) (vkAnswers s) (vkAllocateCalls s)
     (heapNotifications s).

(** One call of [vkAllocateMemory]: it is recorded, and the driver's
    next answer is consumed (a driver out of answers fails). *)
Definition vkCall (s : t) (info : VkMemoryAllocateInfo) : VkResponse * t :=
  let s' ans rest :=
    (ans, mk (heap s) (type s) (memoryPriority s) rest
             (vkAllocateCalls s ++ [info]) (heapNotifications s)) in
  match vkAnswers s with
  | [] => s' {| allocateMemory := None; mapMemory := None |} []
  | ans :: rest => s' ans rest
  end.

(** [DxvkMemoryAllocator::tryAllocDeviceMemory] *)
Definition tryAllocDeviceMemory (s : t)
  (flags : VkMemoryPropertyFlags) (size : VkDeviceSize) (prio : float)
  (dedAllocInfo : option VkMemoryDedicatedAllocateInfoKHR)
  : DxvkDeviceMemory * t :=
  let useMemoryPriority :=
    testFlag flags VK_MEMORY_PROPERTY_DEVICE_LOCAL_BIT && memoryPriority s in
  let info :=
    {| allocationSize := size;
       memoryTypeIndex := memTypeId (type s);
       pNextPriority := if useMemoryPriority then Some prio else None;
       pNextDedicated := dedAllocInfo |} in
  let '(answer, s1) := vkCall s info in
  match allocateMemory answer with
  | None => (nullDeviceMemory, s1)
  | Some handle =>
      let mapped :=
        if testFlag flags VK_MEMORY_PROPERTY_HOST_VISIBLE_BIT
        then mapMemory answer else Some 0 in
      match mapped with
      | None => (nullDeviceMemory, s1)
      | Some pointer =>
          let s2 := setStats s1
            {| memoryAllocated := u64 (memoryAllocated (stats (heap s1)) + size);
               memoryUsed := memoryUsed (stats (heap s1)) |} in
          ({| memHandle := handle; memPointer := pointer; memSize := size;
              memFlags := flags; priority := prio |},
           mk (heap s2) (type s2) (memoryPriority s2) (vkAnswers s2)
              (vkAllocateCalls s2)
              (heapNotifications s2 ++ [(heapId (type s2), size)]))
      end
  end.

(** The loop over [type->chunks] of [tryAllocFromType]: chunk [i] is
    asked only while no earlier chunk has produced a memory object. *)
Fixpoint allocFromChunks (cs : list DxvkMemoryChunk) (i : nat)
  (flags : VkMemoryPropertyFlags) (size align_ : VkDeviceSize) (prio : float)
  : option DxvkMemory * list DxvkMemoryChunk :=
  match cs with
  | [] => (None, [])
  | c :: rest =>
      match DxvkMemoryChunk.alloc i c flags size align_ prio with
      | (Some m, c') => (Some m, c' :: rest)
      | (None, c') =>
          let '(m, rest') := allocFromChunks rest (S i) flags size align_ prio in
          (m, c' :: rest')
      end
  end.

(** [type->heap->stats.memoryUsed += memory.m_length], when [memory] is
    not null. *)
Definition accountUsed (r : option DxvkMemory * t) : option DxvkMemory * t :=
  match r with
  | (Some m, s) =>
      (Some m, setStats s
         {| memoryAllocated := memoryAllocated (stats (heap s));
            memoryUsed := u64 (memoryUsed (stats (heap s)) + DxvkMemory.m_length m) |})
  | (None, s) => (None, s)
  end.

(** [DxvkMemoryAllocator::tryAllocFromType] *)
Definition tryAllocFromType (s : t)
  (flags : VkMemoryPropertyFlags) (size align_ : VkDeviceSize) (prio : float)
  (dedAllocInfo : option VkMemoryDedicatedAllocateInfoKHR)
  : option DxvkMemory * t :=
  let isDeviceLocal := testFlag flags VK_MEMORY_PROPERTY_DEVICE_LOCAL_BIT in
  let prio := if negb isDeviceLocal then 0%float else prio in
  if (size >=? chunkSize (heap s) / 4) || bool_decide (is_Some dedAllocInfo) then
    let '(devMem, s1) := tryAllocDeviceMemory s flags size prio dedAllocInfo in
    if negb (memHandle devMem =? VK_NULL_HANDLE)
    then accountUsed
           (Some {| DxvkMemory.m_chunk := None;
                    DxvkMemory.m_type := memTypeId (type s);
                    DxvkMemory.m_memory := memHandle devMem;
                    DxvkMemory.m_offset := 0;
                    DxvkMemory.m_length := size;
                    DxvkMemory.m_mapPtr := memPointer devMem |}, s1)
    else (None, s1)
  else
    let '(memory, cs) := allocFromChunks (chunks (type s)) 0 flags size align_ prio in
    let s1 := setChunks s cs in
    match memory with
    | Some m => accountUsed (Some m, s1)
    | None =>
        let '(devMem, s2) :=
          tryAllocDeviceMemory s1 flags (chunkSize (heap s1)) prio None in
        if memHandle devMem =? VK_NULL_HANDLE then (None, s2)
        else
          let chunk := DxvkMemoryChunk.new (memTypeId (type s2)) devMem in
          let '(memory, chunk') :=
            DxvkMemoryChunk.alloc (List.length (chunks (type s2))) chunk
                                  flags size align_ prio in
          accountUsed (memory, setChunks s2 (chunks (type s2) ++ [chunk']))
    end.

End DxvkMemoryAllocator.


(** * What a context sees of its resources, of the worker and of the GPU *)

Module DxvkBufferSliceHandle.
Record t := mk {
  handle : Z;
  offset : VkDeviceSize;
  length : VkDeviceSize;
  mapPtr : Z;
}.
End DxvkBufferSliceHandle.
Abbreviation DxvkBufferSliceHandle := DxvkBufferSliceHandle.t.

(** The GPU's progress on a resource, as [DxvkResource::isInUse] lets a
    caller observe it: [Some n] when the next [n] calls answer true and
    the call after them answers false, [None] when the GPU never lets
    go of the resource. *)
Definition InUse := option nat.

Definition stillInUse (u : InUse) : bool :=
  match u with
  | Some O => false
  | _ => true
  end.

(** Modelled from the spec: [DxvkBuffer] ([dxvk_buffer.h]) is not part
    of the sources at hand. A buffer owns a rotating pool of backing
    slices; [alloc_slice()] obtains the next slice from the rename pool
    and allocates a new slice if the pool is exhausted. [m_freeSlices]
    is the pool; the slices the device hands out once the pool has run
    dry are [m_fresh 0], [m_fresh 1], ... *)
Module DxvkBuffer.
Record t := mk {
  id : Z;
  inUse : InUse;
  m_physSlice : DxvkBufferSliceHandle;
  m_freeSlices : list DxvkBufferSliceHandle;
  m_fresh : nat -> DxvkBufferSliceHandle;
  m_grown : nat;
}.

Definition allocSlice (b : t) : DxvkBufferSliceHandle * t :=
  match m_freeSlices b with
  | slice :: rest =>
      (slice, mk (id b) (inUse b) (m_physSlice b) rest (m_fresh b) (m_grown b))
  | [] =>
      (m_fresh b (m_grown b),
       mk (id b) (inUse b) (m_physSlice b) [] (m_fresh b) (S (m_grown b)))
  end.

Definition getSliceHandle (b : t) : DxvkBufferSliceHandle := m_physSlice b.
End DxvkBuffer.
Abbreviation DxvkBuffer := DxvkBuffer.t.

(** The commands the contexts of this development record for the
    worker: one constructor per [DxvkContext] method a recorded closure
    calls, with the values the closure captured. Buffers and images are
    named by their ids. *)
Inductive DxvkCsCmd : Type :=
| beginRecording
| flushCommandList
| invalidateBuffer (buffer : Z) (slice : DxvkBufferSliceHandle)
| copyImageToBuffer (buffer image : Z) (subresource : nat)
| copyBuffer (dst src : DxvkBufferSliceHandle)
| copyImage (dst src : Z)
| setMultisampleState (sampleMask : Z) (enableAlphaToCoverage : bool)
| setBlendConstants (color : Z)
| setStencilReference (ref : Z)
| pushConstantsAlphaRef (alphaRef : Z).

(** What a context does to the world outside its own fields, in the
    order it does it: a chunk is handed to the worker thread, the
    context waits for the worker to drain its queue, the context gives
    up its time slice while it spins on a resource, the device's
    initialization context is flushed. *)
Inductive CsEvent : Type :=
| dispatchChunk (chunk : list DxvkCsCmd)
| synchronize
| yield
| flushInitContext.

Definition isYield (e : CsEvent) : bool :=
  match e with yield => true | _ => false end.

(** The number of times the context gave up its time slice waiting for
    the GPU. *)
Definition yields (events : list CsEvent) : nat :=
  List.length (List.filter isYield events).

(** * d3d11: resources *)

Definition D3D11_MAP_READ : Z := 1.
Definition D3D11_MAP_WRITE : Z := 2.
Definition D3D11_MAP_READ_WRITE : Z := 3.
Definition D3D11_MAP_WRITE_DISCARD : Z := 4.
Definition D3D11_MAP_WRITE_NO_OVERWRITE : Z := 5.
Definition D3D11_MAP_FLAG_DO_NOT_WAIT : Z := 0x100000.
Definition D3D11_USAGE_STAGING : Z := 3.

Inductive D3D11_RESOURCE_DIMENSION : Type :=
| D3D11_RESOURCE_DIMENSION_UNKNOWN
| D3D11_RESOURCE_DIMENSION_BUFFER
| D3D11_RESOURCE_DIMENSION_TEXTURE1D
| D3D11_RESOURCE_DIMENSION_TEXTURE2D
| D3D11_RESOURCE_DIMENSION_TEXTURE3D.

Inductive D3D11_COMMON_BUFFER_MAP_MODE : Type :=
| D3D11_COMMON_BUFFER_MAP_MODE_NONE
| D3D11_COMMON_BUFFER_MAP_MODE_DIRECT.

Inductive D3D11_COMMON_TEXTURE_MAP_MODE : Type :=
| D3D11_COMMON_TEXTURE_MAP_MODE_NONE
| D3D11_COMMON_TEXTURE_MAP_MODE_BUFFER
| D3D11_COMMON_TEXTURE_MAP_MODE_DIRECT.

Definition VK_IMAGE_TYPE_2D : Z := 1.
Definition VK_IMAGE_TYPE_3D : Z := 2.

Record D3D11_MAPPED_SUBRESOURCE := {
  pData : Z;
  RowPitch : Z;
  DepthPitch : Z;
}.

(** [D3D11_MAPPED_SUBRESOURCE()] *)
Definition zeroMappedSubresource : D3D11_MAPPED_SUBRESOURCE :=
  {| pData := 0; RowPitch := 0; DepthPitch := 0 |}.

(** Modelled from the spec: [D3D11Buffer] ([d3d11_buffer.h]) is not part
    of the sources at hand. A buffer has a map mode, a byte width, the
    dxvk buffer behind it and the slice that is currently mapped;
    [discard_slice()] is the rename on the API surface: it installs the
    slice [alloc_slice()] returns as the mapped slice. *)
Module D3D11Buffer.
Record t := mk {
  m_mapMode : D3D11_COMMON_BUFFER_MAP_MODE;
  ByteWidth : Z;
  m_buffer : DxvkBuffer;
  m_mapped : DxvkBufferSliceHandle;
}.

Definition GetMapMode (b : t) := m_mapMode b.
Definition GetBuffer (b : t) := m_buffer b.
Definition GetMappedSlice (b : t) := m_mapped b.

Definition DiscardSlice (b : t) : DxvkBufferSliceHandle * t :=
  let '(slice, buffer) := DxvkBuffer.allocSlice (m_buffer b) in
  (slice, mk (m_mapMode b) (ByteWidth b) buffer slice).
End D3D11Buffer.
Abbreviation D3D11Buffer := D3D11Buffer.t.

Record VkSubresourceLayout := {
  layout_offset : VkDeviceSize;
  layout_size : VkDeviceSize;
  rowPitch : VkDeviceSize;
  depthPitch : VkDeviceSize;
}.

(** Modelled from the spec: [D3D11CommonTexture] ([d3d11_texture.h]) is
    not part of the sources at hand. What [MapImage] reads of a texture:
    its map mode (direct for a linear host-visible image, buffered for a
    per-subresource staging buffer), its usage and "early update"
    marker, the image with its memory layout per subresource, the
    staging buffers and last map types per subresource, and the packed
    format's element size and block counts per subresource. *)
Module D3D11CommonTexture.

Inductive Dimension : Type := Texture1D | Texture2D | Texture3D.

Record t := mk {
  dimension : Dimension;
  m_mapMode : D3D11_COMMON_TEXTURE_MAP_MODE;
  Usage : Z;
  canUpdateMappedBufferEarly : bool;
  imageId : Z;
  imageType : Z;
  imageInUse : InUse;
  imageMapPtr : Z;
  subresourceLayout : nat -> VkSubresourceLayout;
  elementSize : Z;
  blockCount : nat -> Z * Z;
  m_buffers : list DxvkBuffer;
  m_mapTypes : list Z;
}.

Definition CountSubresources (tex : t) : nat := List.length (m_mapTypes tex).

Definition SetMapType (tex : t) (Subresource : nat) (MapType : Z) : t :=
  mk (dimension tex) (m_mapMode tex) (Usage tex) (canUpdateMappedBufferEarly tex)
     (imageId tex) (imageType tex) (imageInUse tex) (imageMapPtr tex)
     (subresourceLayout tex) (elementSize tex) (blockCount tex) (m_buffers tex)
     (<[Subresource := MapType]> (m_mapTypes tex)).

Definition SetMappedBuffer (tex : t) (Subresource : nat) (b : DxvkBuffer) : t :=
  mk (dimension tex) (m_mapMode tex) (Usage tex) (canUpdateMappedBufferEarly tex)
     (imageId tex) (imageType tex) (imageInUse tex) (imageMapPtr tex)
     (subresourceLayout tex) (elementSize tex) (blockCount tex)
     (<[Subresource := b]> (m_buffers tex)) (m_mapTypes tex).
End D3D11CommonTexture.
Abbreviation D3D11CommonTexture := D3D11CommonTexture.t.

Inductive ID3D11Resource : Type :=
| Buffer (b : D3D11Buffer)
| Texture (tex : D3D11CommonTexture).

(** [pResource->GetType(&resourceDim)] *)
Definition GetType (r : ID3D11Resource) : D3D11_RESOURCE_DIMENSION :=
  match r with
  | Buffer _ => D3D11_RESOURCE_DIMENSION_BUFFER
  | Texture tex =>
      match D3D11CommonTexture.dimension tex with
      | D3D11CommonTexture.Texture1D => D3D11_RESOURCE_DIMENSION_TEXTURE1D
      | D3D11CommonTexture.Texture2D => D3D11_RESOURCE_DIMENSION_TEXTURE2D
      | D3D11CommonTexture.Texture3D => D3D11_RESOURCE_DIMENSION_TEXTURE3D
      end
  end.

(** * d3d11_context_imm.cpp *)

Module D3D11ImmediateContext.

Definition MinFlushIntervalUs : Z := 750.
Definition IncFlushIntervalUs : Z := 250.
Definition MaxPendingSubmits : Z := 6.

(** The immediate context: the chunk under construction and its
    capacity in commands, the busy flag, the time of the last flush,
    everything the context has done to the worker and the device so
    far (oldest first), and what it reads from outside: the device's
    count of pending submissions, the clock (in nanoseconds, the tick of
    the high-resolution clock) and the [allowMapFlagNoWait] option. The
    clock does not advance within one call. *)
Record t := mk {
  m_csChunk : list DxvkCsCmd;
  csChunkCapacity : nat;
  m_csIsBusy : bool;
  m_lastFlush : Z;
  events : list CsEvent;
  pendingSubmissions : Z;
  now : Z;
  allowMapFlagNoWait : bool;
}.

Definition setChunk (c : t) (chunk : list DxvkCsCmd) : t :=
  mk chunk (csChunkCapacity c) (m_csIsBusy c) (m_lastFlush c) (events c)
     (pendingSubmissions c) (now c) (allowMapFlagNoWait c).

Definition addEvent (c : t) (e : CsEvent) : t :=
  mk (m_csChunk c) (csChunkCapacity c) (m_csIsBusy c) (m_lastFlush c)
     (events c ++ [e]) (pendingSubmissions c) (now c) (allowMapFlagNoWait c).

Definition setBusy (c : t) (busy : bool) : t :=
  mk (m_csChunk c) (csChunkCapacity c) busy (m_lastFlush c) (events c)
     (pendingSubmissions c) (now c) (allowMapFlagNoWait c).

Definition setLastFlush (c : t) (time : Z) : t :=
  mk (m_csChunk c) (csChunkCapacity c) (m_csIsBusy c) time (events c)
     (pendingSubmissions c) (now c) (allowMapFlagNoWait c).

(** [EmitCsChunk]: the chunk goes to the worker and the worker counts
    as busy. *)
Definition EmitCsChunk (c : t) (chunk : list DxvkCsCmd) : t :=
  setBusy (addEvent c (dispatchChunk chunk)) true.

(** Modelled from the spec: [EmitCs] and [FlushCsChunk] are members of
    the context's base class ([d3d11_context.h]), which is not part of
    the sources at hand. Appending is allowed up to the chunk's capacity
    limit; when the producer exceeds capacity or finishes emitting, it
    publishes the chunk to the worker and takes a fresh chunk. *)
Definition EmitCs (c : t) (cmd : DxvkCsCmd) : t :=
  if (List.length (m_csChunk c) <? csChunkCapacity c)%nat
  then setChunk c (m_csChunk c ++ [cmd])
  else setChunk (EmitCsChunk c (m_csChunk c)) [cmd].

Definition FlushCsChunk (c : t) : t :=
  match m_csChunk c with
  | [] => c
  | chunk => setChunk (EmitCsChunk c chunk) []
  end.

(** [SynchronizeCsThread] *)
Definition SynchronizeCsThread (c : t) : t :=
  addEvent (FlushCsChunk c) synchronize.

(** [Flush] *)
Definition Flush (c : t) : t :=
  let c := addEvent c flushInitContext in
  if m_csIsBusy c || negb (List.length (m_csChunk c) =? 0)%nat then
    let c := EmitCs c flushCommandList in
    let c := FlushCsChunk c in
    setBusy (setLastFlush c (now c)) false
  else c.

(** [std::chrono::microseconds(delay)], in ticks of the clock. *)
Definition microseconds (us : Z) : Z := us * 1000.

(** [MinFlushIntervalUs + IncFlushIntervalUs * pending], in [uint32_t]. *)
Definition flushDelayUs (pending : Z) : Z :=
  u32 (MinFlushIntervalUs + u32 (IncFlushIntervalUs * pending)).

(** [FlushImplicit] *)
Definition FlushImplicit (c : t) (StrongHint : bool) : t :=
  let pending := pendingSubmissions c in
  if StrongHint || (pending <=? MaxPendingSubmits) then
    let delay := flushDelayUs pending in
    if now c - m_lastFlush c >=? microseconds delay then Flush c else c
  else c.

(** The loop [while (Resource->isInUse()) yield();], entered after
    [polled] calls of [isInUse] have already answered true: it does not
    end when the GPU never lets go of the resource. *)
Definition spinWhileInUse (c : t) (Resource : InUse) (polled : nat) : option t :=
  match Resource with
  | None => None
  | Some n => Some (Nat.iter (n - polled) (fun c => addEvent c yield) c)
  end.

(** [WaitForResource]; [None] when the call does not return. *)
Definition WaitForResource (c : t) (Resource : InUse) (MapFlags : Z)
  : option (bool * t) :=
  let MapFlags :=
    if negb (allowMapFlagNoWait c)
    then clearFlag MapFlags D3D11_MAP_FLAG_DO_NOT_WAIT else MapFlags in
  let c := SynchronizeCsThread c in
  if stillInUse Resource then
    if testFlag MapFlags D3D11_MAP_FLAG_DO_NOT_WAIT then
      Some (false, FlushImplicit c false)
    else
      let c := SynchronizeCsThread (Flush c) in
      match spinWhileInUse c Resource 1 with
      | None => None
      | Some c => Some (true, c)
      end
  else Some (true, c).

(** What a map call leaves behind: the status code, the caller's
    [D3D11_MAPPED_SUBRESOURCE], the context and the resource. A call
    that does not return is [None]. *)
Record MapResult (M R : Type) := mkResult {
  hr : HRESULT;
  mapped : M;
  context : t;
  resource : R;
}.
Arguments mkResult {M R}.
Arguments hr {M R}.
Arguments mapped {M R}.
Arguments context {M R}.
Arguments resource {M R}.

(** [MapBuffer] *)
Definition MapBuffer (c : t) (pResource : D3D11Buffer) (MapType MapFlags : Z)
  (pMappedResource : D3D11_MAPPED_SUBRESOURCE)
  : option (MapResult D3D11_MAPPED_SUBRESOURCE D3D11Buffer) :=
  match D3D11Buffer.GetMapMode pResource with
  | D3D11_COMMON_BUFFER_MAP_MODE_NONE =>
      Some (mkResult E_INVALIDARG pMappedResource c pResource)
  | _ =>
      if MapType =? D3D11_MAP_WRITE_DISCARD then
        let '(physSlice, pResource) := D3D11Buffer.DiscardSlice pResource in
        let out :=
          {| pData := DxvkBufferSliceHandle.mapPtr physSlice;
             RowPitch := D3D11Buffer.ByteWidth pResource;
             DepthPitch := D3D11Buffer.ByteWidth pResource |} in
        let c := EmitCs c
          (invalidateBuffer (DxvkBuffer.id (D3D11Buffer.GetBuffer pResource))
                            physSlice) in
        Some (mkResult S_OK out c pResource)
      else
        let waited :=
          if negb (MapType =? D3D11_MAP_WRITE_NO_OVERWRITE)
          then WaitForResource c
                 (DxvkBuffer.inUse (D3D11Buffer.GetBuffer pResource)) MapFlags
          else Some (true, c) in
        match waited with
        | None => None
        | Some (false, c) =>
            Some (mkResult DXGI_ERROR_WAS_STILL_DRAWING pMappedResource c pResource)
        | Some (true, c) =>
            let physSlice := D3D11Buffer.GetMappedSlice pResource in
            Some (mkResult S_OK
                    {| pData := DxvkBufferSliceHandle.mapPtr physSlice;
                       RowPitch := D3D11Buffer.ByteWidth pResource;
                       DepthPitch := D3D11Buffer.ByteWidth pResource |}
                    c pResource)
        end
  end.

(** Modelled from the spec: [UpdateMappedBuffer] is a member of the
    context's base class, which is not part of the sources at hand; it
    enqueues a GPU-to-staging copy of the subresource. *)
Definition UpdateMappedBuffer (c : t) (pResource : D3D11CommonTexture)
  (mappedBuffer : DxvkBuffer) (Subresource : nat) : t :=
  EmitCs c (copyImageToBuffer (DxvkBuffer.id mappedBuffer)
                              (D3D11CommonTexture.imageId pResource) Subresource).

(** [MapImage]. The mapped buffer of a subresource that has none is a
    null pointer; mapping through it is taken not to return. *)
Definition MapImage (c : t) (pResource : D3D11CommonTexture)
  (Subresource : nat) (MapType MapFlags : Z)
  (pMappedResource : D3D11_MAPPED_SUBRESOURCE)
  : option (MapResult D3D11_MAPPED_SUBRESOURCE D3D11CommonTexture) :=
  let mappedBuffer := D3D11CommonTexture.m_buffers pResource !! Subresource in
  match D3D11CommonTexture.m_mapMode pResource with
  | D3D11_COMMON_TEXTURE_MAP_MODE_NONE =>
      Some (mkResult E_INVALIDARG pMappedResource c pResource)
  | mode =>
      if (D3D11CommonTexture.CountSubresources pResource <=? Subresource)%nat
      then Some (mkResult E_INVALIDARG pMappedResource c pResource)
      else
        let pResource := D3D11CommonTexture.SetMapType pResource Subresource MapType in
        match mode with
        | D3D11_COMMON_TEXTURE_MAP_MODE_DIRECT =>
            match WaitForResource c (D3D11CommonTexture.imageInUse pResource) MapFlags with
            | None => None
            | Some (false, c) =>
                Some (mkResult DXGI_ERROR_WAS_STILL_DRAWING pMappedResource c pResource)
            | Some (true, c) =>
                let layout := D3D11CommonTexture.subresourceLayout pResource Subresource in
                let imageType := D3D11CommonTexture.imageType pResource in
                Some (mkResult S_OK
                        {| pData := D3D11CommonTexture.imageMapPtr pResource
                                    + layout_offset layout;
                           RowPitch :=
                             u32 (if imageType >=? VK_IMAGE_TYPE_2D
                                  then rowPitch layout else layout_size layout);
                           DepthPitch :=
                             u32 (if imageType >=? VK_IMAGE_TYPE_3D
                                  then depthPitch layout else layout_size layout) |}
                        c pResource)
            end
        | _ =>
            match mappedBuffer with
            | None => None
            | Some mappedBuffer =>
                let blocks := D3D11CommonTexture.blockCount pResource Subresource in
                let finish (physSlice : DxvkBufferSliceHandle) c pResource :=
                  Some (mkResult S_OK
                          {| pData := DxvkBufferSliceHandle.mapPtr physSlice;
                             RowPitch :=
                               u32 (D3D11CommonTexture.elementSize pResource
                                    * fst blocks);
                             DepthPitch :=
                               u32 (D3D11CommonTexture.elementSize pResource
                                    * fst blocks * snd blocks) |}
                          c pResource) in
                if MapType =? D3D11_MAP_WRITE_DISCARD then
                  let '(physSlice, mappedBuffer) := DxvkBuffer.allocSlice mappedBuffer in
                  let c := EmitCs c
                    (invalidateBuffer (DxvkBuffer.id mappedBuffer) physSlice) in
                  finish physSlice c
                    (D3D11CommonTexture.SetMappedBuffer pResource Subresource mappedBuffer)
                else
                  let '(c, MapFlags) :=
                    if (D3D11CommonTexture.Usage pResource =? D3D11_USAGE_STAGING)
                       && negb (D3D11CommonTexture.canUpdateMappedBufferEarly pResource)
                    then (UpdateMappedBuffer c pResource mappedBuffer Subresource,
                          clearFlag MapFlags D3D11_MAP_FLAG_DO_NOT_WAIT)
                    else (c, MapFlags) in
                  match WaitForResource c (DxvkBuffer.inUse mappedBuffer) MapFlags with
                  | None => None
                  | Some (false, c) =>
                      Some (mkResult DXGI_ERROR_WAS_STILL_DRAWING pMappedResource
                              c pResource)
                  | Some (true, c) =>
                      finish (DxvkBuffer.getSliceHandle mappedBuffer) c pResource
                  end
            end
        end
  end.

(** [Map]. [pResource] and [pMappedResource] are [None] for null
    pointers; the result carries the contents of the caller's structure
    and the resource after the call. *)
Definition Map (c : t) (pResource : option ID3D11Resource) (Subresource : nat)
  (MapType MapFlags : Z) (pMappedResource : option D3D11_MAPPED_SUBRESOURCE)
  : option (MapResult (option D3D11_MAPPED_SUBRESOURCE) (option ID3D11Resource)) :=
  match pResource, pMappedResource with
  | Some res, Some out =>
      let r :=
        match res with
        | Buffer b =>
            match MapBuffer c b MapType MapFlags out with
            | None => None
            | Some r =>
                Some (mkResult (hr r) (mapped r) (context r) (Buffer (resource r)))
            end
        | Texture tex =>
            match MapImage c tex Subresource MapType MapFlags out with
            | None => None
            | Some r =>
                Some (mkResult (hr r) (mapped r) (context r) (Texture (resource r)))
            end
        end in
      match r with
      | None => None
      | Some r =>
          Some (mkResult (hr r)
                  (Some (if FAILED (hr r) then zeroMappedSubresource else mapped r))
                  (context r) (Some (resource r)))
      end
  | _, _ => Some (mkResult E_INVALIDARG pMappedResource c pResource)
  end.

End D3D11ImmediateContext.

(** * d3d11_device.cpp: render-target and depth-stencil views *)

Module D3D11Device.

Definition D3D11_BIND_RENDER_TARGET : Z := 0x20.
Definition D3D11_BIND_DEPTH_STENCIL : Z := 0x40.

Record D3D11_RENDER_TARGET_VIEW_DESC := {
  rtvFormat : Z;
  rtvViewDimension : Z;
}.

Record D3D11_DEPTH_STENCIL_VIEW_DESC := {
  dsvFormat : Z;
  dsvViewDimension : Z;
  dsvFlags : Z;
}.

Record D3D11RenderTargetView := {
  rtvResource : ID3D11Resource;
  rtvDesc : D3D11_RENDER_TARGET_VIEW_DESC;
}.

Record D3D11DepthStencilView := {
  dsvResource : ID3D11Resource;
  dsvDesc : D3D11_DEPTH_STENCIL_VIEW_DESC;
}.

(** The view classes and [CheckResourceViewCompatibility] are not part
    of the sources at hand; what they compute is a parameter of the
    device. [GetDescFromResource] and [NormalizeDesc] return the
    description they fill in, or [None] for a failure code; the
    constructors return [None] when they throw a [DxvkError]. *)
Record ViewClasses := {
  RTV_GetDescFromResource :
    ID3D11Resource -> option D3D11_RENDER_TARGET_VIEW_DESC;
  RTV_NormalizeDesc :
    ID3D11Resource -> D3D11_RENDER_TARGET_VIEW_DESC
    -> option D3D11_RENDER_TARGET_VIEW_DESC;
  RTV_new :
    ID3D11Resource -> D3D11_RENDER_TARGET_VIEW_DESC -> option D3D11RenderTargetView;
  DSV_GetDescFromResource :
    ID3D11Resource -> option D3D11_DEPTH_STENCIL_VIEW_DESC;
  DSV_NormalizeDesc :
    ID3D11Resource -> D3D11_DEPTH_STENCIL_VIEW_DESC
    -> option D3D11_DEPTH_STENCIL_VIEW_DESC;
  DSV_new :
    ID3D11Resource -> D3D11_DEPTH_STENCIL_VIEW_DESC -> option D3D11DepthStencilView;
  CheckResourceViewCompatibility : ID3D11Resource -> Z -> Z -> bool;
}.

(** An output parameter [T** pp]: [None] when the caller passes a null
    pointer, otherwise the contents of the caller's variable, which is
    itself [None] for a null object. *)
Definition ReturnPtr (T : Type) := option (option T).

(** [InitReturnPtr] *)
Definition InitReturnPtr {T : Type} (pp : ReturnPtr T) : ReturnPtr T :=
  match pp with
  | Some _ => Some None
  | None => None
  end.

Definition isBuffer (r : ID3D11Resource) : bool :=
  match GetType r with
  | D3D11_RESOURCE_DIMENSION_BUFFER => true
  | _ => false
  end.

(** [CreateRenderTargetView] *)
Definition CreateRenderTargetView (v : ViewClasses)
  (pResource : option ID3D11Resource)
  (pDesc : option D3D11_RENDER_TARGET_VIEW_DESC)
  (ppRTView : ReturnPtr D3D11RenderTargetView)
  : HRESULT * ReturnPtr D3D11RenderTargetView :=
  let ppRTView := InitReturnPtr ppRTView in
  match pResource with
  | None => (E_INVALIDARG, ppRTView)
  | Some res =>
      if isBuffer res then (S_OK, ppRTView)
      else
        let desc :=
          match pDesc with
          | None => RTV_GetDescFromResource v res
          | Some d => RTV_NormalizeDesc v res d
          end in
        match desc with
        | None => (E_INVALIDARG, ppRTView)
        | Some desc =>
            if negb (CheckResourceViewCompatibility v res
                       D3D11_BIND_RENDER_TARGET (rtvFormat desc))
            then (E_INVALIDARG, ppRTView)
            else
              match ppRTView with
              | None => (S_FALSE, ppRTView)
              | Some _ =>
                  match RTV_new v res desc with
                  | Some view => (S_OK, Some (Some view))
                  | None => (E_INVALIDARG, ppRTView)
                  end
              end
        end
  end.

(** [CreateDepthStencilView] *)
Definition CreateDepthStencilView (v : ViewClasses)
  (pResource : option ID3D11Resource)
  (pDesc : option D3D11_DEPTH_STENCIL_VIEW_DESC)
  (ppDepthStencilView : ReturnPtr D3D11DepthStencilView)
  : HRESULT * ReturnPtr D3D11DepthStencilView :=
  let ppDepthStencilView := InitReturnPtr ppDepthStencilView in
  match pResource with
  | None => (E_INVALIDARG, ppDepthStencilView)
  | Some res =>
      let desc :=
        match pDesc with
        | None => DSV_GetDescFromResource v res
        | Some d => DSV_NormalizeDesc v res d
        end in
      match desc with
      | None => (E_INVALIDARG, ppDepthStencilView)
      | Some desc =>
          if negb (CheckResourceViewCompatibility v res
                     D3D11_BIND_DEPTH_STENCIL (dsvFormat desc))
          then (E_INVALIDARG, ppDepthStencilView)
          else
            match ppDepthStencilView with
            | None => (S_FALSE, ppDepthStencilView)
            | Some _ =>
                match DSV_new v res desc with
                | Some view => (S_OK, Some (Some view))
                | None => (E_INVALIDARG, ppDepthStencilView)
                end
            end
      end
  end.

End D3D11Device.

(** * d3d9_device.cpp *)

Module D3D9DeviceEx.

(** ** Constants of the platform headers *)

Definition D3DRS_ZENABLE : Z := 7.
Definition D3DRS_FILLMODE : Z := 8.
Definition D3DRS_ZWRITEENABLE : Z := 14.
Definition D3DRS_ALPHATESTENABLE : Z := 15.
Definition D3DRS_SRCBLEND : Z := 19.
Definition D3DRS_DESTBLEND : Z := 20.
Definition D3DRS_CULLMODE : Z := 22.
Definition D3DRS_ZFUNC : Z := 23.
Definition D3DRS_ALPHAREF : Z := 24.
Definition D3DRS_ALPHAFUNC : Z := 25.
Definition D3DRS_ALPHABLENDENABLE : Z := 27.
Definition D3DRS_STENCILENABLE : Z := 52.
Definition D3DRS_STENCILFAIL : Z := 53.
Definition D3DRS_STENCILZFAIL : Z := 54.
Definition D3DRS_STENCILPASS : Z := 55.
Definition D3DRS_STENCILFUNC : Z := 56.
Definition D3DRS_STENCILREF : Z := 57.
Definition D3DRS_STENCILMASK : Z := 58.
Definition D3DRS_STENCILWRITEMASK : Z := 59.
Definition D3DRS_TEXTUREFACTOR : Z := 60.
Definition D3DRS_LIGHTING : Z := 137.
Definition D3DRS_COLORVERTEX : Z := 141.
Definition D3DRS_DIFFUSEMATERIALSOURCE : Z := 145.
Definition D3DRS_SPECULARMATERIALSOURCE : Z := 146.
Definition D3DRS_AMBIENTMATERIALSOURCE : Z := 147.
Definition D3DRS_EMISSIVEMATERIALSOURCE : Z := 148.
Definition D3DRS_CLIPPLANEENABLE : Z := 152.
Definition D3DRS_POINTSIZE : Z := 154.
Definition D3DRS_MULTISAMPLEMASK : Z := 162.
Definition D3DRS_COLORWRITEENABLE : Z := 168.
Definition D3DRS_BLENDOP : Z := 171.
Definition D3DRS_SCISSORTESTENABLE : Z := 174.
Definition D3DRS_SLOPESCALEDEPTHBIAS : Z := 175.
Definition D3DRS_ADAPTIVETESS_Y : Z := 181.
Definition D3DRS_TWOSIDEDSTENCILMODE : Z := 185.
Definition D3DRS_CCW_STENCILFAIL : Z := 186.
Definition D3DRS_CCW_STENCILZFAIL : Z := 187.
Definition D3DRS_CCW_STENCILPASS : Z := 188.
Definition D3DRS_CCW_STENCILFUNC : Z := 189.
Definition D3DRS_COLORWRITEENABLE1 : Z := 190.
Definition D3DRS_COLORWRITEENABLE2 : Z := 191.
Definition D3DRS_COLORWRITEENABLE3 : Z := 192.
Definition D3DRS_BLENDFACTOR : Z := 193.
Definition D3DRS_SRGBWRITEENABLE : Z := 194.
Definition D3DRS_DEPTHBIAS : Z := 195.
Definition D3DRS_SEPARATEALPHABLENDENABLE : Z := 206.
Definition D3DRS_SRCBLENDALPHA : Z := 207.
Definition D3DRS_DESTBLENDALPHA : Z := 208.
Definition D3DRS_BLENDOPALPHA : Z := 209.

Definition D3DMULTISAMPLE_NONE : Z := 0.
Definition D3DMULTISAMPLE_NONMASKABLE : Z := 1.
Definition D3DLOCK_DONOTWAIT : Z := 0x4000.

(** [MAKEFOURCC], on character codes. *)
Definition MAKEFOURCC (ch0 ch1 ch2 ch3 : Z) : Z :=
  Z.lor (Z.lor ch0 (Z.shiftl ch1 8)) (Z.lor (Z.shiftl ch2 16) (Z.shiftl ch3 24)).

(** ['A', '2', 'M', '1'], ['A', '2', 'M', '0'] and ['A', 'T', 'O', 'C'] *)
Definition AlphaToCoverageEnableAMD : Z := MAKEFOURCC 0x41 0x32 0x4D 0x31.
Definition AlphaToCoverageDisableAMD : Z := MAKEFOURCC 0x41 0x32 0x4D 0x30.
Definition AlphaToCoverageEnableNV : Z := MAKEFOURCC 0x41 0x54 0x4F 0x43.
Definition AlphaToCoverageDisableNV : Z := 0.
Definition RESZ : Z := 0x7fa05000.

(** [caps::MaxSimultaneousRenderTargets], from [d3d9_caps.h]: Direct3D 9
    has four simultaneous render targets. *)
Definition MaxSimultaneousRenderTargets : Z := 4.

(** Modelled from the spec: the three constants of the flush policy are
    declared in [d3d9_device.h], which is not part of the sources at
    hand; the spec's flush policy gives 750 us, 250 us and 6. *)
Definition MinFlushIntervalUs : Z := 750.
Definition IncFlushIntervalUs : Z := 250.
Definition MaxPendingSubmits : Z := 6.

(** ** The device *)

(** Modelled from the spec: [D3D9DeviceFlag] is declared in
    [d3d9_device.h], which is not part of the sources at hand. The
    dirty set is a fixed bitset naming categories; the flags below are
    those that the functions of this development set, clear or test,
    and their bits are numbered in the order of the list (the
    properties proved only need them to be distinct). *)
Inductive D3D9DeviceFlag : Type :=
| DirtyFramebuffer
| DirtyClipPlanes
| DirtyDepthStencilState
| DirtyBlendState
| DirtyRasterizerState
| DirtyAlphaTestState
| DirtyInputLayout
| DirtyViewportScissor
| DirtyMultiSampleState
| DirtyFFVertexShader
| DirtyFFPixelData
| DirtyFFViewport
| ValidSampleMask
| ExtendedDevice.

(** The bit of a flag in [Flags<D3D9DeviceFlag>]. *)
Definition flagBit (f : D3D9DeviceFlag) : Z :=
  match f with
  | DirtyFramebuffer => 0
  | DirtyClipPlanes => 1
  | DirtyDepthStencilState => 2
  | DirtyBlendState => 3
  | DirtyRasterizerState => 4
  | DirtyAlphaTestState => 5
  | DirtyInputLayout => 6
  | DirtyViewportScissor => 7
  | DirtyMultiSampleState => 8
  | DirtyFFVertexShader => 9
  | DirtyFFPixelData => 10
  | DirtyFFViewport => 11
  | ValidSampleMask => 12
  | ExtendedDevice => 13
  end.

Record D3DVIEWPORT9 := {
  X : Z;
  Y : Z;
  Width : Z;
  Height : Z;
  MinZ : float;
  MaxZ : float;
}.

Record RECT := {
  left : Z;
  top : Z;
  right : Z;
  bottom : Z;
}.

(** What the device reads of the texture behind a surface or a texture
    pointer: the size and multisample type of its description, and the
    image. *)
Record D3D9CommonTexture := {
  descWidth : Z;
  descHeight : Z;
  MultiSample : Z;
  image : Z;
}.

(** Modelled from the spec: [D3D9StateBlock] is not part of the sources
    at hand. Between Begin/EndStateBlock each mutator is rerouted to a
    recorder that stores the mutation into the block instead of
    modifying the device state. *)
Record D3D9StateBlock := {
  IsApplying : bool;
  recordedRenderStates : list (Z * Z);
}.

Definition recordRenderState (b : D3D9StateBlock) (State Value : Z) : D3D9StateBlock :=
  {| IsApplying := IsApplying b;
     recordedRenderStates := recordedRenderStates b ++ [(State, Value)] |}.

(** The device: the command stream as in the immediate context of
    version 11, the parts of [m_state] that the functions below touch,
    the device flags and the two vendor switches for alpha to coverage,
    the state block being recorded, and the textures behind the surface
    and texture pointers ([None] is the null pointer). *)
Record t := mk {
  m_csChunk : list DxvkCsCmd;
  csChunkCapacity : nat;
  m_csIsBusy : bool;
  m_lastFlush : Z;
  events : list CsEvent;
  pendingSubmissions : Z;
  now : Z;
  renderStates : list Z;
  renderTargets : list (option Z);
  depthStencil : option Z;
  texture0 : option Z;
  viewport : D3DVIEWPORT9;
  scissorRect : RECT;
  m_flags : Z;
  m_amdATOC : bool;
  m_nvATOC : bool;
  m_recorder : option D3D9StateBlock;
  surfaces : Z -> D3D9CommonTexture;
}.

Definition setChunk (d : t) (v : list DxvkCsCmd) : t :=
  mk v (csChunkCapacity d) (m_csIsBusy d) (m_lastFlush d) (events d)
     (pendingSubmissions d) (now d) (renderStates d) (renderTargets d)
     (depthStencil d) (texture0 d) (viewport d) (scissorRect d) (m_flags
     d) (m_amdATOC d) (m_nvATOC d) (m_recorder d) (surfaces d).

Definition setBusy (d : t) (v : bool) : t :=
  mk (m_csChunk d) (csChunkCapacity d) v (m_lastFlush d) (events d)
     (pendingSubmissions d) (now d) (renderStates d) (renderTargets d)
     (depthStencil d) (texture0 d) (viewport d) (scissorRect d) (m_flags
     d) (m_amdATOC d) (m_nvATOC d) (m_recorder d) (surfaces d).

Definition setLastFlush (d : t) (v : Z) : t :=
  mk (m_csChunk d) (csChunkCapacity d) (m_csIsBusy d) v (events d)
     (pendingSubmissions d) (now d) (renderStates d) (renderTargets d)
     (depthStencil d) (texture0 d) (viewport d) (scissorRect d) (m_flags
     d) (m_amdATOC d) (m_nvATOC d) (m_recorder d) (surfaces d).

Definition setRenderStates (d : t) (v : list Z) : t :=
  mk (m_csChunk d) (csChunkCapacity d) (m_csIsBusy d) (m_lastFlush d)
     (events d) (pendingSubmissions d) (now d) v (renderTargets d)
     (depthStencil d) (texture0 d) (viewport d) (scissorRect d) (m_flags
     d) (m_amdATOC d) (m_nvATOC d) (m_recorder d) (surfaces d).

Definition setRenderTargets (d : t) (v : list (option Z)) : t :=
  mk (m_csChunk d) (csChunkCapacity d) (m_csIsBusy d) (m_lastFlush d)
     (events d) (pendingSubmissions d) (now d) (renderStates d) v
     (depthStencil d) (texture0 d) (viewport d) (scissorRect d) (m_flags
     d) (m_amdATOC d) (m_nvATOC d) (m_recorder d) (surfaces d).

Definition setViewport (d : t) (v : D3DVIEWPORT9) : t :=
  mk (m_csChunk d) (csChunkCapacity d) (m_csIsBusy d) (m_lastFlush d)
     (events d) (pendingSubmissions d) (now d) (renderStates d)
     (renderTargets d) (depthStencil d) (texture0 d) v (scissorRect d)
     (m_flags d) (m_amdATOC d) (m_nvATOC d) (m_recorder d) (surfaces d).

Definition setScissorRect (d : t) (v : RECT) : t :=
  mk (m_csChunk d) (csChunkCapacity d) (m_csIsBusy d) (m_lastFlush d)
     (events d) (pendingSubmissions d) (now d) (renderStates d)
     (renderTargets d) (depthStencil d) (texture0 d) (viewport d) v
     (m_flags d) (m_amdATOC d) (m_nvATOC d) (m_recorder d) (surfaces d).

Definition setFlags (d : t) (v : Z) : t :=
  mk (m_csChunk d) (csChunkCapacity d) (m_csIsBusy d) (m_lastFlush d)
     (events d) (pendingSubmissions d) (now d) (renderStates d)
     (renderTargets d) (depthStencil d) (texture0 d) (viewport d)
     (scissorRect d) v (m_amdATOC d) (m_nvATOC d) (m_recorder d) (surfaces
     d).

Definition setAmdATOC (d : t) (v : bool) : t :=
  mk (m_csChunk d) (csChunkCapacity d) (m_csIsBusy d) (m_lastFlush d)
     (events d) (pendingSubmissions d) (now d) (renderStates d)
     (renderTargets d) (depthStencil d) (texture0 d) (viewport d)
     (scissorRect d) (m_flags d) v (m_nvATOC d) (m_recorder d) (surfaces
     d).

Definition setNvATOC (d : t) (v : bool) : t :=
  mk (m_csChunk d) (csChunkCapacity d) (m_csIsBusy d) (m_lastFlush d)
     (events d) (pendingSubmissions d) (now d) (renderStates d)
     (renderTargets d) (depthStencil d) (texture0 d) (viewport d)
     (scissorRect d) (m_flags d) (m_amdATOC d) v (m_recorder d) (surfaces
     d).

Definition setRecorder (d : t) (v : option D3D9StateBlock) : t :=
  mk (m_csChunk d) (csChunkCapacity d) (m_csIsBusy d) (m_lastFlush d)
     (events d) (pendingSubmissions d) (now d) (renderStates d)
     (renderTargets d) (depthStencil d) (texture0 d) (viewport d)
     (scissorRect d) (m_flags d) (m_amdATOC d) (m_nvATOC d) v (surfaces d).

Definition addEvent (d : t) (e : CsEvent) : t :=
  mk (m_csChunk d) (csChunkCapacity d) (m_csIsBusy d) (m_lastFlush d)
     (events d ++ [e]) (pendingSubmissions d) (now d) (renderStates d)
     (renderTargets d) (depthStencil d) (texture0 d) (viewport d)
     (scissorRect d) (m_flags d) (m_amdATOC d) (m_nvATOC d) (m_recorder d)
     (surfaces d).

(** [m_flags.set], [m_flags.clr] and [m_flags.test] *)
Definition flagSet (d : t) (f : D3D9DeviceFlag) : t :=
  setFlags d (Z.setbit (m_flags d) (flagBit f)).
Definition flagClr (d : t) (f : D3D9DeviceFlag) : t :=
  setFlags d (Z.clearbit (m_flags d) (flagBit f)).
Definition flagTest (d : t) (f : D3D9DeviceFlag) : bool :=
  Z.testbit (m_flags d) (flagBit f).

(** [m_state.renderStates[State]] *)
Definition rs (d : t) (State : Z) : Z :=
  default 0 (renderStates d !! Z.to_nat State).

(** [m_state.renderTargets[Index]] *)
Definition rt (d : t) (Index : Z) : option Z :=
  default None (renderTargets d !! Z.to_nat Index).

(** The constructor, as far as the fields above go: no render target
    is bound and no flag is set but, for an extended device,
    [ExtendedDevice]; the first command recorded begins the recording. *)
Definition new (bExtended : bool) (capacity : nat) (textures : Z -> D3D9CommonTexture)
  (pending time : Z) : t :=
  {| m_csChunk := [beginRecording];
     csChunkCapacity := capacity;
     m_csIsBusy := false;
     m_lastFlush := 0;
     events := [];
     pendingSubmissions := pending;
     now := time;
     renderStates := replicate 256 0;
     renderTargets := replicate 4 None;
     depthStencil := None;
     texture0 := None;
     viewport := {| X := 0; Y := 0; Width := 0; Height := 0;
                    MinZ := 0%float; MaxZ := 0%float |};
     scissorRect := {| left := 0; top := 0; right := 0; bottom := 0 |};
     m_flags := if bExtended then Z.setbit 0 (flagBit ExtendedDevice) else 0;
     m_amdATOC := false;
     m_nvATOC := false;
     m_recorder := None;
     surfaces := textures |}.

(** *** The command stream *)

(** [EmitCsChunk] *)
Definition EmitCsChunk (d : t) (chunk : list DxvkCsCmd) : t :=
  setBusy (addEvent d (dispatchChunk chunk)) true.

(** Modelled from the spec: [EmitCs] and [FlushCsChunk] are defined in
    [d3d9_device.h], which is not part of the sources at hand; see the
    immediate context of version 11. *)
Definition EmitCs (d : t) (cmd : DxvkCsCmd) : t :=
  if (List.length (m_csChunk d) <? csChunkCapacity d)%nat
  then setChunk d (m_csChunk d ++ [cmd])
  else setChunk (EmitCsChunk d (m_csChunk d)) [cmd].

Definition FlushCsChunk (d : t) : t :=
  match m_csChunk d with
  | [] => d
  | chunk => setChunk (EmitCsChunk d chunk) []
  end.

(** [SynchronizeCsThread] *)
Definition SynchronizeCsThread (d : t) : t :=
  addEvent (FlushCsChunk d) synchronize.

(** [Flush]; [m_initializer->Flush()] is the flush of the
    initialization context. *)
Definition Flush (d : t) : t :=
  let d := addEvent d flushInitContext in
  if m_csIsBusy d || negb (List.length (m_csChunk d) =? 0)%nat then
    let d := EmitCs d flushCommandList in
    let d := FlushCsChunk d in
    setBusy (setLastFlush d (now d)) false
  else d.

(** [std::chrono::microseconds(delay)], in ticks of the clock. *)
Definition microseconds (us : Z) : Z := us * 1000.

(** [MinFlushIntervalUs + IncFlushIntervalUs * pending], in [uint32_t]. *)
Definition flushDelayUs (pending : Z) : Z :=
  u32 (MinFlushIntervalUs + u32 (IncFlushIntervalUs * pending)).

(** [FlushImplicit] *)
Definition FlushImplicit (d : t) (StrongHint : bool) : t :=
  let pending := pendingSubmissions d in
  if StrongHint || (pending <=? MaxPendingSubmits) then
    let delay := flushDelayUs pending in
    if now d - m_lastFlush d >=? microseconds delay then Flush d else d
  else d.

(** [EndScene] *)
Definition EndScene (d : t) : HRESULT * t := (D3D_OK, FlushImplicit d true).

(** The loop [while (Resource->isInUse()) yield();] *)
Definition spinWhileInUse (d : t) (Resource : InUse) (polled : nat) : option t :=
  match Resource with
  | None => None
  | Some n => Some (Nat.iter (n - polled) (fun d => addEvent d yield) d)
  end.

(** [WaitForResource]; [None] when the call does not return. *)
Definition WaitForResource (d : t) (Resource : InUse) (MapFlags : Z)
  : option (bool * t) :=
  let d := SynchronizeCsThread d in
  if stillInUse Resource then
    if testFlag MapFlags D3DLOCK_DONOTWAIT then
      Some (false, FlushImplicit d false)
    else
      let d := SynchronizeCsThread (Flush d) in
      match spinWhileInUse d Resource 1 with
      | None => None
      | Some d => Some (true, d)
      end
  else Some (true, d).

(** *** Render states *)

(** [ShouldRecord] *)
Definition ShouldRecord (d : t) : bool :=
  match m_recorder d with
  | Some recorder => negb (IsApplying recorder)
  | None => false
  end.

(** [BindBlendFactor]: the blend constants are the four channels of the
    colour in [D3DRS_BLENDFACTOR]. *)
Definition BindBlendFactor (d : t) : t :=
  EmitCs d (setBlendConstants (rs d D3DRS_BLENDFACTOR)).

(** [BindDepthStencilRefrence] *)
Definition BindDepthStencilRefrence (d : t) : t :=
  EmitCs d (setStencilReference (u32 (rs d D3DRS_STENCILREF))).

(** [UpdatePushConstant<D3D9RenderStateItem::AlphaRef>]: the constant
    pushed is [D3DRS_ALPHAREF] over 255. *)
Definition UpdatePushConstant_AlphaRef (d : t) : t :=
  EmitCs d (pushConstantsAlphaRef (rs d D3DRS_ALPHAREF)).

(** [ResolveZ] (the second branch of its last conditional cannot be
    reached: the function has returned when the destination is
    multisampled beyond [NONMASKABLE]). *)
Definition ResolveZ (d : t) : t :=
  match depthStencil d, texture0 d with
  | Some src, Some dst =>
      if MultiSample (surfaces d dst) >? D3DMULTISAMPLE_NONMASKABLE then d
      else EmitCs d (copyImage (image (surfaces d dst)) (image (surfaces d src)))
  | _, _ => d
  end.

Section AlphaToCoverage.

(** [IsAlphaToCoverageEnabled] is defined in [d3d9_device.h], which is
    not part of the sources at hand: it is a parameter. *)
Variable IsAlphaToCoverageEnabled : t -> bool.

Definition isOneOf (State : Z) (states : list Z) : bool :=
  existsb (Z.eqb State) states.

(** The [switch] of [SetRenderState], entered after the new value has
    been stored. *)
Definition renderStateChanged (d : t) (State : Z) (oldATOC : bool) : t :=
  if isOneOf State
       [D3DRS_SEPARATEALPHABLENDENABLE; D3DRS_ALPHABLENDENABLE; D3DRS_BLENDOP;
        D3DRS_BLENDOPALPHA; D3DRS_DESTBLEND; D3DRS_DESTBLENDALPHA;
        D3DRS_COLORWRITEENABLE; D3DRS_COLORWRITEENABLE1;
        D3DRS_COLORWRITEENABLE2; D3DRS_COLORWRITEENABLE3; D3DRS_SRCBLEND;
        D3DRS_SRCBLENDALPHA]
  then flagSet d DirtyBlendState
  else if State =? D3DRS_ALPHATESTENABLE then
    let newATOC := IsAlphaToCoverageEnabled d in
    let d := if negb (eqb oldATOC newATOC)
             then flagSet d DirtyMultiSampleState else d in
    flagSet d DirtyAlphaTestState
  else if State =? D3DRS_ALPHAFUNC then flagSet d DirtyAlphaTestState
  else if State =? D3DRS_BLENDFACTOR then BindBlendFactor d
  else if State =? D3DRS_MULTISAMPLEMASK then
    if flagTest d ValidSampleMask then flagSet d DirtyMultiSampleState else d
  else if isOneOf State
       [D3DRS_ZENABLE; D3DRS_ZFUNC; D3DRS_TWOSIDEDSTENCILMODE;
        D3DRS_ZWRITEENABLE; D3DRS_STENCILENABLE; D3DRS_STENCILFAIL;
        D3DRS_STENCILZFAIL; D3DRS_STENCILPASS; D3DRS_STENCILFUNC;
        D3DRS_CCW_STENCILFAIL; D3DRS_CCW_STENCILZFAIL; D3DRS_CCW_STENCILPASS;
        D3DRS_CCW_STENCILFUNC; D3DRS_STENCILMASK; D3DRS_STENCILWRITEMASK]
  then flagSet d DirtyDepthStencilState
  else if State =? D3DRS_STENCILREF then BindDepthStencilRefrence d
  else if State =? D3DRS_SCISSORTESTENABLE then flagSet d DirtyViewportScissor
  else if State =? D3DRS_SRGBWRITEENABLE then flagSet d DirtyFramebuffer
  else if isOneOf State
       [D3DRS_DEPTHBIAS; D3DRS_SLOPESCALEDEPTHBIAS; D3DRS_CULLMODE;
        D3DRS_FILLMODE]
  then flagSet d DirtyRasterizerState
  else if State =? D3DRS_CLIPPLANEENABLE then flagSet d DirtyClipPlanes
  else if State =? D3DRS_ALPHAREF then UpdatePushConstant_AlphaRef d
  else if State =? D3DRS_TEXTUREFACTOR then flagSet d DirtyFFPixelData
  else if isOneOf State
       [D3DRS_DIFFUSEMATERIALSOURCE; D3DRS_AMBIENTMATERIALSOURCE;
        D3DRS_SPECULARMATERIALSOURCE; D3DRS_EMISSIVEMATERIALSOURCE;
        D3DRS_COLORVERTEX; D3DRS_LIGHTING]
  then flagSet d DirtyFFVertexShader
  else d.

(** What the two vendor hacks do once the switch for alpha to coverage
    has been written: the multisample state is dirty when the answer of
    [IsAlphaToCoverageEnabled] has changed. *)
Definition alphaToCoverageChanged (d : t) (oldATOC : bool) : t :=
  if negb (eqb oldATOC (IsAlphaToCoverageEnabled d))
  then flagSet d DirtyMultiSampleState else d.

(** [SetRenderState] *)
Definition SetRenderState (d : t) (State Value : Z) : HRESULT * t :=
  if (State >? 255) || ((State <? D3DRS_ZENABLE) && negb (State =? 0))
  then (D3D_OK, d)
  else if ShouldRecord d then
    match m_recorder d with
    | Some recorder =>
        (D3D_OK, setRecorder d (Some (recordRenderState recorder State Value)))
    | None => (D3D_OK, d)
    end
  else
    let changed := negb (rs d State =? Value) in
    if changed then
      let oldATOC := IsAlphaToCoverageEnabled d in
      if (State =? D3DRS_POINTSIZE)
         && ((Value =? AlphaToCoverageEnableAMD)
             || (Value =? AlphaToCoverageDisableAMD))
      then
        (D3D_OK,
         alphaToCoverageChanged
           (setAmdATOC d (Value =? AlphaToCoverageEnableAMD)) oldATOC)
      else if (State =? D3DRS_POINTSIZE) && (Value =? RESZ)
      then (D3D_OK, ResolveZ d)
      else if (State =? D3DRS_ADAPTIVETESS_Y)
              && ((Value =? AlphaToCoverageEnableNV)
                  || (Value =? AlphaToCoverageDisableNV))
      then
        (D3D_OK,
         alphaToCoverageChanged
           (setNvATOC d (Value =? AlphaToCoverageEnableNV)) oldATOC)
      else
        let d := setRenderStates d
                   (<[Z.to_nat State := Value]> (renderStates d)) in
        (D3D_OK, renderStateChanged d State oldATOC)
    else (D3D_OK, d).

(** [GetRenderState]; [pValue] is [None] for a null pointer, otherwise
    the contents of the caller's variable. *)
Definition GetRenderState (d : t) (State : Z) (pValue : option Z) : HRESULT * option Z :=
  match pValue with
  | None => (D3DERR_INVALIDCALL, None)
  | Some old =>
      if (State >? 255) || ((State <? D3DRS_ZENABLE) && negb (State =? 0))
      then (D3DERR_INVALIDCALL, Some old)
      else if (State <? D3DRS_ZENABLE) || (State >? D3DRS_BLENDOPALPHA)
      then (D3D_OK, Some 0)
      else (D3D_OK, Some (rs d State))
  end.

(** *** Render targets and the multisample state *)

(** The part of [SetRenderTarget] that runs when render target 0 has
    been replaced; [p] is [m_state.renderTargets[0]]. *)
Definition primaryRenderTargetChanged (d : t) (p : Z) : t :=
  let desc := surfaces d p in
  let validSampleMask := MultiSample desc >? D3DMULTISAMPLE_NONMASKABLE in
  let d :=
    if negb (eqb validSampleMask (flagTest d ValidSampleMask)) then
      let d := flagClr d ValidSampleMask in
      let d := if validSampleMask then flagSet d ValidSampleMask else d in
      flagSet d DirtyMultiSampleState
    else d in
  let d := setViewport d
    {| X := 0; Y := 0; Width := descWidth desc; Height := descHeight desc;
       MinZ := 0%float; MaxZ := 1%float |} in
  let d := setScissorRect d
    {| left := 0; top := 0; right := descWidth desc; bottom := descHeight desc |} in
  let d := flagSet d DirtyViewportScissor in
  flagSet d DirtyFFViewport.

(** [SetRenderTarget]; [pRenderTarget] is [None] for a null pointer. *)
Definition SetRenderTarget (d : t) (RenderTargetIndex : Z) (pRenderTarget : option Z)
  : HRESULT * t :=
  if (RenderTargetIndex >=? MaxSimultaneousRenderTargets)
     || (bool_decide (pRenderTarget = None) && (RenderTargetIndex =? 0))
  then (D3DERR_INVALIDCALL, d)
  else if bool_decide (rt d RenderTargetIndex = pRenderTarget)
  then (D3D_OK, d)
  else
    let d := FlushImplicit d (RenderTargetIndex =? 0) in
    let d := flagSet d DirtyFramebuffer in
    let d := setRenderTargets d
               (<[Z.to_nat RenderTargetIndex := pRenderTarget]> (renderTargets d)) in
    if RenderTargetIndex =? 0 then
      match rt d 0 with
      | Some p => (D3D_OK, primaryRenderTargetChanged d p)
      | None => (D3D_OK, d)
      end
    else (D3D_OK, d).

(** [BindMultiSampleState] *)
Definition BindMultiSampleState (d : t) : t :=
  let d := flagClr d DirtyMultiSampleState in
  let sampleMask :=
    if flagTest d ValidSampleMask
    then rs d D3DRS_MULTISAMPLEMASK else 0xffffffff in
  EmitCs d (setMultisampleState sampleMask (IsAlphaToCoverageEnabled d)).

(** The step of [PrepareDraw] that binds the multisample state. *)
Definition PrepareDraw_MultiSampleState (d : t) : t :=
  if flagTest d DirtyMultiSampleState then BindMultiSampleState d else d.

End AlphaToCoverage.

End D3D9DeviceEx.

(** * util/config/config.cpp *)

Module Config.

(** [Config]: the option map. *)
Record t := mk {
  m_options : gmap string string;
}.

(** [Config::Config()] *)
Definition empty : t := {| m_options := ∅ |}.

(** [isWhitespace]: a blank, a tabulator or a carriage return. *)
Definition isWhitespace (ch : ascii) : bool :=
  Ascii.eqb ch " " || Ascii.eqb ch "009" || Ascii.eqb ch "013".

(** [isValidKeyChar]. The comparisons are those of the character codes;
    a code above 127 is in none of the ranges, whether [char] is signed
    or not. *)
Definition isValidKeyChar (ch : ascii) : bool :=
  let c := nat_of_ascii ch in
  ((48 <=? c) && (c <=? 57))%nat
  || ((65 <=? c) && (c <=? 90))%nat
  || ((97 <=? c) && (c <=? 122))%nat
  || (Ascii.eqb ch "." || Ascii.eqb ch "_").

(** The loop [while (n < line.size() && p(line[n])) n += 1], run on the
    characters from position [n] on. *)
Fixpoint skipWhile (p : ascii -> bool) (suffix : list ascii) (n : nat) : nat :=
  match suffix with
  | ch :: rest => if p ch then skipWhile p rest (S n) else n
  | [] => n
  end.

(** [skipWhitespace] *)
Definition skipWhitespace (line : list ascii) (n : nat) : nat :=
  skipWhile isWhitespace (drop n line) n.

(** The loop [while (e > n && line[e] != ']') e -= 1]. *)
Fixpoint findClosingBracket (line : list ascii) (n e : nat) : nat :=
  match e with
  | O => O
  | S e' =>
      if (n <? e)%nat && negb (bool_decide (line !! e = Some "]"%char))
      then findClosingBracket line n e'
      else e
  end.

(** [ConfigContext] *)
Record ConfigContext := {
  active : bool;
}.

(** [Config::setOption]: [insert_or_assign]. *)
Definition setOption (config : t) (key value : string) : t :=
  {| m_options := <[key := value]> (m_options config) |}.

(** The characters [line[from]], ..., [line[to - 1]], as the loops
    [while (...) key << line[n++]] collect them. *)
Definition collected (line : list ascii) (from to : nat) : string :=
  string_of_list_ascii (take (to - from) (drop from line)).

(** [parseUserConfigLine]; [exeName] is what [env::getExeName()]
    returns. *)
Definition parseUserConfigLine (exeName : string) (config : t)
  (ctx : ConfigContext) (line : string) : t * ConfigContext :=
  let line := list_ascii_of_string line in
  let n := skipWhitespace line 0 in
  if bool_decide (line !! n = Some "["%char) then
    let n := S n in
    let e := findClosingBracket line n (List.length line - 1) in
    let key := collected line n e in
    (config, {| active := String.eqb key exeName |})
  else
    let n' := skipWhile isValidKeyChar (drop n line) n in
    let key := collected line n n' in
    let n := skipWhitespace line n' in
    if negb (bool_decide (line !! n = Some "="%char)) then (config, ctx)
    else
      let n := skipWhitespace line (S n) in
      let n' := skipWhile (fun ch => negb (isWhitespace ch)) (drop n line) n in
      let value := collected line n n' in
      if active ctx then (setOption config key value, ctx) else (config, ctx).

(** [Config::merge]: every pair of [other] is inserted, and [insert]
    leaves a key alone that is there already. *)
Definition merge (this other : t) : t :=
  {| m_options :=
       map_fold
         (fun key value options =>
            match options !! key with
            | Some _ => options
            | None => <[key := value]> options
            end)
         (m_options this) (m_options other) |}.

(** [Config::getOptionValue] *)
Definition getOptionValue (config : t) (option : string) : string :=
  match m_options config !! option with
  | Some value => value
  | None => ""%string
  end.

(** [Config::parseOptionValue] for [std::string]: the pair of the value
    returned and [result] after the call. *)
Definition parseOptionValue_string (value result : string) : bool * string :=
  (true, value).

(** [Config::parseOptionValue] for [bool] *)
Definition parseOptionValue_bool (value : string) (result : bool) : bool * bool :=
  if String.eqb value "True" then (true, true)
  else if String.eqb value "False" then (true, false)
  else (false, result).

Definition INT32_MAX : Z := 2147483647.

(** The loop of [parseOptionValue] for [int32_t], from position [start]
    on: [Some None] when a character is not a digit, [None] when
    [intval] leaves the range of [int32_t], which the language leaves
    undefined. *)
Fixpoint parseDigits (chars : list ascii) (intval : Z) : option (option Z) :=
  match chars with
  | [] => Some (Some intval)
  | ch :: rest =>
      let c := nat_of_ascii ch in
      if ((c <? 48) || (57 <? c))%nat then Some None
      else
        let intval := intval * 10 in
        if intval >? INT32_MAX then None
        else
          let intval := intval + (Z.of_nat c - 48) in
          if intval >? INT32_MAX then None
          else parseDigits rest intval
  end.

(** [Config::parseOptionValue] for [int32_t]; [None] when the
    behaviour is undefined. *)
Definition parseOptionValue_int32 (value : string) (result : Z)
  : option (bool * Z) :=
  match list_ascii_of_string value with
  | [] => Some (false, result)
  | first :: rest =>
      let '(sign, digits) :=
        if Ascii.eqb first "-" then (-1, rest) else (1, first :: rest) in
      match parseDigits digits 0 with
      | None => None
      | Some None => Some (false, result)
      | Some (Some intval) => Some (true, sign * intval)
      end
  end.

(** [Tristate] *)
Module Tristate.
Inductive t : Type := Auto | True | False.
End Tristate.

(** [Config::parseOptionValue] for [Tristate] *)
Definition parseOptionValue_Tristate (value : string) (result : Tristate.t)
  : bool * Tristate.t :=
  if String.eqb value "True" then (true, Tristate.True)
  else if String.eqb value "False" then (true, Tristate.False)
  else if String.eqb value "Auto" then (true, Tristate.Auto)
  else (false, result).

(** The loop of [Config::getUserConfig] over the lines of the file. *)
Definition parseUserConfigLines (exeName : string) (lines : list string)
  (config : t) (ctx : ConfigContext) : t * ConfigContext :=
  fold_left (fun '(config, ctx) line => parseUserConfigLine exeName config ctx line)
            lines (config, ctx).

(** [Config::getUserConfig]; [file] is the contents, line by line, of
    the file that [$DXVK_CONFIG_FILE] names, or of [dxvk.conf], and
    [None] if that file cannot be opened. *)
Definition getUserConfig (exeName : string) (file : option (list string)) : t :=
  match file with
  | None => empty
  | Some lines =>
      fst (parseUserConfigLines exeName lines empty {| active := true |})
  end.

End Config.

(** * dxvk_memory.cpp: the allocator over all memory types *)

Definition VK_MEMORY_PROPERTY_HOST_CACHED_BIT : Z := 0x8.

Module DxvkMemoryTypes.
Import DxvkMemoryAllocator.

(** [VkMemoryType] *)
Record VkMemoryType := {
  propertyFlags : VkMemoryPropertyFlags;
  heapIndex : Z;
}.

(** [VkMemoryRequirements] *)
Record VkMemoryRequirements := {
  size : VkDeviceSize;
  alignment : VkDeviceSize;
  memoryTypeBits : Z;
}.

(** [VkMemoryDedicatedRequirements] *)
Record VkMemoryDedicatedRequirements := {
  prefersDedicatedAllocation : bool;
  requiresDedicatedAllocation : bool;
}.

(** The allocator: [m_memHeaps] and [m_memTypes] (a memory type is its
    [VkMemoryType] together with the part that [tryAllocFromType]
    works on; its pointer to the heap is the index [heapId]), the
    memory-priority feature of the device, and the driver: the answers
    it is going to give to [vkAllocateMemory], and a record of the
    calls of [vkAllocateMemory], [notifyHeapMemoryAlloc], [vkFreeMemory]
    and [notifyHeapMemoryFree] made so far. *)
Record t := mk {
  m_memHeaps : list DxvkMemoryHeap;
  m_memTypes : list (VkMemoryType * DxvkMemoryType);
  memoryPriority : bool;
  vkAnswers : list VkResponse;
  vkAllocateCalls : list VkMemoryAllocateInfo;
  heapNotifications : list (Z * VkDeviceSize);
  vkFreeCalls : list Z;
  heapFreeNotifications : list (Z * VkDeviceSize);
}.

(** [DxvkMemoryAllocator::pickChunkSize] *)
Definition MaxChunkSize : VkDeviceSize := 64 * 1024 * 1024.
Definition MinChunkCount : VkDeviceSize := 16.

Definition pickChunkSize (heapSize : VkDeviceSize) : VkDeviceSize :=
  Z.min (heapSize / MinChunkCount) MaxChunkSize.

(** The constructor: the heaps get their chunk size and empty
    statistics, the types their heap, their index and no chunk.
    [heapSizes] and [memoryTypes] are the adapter's memory
    properties. *)
Definition new (heapSizes : list VkDeviceSize) (memoryTypes : list VkMemoryType)
  (priority : bool) (answers : list VkResponse) : t :=
  {| m_memHeaps :=
       map (fun heapSize =>
              {| chunkSize := pickChunkSize heapSize;
                 stats := {| memoryAllocated := 0; memoryUsed := 0 |} |})
           heapSizes;
     m_memTypes :=
       imap (fun i memType =>
               (memType,
                {| heapId := heapIndex memType; memTypeId := Z.of_nat i;
                   chunks := [] |}))
            memoryTypes;
     memoryPriority := priority;
     vkAnswers := answers;
     vkAllocateCalls := [];
     heapNotifications := [];
     vkFreeCalls := [];
     heapFreeNotifications := [] |}.

(** The allocator as [tryAllocFromType] sees it from the memory type
    [type], whose heap is [heap]. *)
Definition view (s : t) (heap : DxvkMemoryHeap) (type : DxvkMemoryType)
  : DxvkMemoryAllocator.t :=
  DxvkMemoryAllocator.mk heap type (memoryPriority s) (vkAnswers s)
    (vkAllocateCalls s) (heapNotifications s).

(** What [tryAllocFromType] has done to the type, to the heap of the
    type and to the driver is written back. *)
Definition update (s : t) (i : nat) (memType : VkMemoryType)
  (v : DxvkMemoryAllocator.t) : t :=
  {| m_memHeaps :=
       <[Z.to_nat (heapId (DxvkMemoryAllocator.type v)) := DxvkMemoryAllocator.heap v]>
         (m_memHeaps s);
     m_memTypes := <[i := (memType, DxvkMemoryAllocator.type v)]> (m_memTypes s);
     memoryPriority := memoryPriority s;
     vkAnswers := DxvkMemoryAllocator.vkAnswers v;
     vkAllocateCalls := DxvkMemoryAllocator.vkAllocateCalls v;
     heapNotifications := DxvkMemoryAllocator.heapNotifications v;
     vkFreeCalls := vkFreeCalls s;
     heapFreeNotifications := heapFreeNotifications s |}.

(** [tryAllocFromType(&m_memTypes[i], ...)]. A type that is not there,
    or whose heap is not, gives nothing: the loop of [tryAlloc] stays
    below [memoryTypeCount], and the constructor takes the heaps of
    the types from the adapter. *)
Definition tryAllocFromTypeAt (s : t) (i : nat)
  (flags : VkMemoryPropertyFlags) (size align_ : VkDeviceSize) (prio : float)
  (dedAllocInfo : option VkMemoryDedicatedAllocateInfoKHR)
  : option DxvkMemory * t :=
  match m_memTypes s !! i with
  | None => (None, s)
  | Some (memType, type) =>
      match m_memHeaps s !! Z.to_nat (heapId type) with
      | None => (None, s)
      | Some heap =>
          let '(memory, v) :=
            tryAllocFromType (view s heap type) flags size align_ prio dedAllocInfo in
          (memory, update s i memType v)
      end
  end.

(** [supported] and [adequate] of [tryAlloc] *)
Definition supported (req : VkMemoryRequirements) (i : nat) : bool :=
  negb (Z.land (memoryTypeBits req) (u32 (Z.shiftl 1 (Z.of_nat i))) =? 0).

Definition adequate (memType : VkMemoryType) (flags : VkMemoryPropertyFlags) : bool :=
  Z.land (propertyFlags memType) flags =? flags.

(** One turn of the loop of [tryAlloc], for the type [i]. *)
Definition tryAllocStep (req : VkMemoryRequirements)
  (dedAllocInfo : option VkMemoryDedicatedAllocateInfoKHR)
  (flags : VkMemoryPropertyFlags) (prio : float)
  (r : option DxvkMemory * t) (i : nat) : option DxvkMemory * t :=
  match r with
  | (Some memory, s) => (Some memory, s)
  | (None, s) =>
      match m_memTypes s !! i with
      | Some (memType, _) =>
          if supported req i && adequate memType flags
          then tryAllocFromTypeAt s i flags (size req) (alignment req) prio
                 dedAllocInfo
          else (None, s)
      | None => (None, s)
      end
  end.

(** [DxvkMemoryAllocator::tryAlloc] *)
Definition tryAlloc (s : t) (req : VkMemoryRequirements)
  (dedAllocInfo : option VkMemoryDedicatedAllocateInfoKHR)
  (flags : VkMemoryPropertyFlags) (prio : float) : option DxvkMemory * t :=
  fold_left (tryAllocStep req dedAllocInfo flags prio)
            (seq 0 (List.length (m_memTypes s))) (None, s).

(** [DxvkMemoryAllocator::alloc]; [None] for the [DxvkError] that is
    thrown when every attempt has failed. *)
Definition alloc (s : t) (req : VkMemoryRequirements)
  (dedAllocReq : VkMemoryDedicatedRequirements)
  (dedAllocInfo : VkMemoryDedicatedAllocateInfoKHR)
  (flags : VkMemoryPropertyFlags) (prio : float) : option DxvkMemory * t :=
  let dedAllocPtr :=
    if prefersDedicatedAllocation dedAllocReq then Some dedAllocInfo else None in
  let '(result, s) := tryAlloc s req dedAllocPtr flags prio in
  let '(result, s, dedAllocPtr) :=
    match result, dedAllocPtr with
    | None, Some _ =>
        if negb (requiresDedicatedAllocation dedAllocReq)
        then let '(result, s) := tryAlloc s req None flags prio in
             (result, s, None)
        else (result, s, dedAllocPtr)
    | _, _ => (result, s, dedAllocPtr)
    end in
  let optFlags :=
    Z.lor VK_MEMORY_PROPERTY_DEVICE_LOCAL_BIT VK_MEMORY_PROPERTY_HOST_CACHED_BIT in
  match result with
  | None =>
      if negb (Z.land flags optFlags =? 0)
      then tryAlloc s req dedAllocPtr (Z.land flags (Z.lnot optFlags)) prio
      else (None, s)
  | Some memory => (Some memory, s)
  end.

(** [DxvkMemoryAllocator::freeDeviceMemory] *)
Definition freeDeviceMemory (s : t) (type : DxvkMemoryType)
  (memory : DxvkDeviceMemory) : t :=
  {| m_memHeaps :=
       match m_memHeaps s !! Z.to_nat (heapId type) with
       | Some heap =>
           <[Z.to_nat (heapId type) :=
               {| chunkSize := chunkSize heap;
                  stats :=
                    {| memoryAllocated :=
                         u64 (memoryAllocated (stats heap) - memSize memory);
                       memoryUsed := memoryUsed (stats heap) |} |}]>
             (m_memHeaps s)
       | None => m_memHeaps s
       end;
     m_memTypes := m_memTypes s;
     memoryPriority := memoryPriority s;
     vkAnswers := vkAnswers s;
     vkAllocateCalls := vkAllocateCalls s;
     heapNotifications := heapNotifications s;
     vkFreeCalls := vkFreeCalls s ++ [memHandle memory];
     heapFreeNotifications :=
       heapFreeNotifications s ++ [(heapId type, memSize memory)] |}.

(** [DxvkMemoryAllocator::freeChunkMemory] *)
Definition freeChunkMemory (s : t) (i : nat) (chunk : ChunkPtr)
  (offset length : VkDeviceSize) : t :=
  match m_memTypes s !! i with
  | Some (memType, type) =>
      match chunks type !! chunk with
      | Some c =>
          {| m_memHeaps := m_memHeaps s;
             m_memTypes :=
               <[i := (memType,
                       {| heapId := heapId type; memTypeId := memTypeId type;
                          chunks :=
                            <[chunk := DxvkMemoryChunk.free c offset length]>
                              (chunks type) |})]>
                 (m_memTypes s);
             memoryPriority := memoryPriority s;
             vkAnswers := vkAnswers s;
             vkAllocateCalls := vkAllocateCalls s;
             heapNotifications := heapNotifications s;
             vkFreeCalls := vkFreeCalls s;
             heapFreeNotifications := heapFreeNotifications s |}
      | None => s
      end
  | None => s
  end.

(** [memory.m_type->heap->stats.memoryUsed -= memory.m_length] *)
Definition releaseUsed (s : t) (type : DxvkMemoryType) (length : VkDeviceSize) : t :=
  mk match m_memHeaps s !! Z.to_nat (heapId type) with
     | Some heap =>
         <[Z.to_nat (heapId type) :=
             {| chunkSize := chunkSize heap;
                stats :=
                  {| memoryAllocated := memoryAllocated (stats heap);
                     memoryUsed := u64 (memoryUsed (stats heap) - length) |} |}]>
           (m_memHeaps s)
     | None => m_memHeaps s
     end
     (m_memTypes s) (memoryPriority s) (vkAnswers s) (vkAllocateCalls s)
     (heapNotifications s) (vkFreeCalls s) (heapFreeNotifications s).

(** [DxvkMemoryAllocator::free]; the memory object points to its type
    by the index of the type. *)
Definition free (s : t) (memory : DxvkMemory) : t :=
  let i := Z.to_nat (DxvkMemory.m_type memory) in
  match m_memTypes s !! i with
  | None => s
  | Some (_, type) =>
      let s := releaseUsed s type (DxvkMemory.m_length memory) in
      match DxvkMemory.m_chunk memory with
      | Some chunk =>
          freeChunkMemory s i chunk (DxvkMemory.m_offset memory)
                          (DxvkMemory.m_length memory)
      | None =>
          freeDeviceMemory s type
            {| memHandle := DxvkMemory.m_memory memory;
               memPointer := 0;
               memSize := DxvkMemory.m_length memory;
               memFlags := 0;
               priority := 0%float |}
      end
  end.

End DxvkMemoryTypes.

(** * d3d9_device.cpp: surfaces, state blocks, streams, buffers *)

Definition D3DERR_NOTFOUND : HRESULT := 0x88760866 - 2 ^ 32.

(** ** Render targets, the depth stencil, the viewport and the scissor *)

Module D3D9Targets.
Import D3D9DeviceEx.

Definition setDepthStencil (d : t) (v : option Z) : t :=
  mk (m_csChunk d) (csChunkCapacity d) (m_csIsBusy d) (m_lastFlush d)
     (events d) (pendingSubmissions d) (now d) (renderStates d)
     (renderTargets d) v (texture0 d) (viewport d) (scissorRect d)
     (m_flags d) (m_amdATOC d) (m_nvATOC d) (m_recorder d) (surfaces d).

(** [GetRenderTarget]. The index is checked with [>], so that the index
    [MaxSimultaneousRenderTargets] itself goes on to
    [m_state.renderTargets[RenderTargetIndex]], one past the end of the
    array: that access is [None]. Surfaces are named by their ids; the
    reference that [ref] takes is not counted. *)
Definition GetRenderTarget (d : t) (RenderTargetIndex : Z)
  (ppRenderTarget : D3D11Device.ReturnPtr Z)
  : option (HRESULT * D3D11Device.ReturnPtr Z) :=
  let out := D3D11Device.InitReturnPtr ppRenderTarget in
  if bool_decide (ppRenderTarget = None)
     || (RenderTargetIndex >? MaxSimultaneousRenderTargets)
  then Some (D3DERR_INVALIDCALL, out)
  else
    match renderTargets d !! Z.to_nat RenderTargetIndex with
    | None => None
    | Some None => Some (D3DERR_NOTFOUND, out)
    | Some (Some surface) => Some (D3D_OK, Some (Some surface))
    end.

(** [SetDepthStencilSurface] *)
Definition SetDepthStencilSurface (d : t) (pNewZStencil : option Z) : HRESULT * t :=
  if bool_decide (depthStencil d = pNewZStencil) then (D3D_OK, d)
  else
    let d := FlushImplicit d false in
    let d := flagSet d DirtyFramebuffer in
    (D3D_OK, setDepthStencil d pNewZStencil).

(** [GetDepthStencilSurface] *)
Definition GetDepthStencilSurface (d : t) (ppZStencilSurface : D3D11Device.ReturnPtr Z)
  : HRESULT * D3D11Device.ReturnPtr Z :=
  let out := D3D11Device.InitReturnPtr ppZStencilSurface in
  if bool_decide (ppZStencilSurface = None) then (D3DERR_INVALIDCALL, out)
  else
    match depthStencil d with
    | None => (D3DERR_NOTFOUND, out)
    | Some surface => (D3D_OK, Some (Some surface))
    end.

(** What the device asks of classes that are not part of the sources at
    hand: the recorder's [SetViewport] and [SetScissorRect]
    ([D3D9StateBlock]), and the extent of the image behind the
    render-target view of a surface. *)
Record Environment := {
  recorder_SetViewport : D3D9StateBlock -> D3DVIEWPORT9 -> HRESULT * D3D9StateBlock;
  recorder_SetScissorRect : D3D9StateBlock -> RECT -> HRESULT * D3D9StateBlock;
  renderTargetExtent : Z -> Z * Z;
}.

(** [return m_recorder->...]: the recorder's answer, and the recorder
    after the call. *)
Definition record {A : Type} (d : t)
  (call : D3D9StateBlock -> A -> HRESULT * D3D9StateBlock) (a : A) : HRESULT * t :=
  match m_recorder d with
  | Some recorder =>
      let '(hr, recorder) := call recorder a in
      (hr, setRecorder d (Some recorder))
  | None => (D3D_OK, d)
  end.

(** [SetViewport]. With a null [pViewport] the viewport is that of
    render target 0, which is dereferenced without a check: [None]
    when there is none. *)
Definition SetViewport (env : Environment) (d : t) (pViewport : option D3DVIEWPORT9)
  : option (HRESULT * t) :=
  let viewport :=
    match pViewport with
    | None =>
        match rt d 0 with
        | None => None
        | Some surface =>
            Some {| X := 0; Y := 0;
                    Width := fst (renderTargetExtent env surface);
                    Height := snd (renderTargetExtent env surface);
                    MinZ := 0%float; MaxZ := 1%float |}
        end
    | Some viewport => Some viewport
    end in
  match viewport with
  | None => None
  | Some viewport =>
      if ShouldRecord d then Some (record d (recorder_SetViewport env) viewport)
      else
        let d := setViewport d viewport in
        let d := flagSet d DirtyViewportScissor in
        Some (D3D_OK, flagSet d DirtyFFViewport)
  end.

(** [GetViewport]; [pViewport] is [None] for a null pointer, otherwise
    the contents of the caller's structure. *)
Definition GetViewport (d : t) (pViewport : option D3DVIEWPORT9)
  : HRESULT * option D3DVIEWPORT9 :=
  match pViewport with
  | None => (D3DERR_INVALIDCALL, None)
  | Some _ => (D3D_OK, Some (viewport d))
  end.

(** [SetScissorRect] *)
Definition SetScissorRect (env : Environment) (d : t) (pRect : option RECT)
  : HRESULT * t :=
  match pRect with
  | None => (D3DERR_INVALIDCALL, d)
  | Some rect =>
      if ShouldRecord d then record d (recorder_SetScissorRect env) rect
      else (D3D_OK, flagSet (setScissorRect d rect) DirtyViewportScissor)
  end.

(** [GetScissorRect] *)
Definition GetScissorRect (d : t) (pRect : option RECT) : HRESULT * option RECT :=
  match pRect with
  | None => (D3DERR_INVALIDCALL, None)
  | Some _ => (D3D_OK, Some (scissorRect d))
  end.

(** [VkRect2D] *)
Record VkRect2D := {
  offset_x : Z;
  offset_y : Z;
  extent_width : Z;
  extent_height : Z;
}.

(** The scissor rectangle that [BindViewportAndScissor] hands to
    [setViewports]; the members of [RECT] are 32-bit signed integers,
    and the differences are converted to [uint32_t]. *)
Definition BindViewportAndScissor_scissor (d : t) : VkRect2D :=
  let enableScissorTest := negb (rs d D3DRS_SCISSORTESTENABLE =? 0) in
  if enableScissorTest then
    let sr := scissorRect d in
    let srPosA_x := Z.max 0 (left sr) in
    let srPosA_y := Z.max 0 (top sr) in
    let srPosB_x := Z.max srPosA_x (right sr) in
    let srPosB_y := Z.max srPosA_y (bottom sr) in
    {| offset_x := srPosA_x; offset_y := srPosA_y;
       extent_width := u32 (srPosB_x - srPosA_x);
       extent_height := u32 (srPosB_y - srPosA_y) |}
  else
    {| offset_x := 0; offset_y := 0; extent_width := 16383; extent_height := 16383 |}.

End D3D9Targets.

(** ** State blocks *)

Module D3D9StateBlocks.
Import D3D9DeviceEx.

(** [BeginStateBlock]; [block] is the object that
    [new D3D9StateBlock(this, D3D9StateBlockType::None)] constructs. *)
Definition BeginStateBlock (block : D3D9StateBlock) (d : t) : HRESULT * t :=
  match m_recorder d with
  | Some _ => (D3DERR_INVALIDCALL, d)
  | None => (D3D_OK, setRecorder d (Some block))
  end.

(** [EndStateBlock] *)
Definition EndStateBlock (d : t) (ppSB : D3D11Device.ReturnPtr D3D9StateBlock)
  : HRESULT * D3D11Device.ReturnPtr D3D9StateBlock * t :=
  let out := D3D11Device.InitReturnPtr ppSB in
  match ppSB, m_recorder d with
  | Some _, Some recorder => (D3D_OK, Some (Some recorder), setRecorder d None)
  | _, _ => (D3DERR_INVALIDCALL, out, d)
  end.

End D3D9StateBlocks.

(** ** Stream frequencies and instancing *)

Module D3D9Streams.
Import D3D9DeviceEx.

Definition D3DSTREAMSOURCE_INDEXEDDATA : Z := Z.shiftl 1 30.
Definition D3DSTREAMSOURCE_INSTANCEDATA : Z := Z.shiftl 2 30.

(** The device with [m_state.streamFreq] and [m_instancedData]. *)
Record t := mk {
  device : D3D9DeviceEx.t;
  streamFreq : list Z;
  m_instancedData : Z;
}.

(** [SetStreamSourceFreq]. [MaxStreams] is [caps::MaxStreams], and
    [recorder] the recorder's [SetStreamSourceFreq]; an access beyond
    [m_state.streamFreq] is [None]. *)
Definition SetStreamSourceFreq (MaxStreams : Z)
  (recorder : D3D9StateBlock -> Z * Z -> HRESULT * D3D9StateBlock)
  (s : t) (StreamNumber Setting : Z) : option (HRESULT * t) :=
  if StreamNumber >=? MaxStreams then Some (D3DERR_INVALIDCALL, s)
  else
    let indexed := testFlag Setting D3DSTREAMSOURCE_INDEXEDDATA in
    let instanced := testFlag Setting D3DSTREAMSOURCE_INSTANCEDATA in
    if (StreamNumber =? 0) && instanced then Some (D3DERR_INVALIDCALL, s)
    else if instanced && indexed then Some (D3DERR_INVALIDCALL, s)
    else if Setting =? 0 then Some (D3DERR_INVALIDCALL, s)
    else if ShouldRecord (device s) then
      let '(hr, d) := D3D9Targets.record (device s) recorder (StreamNumber, Setting) in
      Some (hr, mk d (streamFreq s) (m_instancedData s))
    else
      match streamFreq s !! Z.to_nat StreamNumber with
      | None => None
      | Some old =>
          if old =? Setting then Some (D3D_OK, s)
          else
            let bit := u32 (Z.shiftl 1 StreamNumber) in
            Some (D3D_OK,
                  mk (flagSet (device s) DirtyInputLayout)
                     (<[Z.to_nat StreamNumber := Setting]> (streamFreq s))
                     (if instanced
                      then Z.lor (m_instancedData s) bit
                      else Z.land (m_instancedData s) (u32 (Z.lnot bit))))
      end.

(** [GetStreamSourceFreq] *)
Definition GetStreamSourceFreq (MaxStreams : Z) (s : t) (StreamNumber : Z)
  (pSetting : option Z) : option (HRESULT * option Z) :=
  if StreamNumber >=? MaxStreams then Some (D3DERR_INVALIDCALL, pSetting)
  else
    match pSetting with
    | None => Some (D3DERR_INVALIDCALL, None)
    | Some _ =>
        match streamFreq s !! Z.to_nat StreamNumber with
        | None => None
        | Some setting => Some (D3D_OK, Some setting)
        end
    end.

(** [GetInstanceCount] *)
Definition GetInstanceCount (s : t) : option Z :=
  match streamFreq s !! 0%nat with
  | None => None
  | Some freq => Some (Z.max (Z.land freq 0x7FFFFF) 1)
  end.

End D3D9Streams.

(** ** Locking buffers *)

Definition D3DLOCK_READONLY : Z := 0x10.
Definition D3DLOCK_NOOVERWRITE : Z := 0x1000.
Definition D3DLOCK_DISCARD : Z := 0x2000.

Inductive D3D9_COMMON_BUFFER_MAP_MODE : Type :=
| D3D9_COMMON_BUFFER_MAP_MODE_BUFFER
| D3D9_COMMON_BUFFER_MAP_MODE_DIRECT.

(** [D3D9CommonBuffer] ([d3d9_common_buffer.h]) is not part of the
    sources at hand: the buffers are any type with the methods that
    [LockBuffer] and [UnlockBuffer] call. A method that changes the
    buffer returns the buffer after the call besides its result, and
    [GetBuffer] gives what the device reads of the dxvk buffer. *)
Class D3D9CommonBufferClass (B : Type) := {
  GetMapMode : B -> D3D9_COMMON_BUFFER_MAP_MODE;
  SetMapFlags : B -> Z -> Z * B;
  DiscardMapSlice : B -> DxvkBufferSliceHandle * B;
  GetMappedSlice : B -> DxvkBufferSliceHandle;
  GetBuffer_MAPPING : B -> DxvkBuffer;
  GetBuffer_REAL : B -> DxvkBuffer;
  GetBufferSlice_REAL : B -> DxvkBufferSliceHandle;
  GetBufferSlice_STAGING : B -> DxvkBufferSliceHandle;
}.

Module D3D9Buffers.
Import D3D9DeviceEx.

Section Buffers.
Context {B : Type} `{D3D9CommonBufferClass B}.

(** What a lock leaves behind: the status code, the caller's pointer,
    the device and the buffer. *)
Record LockResult := mkLock {
  lock_hr : HRESULT;
  lock_data : option Z;
  lock_device : t;
  lock_resource : B;
}.

(** [LockBuffer]; [allowLockFlagReadonly] is the option of
    [m_d3d9Options], [ppbData] is [None] for a null pointer and
    otherwise the contents of the caller's variable. [None] when the
    call does not return. *)
Definition LockBuffer (allowLockFlagReadonly : bool) (d : t) (pResource : B)
  (OffsetToLock SizeToLock : Z) (ppbData : option Z) (Flags : Z)
  : option LockResult :=
  match ppbData with
  | None => Some (mkLock D3DERR_INVALIDCALL None d pResource)
  | Some data =>
      let Flags :=
        if negb allowLockFlagReadonly
        then clearFlag Flags D3DLOCK_READONLY else Flags in
      let pResource := snd (SetMapFlags pResource Flags) in
      if testFlag Flags D3DLOCK_DISCARD then
        let '(physSlice, pResource) := DiscardMapSlice pResource in
        let d := EmitCs d
          (invalidateBuffer (DxvkBuffer.id (GetBuffer_MAPPING pResource)) physSlice) in
        Some (mkLock D3D_OK
                (Some (DxvkBufferSliceHandle.mapPtr physSlice + OffsetToLock))
                d pResource)
      else
        let waited :=
          if negb (testFlag Flags D3DLOCK_NOOVERWRITE)
             && match GetMapMode pResource with
                | D3D9_COMMON_BUFFER_MAP_MODE_DIRECT => true
                | D3D9_COMMON_BUFFER_MAP_MODE_BUFFER => false
                end
          then WaitForResource d (DxvkBuffer.inUse (GetBuffer_REAL pResource)) Flags
          else Some (true, d) in
        match waited with
        | None => None
        | Some (false, d) =>
            Some (mkLock D3DERR_WASSTILLDRAWING (Some data) d pResource)
        | Some (true, d) =>
            let physSlice := GetMappedSlice pResource in
            Some (mkLock D3D_OK
                    (Some (DxvkBufferSliceHandle.mapPtr physSlice + OffsetToLock))
                    d pResource)
        end
  end.

(** [UnlockBuffer] *)
Definition UnlockBuffer (d : t) (pResource : B) : HRESULT * t * B :=
  match GetMapMode pResource with
  | D3D9_COMMON_BUFFER_MAP_MODE_DIRECT => (D3D_OK, d, pResource)
  | D3D9_COMMON_BUFFER_MAP_MODE_BUFFER =>
      let '(flags, pResource) := SetMapFlags pResource 0 in
      if testFlag flags D3DLOCK_READONLY then (D3D_OK, d, pResource)
      else
        let d := FlushImplicit d false in
        let d := EmitCs d
          (copyBuffer (GetBufferSlice_REAL pResource)
                      (GetBufferSlice_STAGING pResource)) in
        (D3D_OK, d, pResource)
  end.

End Buffers.

End D3D9Buffers.

(** ** Shader constants *)

Module D3D9Constants.

(** [INT(x)] of a [UINT] *)
Definition INT (x : Z) : Z := if x <? 2 ^ 31 then x else x - 2 ^ 32.

(** [std::clamp] *)
Definition clamp (v lo hi : Z) : Z :=
  if v <? lo then lo else if hi <? v then hi else v.

(** The number of constants that [SetShaderConstants] goes on with;
    [None] when the subtraction leaves the range of [INT], which the
    language leaves undefined. *)
Definition clampedCount (regCountHardware StartRegister Count : Z) : option Z :=
  let diff :=
    clamp (INT (u32 (Count + StartRegister))) 0 (INT regCountHardware)
    - INT StartRegister in
  if (diff <? - 2 ^ 31) || (2 ^ 31 <=? diff) then None
  else Some (u32 (Z.max diff 0)).

Section Constants.

(** The device [S], with what [SetShaderConstants] reads and calls:
    the register counts that [DetermineRegCount] gives for the type of
    constant, [ShouldRecord], the recorder's [SetShaderConstants],
    [m_consts[ProgramType].dirty = true] and [UpdateStateConstants]. *)
Context {S T : Type}.
Variables regCountHardware regCountSoftware : Z.
Variable ShouldRecord : S -> bool.
Variable recorder_SetShaderConstants : S -> Z -> list T -> Z -> HRESULT * S.
Variable setDirty : S -> S.
Variable UpdateStateConstants : S -> Z -> list T -> Z -> S.

(** [SetShaderConstants]; [pConstantData] is [None] for a null
    pointer. *)
Definition SetShaderConstants (s : S) (StartRegister : Z)
  (pConstantData : option (list T)) (Count : Z) : option (HRESULT * S) :=
  if u32 (StartRegister + Count) >? regCountSoftware
  then Some (D3DERR_INVALIDCALL, s)
  else
    match clampedCount regCountHardware StartRegister Count with
    | None => None
    | Some Count =>
        if Count =? 0 then Some (D3D_OK, s)
        else
          match pConstantData with
          | None => Some (D3DERR_INVALIDCALL, s)
          | Some data =>
              if ShouldRecord s
              then Some (recorder_SetShaderConstants s StartRegister data Count)
              else
                Some (D3D_OK,
                      UpdateStateConstants (setDirty s) StartRegister data Count)
          end
    end.

End Constants.

End D3D9Constants.

(** * d3d11_device.cpp: feature levels and multisampling *)

Definition E_FAIL : HRESULT := 0x80004005 - 2 ^ 32.

Module D3D11DeviceCaps.

(** ** Feature levels *)

Definition D3D_FEATURE_LEVEL := Z.
Definition D3D_FEATURE_LEVEL_9_1 : D3D_FEATURE_LEVEL := 0x9100.
Definition D3D_FEATURE_LEVEL_9_2 : D3D_FEATURE_LEVEL := 0x9200.
Definition D3D_FEATURE_LEVEL_9_3 : D3D_FEATURE_LEVEL := 0x9300.
Definition D3D_FEATURE_LEVEL_10_0 : D3D_FEATURE_LEVEL := 0xa000.
Definition D3D_FEATURE_LEVEL_10_1 : D3D_FEATURE_LEVEL := 0xa100.
Definition D3D_FEATURE_LEVEL_11_0 : D3D_FEATURE_LEVEL := 0xb000.
Definition D3D_FEATURE_LEVEL_11_1 : D3D_FEATURE_LEVEL := 0xb100.

Definition s_featureLevels : list (string * D3D_FEATURE_LEVEL) :=
  [("11_1"%string, D3D_FEATURE_LEVEL_11_1);
   ("11_0"%string, D3D_FEATURE_LEVEL_11_0);
   ("10_1"%string, D3D_FEATURE_LEVEL_10_1);
   ("10_0"%string, D3D_FEATURE_LEVEL_10_0);
   ("9_3"%string, D3D_FEATURE_LEVEL_9_3);
   ("9_2"%string, D3D_FEATURE_LEVEL_9_2);
   ("9_1"%string, D3D_FEATURE_LEVEL_9_1)].

(** [GetMaxFeatureLevel]; [maxLevel] is the string that the
    configuration gives for [d3d11.maxFeatureLevel]. *)
Definition GetMaxFeatureLevel (maxLevel : string) : D3D_FEATURE_LEVEL :=
  match List.find (fun pair => String.eqb (fst pair) maxLevel) s_featureLevels with
  | Some entry => snd entry
  | None => D3D_FEATURE_LEVEL_11_1
  end.

(** What the device asks of the adapter and of the configuration:
    whether the adapter supports the features that [GetDeviceFeatures]
    lists for a feature level, and the configured maximum. *)
Record Adapter := {
  checkFeatureSupport : D3D_FEATURE_LEVEL -> bool;
  maxFeatureLevel : string;
}.

(** [CheckFeatureLevelSupport] *)
Definition CheckFeatureLevelSupport (adapter : Adapter)
  (featureLevel : D3D_FEATURE_LEVEL) : bool :=
  if featureLevel >? GetMaxFeatureLevel (maxFeatureLevel adapter) then false
  else if negb (checkFeatureSupport adapter featureLevel) then false
  else true.

(** The interface ids that [CreateDeviceContextState] compares. *)
Inductive IID : Type :=
| IID_ID3D10Device
| IID_ID3D10Device1
| IID_ID3D11Device
| IID_ID3D11Device1
| IID_other (id : Z).

Definition emulates (EmulatedInterface : IID) : bool :=
  match EmulatedInterface with
  | IID_other _ => false
  | _ => true
  end.

(** [new D3D11DeviceContextState(this)] *)
Inductive D3D11DeviceContextState : Type := mkDeviceContextState.

(** The loop of [CreateDeviceContextState] from [flId] on, with
    [count] turns to go: the first level that is supported,
    [Some None] when the loop runs out, [None] when it reads beyond
    the array. *)
Fixpoint findFeatureLevel (adapter : Adapter) (pFeatureLevels : list D3D_FEATURE_LEVEL)
  (flId count : nat) : option (option D3D_FEATURE_LEVEL) :=
  match count with
  | O => Some None
  | S count =>
      match pFeatureLevels !! flId with
      | None => None
      | Some level =>
          if CheckFeatureLevelSupport adapter level then Some (Some level)
          else findFeatureLevel adapter pFeatureLevels (S flId) count
      end
  end.

(** What [CreateDeviceContextState] leaves behind: the status code,
    [m_featureLevel], and the caller's two variables. *)
Record ContextStateResult := mkContextStateResult {
  cs_hr : HRESULT;
  cs_featureLevel : D3D_FEATURE_LEVEL;
  cs_chosen : option D3D_FEATURE_LEVEL;
  cs_state : D3D11Device.ReturnPtr D3D11DeviceContextState;
}.

(** [CreateDeviceContextState]; [m_featureLevel] is the feature level
    of the device, [pFeatureLevels] the caller's array, [None] for a
    null pointer, and [pChosenFeatureLevel] the contents of the
    caller's variable, [None] for a null pointer. *)
Definition CreateDeviceContextState (adapter : Adapter)
  (m_featureLevel : D3D_FEATURE_LEVEL) (Flags : Z)
  (pFeatureLevels : option (list D3D_FEATURE_LEVEL)) (FeatureLevels : nat)
  (SDKVersion : Z) (EmulatedInterface : IID)
  (pChosenFeatureLevel : option D3D_FEATURE_LEVEL)
  (ppContextState : D3D11Device.ReturnPtr D3D11DeviceContextState)
  : option ContextStateResult :=
  let out := D3D11Device.InitReturnPtr ppContextState in
  let invalid :=
    Some (mkContextStateResult E_INVALIDARG m_featureLevel pChosenFeatureLevel out) in
  match pFeatureLevels with
  | None => invalid
  | Some levels =>
      if (FeatureLevels =? 0)%nat then invalid
      else if negb (emulates EmulatedInterface) then invalid
      else
        match findFeatureLevel adapter levels 0 FeatureLevels with
        | None => None
        | Some None => invalid
        | Some (Some level) =>
            let m_featureLevel :=
              if level >? m_featureLevel then level else m_featureLevel in
            let pChosenFeatureLevel :=
              match pChosenFeatureLevel with
              | Some _ => Some level
              | None => None
              end in
            match ppContextState with
            | None =>
                Some (mkContextStateResult S_FALSE m_featureLevel
                        pChosenFeatureLevel out)
            | Some _ =>
                Some (mkContextStateResult S_OK m_featureLevel pChosenFeatureLevel
                        (Some (Some mkDeviceContextState)))
            end
        end
  end.

(** ** Multisample quality levels *)

Definition DXGI_FORMAT_UNKNOWN : Z := 0.
Definition VK_FORMAT_UNDEFINED : VkFormat := 0.

(** What [CheckMultisampleQualityLevels] asks of code that is not part
    of the sources at hand: the format that [LookupFormat] gives in the
    mode [DXGI_VK_FORMAT_MODE_ANY], the flag that [DecodeSampleCount]
    gives for a sample count, [None] when it fails, and the sample
    counts of the format properties that the adapter reports for a
    sampled 2D image with optimal tiling, [None] unless the status is
    [VK_SUCCESS]. *)
Record Formats := {
  LookupFormat : Z -> VkFormat;
  DecodeSampleCount : Z -> option Z;
  imageFormatProperties : VkFormat -> option Z;
}.

(** [CheckMultisampleQualityLevels]; [pNumQualityLevels] is [None] for
    a null pointer and otherwise the contents of the caller's
    variable. *)
Definition CheckMultisampleQualityLevels (formats : Formats)
  (Format SampleCount : Z) (pNumQualityLevels : option Z) : HRESULT * option Z :=
  match pNumQualityLevels with
  | None => (E_INVALIDARG, None)
  | Some levels =>
      if Format =? DXGI_FORMAT_UNKNOWN then
        (if negb (SampleCount =? 0) then S_OK else E_FAIL,
         Some (if SampleCount =? 1 then 1 else 0))
      else
        let format := LookupFormat formats Format in
        if format =? VK_FORMAT_UNDEFINED then (E_INVALIDARG, Some levels)
        else
          match DecodeSampleCount formats SampleCount with
          | None =>
              (if negb (SampleCount =? 0) && (SampleCount <=? 32)
               then S_OK else E_FAIL,
               Some 0)
          | Some sampleCountFlag =>
              match imageFormatProperties formats format with
              | Some sampleCounts =>
                  (S_OK, Some (if testFlag sampleCounts sampleCountFlag then 1 else 0))
              | None => (S_OK, Some 0)
              end
          end
  end.

End D3D11DeviceCaps.
(** * Properties of the dxvk layer *)

(** ** View-format compatibility *)

Lemma isViewCompatible_loop_true vfs fmt :
  DxvkImage.isViewCompatible_loop vfs fmt true = true.
Proof. destruct vfs; reflexivity. Qed.

Lemma isViewCompatible_loop_false vfs fmt :
  DxvkImage.isViewCompatible_loop vfs fmt false = true <-> In fmt vfs.
Proof.
  induction vfs as [|vf rest IH]; simpl.
  - split; [discriminate | tauto].
  - destruct (Z.eqb_spec vf fmt) as [->|Hne].
    + rewrite isViewCompatible_loop_true. tauto.
    + rewrite IH. split; [tauto | intros [?|?]; [congruence | assumption]].
Qed.

(** C10. [isViewCompatible] accepts the image's own creation format
    whether or not the list of view formats names it, and accepts any
    other format exactly when the list names it. *)
Theorem isViewCompatible_spec (img : DxvkImage.t) :
  DxvkImage.isViewCompatible img (DxvkImage.format (DxvkImage.m_info img)) = true
  /\ forall fmt : VkFormat,
       fmt <> DxvkImage.format (DxvkImage.m_info img) ->
       (DxvkImage.isViewCompatible img fmt = true
        <-> In fmt (DxvkImage.m_viewFormats img)).
Proof.
  unfold DxvkImage.isViewCompatible. split.
  - rewrite Z.eqb_refl. apply isViewCompatible_loop_true.
  - intros fmt Hne.
    destruct (Z.eqb_spec (DxvkImage.format (DxvkImage.m_info img)) fmt) as [E|_];
      [congruence|].
    apply isViewCompatible_loop_false.
Qed.

(** ** Chunk free lists: what the claims are stated with *)

Definition sliceEnd (s : FreeSlice) : Z := FreeSlice.offset s + FreeSlice.length s.

(** The sum of the lengths of a list of slices. *)
Definition totalLength (l : list FreeSlice) : Z :=
  foldr (fun s acc => FreeSlice.length s + acc) 0 l.

(** The chunk's free-list byte total. *)
Definition freeBytes (c : DxvkMemoryChunk) : Z :=
  totalLength (DxvkMemoryChunk.m_freeList c).

Definition disjoint (s t : FreeSlice) : Prop :=
  sliceEnd s <= FreeSlice.offset t \/ sliceEnd t <= FreeSlice.offset s.

Definition adjacent (s t : FreeSlice) : Prop :=
  sliceEnd s = FreeSlice.offset t \/ sliceEnd t = FreeSlice.offset s.



(** The byte range of a memory object handed out by a chunk. *)
Definition blockOf (m : DxvkMemory) : FreeSlice :=
  FreeSlice.mk (DxvkMemory.m_offset m) (DxvkMemory.m_length m).

(** A request the allocator can receive: a positive size, an alignment
    of at least one, and no overflow of the 64-bit address arithmetic
    in a chunk of [memSize] bytes. *)
Definition validRequest (mem : DxvkDeviceMemory) (size align_ : VkDeviceSize) : Prop :=
  0 < size /\ 1 <= align_ /\ memSize mem + size + 2 * align_ <= 2 ^ 64.

(** The states a chunk over the device memory [mem] goes through, with
    the memory objects that were handed out and not yet returned: it
    is constructed, memory is allocated from it on valid requests, and
    memory objects it handed out are returned to it, each once. *)
Inductive reachable (ty : Z) (mem : DxvkDeviceMemory)
  : DxvkMemoryChunk -> list DxvkMemory -> Prop :=
| reach_new :
    0 <= memSize mem < 2 ^ 64 ->
    reachable ty mem (DxvkMemoryChunk.new ty mem) []
| reach_alloc c live this flags size align_ prio m c' :
    reachable ty mem c live ->
    validRequest mem size align_ ->
    DxvkMemoryChunk.alloc this c flags size align_ prio = (Some m, c') ->
    reachable ty mem c' (m :: live)
| reach_free c live (k : nat) m :
    reachable ty mem c live ->
    live !! k = Some m ->
    reachable ty mem
      (DxvkMemoryChunk.free c (DxvkMemory.m_offset m) (DxvkMemory.m_length m))
      (delete k live).

(** *** Arithmetic of [align] *)

Lemma Zland_le_r a b : 0 <= a -> 0 <= b -> Z.land a b <= b.
Proof.
  intros Ha Hb.
  rewrite <- (Z2N.id a), <- (Z2N.id b) by assumption.
  rewrite <- N2Z.inj_land. apply N2Z.inj_le, N.land_le_r.
Qed.

Lemma land_lnot_bounds y m :
  0 <= y -> 0 <= m -> y - m <= Z.land y (Z.lnot m) <= y.
Proof.
  intros Hy Hm. rewrite <- Z.ldiff_land.
  assert (E : Z.ldiff y m + Z.land y m = y).
  { rewrite Z.add_nocarry_lor.
    - apply Z.lor_ldiff_and.
    - rewrite (Z.land_comm y m), Z.land_assoc, Z.land_ldiff. reflexivity. }
  assert (0 <= Z.land y m) by (apply Z.land_nonneg; auto).
  assert (Z.land y m <= m) by (apply Zland_le_r; assumption).
  lia.
Qed.

Lemma u64_small x : 0 <= x < 2 ^ 64 -> u64 x = x.
Proof. intros H. unfold u64. apply Z.mod_small. exact H. Qed.

Lemma align_bounds x a :
  0 <= x -> 1 <= a -> x + a <= 2 ^ 64 ->
  x <= align x a <= x + a - 1.
Proof.
  intros Hx Ha Hb. unfold align.
  rewrite !u64_small by lia.
  pose proof (land_lnot_bounds (x + a - 1) (a - 1)). lia.
Qed.

(** *** Lists of slices *)

Lemma totalLength_app l1 l2 :
  totalLength (l1 ++ l2) = totalLength l1 + totalLength l2.
Proof. unfold totalLength. induction l1; simpl; lia. Qed.

Lemma totalLength_delete (l : list FreeSlice) i s :
  l !! i = Some s ->
  totalLength l = FreeSlice.length s + totalLength (delete i l).
Proof.
  revert i. induction l as [|x l IH]; intros [|i] H; simpl in *; try discriminate.
  - injection H as ->. reflexivity.
  - fold (totalLength l). fold (totalLength (delete i l)).
    rewrite (IH i H). lia.
Qed.

Lemma totalLength_pushIf b s l :
  totalLength (DxvkMemoryChunk.pushIf b s l)
  = totalLength l + (if b then FreeSlice.length s else 0).
Proof.
  destruct b; simpl; [|lia].
  rewrite totalLength_app. simpl. lia.
Qed.

Lemma pickSlice_range slices size i best bestLen :
  let r := DxvkMemoryChunk.pickSlice slices size i best bestLen in
  r = best \/ (i <= r < i + List.length slices)%nat.
Proof.
  revert i best bestLen.
  induction slices as [|s rest IH]; intros i best bestLen; simpl; [tauto|].
  destruct (FreeSlice.length s =? size); [right; lia|].
  destruct (FreeSlice.length s >? bestLen).
  - destruct (IH (S i) i (FreeSlice.length s)) as [->|?]; right; lia.
  - destruct (IH (S i) best bestLen) as [->|?]; [tauto | right; lia].
Qed.

Lemma bestSliceIndex_lt (l : list FreeSlice) size :
  l <> [] -> (DxvkMemoryChunk.bestSliceIndex l size < List.length l)%nat.
Proof.
  destruct l as [|s rest]; [congruence|]. intros _.
  unfold DxvkMemoryChunk.bestSliceIndex.
  pose proof (pickSlice_range (s :: rest) size 0 0 (FreeSlice.length s)) as H.
  cbv zeta in H. destruct H as [->|H]; simpl in *; lia.
Qed.

(** *** The effect of [alloc] and [free] on a free list *)

(** A slice that lies inside a chunk of [M] bytes. *)
Definition inChunk (M : Z) (s : FreeSlice) : Prop :=
  0 <= FreeSlice.offset s /\ 0 <= FreeSlice.length s /\ sliceEnd s <= M.

(** Disjoint and not adjacent: one slice ends strictly before the other
    begins. *)
Definition separated (s t : FreeSlice) : Prop :=
  sliceEnd s < FreeSlice.offset t \/ sliceEnd t < FreeSlice.offset s.

Ltac slices :=
  unfold separated, disjoint, adjacent, inChunk, sliceEnd, blockOf in *;
  simpl in *.

Lemma alloc_inv this c flags size a prio m c' M :
  Forall (inChunk M) (DxvkMemoryChunk.m_freeList c) ->
  0 < size -> 1 <= a -> M + size + 2 * a <= 2 ^ 64 ->
  DxvkMemoryChunk.alloc this c flags size a prio = (Some m, c') ->
  exists (i : nat) (s : FreeSlice),
    DxvkMemoryChunk.m_freeList c !! i = Some s
    /\ FreeSlice.offset s <= DxvkMemory.m_offset m
    /\ size <= DxvkMemory.m_length m
    /\ DxvkMemory.m_offset m + DxvkMemory.m_length m <= sliceEnd s
    /\ DxvkMemory.m_chunk m = Some this
    /\ DxvkMemoryChunk.m_memory c' = DxvkMemoryChunk.m_memory c
    /\ DxvkMemoryChunk.m_freeList c' =
         DxvkMemoryChunk.pushIf
           (negb (DxvkMemory.m_offset m + DxvkMemory.m_length m =? sliceEnd s))
           (FreeSlice.mk (DxvkMemory.m_offset m + DxvkMemory.m_length m)
              (sliceEnd s - (DxvkMemory.m_offset m + DxvkMemory.m_length m)))
           (DxvkMemoryChunk.pushIf
              (negb (DxvkMemory.m_offset m =? FreeSlice.offset s))
              (FreeSlice.mk (FreeSlice.offset s)
                 (DxvkMemory.m_offset m - FreeSlice.offset s))
              (delete i (DxvkMemoryChunk.m_freeList c))).
Proof.
  intros Hin Hsize Ha Hbound. unfold DxvkMemoryChunk.alloc.
  destruct (_ || _); [discriminate|].
  set (i := DxvkMemoryChunk.bestSliceIndex _ _).
  destruct (DxvkMemoryChunk.m_freeList c !! i) as [s|] eqn:Hs; [|discriminate].
  pose proof (proj1 (Forall_lookup _ _) Hin i s Hs) as (Ho & Hl & He).
  unfold sliceEnd in He.
  pose proof (align_bounds (FreeSlice.offset s) a).
  set (allocStart := align (FreeSlice.offset s) a) in *.
  rewrite (u64_small (FreeSlice.offset s + FreeSlice.length s)) by lia.
  rewrite (u64_small (allocStart + size)) by lia.
  pose proof (align_bounds (allocStart + size) a).
  set (allocEnd := align (allocStart + size) a) in *.
  destruct (Z.gtb_spec allocEnd (FreeSlice.offset s + FreeSlice.length s));
    [discriminate|].
  intros H'. injection H' as <- <-. simpl.
  rewrite !u64_small by lia.
  exists i, s. unfold sliceEnd.
  replace (allocStart + (allocEnd - allocStart)) with allocEnd by lia.
  repeat split; try lia; try reflexivity; assumption.
Qed.

Lemma free_loop_basic M l : forall o len kept o' len',
  M < 2 ^ 64 -> Forall (inChunk M) l ->
  0 <= o -> 0 <= len -> o + len <= M ->
  DxvkMemoryChunk.free_loop l o len = (kept, o', len') ->
  sublist kept l /\ 0 <= o' /\ o' <= o /\ o + len <= o' + len'
  /\ o' + len' <= M
  /\ totalLength kept + len' = totalLength l + len.
Proof.
  induction l as [|curr rest IH]; intros o len kept o' len' HM Hin Ho Hlen Hend; simpl.
  - intros H. injection H as <- <- <-. repeat split; try lia. constructor.
  - apply Forall_cons in Hin as [(Hco & Hcl & Hce) Hin]. unfold sliceEnd in Hce.
    rewrite (u64_small (o + len)) by lia.
    rewrite (u64_small (FreeSlice.offset curr + FreeSlice.length curr)) by lia.
    destruct (Z.eqb_spec (FreeSlice.offset curr) (o + len)) as [E1|N1].
    + rewrite u64_small by lia. intros H.
      apply IH in H; try assumption; try lia.
      destruct H as (Hs & ? & ? & ? & ? & Hsum).
      fold (totalLength rest).
      repeat split; try lia. apply sublist_cons. assumption.
    + destruct (Z.eqb_spec (FreeSlice.offset curr + FreeSlice.length curr) o) as [E2|N2].
      * rewrite !u64_small by lia. intros H.
        apply IH in H; try assumption; try lia.
        destruct H as (Hs & ? & ? & ? & ? & Hsum).
        fold (totalLength rest).
        repeat split; try lia. apply sublist_cons. assumption.
      * destruct (DxvkMemoryChunk.free_loop rest o len) as [[k1 o1] l1] eqn:Hrest.
        intros H. injection H as <- <- <-.
        apply IH in Hrest; try assumption.
        destruct Hrest as (Hs & ? & ? & ? & ? & Hsum).
        fold (totalLength rest).
        change (totalLength (curr :: k1))
          with (FreeSlice.length curr + totalLength k1).
        repeat split; try lia. apply sublist_skip. assumption.
Qed.

(** A slice away from the block being freed and from every free slice
    is away from the block that [free] inserts. *)
Lemma free_loop_separated M l : forall o len kept o' len' x,
  M < 2 ^ 64 -> Forall (inChunk M) l ->
  0 <= o -> 0 <= len -> o + len <= M ->
  DxvkMemoryChunk.free_loop l o len = (kept, o', len') ->
  0 <= FreeSlice.length x ->
  separated x (FreeSlice.mk o len) -> Forall (separated x) l ->
  separated x (FreeSlice.mk o' len').
Proof.
  induction l as [|curr rest IH];
    intros o len kept o' len' x HM Hin Ho Hlen Hend; simpl.
  - intros H. injection H as <- <- <-. auto.
  - apply Forall_cons in Hin as [(Hco & Hcl & Hce) Hin]. unfold sliceEnd in Hce.
    rewrite (u64_small (o + len)) by lia.
    rewrite (u64_small (FreeSlice.offset curr + FreeSlice.length curr)) by lia.
    intros H Hx Hsep Hall. apply Forall_cons in Hall as [Hxc Hall].
    destruct (Z.eqb_spec (FreeSlice.offset curr) (o + len)) as [E1|N1].
    + rewrite u64_small in H by lia.
      eapply IH in H; eauto; try lia. slices. lia.
    + destruct (Z.eqb_spec (FreeSlice.offset curr + FreeSlice.length curr) o) as [E2|N2].
      * rewrite !u64_small in H by lia.
        eapply IH in H; eauto; try lia. slices. lia.
      * destruct (DxvkMemoryChunk.free_loop rest o len) as [[k1 o1] l1] eqn:Hrest.
        injection H as <- <- <-. eapply (IH o len k1 o1 l1 x); eauto.
Qed.

(** The same for a non-empty range that is merely disjoint from them,
    such as another memory object still in use. *)
Lemma free_loop_disjoint M l : forall o len kept o' len' x,
  M < 2 ^ 64 -> Forall (inChunk M) l ->
  0 <= o -> 0 <= len -> o + len <= M ->
  DxvkMemoryChunk.free_loop l o len = (kept, o', len') ->
  0 < FreeSlice.length x ->
  disjoint x (FreeSlice.mk o len) -> Forall (disjoint x) l ->
  disjoint x (FreeSlice.mk o' len').
Proof.
  induction l as [|curr rest IH];
    intros o len kept o' len' x HM Hin Ho Hlen Hend; simpl.
  - intros H. injection H as <- <- <-. auto.
  - apply Forall_cons in Hin as [(Hco & Hcl & Hce) Hin]. unfold sliceEnd in Hce.
    rewrite (u64_small (o + len)) by lia.
    rewrite (u64_small (FreeSlice.offset curr + FreeSlice.length curr)) by lia.
    intros H Hx Hsep Hall. apply Forall_cons in Hall as [Hxc Hall].
    destruct (Z.eqb_spec (FreeSlice.offset curr) (o + len)) as [E1|N1].
    + rewrite u64_small in H by lia.
      eapply IH in H; eauto; try lia. slices. lia.
    + destruct (Z.eqb_spec (FreeSlice.offset curr + FreeSlice.length curr) o) as [E2|N2].
      * rewrite !u64_small in H by lia.
        eapply IH in H; eauto; try lia. slices. lia.
      * destruct (DxvkMemoryChunk.free_loop rest o len) as [[k1 o1] l1] eqn:Hrest.
        injection H as <- <- <-. eapply (IH o len k1 o1 l1 x); eauto.
Qed.

(** The entries [free] keeps are away from the block it inserts. *)
Lemma free_loop_kept M l : forall o len kept o' len',
  M < 2 ^ 64 -> Forall (inChunk M) l -> ForallOrdPairs separated l ->
  0 <= o -> 0 <= len -> o + len <= M ->
  Forall (disjoint (FreeSlice.mk o len)) l ->
  DxvkMemoryChunk.free_loop l o len = (kept, o', len') ->
  Forall (fun k => separated k (FreeSlice.mk o' len')) kept.
Proof.
  induction l as [|curr rest IH];
    intros o len kept o' len' HM Hin Hpw Ho Hlen Hend Hdis; simpl.
  - intros H. injection H as <- <- <-. constructor.
  - pose proof Hin as Hin0.
    apply Forall_cons in Hin as [(Hco & Hcl & Hce) Hin]. unfold sliceEnd in Hce.
    inversion Hpw as [|? ? Hcr Hpw']; subst.
    apply Forall_cons in Hdis as [Hdc Hdis].
    assert (Hrest : forall o1 len1,
               (o1 = o /\ o1 + len1 = sliceEnd curr
                /\ FreeSlice.offset curr = o + len)
               \/ (o1 = FreeSlice.offset curr /\ o1 + len1 = o + len
                   /\ sliceEnd curr = o) ->
               Forall (disjoint (FreeSlice.mk o1 len1)) rest).
    { intros o1 len1 ?.
      rewrite Forall_forall in Hdis, Hcr, Hin. apply Forall_forall.
      intros t Ht. specialize (Hdis t Ht). specialize (Hcr t Ht).
      destruct (Hin t Ht) as (? & ? & ?). slices. lia. }
    rewrite (u64_small (o + len)) by lia.
    rewrite (u64_small (FreeSlice.offset curr + FreeSlice.length curr)) by lia.
    destruct (Z.eqb_spec (FreeSlice.offset curr) (o + len)) as [E1|N1].
    + rewrite u64_small by lia. intros H.
      eapply IH in H; eauto; try lia. apply Hrest; unfold sliceEnd; lia.
    + destruct (Z.eqb_spec (FreeSlice.offset curr + FreeSlice.length curr) o) as [E2|N2].
      * rewrite !u64_small by lia. intros H.
        eapply IH in H; eauto; try lia. apply Hrest; unfold sliceEnd; lia.
      * destruct (DxvkMemoryChunk.free_loop rest o len) as [[k1 o1] l1] eqn:Hl.
        intros H. injection H as <- <- <-. constructor.
        -- eapply (free_loop_separated M rest o len k1 o1 l1 curr); eauto.
           slices. lia.
        -- eapply (IH o len k1 o1 l1); eauto.
Qed.

(** *** Pairwise relations on lists *)

Section Pairwise.
Context {A : Type} (R : A -> A -> Prop).
Hypothesis R_sym : forall x y, R x y -> R y x.

Lemma Forall_sublist_of (P : A -> Prop) (l1 l2 : list A) :
  sublist l1 l2 -> Forall P l2 -> Forall P l1.
Proof.
  induction 1 as [|x l1 l2 _ IH|x l1 l2 _ IH]; intros H.
  - constructor.
  - apply Forall_cons in H as [? ?]. constructor; auto.
  - apply Forall_cons in H as [? ?]. auto.
Qed.

Lemma FOP_sublist (l1 l2 : list A) :
  sublist l1 l2 -> ForallOrdPairs R l2 -> ForallOrdPairs R l1.
Proof.
  induction 1 as [|x l1 l2 Hs IH|x l1 l2 _ IH]; intros H.
  - constructor.
  - inversion H; subst. constructor; auto.
    eapply Forall_sublist_of; eauto.
  - inversion H; subst. auto.
Qed.

Lemma FOP_snoc (l : list A) (x : A) :
  ForallOrdPairs R l -> Forall (fun y => R y x) l -> ForallOrdPairs R (l ++ [x]).
Proof.
  induction 1 as [|a l Ha _ IH]; intros H; simpl.
  - repeat constructor.
  - apply Forall_cons in H as [? ?]. constructor; auto.
    apply Forall_app. split; auto.
Qed.

Lemma FOP_lookup_delete (l : list A) : forall (i : nat) (x : A),
  ForallOrdPairs R l -> l !! i = Some x -> Forall (R x) (delete i l).
Proof.
  induction l as [|a l IH]; intros [|i] x H Hx; simpl in *; try discriminate;
    inversion H; subst.
  - injection Hx as ->. assumption.
  - constructor; [|eauto].
    apply R_sym. eapply Forall_lookup_1; eauto.
Qed.

Lemma FOP_lookup (l : list A) (i j : nat) (x y : A) :
  ForallOrdPairs R l -> i <> j -> l !! i = Some x -> l !! j = Some y -> R x y.
Proof.
  intros H Hij Hx Hy.
  pose proof (FOP_lookup_delete l i x H Hx) as Hd.
  destruct (lt_dec j i) as [Hlt|Hge].
  - eapply Forall_lookup_1; [exact Hd|].
    rewrite list_lookup_delete_lt by exact Hlt. exact Hy.
  - destruct j as [|j]; [lia|].
    eapply (Forall_lookup_1 _ _ j); [exact Hd|].
    rewrite list_lookup_delete_ge by lia. exact Hy.
Qed.

End Pairwise.

Lemma separated_sym s t : separated s t -> separated t s.
Proof. unfold separated. tauto. Qed.

Lemma disjoint_sym s t : disjoint s t -> disjoint t s.
Proof. unfold disjoint. tauto. Qed.

(** *** The invariant of a chunk *)

Definition liveBlock (M : Z) (m : DxvkMemory) : Prop :=
  0 <= DxvkMemory.m_offset m /\ 0 < DxvkMemory.m_length m
  /\ DxvkMemory.m_offset m + DxvkMemory.m_length m <= M.

Record chunkInv (mem : DxvkDeviceMemory) (c : DxvkMemoryChunk)
  (live : list DxvkMemory) : Prop := {
  inv_mem : DxvkMemoryChunk.m_memory c = mem;
  inv_size : 0 <= memSize mem < 2 ^ 64;
  inv_in : Forall (inChunk (memSize mem)) (DxvkMemoryChunk.m_freeList c);
  inv_sep : ForallOrdPairs separated (DxvkMemoryChunk.m_freeList c);
  inv_live : Forall (liveBlock (memSize mem)) live;
  inv_live_dis :
    ForallOrdPairs (fun m1 m2 => disjoint (blockOf m1) (blockOf m2)) live;
  inv_live_free :
    Forall (fun m => Forall (disjoint (blockOf m)) (DxvkMemoryChunk.m_freeList c))
           live;
}.

Lemma chunkInv_new ty mem :
  0 <= memSize mem < 2 ^ 64 -> chunkInv mem (DxvkMemoryChunk.new ty mem) [].
Proof.
  intros H. split; simpl; auto; repeat constructor; slices; lia.
Qed.

Lemma Forall_pushIf (P : FreeSlice -> Prop) b s l :
  Forall P l -> (b = true -> P s) -> Forall P (DxvkMemoryChunk.pushIf b s l).
Proof.
  intros Hl Hs. destruct b; simpl; auto.
  apply Forall_app. split; auto.
Qed.

Lemma FOP_pushIf b s l :
  ForallOrdPairs separated l -> (b = true -> Forall (fun y => separated y s) l) ->
  ForallOrdPairs separated (DxvkMemoryChunk.pushIf b s l).
Proof.
  intros Hl Hs. destruct b; simpl; auto. apply FOP_snoc; auto.
Qed.

Lemma chunkInv_alloc mem c live this flags size a prio m c' :
  chunkInv mem c live -> validRequest mem size a ->
  DxvkMemoryChunk.alloc this c flags size a prio = (Some m, c') ->
  chunkInv mem c' (m :: live).
Proof.
  intros [Hmem HM Hin Hsep Hlive Hdis Hfree] (Hsize & Ha & Hb) Halloc.
  destruct (alloc_inv _ _ _ _ _ _ _ _ (memSize mem) Hin Hsize Ha Hb Halloc)
    as (i & s & Hs & Hlo & Hlen & Hhi & _ & Hmem' & Hlist).
  pose proof (Forall_lookup_1 _ _ _ _ Hin Hs) as (Hso & Hsl & Hse).
  pose proof (FOP_lookup_delete separated separated_sym _ _ _ Hsep Hs) as Hothers.
  pose proof (Forall_sublist_of _ _ _ (sublist_delete _ i) Hin) as Hin_d.
  set (o := DxvkMemory.m_offset m) in *. set (len := DxvkMemory.m_length m) in *.
  assert (Hsub : forall p : FreeSlice,
             FreeSlice.offset s <= FreeSlice.offset p ->
             0 <= FreeSlice.length p -> sliceEnd p <= sliceEnd s ->
             Forall (fun y => separated y p)
                    (delete i (DxvkMemoryChunk.m_freeList c))).
  { intros p ? ? ?. rewrite Forall_forall in Hothers |- *.
    intros t Ht. specialize (Hothers t Ht). slices. lia. }
  split.
  - congruence.
  - assumption.
  - rewrite Hlist. apply Forall_pushIf; [apply Forall_pushIf|]; auto;
      intros _; slices; lia.
  - rewrite Hlist. apply FOP_pushIf; [apply FOP_pushIf|].
    + eapply FOP_sublist; [apply sublist_delete | exact Hsep].
    + intros _. apply Hsub; slices; lia.
    + intros Hne. apply Forall_pushIf.
      * apply Hsub; slices; lia.
      * intros _. slices. lia.
  - constructor; [unfold liveBlock; fold o len; slices; lia | assumption].
  - constructor; [|assumption].
    rewrite Forall_forall in Hfree, Hlive |- *. intros m' Hm'.
    pose proof (Forall_lookup_1 _ _ _ _ (Hfree m' Hm') Hs) as Hd.
    destruct (Hlive m' Hm') as (? & ? & ?).
    slices. fold o len. lia.
  - assert (Hnew : forall P : FreeSlice -> Prop,
               (forall p : FreeSlice,
                   FreeSlice.offset s <= FreeSlice.offset p ->
                   0 <= FreeSlice.length p -> sliceEnd p <= sliceEnd s ->
                   (sliceEnd p <= o \/ o + len <= FreeSlice.offset p) -> P p) ->
               Forall P (delete i (DxvkMemoryChunk.m_freeList c)) ->
               Forall P (DxvkMemoryChunk.m_freeList c')).
    { intros P HP Hd. rewrite Hlist.
      apply Forall_pushIf; [apply Forall_pushIf|]; auto;
        intros _; apply HP; slices; lia. }
    constructor.
    + apply Hnew.
      * intros p ? ? ? ?. slices. fold o len. lia.
      * rewrite Forall_forall in Hothers |- *. intros t Ht.
        specialize (Hothers t Ht). slices. fold o len. lia.
    + rewrite Forall_forall in Hfree, Hlive |- *. intros m' Hm'.
      pose proof (Forall_lookup_1 _ _ _ _ (Hfree m' Hm') Hs) as Hd.
      destruct (Hlive m' Hm') as (? & ? & ?).
      apply Hnew.
      * intros p ? ? ? ?. slices. lia.
      * eapply Forall_sublist_of; [apply sublist_delete | apply Hfree, Hm'].
Qed.

Lemma chunkInv_free mem c live k m :
  chunkInv mem c live -> live !! k = Some m ->
  chunkInv mem
    (DxvkMemoryChunk.free c (DxvkMemory.m_offset m) (DxvkMemory.m_length m))
    (delete k live).
Proof.
  intros [Hmem HM Hin Hsep Hlive Hdis Hfree] Hm.
  pose proof (Forall_lookup_1 _ _ _ _ Hlive Hm) as (Hmo & Hml & Hme).
  pose proof (Forall_lookup_1 _ _ _ _ Hfree Hm) as Hmfree.
  unfold DxvkMemoryChunk.free.
  destruct (DxvkMemoryChunk.free_loop _ _ _) as [[kept o'] len'] eqn:Hloop.
  destruct (free_loop_basic _ _ _ _ _ _ _ (proj2 HM) Hin Hmo
              (Z.lt_le_incl _ _ Hml) Hme Hloop) as (Hsub & ? & ? & ? & ? & _).
  split; simpl.
  - assumption.
  - assumption.
  - apply Forall_app. split.
    + eapply Forall_sublist_of; eauto.
    + repeat constructor; slices; lia.
  - apply FOP_snoc.
    + eapply FOP_sublist; eauto.
    + eapply (free_loop_kept (memSize mem) _ (DxvkMemory.m_offset m)
                (DxvkMemory.m_length m));
        eauto; lia.
  - eapply Forall_sublist_of; [apply sublist_delete | assumption].
  - eapply FOP_sublist; [apply sublist_delete | assumption].
  - pose proof (FOP_lookup_delete _
                  (fun x y => disjoint_sym (blockOf x) (blockOf y))
                  _ _ _ Hdis Hm) as Hm_others.
    pose proof (Forall_sublist_of _ _ _ (sublist_delete _ k) Hfree) as Hf.
    pose proof (Forall_sublist_of _ _ _ (sublist_delete _ k) Hlive) as Hl.
    rewrite Forall_forall in Hm_others, Hf, Hl |- *. intros m' Hm'.
    destruct (Hl m' Hm') as (? & ? & ?).
    apply Forall_app. split.
    + eapply Forall_sublist_of; [exact Hsub | apply Hf, Hm'].
    + constructor; [|constructor].
      eapply (free_loop_disjoint (memSize mem) (DxvkMemoryChunk.m_freeList c)
                (DxvkMemory.m_offset m) (DxvkMemory.m_length m) kept o' len'
                (blockOf m'));
        eauto; try lia.
      apply disjoint_sym, Hm_others, Hm'.
Qed.

Lemma reachable_inv ty mem c live :
  reachable ty mem c live -> chunkInv mem c live.
Proof.
  induction 1.
  - apply chunkInv_new. assumption.
  - eapply chunkInv_alloc; eauto.
  - eapply chunkInv_free; eauto.
Qed.



(** A chunk of 1024 bytes from which 100 bytes were allocated at
    alignment 16, then 40 bytes at alignment 64. *)
Definition demoMemory : DxvkDeviceMemory :=
  {| memHandle := 7; memPointer := 4096; memSize := 1024;
     memFlags := 6; priority := 0.5%float |}.

Definition demoChunk1 : option DxvkMemory * DxvkMemoryChunk :=
  DxvkMemoryChunk.alloc 0%nat (DxvkMemoryChunk.new 3 demoMemory) 6 100 16 0.5%float.

Definition demoChunk2 : option DxvkMemory * DxvkMemoryChunk :=
  DxvkMemoryChunk.alloc 0%nat (snd demoChunk1) 6 40 64 0.5%float.

Definition demoBlock1 : DxvkMemory :=
  {| DxvkMemory.m_chunk := Some 0%nat; DxvkMemory.m_type := 3;
     DxvkMemory.m_memory := 7; DxvkMemory.m_offset := 0;
     DxvkMemory.m_length := 112; DxvkMemory.m_mapPtr := 4096 |}.

Definition demoBlock2 : DxvkMemory :=
  {| DxvkMemory.m_chunk := Some 0%nat; DxvkMemory.m_type := 3;
     DxvkMemory.m_memory := 7; DxvkMemory.m_offset := 128;
     DxvkMemory.m_length := 64; DxvkMemory.m_mapPtr := 4224 |}.

Example demoChunk1_eq :
  demoChunk1
  = (Some demoBlock1,
     {| DxvkMemoryChunk.m_type := 3; DxvkMemoryChunk.m_memory := demoMemory;
        DxvkMemoryChunk.m_freeList := [FreeSlice.mk 112 912] |}).
Proof. reflexivity. Qed.

Example demoChunk2_eq :
  demoChunk2
  = (Some demoBlock2,
     {| DxvkMemoryChunk.m_type := 3; DxvkMemoryChunk.m_memory := demoMemory;
        DxvkMemoryChunk.m_freeList :=
          [FreeSlice.mk 112 16; FreeSlice.mk 192 832] |}).
Proof. reflexivity. Qed.

Lemma demoChunk1_reachable : reachable 3 demoMemory (snd demoChunk1) [demoBlock1].
Proof.
  eapply (reach_alloc 3 demoMemory _ [] 0%nat 6 100 16 0.5%float).
  - apply reach_new. simpl. lia.
  - unfold validRequest. simpl. lia.
  - reflexivity.
Defined.


(** ** The allocation policy of a memory type *)

Import DxvkMemoryAllocator.

(** The [VkMemoryAllocateInfo] that a device-memory request for [size]
    bytes carries. *)
Definition allocateInfo (s : DxvkMemoryAllocator.t)
  (flags : VkMemoryPropertyFlags) (size : VkDeviceSize) (prio : float)
  (ded : option VkMemoryDedicatedAllocateInfoKHR) : VkMemoryAllocateInfo :=
  {| allocationSize := size;
     memoryTypeIndex := memTypeId (type s);
     pNextPriority :=
       if testFlag flags VK_MEMORY_PROPERTY_DEVICE_LOCAL_BIT && memoryPriority s
       then Some prio else None;
     pNextDedicated := ded |}.

(** The priority [tryAllocFromType] works with: zero unless the memory
    is device-local. *)
Definition effectivePriority (flags : VkMemoryPropertyFlags) (prio : float) : float :=
  if negb (testFlag flags VK_MEMORY_PROPERTY_DEVICE_LOCAL_BIT)
  then 0%float else prio.

(** The slice a chunk allocates from: the first slice of exactly the
    requested size or, when the free list has none of that size, the
    first of its largest slices. *)
Definition firstChoice (l : list FreeSlice) (size : VkDeviceSize)
  (i : nat) (s : FreeSlice) : Prop :=
  l !! i = Some s
  /\ ((FreeSlice.length s = size
       /\ forall (j : nat) t, (j < i)%nat -> l !! j = Some t ->
            FreeSlice.length t <> size)
      \/ (Forall (fun t => FreeSlice.length t <> size
                           /\ FreeSlice.length t <= FreeSlice.length s) l
          /\ forall (j : nat) t, (j < i)%nat -> l !! j = Some t ->
               FreeSlice.length t < FreeSlice.length s)).

(** The device memory that the driver's next answer grants to a request
    of [tryAllocDeviceMemory], if it grants any: the allocation and,
    for host-visible memory, the mapping succeed, and the handle is not
    null. *)
Definition granted (s : DxvkMemoryAllocator.t) (flags : VkMemoryPropertyFlags)
  (size : VkDeviceSize) (prio : float) : option DxvkDeviceMemory :=
  match vkAnswers s with
  | [] => None
  | answer :: _ =>
      match allocateMemory answer,
            (if testFlag flags VK_MEMORY_PROPERTY_HOST_VISIBLE_BIT
             then mapMemory answer else Some 0) with
      | Some handle, Some pointer =>
          if handle =? VK_NULL_HANDLE then None
          else Some {| memHandle := handle; memPointer := pointer;
                       memSize := size; memFlags := flags; priority := prio |}
      | _, _ => None
      end
  end.

(** The memory object for device memory that is handed out whole. *)
Definition dedicatedMemory (s : DxvkMemoryAllocator.t) (size : VkDeviceSize)
  (devMem : DxvkDeviceMemory) : DxvkMemory :=
  {| DxvkMemory.m_chunk := None;
     DxvkMemory.m_type := memTypeId (type s);
     DxvkMemory.m_memory := memHandle devMem;
     DxvkMemory.m_offset := 0;
     DxvkMemory.m_length := size;
     DxvkMemory.m_mapPtr := memPointer devMem |}.

Lemma pickSlice_firstChoice (l : list FreeSlice) size :
  forall rest pre best sb,
    l = pre ++ rest -> l !! best = Some sb ->
    Forall (fun t => FreeSlice.length t <> size
                     /\ FreeSlice.length t <= FreeSlice.length sb) pre ->
    (forall (j : nat) t, (j < best)%nat -> l !! j = Some t ->
       FreeSlice.length t < FreeSlice.length sb) ->
    exists s,
      firstChoice l size
        (DxvkMemoryChunk.pickSlice rest size (List.length pre) best
           (FreeSlice.length sb)) s.
Proof.
  induction rest as [|x rest IH]; intros pre best sb Hl Hb Hpre Hfirst; simpl.
  - exists sb. split; [assumption|]. right.
    rewrite app_nil_r in Hl. subst l. split; assumption.
  - assert (Hx : l !! List.length pre = Some x).
    { subst l. rewrite lookup_app_r by lia.
      replace (List.length pre - List.length pre)%nat with 0%nat by lia.
      reflexivity. }
    assert (Hl' : l = (pre ++ [x]) ++ rest) by (rewrite <- app_assoc; exact Hl).
    assert (Hlen : List.length (pre ++ [x]) = S (List.length pre))
      by (rewrite length_app; simpl; lia).
    assert (Hbefore : forall (j : nat) t,
               (j < List.length pre)%nat -> l !! j = Some t ->
               FreeSlice.length t <> size
               /\ FreeSlice.length t <= FreeSlice.length sb).
    { intros j t Hj Ht. subst l. rewrite lookup_app_l in Ht by exact Hj.
      exact (proj1 (Forall_lookup _ _) Hpre j t Ht). }
    destruct (Z.eqb_spec (FreeSlice.length x) size) as [E|N].
    + exists x. split; [assumption|]. left. split; [assumption|].
      intros j t Hj Ht. exact (proj1 (Hbefore j t Hj Ht)).
    + destruct (Z.gtb_spec (FreeSlice.length x) (FreeSlice.length sb)) as [G|G].
      * rewrite <- Hlen. apply IH; auto.
        -- apply Forall_app. split.
           ++ eapply Forall_impl; [exact Hpre|]. simpl.
              intros t [? ?]. split; [auto|lia].
           ++ repeat constructor; [assumption | lia].
        -- intros j t Hj Ht. pose proof (Hbefore j t Hj Ht). lia.
      * rewrite <- Hlen. apply IH; auto.
        apply Forall_app. split; [exact Hpre|].
        repeat constructor; [assumption | lia].
Qed.

Lemma bestSliceIndex_firstChoice (l : list FreeSlice) size :
  l <> [] ->
  exists s, firstChoice l size (DxvkMemoryChunk.bestSliceIndex l size) s.
Proof.
  destruct l as [|first rest]; [congruence|]. intros _.
  unfold DxvkMemoryChunk.bestSliceIndex.
  apply (pickSlice_firstChoice (first :: rest) size (first :: rest) [] 0%nat first);
    [reflexivity | reflexivity | constructor | intros j t Hj; lia].
Qed.

Lemma alloc_failed this c flags size a prio c' :
  DxvkMemoryChunk.alloc this c flags size a prio = (None, c') -> c' = c.
Proof.
  unfold DxvkMemoryChunk.alloc.
  destruct (_ || _); [congruence|].
  destruct (_ !! _); [|congruence].
  destruct (_ >? _); [congruence | discriminate].
Qed.

(** [alloc] on a chunk of the right flags and priority that has free
    slices: the one slice it tries, and what it answers. *)
Lemma alloc_firstChoice this c flags size a prio :
  memFlags (DxvkMemoryChunk.m_memory c) = flags ->
  PrimFloat.eqb (priority (DxvkMemoryChunk.m_memory c)) prio = true ->
  DxvkMemoryChunk.m_freeList c <> [] ->
  exists i sl,
    firstChoice (DxvkMemoryChunk.m_freeList c) size i sl
    /\ let allocStart := align (FreeSlice.offset sl) a in
       let allocEnd := align (u64 (allocStart + size)) a in
       if allocEnd >? u64 (FreeSlice.offset sl + FreeSlice.length sl)
       then DxvkMemoryChunk.alloc this c flags size a prio = (None, c)
       else fst (DxvkMemoryChunk.alloc this c flags size a prio)
            = Some {| DxvkMemory.m_chunk := Some this;
                      DxvkMemory.m_type := DxvkMemoryChunk.m_type c;
                      DxvkMemory.m_memory := memHandle (DxvkMemoryChunk.m_memory c);
                      DxvkMemory.m_offset := allocStart;
                      DxvkMemory.m_length := u64 (allocEnd - allocStart);
                      DxvkMemory.m_mapPtr :=
                        memPointer (DxvkMemoryChunk.m_memory c) + allocStart |}.
Proof.
  intros Hf Hp Hne.
  destruct (bestSliceIndex_firstChoice (DxvkMemoryChunk.m_freeList c) size Hne)
    as (sl & Hsl).
  exists (DxvkMemoryChunk.bestSliceIndex (DxvkMemoryChunk.m_freeList c) size), sl.
  split; [exact Hsl|].
  unfold DxvkMemoryChunk.alloc.
  rewrite (proj2 (Z.eqb_eq _ _) Hf), Hp. cbn [negb orb].
  rewrite (proj1 Hsl). cbn zeta.
  destruct (_ >? _); reflexivity.
Qed.

Lemma alloc_rejected this c flags size a prio :
  memFlags (DxvkMemoryChunk.m_memory c) <> flags
  \/ PrimFloat.eqb (priority (DxvkMemoryChunk.m_memory c)) prio = false
  \/ DxvkMemoryChunk.m_freeList c = [] ->
  DxvkMemoryChunk.alloc this c flags size a prio = (None, c).
Proof.
  unfold DxvkMemoryChunk.alloc. intros [H|[H|H]].
  - rewrite (proj2 (Z.eqb_neq _ _) H). reflexivity.
  - rewrite H. rewrite orb_true_r. reflexivity.
  - destruct (_ || _); [reflexivity|]. rewrite H. reflexivity.
Qed.

Lemma alloc_uses_first this c flags size a prio m c' :
  DxvkMemoryChunk.alloc this c flags size a prio = (Some m, c') ->
  exists i sl,
    firstChoice (DxvkMemoryChunk.m_freeList c) size i sl
    /\ In sl (DxvkMemoryChunk.m_freeList c)
    /\ DxvkMemory.m_offset m = align (FreeSlice.offset sl) a
    /\ DxvkMemory.m_chunk m = Some this
    /\ memFlags (DxvkMemoryChunk.m_memory c) = flags.
Proof.
  intros Ha.
  destruct (Z.eq_dec (memFlags (DxvkMemoryChunk.m_memory c)) flags) as [Hf|Hf];
    [|rewrite alloc_rejected in Ha by auto; discriminate].
  destruct (PrimFloat.eqb (priority (DxvkMemoryChunk.m_memory c)) prio) eqn:Hp;
    [|rewrite alloc_rejected in Ha by auto; discriminate].
  destruct (DxvkMemoryChunk.m_freeList c) as [|first rest] eqn:El;
    [rewrite alloc_rejected in Ha by auto; discriminate|].
  destruct (alloc_firstChoice this c flags size a prio Hf Hp) as (i & sl & Hsl & Hres);
    [rewrite El; discriminate|].
  rewrite El in Hsl. exists i, sl. cbn zeta in Hres.
  destruct (_ >? _); [rewrite Hres in Ha; discriminate|].
  rewrite Ha in Hres. cbn [fst] in Hres. injection Hres as ->.
  split; [exact Hsl|]. split; [|auto].
  apply (proj1 (list_elem_of_In (first :: rest) sl)).
  eapply list_elem_of_lookup_2. exact (proj1 Hsl).
Qed.

Lemma align_zero a : align 0 a = 0.
Proof. unfold align. rewrite Z.add_0_l. apply Z.land_lnot_diag. Qed.

(** [alloc] on a chunk that was just created. *)
Lemma alloc_fresh this ty devMem size a :
  0 <= size -> 1 <= a -> size + a <= 2 ^ 64 ->
  0 <= memSize devMem < 2 ^ 64 ->
  PrimFloat.eqb (priority devMem) (priority devMem) = true ->
  fst (DxvkMemoryChunk.alloc this (DxvkMemoryChunk.new ty devMem)
         (memFlags devMem) size a (priority devMem))
  = if align size a >? memSize devMem then None
    else Some {| DxvkMemory.m_chunk := Some this;
                 DxvkMemory.m_type := ty;
                 DxvkMemory.m_memory := memHandle devMem;
                 DxvkMemory.m_offset := 0;
                 DxvkMemory.m_length := align size a;
                 DxvkMemory.m_mapPtr := memPointer devMem |}.
Proof.
  intros Hsize Ha Hb Hmem Hp.
  pose proof (align_bounds size a Hsize Ha Hb) as Hal.
  unfold DxvkMemoryChunk.alloc, DxvkMemoryChunk.new.
  cbn [DxvkMemoryChunk.m_memory DxvkMemoryChunk.m_freeList DxvkMemoryChunk.m_type].
  rewrite Z.eqb_refl, Hp. cbn [negb orb].
  assert (Hbest : DxvkMemoryChunk.bestSliceIndex
                    [FreeSlice.mk 0 (memSize devMem)] size = 0%nat).
  { unfold DxvkMemoryChunk.bestSliceIndex, DxvkMemoryChunk.pickSlice.
    cbn [FreeSlice.length].
    destruct (_ =? _); [reflexivity|]. destruct (_ >? _); reflexivity. }
  rewrite Hbest. cbn [lookup list_lookup FreeSlice.offset FreeSlice.length].
  cbn zeta. rewrite align_zero, !Z.add_0_l, Z.sub_0_r, Z.add_0_r.
  rewrite (u64_small size), (u64_small (memSize devMem)), (u64_small (align size a))
    by lia.
  destruct (_ >? _); reflexivity.
Qed.

Lemma allocFromChunks_hit flags size a prio :
  forall cs (base i : nat) c m c',
    cs !! i = Some c ->
    DxvkMemoryChunk.alloc (base + i)%nat c flags size a prio = (Some m, c') ->
    (forall (j : nat) cj, (j < i)%nat -> cs !! j = Some cj ->
       fst (DxvkMemoryChunk.alloc (base + j)%nat cj flags size a prio) = None) ->
    allocFromChunks cs base flags size a prio = (Some m, <[i := c']> cs).
Proof.
  induction cs as [|c0 cs IH]; intros base i c m c' Hi Ha Hbefore;
    [discriminate|]. simpl.
  destruct i as [|i]; simpl in *.
  - injection Hi as ->. rewrite Nat.add_0_r in Ha. rewrite Ha. reflexivity.
  - pose proof (Hbefore 0%nat c0 ltac:(lia) eq_refl) as H0.
    rewrite Nat.add_0_r in H0.
    destruct (DxvkMemoryChunk.alloc base c0 flags size a prio) as [[m0|] c0'] eqn:E0;
      [discriminate|].
    apply alloc_failed in E0 as ->.
    rewrite (IH (S base) i c m c'); auto.
    + replace (S base + i)%nat with (base + S i)%nat by lia. exact Ha.
    + intros j cj Hj Hcj.
      replace (S base + j)%nat with (base + S j)%nat by lia.
      apply (Hbefore (S j) cj); [lia | exact Hcj].
Qed.

Lemma allocFromChunks_miss flags size a prio :
  forall cs (base : nat),
    (forall (j : nat) cj, cs !! j = Some cj ->
       fst (DxvkMemoryChunk.alloc (base + j)%nat cj flags size a prio) = None) ->
    allocFromChunks cs base flags size a prio = (None, cs).
Proof.
  induction cs as [|c0 cs IH]; intros base Hall; [reflexivity|]. simpl.
  pose proof (Hall 0%nat c0 eq_refl) as H0. rewrite Nat.add_0_r in H0.
  destruct (DxvkMemoryChunk.alloc base c0 flags size a prio) as [[m0|] c0'] eqn:E0;
    [discriminate|].
  apply alloc_failed in E0 as ->.
  rewrite IH; [reflexivity|].
  intros j cj Hcj. replace (S base + j)%nat with (base + S j)%nat by lia.
  apply (Hall (S j) cj Hcj).
Qed.

Lemma tryAllocDeviceMemory_granted s flags size prio ded :
  exists d s',
    tryAllocDeviceMemory s flags size prio ded = (d, s')
    /\ vkAllocateCalls s' = vkAllocateCalls s ++ [allocateInfo s flags size prio ded]
    /\ type s' = type s
    /\ chunkSize (heap s') = chunkSize (heap s)
    /\ match granted s flags size prio with
       | Some devMem => d = devMem /\ (memHandle d =? VK_NULL_HANDLE) = false
       | None => (memHandle d =? VK_NULL_HANDLE) = true
       end.
Proof.
  unfold tryAllocDeviceMemory, vkCall, granted.
  fold (allocateInfo s flags size prio ded).
  destruct (vkAnswers s) as [|answer rest]; simpl.
  - eexists _, _. repeat split; reflexivity.
  - destruct (allocateMemory answer) as [h|].
    + destruct (if testFlag flags VK_MEMORY_PROPERTY_HOST_VISIBLE_BIT
                then mapMemory answer else Some 0).
      * eexists _, _. split; [reflexivity|]. repeat (split; [reflexivity|]).
        destruct (h =? VK_NULL_HANDLE) eqn:Eh; cbn; auto.
      * eexists _, _. repeat split; reflexivity.
    + eexists _, _. repeat split; reflexivity.
Qed.

Lemma accountUsed_frame r s r' s' :
  accountUsed (r, s) = (r', s') ->
  r' = r /\ vkAllocateCalls s' = vkAllocateCalls s /\ type s' = type s.
Proof.
  unfold accountUsed. destruct r; intros H; injection H as <- <-; auto.
Qed.

(** C4 (as amended). A request of at least a quarter of the chunk size
    (in integer arithmetic), or one with a dedicated-allocation hint,
    asks the driver for device memory of the requested size and touches
    no chunk; the memory is handed out whole exactly when the driver
    grants it. Any other request is served by the first chunk of the
    type, in order, whose [alloc] succeeds, without a call to the
    driver; when every chunk fails, the driver is asked once for a
    chunk of the heap's chunk size: when the driver refuses, the
    request fails and the chunks are as before, and when it grants the
    memory, the new chunk is appended to the chunks and allocated
    from, at offset 0 whenever the aligned size fits the chunk. Within
    a chunk of the right flags and priority, the one slice tried is
    the first of exactly the requested size or, when there is none,
    the first of the largest ones: the chunk serves the request if the
    aligned request fits that slice, and fails otherwise. *)
Theorem tryAllocFromType_policy (s : DxvkMemoryAllocator.t)
  (flags : VkMemoryPropertyFlags) (size align_ : VkDeviceSize) (prio : float)
  (ded : option VkMemoryDedicatedAllocateInfoKHR) :
  ((chunkSize (heap s) / 4 <= size \/ is_Some ded) ->
   exists r s',
     tryAllocFromType s flags size align_ prio ded = (r, s')
     /\ vkAllocateCalls s'
        = vkAllocateCalls s
          ++ [allocateInfo s flags size (effectivePriority flags prio) ded]
     /\ chunks (type s') = chunks (type s)
     /\ r = dedicatedMemory s size
              <$> granted s flags size (effectivePriority flags prio)
     /\ forall m, r = Some m ->
          DxvkMemory.m_chunk m = None /\ DxvkMemory.m_offset m = 0
          /\ DxvkMemory.m_length m = size)
  /\ (size < chunkSize (heap s) / 4 -> ded = None ->
      (forall (i : nat) c m c',
          chunks (type s) !! i = Some c ->
          DxvkMemoryChunk.alloc i c flags size align_
            (effectivePriority flags prio) = (Some m, c') ->
          (forall (j : nat) cj, (j < i)%nat -> chunks (type s) !! j = Some cj ->
             fst (DxvkMemoryChunk.alloc j cj flags size align_
                    (effectivePriority flags prio)) = None) ->
          exists s',
            tryAllocFromType s flags size align_ prio ded = (Some m, s')
            /\ vkAllocateCalls s' = vkAllocateCalls s
            /\ chunks (type s') = <[i := c']> (chunks (type s)))
      /\ ((forall (j : nat) cj, chunks (type s) !! j = Some cj ->
             fst (DxvkMemoryChunk.alloc j cj flags size align_
                    (effectivePriority flags prio)) = None) ->
          exists r s',
            tryAllocFromType s flags size align_ prio ded = (r, s')
            /\ vkAllocateCalls s'
               = vkAllocateCalls s
                 ++ [allocateInfo s flags (chunkSize (heap s))
                       (effectivePriority flags prio) None]
            /\ match granted s flags (chunkSize (heap s))
                       (effectivePriority flags prio) with
               | None => r = None /\ chunks (type s') = chunks (type s)
               | Some devMem =>
                   (r, chunks (type s'))
                   = (let fresh :=
                        DxvkMemoryChunk.alloc
                          (List.length (chunks (type s)))
                          (DxvkMemoryChunk.new (memTypeId (type s)) devMem)
                          flags size align_ (effectivePriority flags prio) in
                      (fst fresh, chunks (type s) ++ [snd fresh]))
                   /\ (0 <= size -> 1 <= align_ -> size + align_ <= 2 ^ 64 ->
                       chunkSize (heap s) < 2 ^ 64 ->
                       PrimFloat.eqb (effectivePriority flags prio)
                                     (effectivePriority flags prio) = true ->
                       r = if align size align_ >? chunkSize (heap s) then None
                           else Some
                                  {| DxvkMemory.m_chunk :=
                                       Some (List.length (chunks (type s)));
                                     DxvkMemory.m_type := memTypeId (type s);
                                     DxvkMemory.m_memory := memHandle devMem;
                                     DxvkMemory.m_offset := 0;
                                     DxvkMemory.m_length := align size align_;
                                     DxvkMemory.m_mapPtr := memPointer devMem |})
               end))
  /\ (forall this c m c',
        DxvkMemoryChunk.alloc this c flags size align_
          (effectivePriority flags prio) = (Some m, c') ->
        exists i sl,
          firstChoice (DxvkMemoryChunk.m_freeList c) size i sl
          /\ In sl (DxvkMemoryChunk.m_freeList c)
          /\ DxvkMemory.m_offset m = align (FreeSlice.offset sl) align_)
  /\ (forall this c,
        memFlags (DxvkMemoryChunk.m_memory c) = flags ->
        PrimFloat.eqb (priority (DxvkMemoryChunk.m_memory c))
                      (effectivePriority flags prio) = true ->
        DxvkMemoryChunk.m_freeList c <> [] ->
        exists i sl,
          firstChoice (DxvkMemoryChunk.m_freeList c) size i sl
          /\ (fst (DxvkMemoryChunk.alloc this c flags size align_
                     (effectivePriority flags prio)) = None
              <-> align (u64 (align (FreeSlice.offset sl) align_ + size)) align_
                  > u64 (FreeSlice.offset sl + FreeSlice.length sl)))
  /\ (forall this c,
        memFlags (DxvkMemoryChunk.m_memory c) <> flags
        \/ PrimFloat.eqb (priority (DxvkMemoryChunk.m_memory c))
                         (effectivePriority flags prio) = false
        \/ DxvkMemoryChunk.m_freeList c = [] ->
        DxvkMemoryChunk.alloc this c flags size align_
          (effectivePriority flags prio) = (None, c)).
Proof.
  split; [|split; [|split; [|split]]].
  - intros Hded. unfold tryAllocFromType. fold (effectivePriority flags prio).
    assert (Hc : (size >=? chunkSize (heap s) / 4) || bool_decide (is_Some ded) = true).
    { destruct Hded as [H|H].
      - apply orb_true_iff. left. apply Z.geb_le. exact H.
      - apply orb_true_iff. right. apply bool_decide_eq_true. exact H. }
    rewrite Hc.
    destruct (tryAllocDeviceMemory_granted s flags size
                (effectivePriority flags prio) ded)
      as (d & s1 & E & Hcalls & Hty & _ & Hg).
    rewrite E.
    destruct (granted s flags size (effectivePriority flags prio)) as [devMem|].
    + destruct Hg as [-> Hh]. rewrite Hh. cbn [negb].
      destruct (accountUsed _) as [r s'] eqn:Ea.
      apply accountUsed_frame in Ea as (-> & Hc' & Ht').
      exists (Some (dedicatedMemory s size devMem)), s'.
      split; [reflexivity|]. split; [congruence|]. split; [congruence|].
      split; [reflexivity|].
      intros m Hm. injection Hm as <-. repeat split.
    + rewrite Hg. cbn [negb].
      exists None, s1. split; [reflexivity|]. split; [exact Hcalls|].
      split; [congruence|]. split; [reflexivity | discriminate].
  - intros Hsize ->. unfold tryAllocFromType. fold (effectivePriority flags prio).
    assert (Hc : (size >=? chunkSize (heap s) / 4) || bool_decide (is_Some (@None VkMemoryDedicatedAllocateInfoKHR)) = false).
    { apply orb_false_iff. split.
      - rewrite Z.geb_leb. apply Z.leb_gt. exact Hsize.
      - apply bool_decide_eq_false. intros [x Hx]. discriminate. }
    rewrite Hc. split.
    + intros i c m c' Hi Ha Hbefore.
      rewrite (allocFromChunks_hit flags size align_ (effectivePriority flags prio)
                 (chunks (type s)) 0%nat i c m c' Hi Ha Hbefore).
      destruct (accountUsed _) as [r s'] eqn:Ea.
      apply accountUsed_frame in Ea as (-> & Hc' & Ht').
      exists s'. repeat split; [exact Hc' | rewrite Ht'; reflexivity].
    + intros Hall.
      rewrite (allocFromChunks_miss flags size align_ (effectivePriority flags prio)
                 (chunks (type s)) 0%nat Hall).
      destruct (tryAllocDeviceMemory_granted (setChunks s (chunks (type s))) flags
                  (chunkSize (heap (setChunks s (chunks (type s)))))
                  (effectivePriority flags prio) None)
        as (d & s2 & E & Hcalls & Hty & _ & Hg).
      rewrite E.
      change (granted (setChunks s (chunks (type s))) flags
                (chunkSize (heap (setChunks s (chunks (type s)))))
                (effectivePriority flags prio))
        with (granted s flags (chunkSize (heap s)) (effectivePriority flags prio))
        in Hg.
      destruct (granted s flags (chunkSize (heap s)) (effectivePriority flags prio))
        as [devMem|] eqn:Eg.
      * destruct Hg as [-> Hh]. rewrite Hh.
        destruct (DxvkMemoryChunk.alloc _ _ _ _ _ _) as [r0 c0] eqn:E0.
        destruct (accountUsed _) as [r s'] eqn:Ea.
        apply accountUsed_frame in Ea as (-> & Hc' & Ht').
        exists r0, s'. split; [reflexivity|]. split; [rewrite Hc'; exact Hcalls|].
        rewrite Ht'. simpl. rewrite Hty in *. simpl in *. rewrite E0.
        split; [reflexivity|].
        intros H0 Ha Hb Hcs Hp.
        assert (Hd : memSize devMem = chunkSize (heap s)
                     /\ memFlags devMem = flags
                     /\ priority devMem = effectivePriority flags prio).
        { unfold granted in Eg. destruct (vkAnswers s); [discriminate|].
          destruct (allocateMemory _); [|discriminate].
          destruct (if testFlag flags VK_MEMORY_PROPERTY_HOST_VISIBLE_BIT
                    then _ else _); [|discriminate].
          destruct (_ =? _); [discriminate|].
          injection Eg as <-. auto. }
        destruct Hd as (Hsz & Hfl & Hpr).
        assert (Hcs0 : 0 <= chunkSize (heap s)).
        { destruct (Z.le_gt_cases 0 (chunkSize (heap s))) as [|Hneg]; [assumption|].
          pose proof (Z.div_lt_upper_bound (chunkSize (heap s)) 4 0). lia. }
        pose proof (alloc_fresh (List.length (chunks (type s))) (memTypeId (type s))
                      devMem size align_ H0 Ha Hb) as Hfresh.
        rewrite Hsz, Hfl, Hpr in Hfresh.
        rewrite E0 in Hfresh. cbn [fst] in Hfresh.
        apply Hfresh; [lia | exact Hp].
      * rewrite Hg. exists None, s2. split; [reflexivity|]. split; [exact Hcalls|].
        split; [reflexivity|]. rewrite Hty. reflexivity.
  - intros this c m c' Ha.
    destruct (alloc_uses_first _ _ _ _ _ _ _ _ Ha) as (i & sl & ? & ? & ? & _).
    exists i, sl. auto.
  - intros this c Hf Hp Hne.
    destruct (alloc_firstChoice this c flags size align_
                (effectivePriority flags prio) Hf Hp Hne) as (i & sl & Hsl & Hres).
    exists i, sl. split; [exact Hsl|]. cbn zeta in Hres.
    destruct (Z.gtb_spec
                (align (u64 (align (FreeSlice.offset sl) align_ + size)) align_)
                (u64 (FreeSlice.offset sl + FreeSlice.length sl))) as [G|G].
    + rewrite Hres. cbn [fst]. split; [intros _; lia | reflexivity].
    + rewrite Hres. split; [discriminate | lia].
  - intros this c H. apply alloc_rejected. exact H.
Qed.

(** A host-visible memory type with chunks of 1024 bytes, holding one
    chunk that is entirely free, and a driver that will grant the next
    allocation. *)
Definition demoHostMemory : DxvkDeviceMemory :=
  {| memHandle := 7; memPointer := 4096; memSize := 1024;
     memFlags := 2; priority := 0%float |}.

Definition demoAllocator : DxvkMemoryAllocator.t :=
  {| heap := {| chunkSize := 1024;
                stats := {| memoryAllocated := 1024; memoryUsed := 0 |} |};
     type := {| heapId := 0; memTypeId := 3;
                chunks := [DxvkMemoryChunk.new 3 demoHostMemory] |};
     memoryPriority := false;
     vkAnswers := [{| allocateMemory := Some 9; mapMemory := Some 8192 |}];
     vkAllocateCalls := [];
     heapNotifications := [] |}.

(** Exactly a quarter of the chunk size does not exceed a quarter of the
    chunk size, there is no dedicated-allocation hint, and the type's
    chunk could serve the request; all the same the request goes to the
    driver and the chunk is left alone. *)
Lemma tryAllocFromType_quarter_counterexample :
  ~ (4 * 256 > chunkSize (heap demoAllocator))
  /\ fst (DxvkMemoryChunk.alloc 0%nat (DxvkMemoryChunk.new 3 demoHostMemory)
            2 256 16 0%float) <> None
  /\ exists m s',
       tryAllocFromType demoAllocator 2 256 16 0%float None = (Some m, s')
       /\ DxvkMemory.m_chunk m = None
       /\ vkAllocateCalls s'
          = [{| allocationSize := 256; memoryTypeIndex := 3;
                pNextPriority := None; pNextDedicated := None |}]
       /\ chunks (type s') = chunks (type demoAllocator).
Proof.
  split; [simpl; lia|]. split; [discriminate|].
  eexists _, _. split; [reflexivity|]. repeat split.
Qed.

Example tryAllocFromType_small_request :
  exists m s',
    tryAllocFromType demoAllocator 2 100 16 0%float None = (Some m, s')
    /\ DxvkMemory.m_chunk m = Some 0%nat
    /\ DxvkMemory.m_offset m = 0 /\ DxvkMemory.m_length m = 112
    /\ memoryUsed (stats (heap s')) = 112.
Proof. eexists _, _. split; [reflexivity|]. repeat split. Qed.

(** The same memory type before its first chunk exists. *)
Definition demoEmptyAllocator : DxvkMemoryAllocator.t :=
  {| heap := heap demoAllocator;
     type := {| heapId := 0; memTypeId := 3; chunks := [] |};
     memoryPriority := false;
     vkAnswers := vkAnswers demoAllocator;
     vkAllocateCalls := [];
     heapNotifications := [] |}.

Lemma tryAllocFromType_policy_witness :
  (exists s',
      tryAllocFromType demoAllocator 2 100 16 0%float None
      = (Some {| DxvkMemory.m_chunk := Some 0%nat; DxvkMemory.m_type := 3;
                 DxvkMemory.m_memory := 7; DxvkMemory.m_offset := 0;
                 DxvkMemory.m_length := 112; DxvkMemory.m_mapPtr := 4096 |}, s')
      /\ vkAllocateCalls s' = vkAllocateCalls demoAllocator
      /\ chunks (type s')
         = <[0%nat := {| DxvkMemoryChunk.m_type := 3;
                         DxvkMemoryChunk.m_memory := demoHostMemory;
                         DxvkMemoryChunk.m_freeList := [FreeSlice.mk 112 912] |}]>
             (chunks (type demoAllocator)))
  /\ (exists s',
         tryAllocFromType demoEmptyAllocator 2 100 16 0%float None
         = (Some {| DxvkMemory.m_chunk := Some 0%nat; DxvkMemory.m_type := 3;
                    DxvkMemory.m_memory := 9; DxvkMemory.m_offset := 0;
                    DxvkMemory.m_length := 112; DxvkMemory.m_mapPtr := 8192 |}, s')
         /\ vkAllocateCalls s'
            = [{| allocationSize := 1024; memoryTypeIndex := 3;
                  pNextPriority := None; pNextDedicated := None |}])
  /\ (exists s',
         tryAllocFromType demoAllocator 2 256 16 0%float None
         = (Some {| DxvkMemory.m_chunk := None; DxvkMemory.m_type := 3;
                    DxvkMemory.m_memory := 9; DxvkMemory.m_offset := 0;
                    DxvkMemory.m_length := 256; DxvkMemory.m_mapPtr := 8192 |}, s')).
Proof.
  split; [|split].
  - destruct (tryAllocFromType_policy demoAllocator 2 100 16 0%float None)
      as (_ & Hchunks & _).
    destruct (Hchunks ltac:(reflexivity) eq_refl) as (Hhit & _).
    apply (Hhit 0%nat (DxvkMemoryChunk.new 3 demoHostMemory)).
    + reflexivity.
    + reflexivity.
    + intros j cj Hj. lia.
  - destruct (tryAllocFromType_policy demoEmptyAllocator 2 100 16 0%float None)
      as (_ & Hchunks & _).
    destruct (Hchunks ltac:(reflexivity) eq_refl) as (_ & Hmiss).
    destruct Hmiss as (r & s' & E & Hcalls & _ & Hr).
    + intros j cj Hj. discriminate.
    + exists s'. split; [|exact Hcalls].
      rewrite E. f_equal.
      apply Hr; [lia | lia | lia | reflexivity | reflexivity].
  - destruct (tryAllocFromType_policy demoAllocator 2 256 16 0%float None)
      as (Hded & _).
    destruct Hded as (r & s' & E & _ & _ & Hr & _).
    + left. apply Z.leb_le. reflexivity.
    + exists s'. rewrite E, Hr. reflexivity.
Defined.

(** * Properties of the version-11 immediate context *)

(** The events by which a context waits: for the worker, or for the GPU. *)
Definition isWait (e : CsEvent) : bool :=
  match e with
  | synchronize | yield => true
  | _ => false
  end.

Definition waits (events : list CsEvent) : list CsEvent := List.filter isWait events.

Lemma waits_app l1 l2 : waits (l1 ++ l2) = waits l1 ++ waits l2.
Proof. apply List.filter_app. Qed.

Lemma yields_app l1 l2 : yields (l1 ++ l2) = (yields l1 + yields l2)%nat.
Proof. unfold yields. rewrite List.filter_app, length_app. reflexivity. Qed.

(** ** Mapping a buffer with WRITE_DISCARD *)

Lemma d3d11_EmitCs_chunk c cmd :
  last (D3D11ImmediateContext.m_csChunk (D3D11ImmediateContext.EmitCs c cmd))
  = Some cmd.
Proof.
  unfold D3D11ImmediateContext.EmitCs.
  destruct (_ <? _)%nat; simpl; [apply last_snoc | reflexivity].
Qed.

Lemma d3d11_EmitCs_waits c cmd :
  waits (D3D11ImmediateContext.events (D3D11ImmediateContext.EmitCs c cmd))
  = waits (D3D11ImmediateContext.events c).
Proof.
  unfold D3D11ImmediateContext.EmitCs.
  destruct (_ <? _)%nat; simpl; [reflexivity|].
  rewrite waits_app. simpl. apply app_nil_r.
Qed.

(** C1. Mapping a dynamic buffer whose map mode is not none with
    WRITE_DISCARD succeeds, and it does so without waiting for the
    worker or the GPU: the slice that [allocSlice] takes from the
    rename pool becomes the buffer's mapped slice, the command recorded
    last for the worker is the [invalidateBuffer] of the buffer with
    that slice, and the caller receives the slice's host pointer with
    both pitches equal to the buffer's byte width. *)
Theorem MapBuffer_write_discard (c : D3D11ImmediateContext.t) (b : D3D11Buffer)
  (MapFlags : Z) (pMappedResource : D3D11_MAPPED_SUBRESOURCE) :
  D3D11Buffer.GetMapMode b <> D3D11_COMMON_BUFFER_MAP_MODE_NONE ->
  exists r,
    D3D11ImmediateContext.MapBuffer c b D3D11_MAP_WRITE_DISCARD MapFlags
      pMappedResource = Some r
    /\ D3D11ImmediateContext.hr r = S_OK
    /\ (let slice := fst (DxvkBuffer.allocSlice (D3D11Buffer.GetBuffer b)) in
        D3D11Buffer.GetMappedSlice (D3D11ImmediateContext.resource r) = slice
        /\ D3D11Buffer.GetBuffer (D3D11ImmediateContext.resource r)
           = snd (DxvkBuffer.allocSlice (D3D11Buffer.GetBuffer b))
        /\ last (D3D11ImmediateContext.m_csChunk (D3D11ImmediateContext.context r))
           = Some (invalidateBuffer (DxvkBuffer.id (D3D11Buffer.GetBuffer b)) slice)
        /\ D3D11ImmediateContext.mapped r
           = {| pData := DxvkBufferSliceHandle.mapPtr slice;
                RowPitch := D3D11Buffer.ByteWidth b;
                DepthPitch := D3D11Buffer.ByteWidth b |})
    /\ waits (D3D11ImmediateContext.events (D3D11ImmediateContext.context r))
       = waits (D3D11ImmediateContext.events c).
Proof.
  intros Hmode. unfold D3D11ImmediateContext.MapBuffer.
  unfold D3D11Buffer.GetMapMode in *.
  destruct (D3D11Buffer.m_mapMode b) eqn:Em; [congruence|].
  rewrite Z.eqb_refl. unfold D3D11Buffer.DiscardSlice, D3D11Buffer.GetBuffer.
  destruct (DxvkBuffer.allocSlice (D3D11Buffer.m_buffer b)) as [slice buffer] eqn:Ea.
  eexists. split; [reflexivity|]. simpl. repeat split.
  - rewrite d3d11_EmitCs_chunk. f_equal. f_equal.
    unfold DxvkBuffer.allocSlice in Ea.
    destruct (DxvkBuffer.m_freeSlices (D3D11Buffer.m_buffer b));
      injection Ea as <- <-; reflexivity.
  - apply d3d11_EmitCs_waits.
Qed.

(** A context with one recorded command, and a dynamic vertex buffer of
    256 bytes that the GPU is still reading, with two spare slices in
    its rename pool. *)
Definition demoContext : D3D11ImmediateContext.t :=
  {| D3D11ImmediateContext.m_csChunk := [beginRecording];
     D3D11ImmediateContext.csChunkCapacity := 4;
     D3D11ImmediateContext.m_csIsBusy := false;
     D3D11ImmediateContext.m_lastFlush := 0;
     D3D11ImmediateContext.events := [];
     D3D11ImmediateContext.pendingSubmissions := 0;
     D3D11ImmediateContext.now := 1000000;
     D3D11ImmediateContext.allowMapFlagNoWait := true |}.

Definition demoSlice (k : Z) : DxvkBufferSliceHandle :=
  DxvkBufferSliceHandle.mk 5 (k * 256) 256 (0x10000 + k * 256).

Definition demoDxvkBuffer : DxvkBuffer :=
  {| DxvkBuffer.id := 42;
     DxvkBuffer.inUse := Some 3%nat;
     DxvkBuffer.m_physSlice := demoSlice 0;
     DxvkBuffer.m_freeSlices := [demoSlice 1; demoSlice 2];
     DxvkBuffer.m_fresh := fun n => demoSlice (3 + Z.of_nat n);
     DxvkBuffer.m_grown := 0 |}.

Definition demoBuffer : D3D11Buffer :=
  {| D3D11Buffer.m_mapMode := D3D11_COMMON_BUFFER_MAP_MODE_DIRECT;
     D3D11Buffer.ByteWidth := 256;
     D3D11Buffer.m_buffer := demoDxvkBuffer;
     D3D11Buffer.m_mapped := demoSlice 0 |}.

Example MapBuffer_write_discard_demo :
  exists r,
    D3D11ImmediateContext.MapBuffer demoContext demoBuffer
      D3D11_MAP_WRITE_DISCARD 0 zeroMappedSubresource = Some r
    /\ D3D11ImmediateContext.mapped r
       = {| pData := 0x10100; RowPitch := 256; DepthPitch := 256 |}
    /\ D3D11ImmediateContext.m_csChunk (D3D11ImmediateContext.context r)
       = [beginRecording; invalidateBuffer 42 (demoSlice 1)]
    /\ D3D11ImmediateContext.events (D3D11ImmediateContext.context r) = [].
Proof. eexists. split; [reflexivity|]. repeat split. Qed.

Lemma MapBuffer_write_discard_witness :
  exists r,
    D3D11ImmediateContext.MapBuffer demoContext demoBuffer
      D3D11_MAP_WRITE_DISCARD 0 zeroMappedSubresource = Some r
    /\ D3D11ImmediateContext.hr r = S_OK
    /\ (let slice := fst (DxvkBuffer.allocSlice (D3D11Buffer.GetBuffer demoBuffer)) in
        D3D11Buffer.GetMappedSlice (D3D11ImmediateContext.resource r) = slice
        /\ D3D11Buffer.GetBuffer (D3D11ImmediateContext.resource r)
           = snd (DxvkBuffer.allocSlice (D3D11Buffer.GetBuffer demoBuffer))
        /\ last (D3D11ImmediateContext.m_csChunk (D3D11ImmediateContext.context r))
           = Some (invalidateBuffer
                     (DxvkBuffer.id (D3D11Buffer.GetBuffer demoBuffer)) slice)
        /\ D3D11ImmediateContext.mapped r
           = {| pData := DxvkBufferSliceHandle.mapPtr slice;
                RowPitch := D3D11Buffer.ByteWidth demoBuffer;
                DepthPitch := D3D11Buffer.ByteWidth demoBuffer |})
    /\ waits (D3D11ImmediateContext.events (D3D11ImmediateContext.context r))
       = waits (D3D11ImmediateContext.events demoContext).
Proof.
  apply (MapBuffer_write_discard demoContext demoBuffer 0 zeroMappedSubresource).
  discriminate.
Defined.

(** ** The output structure of a failed Map *)

(** With a null resource and a valid output structure, [Map] fails and
    leaves the structure as the caller filled it. *)
Lemma Map_null_resource_counterexample :
  exists r,
    D3D11ImmediateContext.Map demoContext None 0 D3D11_MAP_READ 0
      (Some {| pData := 1; RowPitch := 2; DepthPitch := 3 |}) = Some r
    /\ FAILED (D3D11ImmediateContext.hr r) = true
    /\ D3D11ImmediateContext.mapped r
       = Some {| pData := 1; RowPitch := 2; DepthPitch := 3 |}
    /\ D3D11ImmediateContext.mapped r <> Some zeroMappedSubresource.
Proof. eexists. split; [reflexivity|]. repeat split. discriminate. Qed.

(** C9 (as amended). A call to [Map] with a resource and an output
    structure that fails leaves the output structure all zero: a null
    data pointer and zero row and depth pitch. A call without a resource
    or without an output structure fails with the invalid-argument code
    and writes nothing. *)
Theorem Map_failure_zeroes_output (c : D3D11ImmediateContext.t)
  (Subresource : nat) (MapType MapFlags : Z) :
  (forall res out r,
      D3D11ImmediateContext.Map c (Some res) Subresource MapType MapFlags (Some out)
      = Some r ->
      FAILED (D3D11ImmediateContext.hr r) = true ->
      D3D11ImmediateContext.mapped r = Some zeroMappedSubresource)
  /\ (forall pResource pMappedResource,
        pResource = None \/ pMappedResource = None ->
        D3D11ImmediateContext.Map c pResource Subresource MapType MapFlags
          pMappedResource
        = Some (D3D11ImmediateContext.mkResult E_INVALIDARG pMappedResource c
                  pResource)).
Proof.
  split.
  - intros res out r. unfold D3D11ImmediateContext.Map.
    destruct res as [b|tex].
    + destruct (D3D11ImmediateContext.MapBuffer _ _ _ _ _) as [r0|]; [|discriminate].
      intros H. injection H as <-. simpl. intros ->. reflexivity.
    + destruct (D3D11ImmediateContext.MapImage _ _ _ _ _ _) as [r0|]; [|discriminate].
      intros H. injection H as <-. simpl. intros ->. reflexivity.
  - intros pResource pMappedResource [-> | ->]; unfold D3D11ImmediateContext.Map.
    + reflexivity.
    + destruct pResource; reflexivity.
Qed.

(** A buffer that cannot be mapped. *)
Definition demoDeviceLocalBuffer : D3D11Buffer :=
  {| D3D11Buffer.m_mapMode := D3D11_COMMON_BUFFER_MAP_MODE_NONE;
     D3D11Buffer.ByteWidth := 256;
     D3D11Buffer.m_buffer := demoDxvkBuffer;
     D3D11Buffer.m_mapped := demoSlice 0 |}.

Lemma Map_failure_witness :
  D3D11ImmediateContext.mapped
    (D3D11ImmediateContext.mkResult E_INVALIDARG (Some zeroMappedSubresource)
       demoContext (Some (Buffer demoDeviceLocalBuffer)))
  = Some zeroMappedSubresource.
Proof.
  apply (proj1 (Map_failure_zeroes_output demoContext 0 D3D11_MAP_READ 0)
           (Buffer demoDeviceLocalBuffer)
           {| pData := 1; RowPitch := 2; DepthPitch := 3 |}).
  - reflexivity.
  - reflexivity.
Defined.

(** ** Views of a buffer *)

Import D3D11Device.

(** Whatever the view classes compute, a depth-stencil view of a buffer
    is never answered with the OK code and a null view object: that
    answer does not exist for [CreateDepthStencilView]. *)
Lemma CreateDepthStencilView_buffer_counterexample :
  ~ exists (v : ViewClasses) (b : D3D11Buffer)
      (pDesc : option D3D11_DEPTH_STENCIL_VIEW_DESC)
      (old : option D3D11DepthStencilView),
      CreateDepthStencilView v (Some (Buffer b)) pDesc (Some old)
      = (S_OK, Some None).
Proof.
  intros (v & b & pDesc & old & H). unfold CreateDepthStencilView in H. simpl in H.
  destruct (match pDesc with
            | Some d => DSV_NormalizeDesc v (Buffer b) d
            | None => DSV_GetDescFromResource v (Buffer b)
            end) as [desc|]; [|discriminate].
  destruct (negb _); [discriminate|].
  destruct (DSV_new v (Buffer b) desc); discriminate.
Qed.

(** C6 (as amended). [CreateRenderTargetView] on a buffer returns the OK
    code and yields a null view object. [CreateDepthStencilView] has no
    such case for buffers: it returns the OK code only together with a
    view object it has constructed, the FALSE code only when the caller
    passes no place to put a view, and the invalid-argument code
    otherwise, in particular whenever the description cannot be
    derived or normalized for the buffer or the compatibility check
    rejects it. When the description is there and the check passes,
    the answer is the FALSE code for a caller that passes no place,
    the OK code with the constructed view, or the invalid-argument
    code with a null view when the constructor throws. *)
Theorem CreateView_on_buffer (v : ViewClasses) (b : D3D11Buffer) :
  (forall pDesc ppRTView,
      CreateRenderTargetView v (Some (Buffer b)) pDesc ppRTView
      = (S_OK, InitReturnPtr ppRTView))
  /\ (forall pDesc ppDepthStencilView hr out,
        CreateDepthStencilView v (Some (Buffer b)) pDesc ppDepthStencilView
        = (hr, out) ->
        (hr = S_OK /\ ppDepthStencilView <> None
         /\ exists desc view,
              DSV_new v (Buffer b) desc = Some view /\ out = Some (Some view))
        \/ (hr = S_FALSE /\ ppDepthStencilView = None /\ out = None)
        \/ (hr = E_INVALIDARG /\ out = InitReturnPtr ppDepthStencilView))
  /\ (forall pDesc ppDepthStencilView,
        match pDesc with
        | Some d => DSV_NormalizeDesc v (Buffer b) d
        | None => DSV_GetDescFromResource v (Buffer b)
        end = None ->
        CreateDepthStencilView v (Some (Buffer b)) pDesc ppDepthStencilView
        = (E_INVALIDARG, InitReturnPtr ppDepthStencilView))
  /\ (forall pDesc ppDepthStencilView desc,
        match pDesc with
        | Some d => DSV_NormalizeDesc v (Buffer b) d
        | None => DSV_GetDescFromResource v (Buffer b)
        end = Some desc ->
        CheckResourceViewCompatibility v (Buffer b) D3D11_BIND_DEPTH_STENCIL
          (dsvFormat desc) = false ->
        CreateDepthStencilView v (Some (Buffer b)) pDesc ppDepthStencilView
        = (E_INVALIDARG, InitReturnPtr ppDepthStencilView))
  /\ (forall pDesc ppDepthStencilView desc,
        match pDesc with
        | Some d => DSV_NormalizeDesc v (Buffer b) d
        | None => DSV_GetDescFromResource v (Buffer b)
        end = Some desc ->
        CheckResourceViewCompatibility v (Buffer b) D3D11_BIND_DEPTH_STENCIL
          (dsvFormat desc) = true ->
        CreateDepthStencilView v (Some (Buffer b)) pDesc ppDepthStencilView
        = match ppDepthStencilView with
          | None => (S_FALSE, None)
          | Some _ =>
              match DSV_new v (Buffer b) desc with
              | Some view => (S_OK, Some (Some view))
              | None => (E_INVALIDARG, Some None)
              end
          end).
Proof.
  split; [|split; [|split; [|split]]].
  - intros pDesc pp. reflexivity.
  - intros pDesc pp hr out. unfold CreateDepthStencilView.
    destruct (match pDesc with
              | Some d => DSV_NormalizeDesc v (Buffer b) d
              | None => DSV_GetDescFromResource v (Buffer b)
              end) as [desc|].
    + destruct (negb _).
      * intros H. injection H as <- <-. right. right. auto.
      * destruct pp as [old|]; simpl.
        -- destruct (DSV_new v (Buffer b) desc) as [view|] eqn:Ev;
             intros H; injection H as <- <-.
           ++ left. split; [reflexivity|]. split; [discriminate|]. eauto.
           ++ right. right. auto.
        -- intros H. injection H as <- <-. right. left. auto.
    + intros H. injection H as <- <-. right. right. auto.
  - intros pDesc pp H. unfold CreateDepthStencilView. rewrite H. reflexivity.
  - intros pDesc pp desc H Hc. unfold CreateDepthStencilView.
    rewrite H, Hc. reflexivity.
  - intros pDesc pp desc H Hc. unfold CreateDepthStencilView.
    rewrite H, Hc. cbn [negb]. destruct pp as [old|]; [|reflexivity].
    cbn [InitReturnPtr]. destruct (DSV_new v (Buffer b) desc); reflexivity.
Qed.

(** The view classes of a device that derives no depth-stencil
    description for a buffer. *)
Definition demoViewClasses : ViewClasses :=
  {| RTV_GetDescFromResource := fun _ => None;
     RTV_NormalizeDesc := fun _ d => Some d;
     RTV_new := fun r d => Some {| rtvResource := r; rtvDesc := d |};
     DSV_GetDescFromResource := fun r => if isBuffer r then None
                                         else Some {| dsvFormat := 45;
                                                      dsvViewDimension := 3;
                                                      dsvFlags := 0 |};
     DSV_NormalizeDesc := fun r d => if isBuffer r then None else Some d;
     DSV_new := fun r d => Some {| dsvResource := r; dsvDesc := d |};
     CheckResourceViewCompatibility := fun _ _ _ => true |}.

(** The view classes of a device that derives a description for every
    resource and whose compatibility check rejects buffers. *)
Definition demoStrictViewClasses : ViewClasses :=
  {| RTV_GetDescFromResource := fun _ => None;
     RTV_NormalizeDesc := fun _ d => Some d;
     RTV_new := fun r d => Some {| rtvResource := r; rtvDesc := d |};
     DSV_GetDescFromResource := fun _ => Some {| dsvFormat := 45;
                                                 dsvViewDimension := 3;
                                                 dsvFlags := 0 |};
     DSV_NormalizeDesc := fun _ d => Some d;
     DSV_new := fun r d => Some {| dsvResource := r; dsvDesc := d |};
     CheckResourceViewCompatibility := fun r _ _ => negb (isBuffer r) |}.

Lemma CreateView_on_buffer_witness :
  CreateRenderTargetView demoViewClasses (Some (Buffer demoBuffer)) None (Some None)
  = (S_OK, Some None)
  /\ CreateDepthStencilView demoViewClasses (Some (Buffer demoBuffer)) None (Some None)
     = (E_INVALIDARG, Some None)
  /\ CreateDepthStencilView demoStrictViewClasses (Some (Buffer demoBuffer)) None
       (Some None)
     = (E_INVALIDARG, Some None).
Proof.
  destruct (CreateView_on_buffer demoViewClasses demoBuffer) as (Hrtv & _ & Hdsv & _).
  destruct (CreateView_on_buffer demoStrictViewClasses demoBuffer)
    as (_ & _ & _ & Hcheck & _).
  split; [|split].
  - apply (Hrtv None (Some None)).
  - apply (Hdsv None (Some None)). reflexivity.
  - apply (Hcheck None (Some None)
             {| dsvFormat := 45; dsvViewDimension := 3; dsvFlags := 0 |}).
    + reflexivity.
    + reflexivity.
Defined.

(** * The implicit-flush policy *)

(** The commands the worker has been handed, in order. *)
Definition dispatched (events : list CsEvent) : list DxvkCsCmd :=
  flat_map (fun e => match e with dispatchChunk chunk => chunk | _ => [] end) events.

Definition isFlush (cmd : DxvkCsCmd) : bool :=
  match cmd with flushCommandList => true | _ => false end.

(** The number of flushes among some commands: each [flushCommandList]
    makes the worker close and submit the native command buffer. *)
Definition flushCount (cmds : list DxvkCsCmd) : nat :=
  List.length (List.filter isFlush cmds).

(** The condition of the spec, on a clock that counts nanoseconds: a
    strong hint or at most six pending submissions, and at least
    750 us + 250 us per pending submission since the last flush. *)
Definition flushPolicy (strongHint : bool) (pending elapsed : Z) : Prop :=
  (strongHint = true \/ pending <= 6)
  /\ (750 + 250 * pending) * 1000 <= elapsed.

Lemma dispatched_app l1 l2 : dispatched (l1 ++ l2) = dispatched l1 ++ dispatched l2.
Proof. apply flat_map_app. Qed.

Lemma flushCount_app l1 l2 :
  flushCount (l1 ++ l2) = (flushCount l1 + flushCount l2)%nat.
Proof. unfold flushCount. rewrite List.filter_app, length_app. reflexivity. Qed.

Lemma flushDelay_small pending :
  0 <= pending <= 17179866 -> u32 (750 + u32 (250 * pending)) = 750 + 250 * pending.
Proof.
  intros H. unfold u32. rewrite (Z.mod_small (250 * pending)) by lia.
  apply Z.mod_small. lia.
Qed.

(** ** Version 11 *)

Module Flush11.
Import D3D11ImmediateContext.

(** Everything the context has recorded for the worker: what it has
    handed over, and the chunk under construction. *)
Definition recorded (c : t) : list DxvkCsCmd := dispatched (events c) ++ m_csChunk c.

Definition flushes (c : t) : nat := flushCount (recorded c).

(** The worker has something to submit: it is busy, or the current
    chunk holds commands. *)
Definition hasWork (c : t) : bool :=
  m_csIsBusy c || negb (List.length (m_csChunk c) =? 0)%nat.

Lemma recorded_EmitCs c cmd : recorded (EmitCs c cmd) = recorded c ++ [cmd].
Proof.
  unfold recorded, EmitCs. destruct (_ <? _)%nat; simpl.
  - apply app_assoc.
  - rewrite dispatched_app. simpl. rewrite app_nil_r. reflexivity.
Qed.

Lemma recorded_FlushCsChunk c :
  recorded (FlushCsChunk c) = recorded c /\ m_csChunk (FlushCsChunk c) = [].
Proof.
  unfold recorded, FlushCsChunk. destruct (m_csChunk c) as [|x l] eqn:E.
  - rewrite E. auto.
  - simpl. rewrite dispatched_app. simpl. rewrite !app_nil_r. auto.
Qed.

Lemma Flush_recorded c :
  recorded (Flush c)
  = recorded c ++ (if hasWork c then [flushCommandList] else [])
  /\ (hasWork c = true -> m_csChunk (Flush c) = [] /\ m_lastFlush (Flush c) = now c).
Proof.
  unfold Flush, hasWork.
  set (c1 := addEvent c flushInitContext).
  assert (H1 : recorded c1 = recorded c).
  { unfold recorded, c1. simpl. rewrite dispatched_app. simpl.
    rewrite app_nil_r. reflexivity. }
  change (m_csIsBusy c1) with (m_csIsBusy c).
  change (m_csChunk c1) with (m_csChunk c).
  destruct (m_csIsBusy c || negb (List.length (m_csChunk c) =? 0)%nat).
  - set (c2 := EmitCs c1 flushCommandList).
    destruct (recorded_FlushCsChunk c2) as [Hr Hc].
    assert (Hn : now (FlushCsChunk c2) = now c).
    { unfold c2, FlushCsChunk, EmitCs.
      destruct (_ <? _)%nat; simpl; [|reflexivity].
      destruct (m_csChunk c ++ [flushCommandList]); reflexivity. }
    split.
    + change (recorded (FlushCsChunk c2) = recorded c ++ [flushCommandList]).
      rewrite Hr. unfold c2. rewrite recorded_EmitCs, H1. reflexivity.
    + intros _. split; [exact Hc | exact Hn].
  - split; [|discriminate]. rewrite H1, app_nil_r. reflexivity.
Qed.

Lemma FlushImplicit_cases c strongHint :
  0 <= pendingSubmissions c <= 17179866 ->
  (flushPolicy strongHint (pendingSubmissions c) (now c - m_lastFlush c) ->
   FlushImplicit c strongHint = Flush c)
  /\ (~ flushPolicy strongHint (pendingSubmissions c) (now c - m_lastFlush c) ->
      FlushImplicit c strongHint = c).
Proof.
  intros Hp. unfold FlushImplicit, flushPolicy, flushDelayUs, microseconds,
    MinFlushIntervalUs, IncFlushIntervalUs, MaxPendingSubmits.
  rewrite (flushDelay_small _ Hp).
  destruct strongHint; simpl.
  - destruct (Z.geb_spec (now c - m_lastFlush c)
                ((750 + 250 * pendingSubmissions c) * 1000)) as [G|G];
      split; intros H; try reflexivity; try lia; exfalso; apply H; auto.
  - destruct (Z.leb_spec (pendingSubmissions c) 6) as [L|L].
    + destruct (Z.geb_spec (now c - m_lastFlush c)
                  ((750 + 250 * pendingSubmissions c) * 1000)) as [G|G];
        split; intros H; try reflexivity; try lia.
    + split; intros H; [|reflexivity].
      destruct H as [[H|H] _]; [discriminate | lia].
Qed.

End Flush11.

(** ** Version 9 *)

Module Flush9.
Import D3D9DeviceEx.

Definition recorded (d : t) : list DxvkCsCmd := dispatched (events d) ++ m_csChunk d.

Definition flushes (d : t) : nat := flushCount (recorded d).

Definition hasWork (d : t) : bool :=
  m_csIsBusy d || negb (List.length (m_csChunk d) =? 0)%nat.

Lemma recorded9_EmitCs d cmd : recorded (EmitCs d cmd) = recorded d ++ [cmd].
Proof.
  unfold recorded, EmitCs. destruct (_ <? _)%nat; simpl.
  - apply app_assoc.
  - rewrite dispatched_app. simpl. rewrite app_nil_r. reflexivity.
Qed.

Lemma recorded9_FlushCsChunk d :
  recorded (FlushCsChunk d) = recorded d /\ m_csChunk (FlushCsChunk d) = [].
Proof.
  unfold recorded, FlushCsChunk. destruct (m_csChunk d) as [|x l] eqn:E.
  - rewrite E. auto.
  - simpl. rewrite dispatched_app. simpl. rewrite !app_nil_r. auto.
Qed.

Lemma Flush9_recorded d :
  recorded (Flush d)
  = recorded d ++ (if hasWork d then [flushCommandList] else [])
  /\ (hasWork d = true -> m_csChunk (Flush d) = [] /\ m_lastFlush (Flush d) = now d).
Proof.
  unfold Flush, hasWork.
  set (d1 := addEvent d flushInitContext).
  assert (H1 : recorded d1 = recorded d).
  { unfold recorded, d1. simpl. rewrite dispatched_app. simpl.
    rewrite app_nil_r. reflexivity. }
  change (m_csIsBusy d1) with (m_csIsBusy d).
  change (m_csChunk d1) with (m_csChunk d).
  destruct (m_csIsBusy d || negb (List.length (m_csChunk d) =? 0)%nat).
  - set (d2 := EmitCs d1 flushCommandList).
    destruct (recorded9_FlushCsChunk d2) as [Hr Hc].
    assert (Hn : now (FlushCsChunk d2) = now d).
    { unfold d2, FlushCsChunk, EmitCs.
      destruct (_ <? _)%nat; simpl; [|reflexivity].
      destruct (m_csChunk d ++ [flushCommandList]); reflexivity. }
    split.
    + change (recorded (FlushCsChunk d2) = recorded d ++ [flushCommandList]).
      rewrite Hr. unfold d2. rewrite recorded9_EmitCs, H1. reflexivity.
    + intros _. split; [exact Hc | exact Hn].
  - split; [|discriminate]. rewrite H1, app_nil_r. reflexivity.
Qed.

Lemma FlushImplicit9_cases d strongHint :
  0 <= pendingSubmissions d <= 17179866 ->
  (flushPolicy strongHint (pendingSubmissions d) (now d - m_lastFlush d) ->
   FlushImplicit d strongHint = Flush d)
  /\ (~ flushPolicy strongHint (pendingSubmissions d) (now d - m_lastFlush d) ->
      FlushImplicit d strongHint = d).
Proof.
  intros Hp. unfold FlushImplicit, flushPolicy, flushDelayUs, microseconds,
    MinFlushIntervalUs, IncFlushIntervalUs, MaxPendingSubmits.
  rewrite (flushDelay_small _ Hp).
  destruct strongHint; simpl.
  - destruct (Z.geb_spec (now d - m_lastFlush d)
                ((750 + 250 * pendingSubmissions d) * 1000)) as [G|G];
      split; intros H; try reflexivity; try lia; exfalso; apply H; auto.
  - destruct (Z.leb_spec (pendingSubmissions d) 6) as [L|L].
    + destruct (Z.geb_spec (now d - m_lastFlush d)
                  ((750 + 250 * pendingSubmissions d) * 1000)) as [G|G];
        split; intros H; try reflexivity; try lia.
    + split; intros H; [|reflexivity].
      destruct H as [[H|H] _]; [discriminate | lia].
Qed.

End Flush9.

(** A context and a device that have recorded nothing since their last
    flush, one millisecond ago, with no submission pending. *)
Definition idleContext : D3D11ImmediateContext.t :=
  {| D3D11ImmediateContext.m_csChunk := [];
     D3D11ImmediateContext.csChunkCapacity := 4;
     D3D11ImmediateContext.m_csIsBusy := false;
     D3D11ImmediateContext.m_lastFlush := 0;
     D3D11ImmediateContext.events := [];
     D3D11ImmediateContext.pendingSubmissions := 0;
     D3D11ImmediateContext.now := 1000000;
     D3D11ImmediateContext.allowMapFlagNoWait := true |}.

Definition noTextures (p : Z) : D3D9DeviceEx.D3D9CommonTexture :=
  {| D3D9DeviceEx.descWidth := 0; D3D9DeviceEx.descHeight := 0;
     D3D9DeviceEx.MultiSample := 0; D3D9DeviceEx.image := 0 |}.

Definition idleDevice : D3D9DeviceEx.t :=
  D3D9DeviceEx.setChunk (D3D9DeviceEx.new false 4 noTextures 0 1000000) [].

(** The condition of the spec holds, with a strong hint at that, and
    yet nothing is flushed: [Flush] has nothing to submit. *)
Lemma FlushImplicit_idle_counterexample :
  flushPolicy true 0 (1000000 - 0)
  /\ Flush11.flushes (D3D11ImmediateContext.FlushImplicit idleContext true)
     = Flush11.flushes idleContext
  /\ D3D11ImmediateContext.events
       (D3D11ImmediateContext.FlushImplicit idleContext true)
     = [flushInitContext]
  /\ Flush9.flushes (D3D9DeviceEx.FlushImplicit idleDevice true)
     = Flush9.flushes idleDevice
  /\ D3D9DeviceEx.events (D3D9DeviceEx.FlushImplicit idleDevice true)
     = [flushInitContext].
Proof.
  split; [unfold flushPolicy; split; [left; reflexivity | lia]|].
  repeat split.
Qed.

Lemma flushCount_snoc_flush (l : list DxvkCsCmd) (b : bool) :
  flushCount (l ++ (if b then [flushCommandList] else []))
  = (flushCount l + (if b then 1 else 0))%nat.
Proof. rewrite flushCount_app. destruct b; reflexivity. Qed.

Lemma flushes_counted (n n' : nat) (P : Prop) (w : bool) :
  n' = (n + (if w then 1 else 0))%nat -> P ->
  (n' = S n <-> P /\ w = true) /\ (n' = n <-> ~ (P /\ w = true)).
Proof.
  intros -> HP. destruct w; split; split; intros H; try lia; try tauto;
    try (destruct H; discriminate); try (intros [_ ?]; discriminate).
Qed.

Lemma flushes_unchanged (n : nat) (P : Prop) (w : bool) :
  ~ P ->
  (n = S n <-> P /\ w = true) /\ (n = n <-> ~ (P /\ w = true)).
Proof. intros HP. split; split; intros H; try lia; tauto. Qed.

(** C2 (as amended). For every call to the implicit-flush routine of an
    immediate context (version 11 or version 9) with at most 17179866
    submissions pending, so that the delay does not wrap around in 32
    bits: the routine calls [Flush] exactly when (strong_hint is set or
    the pending-submission count is at most 6) and the time since the
    last flush is at least 750 us + 250 us times the pending-submission
    count; and a flush, one more [flushCommandList] for the worker,
    happens exactly when, besides, the worker is busy or the current
    chunk holds commands. After such a flush the chunk is empty and the
    time of the last flush is the current time. *)
Theorem FlushImplicit_policy :
  (forall (c : D3D11ImmediateContext.t) (strongHint : bool),
      0 <= D3D11ImmediateContext.pendingSubmissions c <= 17179866 ->
      let policy :=
        flushPolicy strongHint (D3D11ImmediateContext.pendingSubmissions c)
          (D3D11ImmediateContext.now c - D3D11ImmediateContext.m_lastFlush c) in
      let c' := D3D11ImmediateContext.FlushImplicit c strongHint in
      (policy -> c' = D3D11ImmediateContext.Flush c)
      /\ (~ policy -> c' = c)
      /\ (Flush11.flushes c' = S (Flush11.flushes c)
          <-> policy /\ Flush11.hasWork c = true)
      /\ (Flush11.flushes c' = Flush11.flushes c
          <-> ~ (policy /\ Flush11.hasWork c = true))
      /\ (policy /\ Flush11.hasWork c = true ->
          D3D11ImmediateContext.m_csChunk c' = []
          /\ D3D11ImmediateContext.m_lastFlush c' = D3D11ImmediateContext.now c))
  /\ (forall (d : D3D9DeviceEx.t) (strongHint : bool),
        0 <= D3D9DeviceEx.pendingSubmissions d <= 17179866 ->
        let policy :=
          flushPolicy strongHint (D3D9DeviceEx.pendingSubmissions d)
            (D3D9DeviceEx.now d - D3D9DeviceEx.m_lastFlush d) in
        let d' := D3D9DeviceEx.FlushImplicit d strongHint in
        (policy -> d' = D3D9DeviceEx.Flush d)
        /\ (~ policy -> d' = d)
        /\ (Flush9.flushes d' = S (Flush9.flushes d)
            <-> policy /\ Flush9.hasWork d = true)
        /\ (Flush9.flushes d' = Flush9.flushes d
            <-> ~ (policy /\ Flush9.hasWork d = true))
        /\ (policy /\ Flush9.hasWork d = true ->
            D3D9DeviceEx.m_csChunk d' = []
            /\ D3D9DeviceEx.m_lastFlush d' = D3D9DeviceEx.now d)).
Proof.
  split.
  - intros c strongHint Hp policy c'.
    destruct (Flush11.FlushImplicit_cases c strongHint Hp) as [Hyes Hno].
    fold policy in Hyes, Hno. fold c' in Hyes, Hno.
    destruct (Flush11.Flush_recorded c) as [Hrec Hchunk].
    assert (Hdec : policy \/ ~ policy).
    { unfold policy, flushPolicy.
      destruct strongHint;
        destruct (Z_le_dec (D3D11ImmediateContext.pendingSubmissions c) 6);
        destruct (Z_le_dec
                    ((750 + 250 * D3D11ImmediateContext.pendingSubmissions c) * 1000)
                    (D3D11ImmediateContext.now c
                     - D3D11ImmediateContext.m_lastFlush c));
        try (left; split; [auto | lia]; fail);
        right; intros [[?|?] ?]; try discriminate; lia. }
    split; [exact Hyes|]. split; [exact Hno|].
    unfold Flush11.flushes.
    destruct Hdec as [Hpol|Hpol].
    + rewrite (Hyes Hpol), Hrec, flushCount_snoc_flush.
      destruct (flushes_counted (flushCount (Flush11.recorded c))
                  (flushCount (Flush11.recorded c)
                   + (if Flush11.hasWork c then 1 else 0))%nat
                  policy (Flush11.hasWork c) eq_refl Hpol) as [H1 H2].
      split; [exact H1|]. split; [exact H2|].
      intros [_ Hw]. apply Hchunk. exact Hw.
    + rewrite (Hno Hpol).
      destruct (flushes_unchanged (flushCount (Flush11.recorded c)) policy
                  (Flush11.hasWork c) Hpol) as [H1 H2].
      split; [exact H1|]. split; [exact H2|].
      intros [HP _]. contradiction.
  - intros d strongHint Hp policy d'.
    destruct (Flush9.FlushImplicit9_cases d strongHint Hp) as [Hyes Hno].
    fold policy in Hyes, Hno. fold d' in Hyes, Hno.
    destruct (Flush9.Flush9_recorded d) as [Hrec Hchunk].
    assert (Hdec : policy \/ ~ policy).
    { unfold policy, flushPolicy.
      destruct strongHint;
        destruct (Z_le_dec (D3D9DeviceEx.pendingSubmissions d) 6);
        destruct (Z_le_dec
                    ((750 + 250 * D3D9DeviceEx.pendingSubmissions d) * 1000)
                    (D3D9DeviceEx.now d - D3D9DeviceEx.m_lastFlush d));
        try (left; split; [auto | lia]; fail);
        right; intros [[?|?] ?]; try discriminate; lia. }
    split; [exact Hyes|]. split; [exact Hno|].
    unfold Flush9.flushes.
    destruct Hdec as [Hpol|Hpol].
    + rewrite (Hyes Hpol), Hrec, flushCount_snoc_flush.
      destruct (flushes_counted (flushCount (Flush9.recorded d))
                  (flushCount (Flush9.recorded d)
                   + (if Flush9.hasWork d then 1 else 0))%nat
                  policy (Flush9.hasWork d) eq_refl Hpol) as [H1 H2].
      split; [exact H1|]. split; [exact H2|].
      intros [_ Hw]. apply Hchunk. exact Hw.
    + rewrite (Hno Hpol).
      destruct (flushes_unchanged (flushCount (Flush9.recorded d)) policy
                  (Flush9.hasWork d) Hpol) as [H1 H2].
      split; [exact H1|]. split; [exact H2|].
      intros [HP _]. contradiction.
Qed.

Definition demoDevice : D3D9DeviceEx.t :=
  D3D9DeviceEx.new false 4 noTextures 0 1000000.

Example FlushImplicit_demo :
  D3D11ImmediateContext.events (D3D11ImmediateContext.FlushImplicit demoContext false)
  = [flushInitContext; dispatchChunk [beginRecording; flushCommandList]]
  /\ D3D9DeviceEx.events (D3D9DeviceEx.FlushImplicit demoDevice false)
     = [flushInitContext; dispatchChunk [beginRecording; flushCommandList]].
Proof. split; reflexivity. Qed.

Lemma FlushImplicit_policy_witness :
  Flush11.flushes (D3D11ImmediateContext.FlushImplicit demoContext false)
  = S (Flush11.flushes demoContext)
  /\ Flush9.flushes (D3D9DeviceEx.FlushImplicit demoDevice false)
     = S (Flush9.flushes demoDevice).
Proof.
  destruct FlushImplicit_policy as [H11 H9].
  split.
  - destruct (H11 demoContext false ltac:(simpl; lia)) as (_ & _ & Hflush & _).
    apply Hflush. split; [|reflexivity].
    unfold flushPolicy. simpl. split; [right|]; lia.
  - destruct (H9 demoDevice false ltac:(simpl; lia)) as (_ & _ & Hflush & _).
    apply Hflush. split; [|reflexivity].
    unfold flushPolicy. simpl. split; [right|]; lia.
Defined.

(** * Waiting for a resource, and DO_NOT_WAIT *)

Lemma testFlag_clearFlag bits flag : testFlag (clearFlag bits flag) flag = false.
Proof.
  unfold testFlag, clearFlag.
  rewrite <- Z.land_assoc, (Z.land_comm (Z.lnot flag)), Z.land_lnot_diag, Z.land_0_r.
  reflexivity.
Qed.

Lemma stillInUse_cases (u : InUse) :
  stillInUse u = true -> u = None \/ exists n, u = Some (S n).
Proof. destruct u as [[|n]|]; simpl; intros H; [discriminate | eauto | auto]. Qed.

(** ** Version 11 *)

Module Wait11.
Import D3D11ImmediateContext.

(** The context after a wait that DO_NOT_WAIT cut short: the current
    chunk has gone to the worker, the worker has drained its queue, and
    an implicit flush without strong hint has been considered. *)
Definition stillDrawing (c : t) : t := FlushImplicit (SynchronizeCsThread c) false.

(** The context after a wait of [n] turns of the wait loop: a flush,
    the worker drained once more, and [n] times the time slice given
    up. *)
Definition waited (c : t) (n : nat) : t :=
  Nat.iter n (fun c => addEvent c yield) (SynchronizeCsThread (Flush (SynchronizeCsThread c))).

(** DO_NOT_WAIT is set and the configuration lets it through. *)
Definition noWait (c : t) (MapFlags : Z) : bool :=
  allowMapFlagNoWait c && testFlag MapFlags D3D11_MAP_FLAG_DO_NOT_WAIT.

Lemma events_SynchronizeCsThread c :
  exists l, events (SynchronizeCsThread c) = events c ++ l /\ yields l = 0%nat.
Proof.
  unfold SynchronizeCsThread, FlushCsChunk.
  destruct (m_csChunk c) as [|x l]; simpl.
  - exists [synchronize]. auto.
  - exists [dispatchChunk (x :: l); synchronize]. rewrite <- app_assoc. auto.
Qed.

Lemma events_EmitCs c cmd :
  exists l, events (EmitCs c cmd) = events c ++ l /\ yields l = 0%nat.
Proof.
  unfold EmitCs. destruct (_ <? _)%nat; simpl.
  - exists []. rewrite app_nil_r. auto.
  - eexists [_]. split; reflexivity.
Qed.

Lemma events_Flush c :
  exists l, events (Flush c) = events c ++ l /\ yields l = 0%nat.
Proof.
  unfold Flush. destruct (_ || _).
  - unfold FlushCsChunk, EmitCs. simpl.
    destruct (_ <? _)%nat; simpl.
    + destruct (m_csChunk c ++ [flushCommandList]) eqn:E; simpl.
      * exists [flushInitContext]. auto.
      * eexists [_; _]. rewrite <- app_assoc. split; reflexivity.
    + eexists [_; _; _]. rewrite <- !app_assoc. split; reflexivity.
  - exists [flushInitContext]. auto.
Qed.

Lemma events_FlushImplicit c h :
  exists l, events (FlushImplicit c h) = events c ++ l /\ yields l = 0%nat.
Proof.
  unfold FlushImplicit. destruct (_ || _); [destruct (_ >=? _)|];
    try apply events_Flush; exists []; rewrite app_nil_r; auto.
Qed.

Lemma yields_stillDrawing c : yields (events (stillDrawing c)) = yields (events c).
Proof.
  unfold stillDrawing.
  destruct (events_FlushImplicit (SynchronizeCsThread c) false) as (l1 & -> & H1).
  destruct (events_SynchronizeCsThread c) as (l2 & -> & H2).
  rewrite !yields_app. lia.
Qed.

Lemma yields_iter c n :
  yields (events (Nat.iter n (fun c => addEvent c yield) c))
  = (yields (events c) + n)%nat.
Proof.
  induction n as [|n IH]; simpl; [lia|].
  rewrite yields_app, IH. simpl. unfold yields. simpl. lia.
Qed.

Lemma yields_waited c n : yields (events (waited c n)) = (yields (events c) + n)%nat.
Proof.
  unfold waited. rewrite yields_iter.
  destruct (events_SynchronizeCsThread (Flush (SynchronizeCsThread c))) as (l1 & -> & H1).
  destruct (events_Flush (SynchronizeCsThread c)) as (l2 & -> & H2).
  destruct (events_SynchronizeCsThread c) as (l3 & -> & H3).
  rewrite !yields_app. lia.
Qed.

Lemma WaitForResource_spec c (u : InUse) MapFlags :
  stillInUse u = true ->
  (noWait c MapFlags = true ->
   WaitForResource c u MapFlags = Some (false, stillDrawing c))
  /\ (noWait c MapFlags = false ->
      (forall n, u = Some (S n) ->
         WaitForResource c u MapFlags = Some (true, waited c n))
      /\ (u = None -> WaitForResource c u MapFlags = None)).
Proof.
  intros Hu. unfold WaitForResource, noWait. rewrite Hu.
  destruct (allowMapFlagNoWait c); simpl.
  - split.
    + intros ->. reflexivity.
    + intros ->. split.
      * intros n ->. simpl. rewrite Nat.sub_0_r. reflexivity.
      * intros ->. reflexivity.
  - rewrite testFlag_clearFlag. split; [discriminate|]. intros _. split.
    + intros n ->. simpl. rewrite Nat.sub_0_r. reflexivity.
    + intros ->. reflexivity.
Qed.

End Wait11.

(** ** Version 9 *)

Module Wait9.
Import D3D9DeviceEx.

Definition stillDrawing (d : t) : t := FlushImplicit (SynchronizeCsThread d) false.

Definition waited (d : t) (n : nat) : t :=
  Nat.iter n (fun d => addEvent d yield) (SynchronizeCsThread (Flush (SynchronizeCsThread d))).

Lemma events9_SynchronizeCsThread d :
  exists l, events (SynchronizeCsThread d) = events d ++ l /\ yields l = 0%nat.
Proof.
  unfold SynchronizeCsThread, FlushCsChunk.
  destruct (m_csChunk d) as [|x l]; simpl.
  - exists [synchronize]. auto.
  - exists [dispatchChunk (x :: l); synchronize]. rewrite <- app_assoc. auto.
Qed.

Lemma events9_Flush d :
  exists l, events (Flush d) = events d ++ l /\ yields l = 0%nat.
Proof.
  unfold Flush. destruct (_ || _).
  - unfold FlushCsChunk, EmitCs. simpl.
    destruct (_ <? _)%nat; simpl.
    + destruct (m_csChunk d ++ [flushCommandList]) eqn:E; simpl.
      * exists [flushInitContext]. auto.
      * eexists [_; _]. rewrite <- app_assoc. split; reflexivity.
    + eexists [_; _; _]. rewrite <- !app_assoc. split; reflexivity.
  - exists [flushInitContext]. auto.
Qed.

Lemma events9_FlushImplicit d h :
  exists l, events (FlushImplicit d h) = events d ++ l /\ yields l = 0%nat.
Proof.
  unfold FlushImplicit. destruct (_ || _); [destruct (_ >=? _)|];
    try apply events9_Flush; exists []; rewrite app_nil_r; auto.
Qed.

Lemma yields9_stillDrawing d : yields (events (stillDrawing d)) = yields (events d).
Proof.
  unfold stillDrawing.
  destruct (events9_FlushImplicit (SynchronizeCsThread d) false) as (l1 & -> & H1).
  destruct (events9_SynchronizeCsThread d) as (l2 & -> & H2).
  rewrite !yields_app. lia.
Qed.

Lemma yields9_iter d n :
  yields (events (Nat.iter n (fun d => addEvent d yield) d))
  = (yields (events d) + n)%nat.
Proof.
  induction n as [|n IH]; simpl; [lia|].
  rewrite yields_app, IH. simpl. unfold yields. simpl. lia.
Qed.

Lemma yields9_waited d n : yields (events (waited d n)) = (yields (events d) + n)%nat.
Proof.
  unfold waited. rewrite yields9_iter.
  destruct (events9_SynchronizeCsThread (Flush (SynchronizeCsThread d))) as (l1 & -> & H1).
  destruct (events9_Flush (SynchronizeCsThread d)) as (l2 & -> & H2).
  destruct (events9_SynchronizeCsThread d) as (l3 & -> & H3).
  rewrite !yields_app. lia.
Qed.

Lemma WaitForResource9_spec d (u : InUse) MapFlags :
  stillInUse u = true ->
  (testFlag MapFlags D3DLOCK_DONOTWAIT = true ->
   WaitForResource d u MapFlags = Some (false, stillDrawing d))
  /\ (testFlag MapFlags D3DLOCK_DONOTWAIT = false ->
      (forall n, u = Some (S n) ->
         WaitForResource d u MapFlags = Some (true, waited d n))
      /\ (u = None -> WaitForResource d u MapFlags = None)).
Proof.
  intros Hu. unfold WaitForResource. rewrite Hu. split.
  - intros ->. reflexivity.
  - intros ->. split.
    + intros n ->. simpl. rewrite Nat.sub_0_r. reflexivity.
    + intros ->. reflexivity.
Qed.

End Wait9.

(** ** Map and DO_NOT_WAIT *)

Section MapWait.
Import D3D11ImmediateContext.

(** A resource and subresource that [Map] does not reject: a buffer
    whose map mode is not none; an existing subresource of a texture
    whose map mode is not none and which, in buffered mode, has its
    staging buffer. *)
Definition mappable (res : ID3D11Resource) (Subresource : nat) : Prop :=
  match res with
  | Buffer b => D3D11Buffer.GetMapMode b <> D3D11_COMMON_BUFFER_MAP_MODE_NONE
  | Texture tex =>
      D3D11CommonTexture.m_mapMode tex <> D3D11_COMMON_TEXTURE_MAP_MODE_NONE
      /\ (Subresource < D3D11CommonTexture.CountSubresources tex)%nat
      /\ (D3D11CommonTexture.m_mapMode tex = D3D11_COMMON_TEXTURE_MAP_MODE_BUFFER ->
          is_Some (D3D11CommonTexture.m_buffers tex !! Subresource))
  end.

(** The GPU use that a map of the subresource has to wait out: that of
    the buffer, of the image mapped directly, or of the staging buffer. *)
Definition waitsOn (res : ID3D11Resource) (Subresource : nat) : InUse :=
  match res with
  | Buffer b => DxvkBuffer.inUse (D3D11Buffer.GetBuffer b)
  | Texture tex =>
      match D3D11CommonTexture.m_mapMode tex with
      | D3D11_COMMON_TEXTURE_MAP_MODE_DIRECT => D3D11CommonTexture.imageInUse tex
      | _ =>
          match D3D11CommonTexture.m_buffers tex !! Subresource with
          | Some mappedBuffer => DxvkBuffer.inUse mappedBuffer
          | None => None
          end
      end
  end.

(** The maps that first copy the image into the staging buffer: those
    of a texture in buffered mode with staging usage and without the
    "early update" marker. *)
Definition readsBack (res : ID3D11Resource) : bool :=
  match res with
  | Buffer _ => false
  | Texture tex =>
      match D3D11CommonTexture.m_mapMode tex with
      | D3D11_COMMON_TEXTURE_MAP_MODE_BUFFER =>
          (D3D11CommonTexture.Usage tex =? D3D11_USAGE_STAGING)
          && negb (D3D11CommonTexture.canUpdateMappedBufferEarly tex)
      | _ => false
      end
  end.

(** The context when the wait begins: the read-back copy, if there is
    one, has been recorded. *)
Definition beforeWait (c : t) (res : ID3D11Resource) (Subresource : nat) : t :=
  match res with
  | Buffer _ => c
  | Texture tex =>
      match D3D11CommonTexture.m_buffers tex !! Subresource with
      | Some mappedBuffer =>
          if readsBack res then UpdateMappedBuffer c tex mappedBuffer Subresource
          else c
      | None => c
      end
  end.

(** The resource after the call: a texture has taken note of the map
    type of the subresource. *)
Definition afterMap (res : ID3D11Resource) (Subresource : nat) (MapType : Z)
  : ID3D11Resource :=
  match res with
  | Buffer b => Buffer b
  | Texture tex => Texture (D3D11CommonTexture.SetMapType tex Subresource MapType)
  end.

Lemma yields_beforeWait c res Subresource :
  yields (events (beforeWait c res Subresource)) = yields (events c).
Proof.
  unfold beforeWait. destruct res as [b|tex]; [reflexivity|].
  destruct (_ !! _); [|reflexivity].
  destruct (readsBack _); [|reflexivity].
  unfold UpdateMappedBuffer.
  destruct (Wait11.events_EmitCs c
              (copyImageToBuffer (DxvkBuffer.id t0)
                 (D3D11CommonTexture.imageId tex) Subresource)) as (l & -> & Hl).
  rewrite yields_app. lia.
Qed.

Lemma noWait_beforeWait c res Subresource MapFlags :
  Wait11.noWait (beforeWait c res Subresource) MapFlags = Wait11.noWait c MapFlags.
Proof.
  unfold beforeWait. destruct res as [b|tex]; [reflexivity|].
  destruct (_ !! _); [|reflexivity].
  destruct (readsBack _); [|reflexivity].
  unfold UpdateMappedBuffer, Wait11.noWait, EmitCs.
  destruct (_ <? _)%nat; reflexivity.
Qed.

Lemma Map_still_in_use (c : t) (res : ID3D11Resource) (Subresource : nat)
  (MapType MapFlags : Z) (out : D3D11_MAPPED_SUBRESOURCE) :
  mappable res Subresource ->
  MapType <> D3D11_MAP_WRITE_DISCARD ->
  MapType <> D3D11_MAP_WRITE_NO_OVERWRITE ->
  stillInUse (waitsOn res Subresource) = true ->
  (Wait11.noWait c MapFlags && negb (readsBack res) = true ->
   Map c (Some res) Subresource MapType MapFlags (Some out)
   = Some (mkResult DXGI_ERROR_WAS_STILL_DRAWING (Some zeroMappedSubresource)
             (Wait11.stillDrawing c) (Some (afterMap res Subresource MapType)))
   /\ yields (events (Wait11.stillDrawing c)) = yields (events c))
  /\ (Wait11.noWait c MapFlags && negb (readsBack res) = false ->
      (forall n, waitsOn res Subresource = Some (S n) ->
         exists r,
           Map c (Some res) Subresource MapType MapFlags (Some out) = Some r
           /\ hr r = S_OK
           /\ context r = Wait11.waited (beforeWait c res Subresource) n
           /\ resource r = Some (afterMap res Subresource MapType)
           /\ yields (events (context r)) = (yields (events c) + n)%nat)
      /\ (waitsOn res Subresource = None ->
          Map c (Some res) Subresource MapType MapFlags (Some out) = None)).
Proof.
  intros Hmap Hd Hn Hu.
  apply Z.eqb_neq in Hd. apply Z.eqb_neq in Hn.
  destruct res as [b|tex].
  - (* buffers *)
    simpl in *. unfold D3D11Buffer.GetMapMode in Hmap.
    unfold Map, MapBuffer, D3D11Buffer.GetMapMode.
    destruct (D3D11Buffer.m_mapMode b); [congruence|].
    rewrite Hd, Hn. simpl negb. cbv iota.
    rewrite andb_true_r.
    destruct (Wait11.WaitForResource_spec c _ MapFlags Hu) as [Hno Hyes].
    split.
    + intros Hnw. rewrite (Hno Hnw). simpl. split; [reflexivity|].
      apply Wait11.yields_stillDrawing.
    + intros Hnw. destruct (Hyes Hnw) as [Hsome Hnone]. split.
      * intros n En. rewrite (Hsome n En). simpl.
        eexists. split; [reflexivity|]. simpl. repeat split.
        apply Wait11.yields_waited.
      * intros En. rewrite (Hnone En). reflexivity.
  - (* textures *)
    simpl in Hmap. destruct Hmap as (Hmode & Hsub & Hbuf).
    unfold Map, MapImage.
    apply Nat.leb_gt in Hsub. 
    destruct (D3D11CommonTexture.m_mapMode tex) eqn:Emode; [congruence| |].
    + (* buffered *)
      rewrite Hsub.
      destruct (Hbuf eq_refl) as [mb Emb].
      simpl in Hu |- *. rewrite Emode in Hu |- *. rewrite Emb in Hu |- *.
      rewrite Hd.
      change (D3D11CommonTexture.Usage
                (D3D11CommonTexture.SetMapType tex Subresource MapType))
        with (D3D11CommonTexture.Usage tex).
      change (D3D11CommonTexture.canUpdateMappedBufferEarly
                (D3D11CommonTexture.SetMapType tex Subresource MapType))
        with (D3D11CommonTexture.canUpdateMappedBufferEarly tex).
      destruct ((D3D11CommonTexture.Usage tex =? D3D11_USAGE_STAGING)
                && negb (D3D11CommonTexture.canUpdateMappedBufferEarly tex)) eqn:Erb.
      * (* the read-back clears DO_NOT_WAIT *)
        rewrite andb_false_r. split; [discriminate|]. intros _.
        set (c0 := UpdateMappedBuffer c
                     (D3D11CommonTexture.SetMapType tex Subresource MapType)
                     mb Subresource).
        assert (Enw : Wait11.noWait c0
                        (clearFlag MapFlags D3D11_MAP_FLAG_DO_NOT_WAIT) = false).
        { unfold Wait11.noWait. rewrite testFlag_clearFlag. apply andb_false_r. }
        destruct (Wait11.WaitForResource_spec c0 _
                    (clearFlag MapFlags D3D11_MAP_FLAG_DO_NOT_WAIT) Hu)
          as [_ Hyes].
        destruct (Hyes Enw) as [Hsome Hnone]. split.
        -- intros n En. rewrite (Hsome n En). simpl.
           eexists. split; [reflexivity|]. simpl. repeat split.
           rewrite Wait11.yields_waited. f_equal.
           pose proof (yields_beforeWait c (Texture tex) Subresource) as Hy.
           simpl in Hy. rewrite Emb, Emode, Erb in Hy. exact Hy.
        -- intros En. rewrite (Hnone En). reflexivity.
      * rewrite andb_true_r.
        destruct (Wait11.WaitForResource_spec c _ MapFlags Hu) as [Hno Hyes].
        split.
        -- intros Hnw. rewrite (Hno Hnw). simpl. split; [reflexivity|].
           apply Wait11.yields_stillDrawing.
        -- intros Hnw. destruct (Hyes Hnw) as [Hsome Hnone]. split.
           ++ intros n En. rewrite (Hsome n En). simpl.
              eexists. split; [reflexivity|]. simpl. repeat split.
              apply Wait11.yields_waited.
           ++ intros En. rewrite (Hnone En). reflexivity.
    + (* direct *)
      rewrite Hsub. simpl in Hu |- *. rewrite Emode in Hu |- *.
      rewrite andb_true_r.
      assert (Ec0 : match D3D11CommonTexture.m_buffers tex !! Subresource with
                    | Some _ => c
                    | None => c
                    end = c) by (destruct (_ !! _); reflexivity).
      rewrite Ec0.
      change (D3D11CommonTexture.imageInUse
                (D3D11CommonTexture.SetMapType tex Subresource MapType))
        with (D3D11CommonTexture.imageInUse tex).
      destruct (Wait11.WaitForResource_spec c _ MapFlags Hu) as [Hno Hyes].
      split.
      * intros Hnw. rewrite (Hno Hnw). simpl. split; [reflexivity|].
        apply Wait11.yields_stillDrawing.
      * intros Hnw. destruct (Hyes Hnw) as [Hsome Hnone]. split.
        -- intros n En. rewrite (Hsome n En). simpl.
           eexists. split; [reflexivity|]. simpl. repeat split.
           apply Wait11.yields_waited.
        -- intros En. rewrite (Hnone En). reflexivity.
Qed.

End MapWait.

(** A staging texture of 128 x 128 texels that is mapped through a
    staging buffer which the GPU is still using. *)
Definition demoStagingTexture : D3D11CommonTexture :=
  {| D3D11CommonTexture.dimension := D3D11CommonTexture.Texture2D;
     D3D11CommonTexture.m_mapMode := D3D11_COMMON_TEXTURE_MAP_MODE_BUFFER;
     D3D11CommonTexture.Usage := D3D11_USAGE_STAGING;
     D3D11CommonTexture.canUpdateMappedBufferEarly := false;
     D3D11CommonTexture.imageId := 77;
     D3D11CommonTexture.imageType := VK_IMAGE_TYPE_2D;
     D3D11CommonTexture.imageInUse := Some 0%nat;
     D3D11CommonTexture.imageMapPtr := 0;
     D3D11CommonTexture.subresourceLayout :=
       fun _ => {| layout_offset := 0; layout_size := 0;
                   rowPitch := 0; depthPitch := 0 |};
     D3D11CommonTexture.elementSize := 4;
     D3D11CommonTexture.blockCount := fun _ => (128, 128);
     D3D11CommonTexture.m_buffers := [demoDxvkBuffer];
     D3D11CommonTexture.m_mapTypes := [0xffffffff] |}.

(** DO_NOT_WAIT is set and allowed and the staging buffer is still in
    use, and yet the read map of the staging texture waits, through two
    turns of the wait loop, and succeeds. *)
Lemma Map_staging_texture_counterexample :
  D3D11ImmediateContext.allowMapFlagNoWait demoContext = true
  /\ testFlag D3D11_MAP_FLAG_DO_NOT_WAIT D3D11_MAP_FLAG_DO_NOT_WAIT = true
  /\ stillInUse (waitsOn (Texture demoStagingTexture) 0) = true
  /\ exists r,
       D3D11ImmediateContext.Map demoContext (Some (Texture demoStagingTexture)) 0
         D3D11_MAP_READ D3D11_MAP_FLAG_DO_NOT_WAIT (Some zeroMappedSubresource)
       = Some r
       /\ D3D11ImmediateContext.hr r = S_OK
       /\ D3D11ImmediateContext.hr r <> DXGI_ERROR_WAS_STILL_DRAWING
       /\ yields (D3D11ImmediateContext.events (D3D11ImmediateContext.context r))
          = 2%nat.
Proof.
  repeat split. eexists. split; [reflexivity|]. repeat split. discriminate.
Qed.

(** C3 (as amended). Take a map, in a mode other than WRITE_DISCARD and
    WRITE_NO_OVERWRITE, of a mappable buffer or texture subresource
    whose buffer, image or staging buffer is still in use by the GPU.
    When DO_NOT_WAIT is set and honoured by the configuration, and the
    map is not one that first reads the image back into its staging
    buffer, the call does not wait for the GPU and returns
    WAS_STILL_DRAWING with a zeroed output structure; what it leaves
    behind is the current chunk handed to the worker, the worker
    drained, an implicit flush considered, and for a texture the map
    type noted. In every other case (DO_NOT_WAIT absent or not honoured,
    or a read-back map, which clears the flag) the call flushes, drains
    the worker and gives up its time slice until the resource is no
    longer in use, then succeeds; it never returns if the GPU never lets
    go. [WaitForResource] of version 9 does the same on D3DLOCK_DONOTWAIT,
    which no option switches off. *)
Theorem Map_do_not_wait :
  (forall (c : D3D11ImmediateContext.t) (res : ID3D11Resource) (Subresource : nat)
          (MapType MapFlags : Z) (out : D3D11_MAPPED_SUBRESOURCE),
      mappable res Subresource ->
      MapType <> D3D11_MAP_WRITE_DISCARD ->
      MapType <> D3D11_MAP_WRITE_NO_OVERWRITE ->
      stillInUse (waitsOn res Subresource) = true ->
      (Wait11.noWait c MapFlags && negb (readsBack res) = true ->
       D3D11ImmediateContext.Map c (Some res) Subresource MapType MapFlags (Some out)
       = Some (D3D11ImmediateContext.mkResult DXGI_ERROR_WAS_STILL_DRAWING
                 (Some zeroMappedSubresource) (Wait11.stillDrawing c)
                 (Some (afterMap res Subresource MapType)))
       /\ yields (D3D11ImmediateContext.events (Wait11.stillDrawing c))
          = yields (D3D11ImmediateContext.events c))
      /\ (Wait11.noWait c MapFlags && negb (readsBack res) = false ->
          (forall n, waitsOn res Subresource = Some (S n) ->
             exists r,
               D3D11ImmediateContext.Map c (Some res) Subresource MapType MapFlags
                 (Some out) = Some r
               /\ D3D11ImmediateContext.hr r = S_OK
               /\ D3D11ImmediateContext.context r
                  = Wait11.waited (beforeWait c res Subresource) n
               /\ D3D11ImmediateContext.resource r
                  = Some (afterMap res Subresource MapType)
               /\ yields (D3D11ImmediateContext.events
                            (D3D11ImmediateContext.context r))
                  = (yields (D3D11ImmediateContext.events c) + n)%nat)
          /\ (waitsOn res Subresource = None ->
              D3D11ImmediateContext.Map c (Some res) Subresource MapType MapFlags
                (Some out) = None)))
  /\ (forall (d : D3D9DeviceEx.t) (Resource : InUse) (MapFlags : Z),
        stillInUse Resource = true ->
        (testFlag MapFlags D3D9DeviceEx.D3DLOCK_DONOTWAIT = true ->
         D3D9DeviceEx.WaitForResource d Resource MapFlags
         = Some (false, Wait9.stillDrawing d)
         /\ yields (D3D9DeviceEx.events (Wait9.stillDrawing d))
            = yields (D3D9DeviceEx.events d))
        /\ (testFlag MapFlags D3D9DeviceEx.D3DLOCK_DONOTWAIT = false ->
            (forall n, Resource = Some (S n) ->
               D3D9DeviceEx.WaitForResource d Resource MapFlags
               = Some (true, Wait9.waited d n)
               /\ yields (D3D9DeviceEx.events (Wait9.waited d n))
                  = (yields (D3D9DeviceEx.events d) + n)%nat)
            /\ (Resource = None ->
                D3D9DeviceEx.WaitForResource d Resource MapFlags = None))).
Proof.
  split.
  - apply Map_still_in_use.
  - intros d u MapFlags Hu.
    destruct (Wait9.WaitForResource9_spec d u MapFlags Hu) as [Hno Hyes].
    split.
    + intros H. split; [apply Hno, H | apply Wait9.yields9_stillDrawing].
    + intros H. destruct (Hyes H) as [Hsome Hnone]. split; [|exact Hnone].
      intros n En. split; [apply Hsome, En | apply Wait9.yields9_waited].
Qed.

Example Map_read_demo :
  exists r,
    D3D11ImmediateContext.Map demoContext (Some (Buffer demoBuffer)) 0
      D3D11_MAP_READ 0 (Some zeroMappedSubresource) = Some r
    /\ D3D11ImmediateContext.hr r = S_OK
    /\ D3D11ImmediateContext.mapped r
       = Some {| pData := 0x10000; RowPitch := 256; DepthPitch := 256 |}
    /\ D3D11ImmediateContext.events (D3D11ImmediateContext.context r)
       = [dispatchChunk [beginRecording]; synchronize; flushInitContext;
          dispatchChunk [flushCommandList]; synchronize; yield; yield].
Proof. eexists. split; [reflexivity|]. repeat split. Qed.

Lemma Map_do_not_wait_witness :
  D3D11ImmediateContext.Map demoContext (Some (Buffer demoBuffer)) 0
    D3D11_MAP_READ D3D11_MAP_FLAG_DO_NOT_WAIT (Some zeroMappedSubresource)
  = Some (D3D11ImmediateContext.mkResult DXGI_ERROR_WAS_STILL_DRAWING
            (Some zeroMappedSubresource) (Wait11.stillDrawing demoContext)
            (Some (Buffer demoBuffer)))
  /\ yields (D3D11ImmediateContext.events (Wait11.stillDrawing demoContext))
     = yields (D3D11ImmediateContext.events demoContext).
Proof.
  apply (proj1 Map_do_not_wait demoContext (Buffer demoBuffer) 0%nat
           D3D11_MAP_READ D3D11_MAP_FLAG_DO_NOT_WAIT zeroMappedSubresource).
  - discriminate.
  - discriminate.
  - discriminate.
  - reflexivity.
  - reflexivity.
Defined.

(** * Properties of the version-9 device *)

Section RenderStates.
Import D3D9DeviceEx.

Variable IsAlphaToCoverageEnabled : D3D9DeviceEx.t -> bool.

Ltac device_ops :=
  unfold BindBlendFactor, BindDepthStencilRefrence, UpdatePushConstant_AlphaRef,
    ResolveZ, alphaToCoverageChanged, flagSet, flagClr, EmitCs, EmitCsChunk.

Ltac split_ifs :=
  repeat match goal with
         | |- context [if ?b then _ else _] => destruct b
         | |- context [match ?o with Some _ => _ | None => _ end] => destruct o
         end.

Lemma renderStates_renderStateChanged d State oldATOC :
  renderStates (renderStateChanged IsAlphaToCoverageEnabled d State oldATOC)
  = renderStates d.
Proof. unfold renderStateChanged. device_ops. split_ifs; reflexivity. Qed.

(** A state id that [SetRenderState] ignores. *)
Definition outOfRange (State : Z) : Prop := State > 255 \/ (State < 7 /\ State <> 0).

(** The pairs of state and value that the vendor hacks intercept: alpha
    to coverage and RESZ on [D3DRS_POINTSIZE], alpha to coverage on
    [D3DRS_ADAPTIVETESS_Y]. *)
Definition vendorHack (State Value : Z) : bool :=
  (State =? D3DRS_POINTSIZE)
  && ((Value =? AlphaToCoverageEnableAMD) || (Value =? AlphaToCoverageDisableAMD)
      || (Value =? RESZ))
  || (State =? D3DRS_ADAPTIVETESS_Y)
     && ((Value =? AlphaToCoverageEnableNV) || (Value =? AlphaToCoverageDisableNV)).

Lemma outOfRange_test State :
  (State >? 255) || ((State <? D3DRS_ZENABLE) && negb (State =? 0)) = true
  <-> outOfRange State.
Proof.
  unfold outOfRange, D3DRS_ZENABLE.
  destruct (Z.gtb_spec State 255), (Z.ltb_spec State 7), (Z.eqb_spec State 0);
    simpl; split; intros Hr; try discriminate; try reflexivity; try lia.
Qed.

Lemma inRange_test State :
  State = 0 \/ 7 <= State <= 255 ->
  (State >? 255) || ((State <? D3DRS_ZENABLE) && negb (State =? 0)) = false.
Proof.
  intros H. apply not_true_is_false. rewrite outOfRange_test.
  unfold outOfRange. lia.
Qed.

Lemma rs_insert d State Value :
  0 <= State -> (Z.to_nat State < List.length (renderStates d))%nat ->
  rs (setRenderStates d (<[Z.to_nat State := Value]> (renderStates d))) State = Value.
Proof.
  intros H0 Hlt. unfold rs. simpl.
  rewrite list_lookup_insert_eq by exact Hlt. reflexivity.
Qed.

Lemma SetRenderState_ok d State Value :
  fst (SetRenderState IsAlphaToCoverageEnabled d State Value) = D3D_OK.
Proof. unfold SetRenderState. split_ifs; reflexivity. Qed.

Lemma SetRenderState_stores d State Value :
  List.length (renderStates d) = 256%nat ->
  7 <= State <= 255 -> ShouldRecord d = false ->
  vendorHack State Value = false \/ rs d State = Value ->
  rs (snd (SetRenderState IsAlphaToCoverageEnabled d State Value)) State = Value.
Proof.
  intros Hlen Hrange Hrec Hhack. unfold SetRenderState.
  rewrite inRange_test by lia. rewrite Hrec.
  destruct (Z.eqb_spec (rs d State) Value) as [E|N]; [exact E|].
  destruct Hhack as [Hhack|?]; [|contradiction].
  unfold vendorHack in Hhack. simpl negb. cbv iota.
  destruct (State =? D3DRS_POINTSIZE), (State =? D3DRS_ADAPTIVETESS_Y),
    (Value =? AlphaToCoverageEnableAMD), (Value =? AlphaToCoverageDisableAMD),
    (Value =? RESZ), (Value =? AlphaToCoverageEnableNV),
    (Value =? AlphaToCoverageDisableNV); simpl in Hhack; try discriminate;
    simpl; unfold rs; rewrite renderStates_renderStateChanged;
    apply rs_insert; lia.
Qed.

Lemma SetRenderState_intercepted d State Value :
  ShouldRecord d = true \/ vendorHack State Value = true ->
  renderStates (snd (SetRenderState IsAlphaToCoverageEnabled d State Value))
  = renderStates d.
Proof.
  intros H. unfold SetRenderState.
  destruct ((State >? 255) || ((State <? D3DRS_ZENABLE) && negb (State =? 0)));
    [reflexivity|].
  destruct (ShouldRecord d) eqn:Hrec.
  - destruct (m_recorder d); reflexivity.
  - destruct H as [H|H]; [discriminate|].
    destruct (negb (rs d State =? Value)); [|reflexivity].
    unfold vendorHack in H.
    destruct (State =? D3DRS_POINTSIZE), (State =? D3DRS_ADAPTIVETESS_Y),
      (Value =? AlphaToCoverageEnableAMD), (Value =? AlphaToCoverageDisableAMD),
      (Value =? RESZ), (Value =? AlphaToCoverageEnableNV),
      (Value =? AlphaToCoverageDisableNV); simpl in H; try discriminate;
      simpl; device_ops; split_ifs; reflexivity.
Qed.

(** C7 (as amended). For every render-state id from 7 to 209, when no
    state block is being recorded and the pair of id and value is not
    one that a vendor hack intercepts (or the value is the one already
    stored), SetRenderState followed by GetRenderState yields exactly
    the value; a set that is recorded or intercepted leaves the state
    vector as it is, and GetRenderState yields 0 for the ids 0 and 210
    to 255. For every out-of-range id SetRenderState leaves the device
    unchanged; it returns the OK status code in all cases. *)
Theorem SetRenderState_GetRenderState (d : D3D9DeviceEx.t) (State Value : Z) :
  List.length (renderStates d) = 256%nat ->
  (outOfRange State ->
   SetRenderState IsAlphaToCoverageEnabled d State Value = (D3D_OK, d))
  /\ fst (SetRenderState IsAlphaToCoverageEnabled d State Value) = D3D_OK
  /\ (7 <= State <= 209 -> ShouldRecord d = false ->
      vendorHack State Value = false \/ rs d State = Value ->
      forall old,
        GetRenderState
          (snd (SetRenderState IsAlphaToCoverageEnabled d State Value))
          State (Some old)
        = (D3D_OK, Some Value))
  /\ (ShouldRecord d = true \/ vendorHack State Value = true ->
      renderStates (snd (SetRenderState IsAlphaToCoverageEnabled d State Value))
      = renderStates d)
  /\ (State = 0 \/ 210 <= State <= 255 ->
      forall d' old, GetRenderState d' State (Some old) = (D3D_OK, Some 0)).
Proof.
  intros Hlen. split; [|split; [|split; [|split]]].
  - intros H. unfold SetRenderState.
    rewrite (proj2 (outOfRange_test State) H). reflexivity.
  - apply SetRenderState_ok.
  - intros Hrange Hrec Hhack old. unfold GetRenderState.
    rewrite inRange_test by lia.
    unfold D3DRS_ZENABLE, D3DRS_BLENDOPALPHA.
    destruct (Z.ltb_spec State 7); [lia|].
    destruct (Z.gtb_spec State 209); [lia|]. simpl.
    rewrite SetRenderState_stores; auto. lia.
  - apply SetRenderState_intercepted.
  - intros H d' old. unfold GetRenderState.
    rewrite inRange_test by lia.
    unfold D3DRS_ZENABLE, D3DRS_BLENDOPALPHA.
    destruct (Z.ltb_spec State 7), (Z.gtb_spec State 209); simpl;
      try reflexivity; lia.
Qed.

End RenderStates.

(** Alpha to coverage as the two vendor switches and the alpha test
    would have it; the device below has just been created. *)
Definition demoAlphaToCoverage (d : D3D9DeviceEx.t) : bool :=
  D3D9DeviceEx.m_amdATOC d
  || (D3D9DeviceEx.m_nvATOC d
      && negb (D3D9DeviceEx.rs d D3D9DeviceEx.D3DRS_ALPHATESTENABLE =? 0)).

(** The ids 255 and [D3DRS_POINTSIZE] are in the range [SetRenderState]
    accepts, and yet the value set does not come back: ids above 209
    read as zero, and RESZ on the point size is a request to resolve
    the depth buffer, not a value to store. *)
Lemma SetRenderState_roundtrip_counterexample :
  ~ outOfRange 255
  /\ ~ outOfRange D3D9DeviceEx.D3DRS_POINTSIZE
  /\ D3D9DeviceEx.GetRenderState
       (snd (D3D9DeviceEx.SetRenderState demoAlphaToCoverage demoDevice 255 1))
       255 (Some 7)
     = (D3D_OK, Some 0)
  /\ D3D9DeviceEx.GetRenderState
       (snd (D3D9DeviceEx.SetRenderState demoAlphaToCoverage demoDevice
               D3D9DeviceEx.D3DRS_POINTSIZE D3D9DeviceEx.RESZ))
       D3D9DeviceEx.D3DRS_POINTSIZE (Some 7)
     = (D3D_OK, Some 0).
Proof.
  unfold outOfRange, D3D9DeviceEx.D3DRS_POINTSIZE.
  split; [lia|]. split; [lia|]. split; reflexivity.
Qed.

Lemma SetRenderState_GetRenderState_witness :
  D3D9DeviceEx.GetRenderState
    (snd (D3D9DeviceEx.SetRenderState demoAlphaToCoverage demoDevice
            D3D9DeviceEx.D3DRS_MULTISAMPLEMASK 0xff))
    D3D9DeviceEx.D3DRS_MULTISAMPLEMASK (Some 7)
  = (D3D_OK, Some 0xff).
Proof.
  destruct (SetRenderState_GetRenderState demoAlphaToCoverage demoDevice
              D3D9DeviceEx.D3DRS_MULTISAMPLEMASK 0xff eq_refl)
    as (_ & _ & Hget & _).
  apply Hget.
  - unfold D3D9DeviceEx.D3DRS_MULTISAMPLEMASK. lia.
  - reflexivity.
  - left. reflexivity.
Defined.

(** ** The sample mask of the version-9 device *)

(** The sample mask a command binds, if it binds the multisample
    state. *)
Definition sampleMaskOf (cmd : DxvkCsCmd) : option Z :=
  match cmd with
  | setMultisampleState sampleMask _ => Some sampleMask
  | _ => None
  end.

(** The sample mask of the multisample state that is bound once the
    worker has run some commands: that of the last command that binds
    one, [None] when there is no such command. *)
Definition lastSampleMask (cmds : list DxvkCsCmd) : option Z :=
  fold_left
    (fun bound cmd =>
       match sampleMaskOf cmd with Some m => Some m | None => bound end)
    cmds None.

Definition boundSampleMask (d : D3D9DeviceEx.t) : option Z :=
  lastSampleMask (Flush9.recorded d).

(** The primary render target is multisampled beyond
    [D3DMULTISAMPLE_NONMASKABLE]. *)
Definition primaryMultiSampled (d : D3D9DeviceEx.t) : Prop :=
  exists p, D3D9DeviceEx.rt d 0 = Some p
    /\ D3D9DeviceEx.MultiSample (D3D9DeviceEx.surfaces d p)
       > D3D9DeviceEx.D3DMULTISAMPLE_NONMASKABLE.

(** The sample mask the spec asks for: the render state when the flag
    is set, all ones when it is not. *)
Definition expectedSampleMask (d : D3D9DeviceEx.t) : Z :=
  if D3D9DeviceEx.flagTest d D3D9DeviceEx.ValidSampleMask
  then D3D9DeviceEx.rs d D3D9DeviceEx.D3DRS_MULTISAMPLEMASK
  else 0xffffffff.

(** What the bookkeeping of the sample mask reads of a device. *)
Definition maskFields (d : D3D9DeviceEx.t) :=
  (D3D9DeviceEx.m_flags d, D3D9DeviceEx.renderStates d,
   D3D9DeviceEx.renderTargets d, D3D9DeviceEx.surfaces d).

(** A step that leaves the sample mask alone: the mask in the render
    states, the primary render target and the flag are as before, the
    multisample state stays dirty if it was, and no multisample state
    has been bound. *)
Record benign (d d' : D3D9DeviceEx.t) : Prop := {
  benign_mask :
    D3D9DeviceEx.rs d' D3D9DeviceEx.D3DRS_MULTISAMPLEMASK
    = D3D9DeviceEx.rs d D3D9DeviceEx.D3DRS_MULTISAMPLEMASK;
  benign_target : D3D9DeviceEx.rt d' 0 = D3D9DeviceEx.rt d 0;
  benign_targets :
    List.length (D3D9DeviceEx.renderTargets d')
    = List.length (D3D9DeviceEx.renderTargets d);
  benign_surfaces : D3D9DeviceEx.surfaces d' = D3D9DeviceEx.surfaces d;
  benign_valid :
    D3D9DeviceEx.flagTest d' D3D9DeviceEx.ValidSampleMask
    = D3D9DeviceEx.flagTest d D3D9DeviceEx.ValidSampleMask;
  benign_dirty :
    D3D9DeviceEx.flagTest d D3D9DeviceEx.DirtyMultiSampleState = true ->
    D3D9DeviceEx.flagTest d' D3D9DeviceEx.DirtyMultiSampleState = true;
  benign_bound : boundSampleMask d' = boundSampleMask d;
}.

(** The invariant of the device: the array of render targets has its
    four entries, the flag tells whether the primary render target is
    multisampled beyond [D3DMULTISAMPLE_NONMASKABLE], and the
    multisample state is dirty, or none has been bound yet, or the one
    bound carries the expected sample mask. *)
Record sampleMaskInv (d : D3D9DeviceEx.t) : Prop := {
  inv_targets : List.length (D3D9DeviceEx.renderTargets d) = 4%nat;
  inv_valid :
    D3D9DeviceEx.flagTest d D3D9DeviceEx.ValidSampleMask = true
    <-> primaryMultiSampled d;
  inv_bound :
    D3D9DeviceEx.flagTest d D3D9DeviceEx.DirtyMultiSampleState = true
    \/ boundSampleMask d = None
    \/ boundSampleMask d = Some (expectedSampleMask d);
}.

Section SampleMask.
Import D3D9DeviceEx.

Variable IsAlphaToCoverageEnabled : D3D9DeviceEx.t -> bool.

(** The devices a program can get to: a new device, then render states
    and render targets set, state blocks begun and ended, scenes ended
    and draws prepared. The render target index is a [DWORD]. *)
Inductive deviceReachable : D3D9DeviceEx.t -> Prop :=
| device_new bExtended capacity textures pending time :
    deviceReachable (new bExtended capacity textures pending time)
| device_SetRenderState d State Value :
    deviceReachable d ->
    deviceReachable (snd (SetRenderState IsAlphaToCoverageEnabled d State Value))
| device_SetRenderTarget d RenderTargetIndex pRenderTarget :
    deviceReachable d -> 0 <= RenderTargetIndex ->
    deviceReachable (snd (SetRenderTarget d RenderTargetIndex pRenderTarget))
| device_StateBlock d recorder :
    deviceReachable d -> deviceReachable (setRecorder d recorder)
| device_EndScene d :
    deviceReachable d -> deviceReachable (snd (EndScene d))
| device_PrepareDraw d :
    deviceReachable d ->
    deviceReachable (PrepareDraw_MultiSampleState IsAlphaToCoverageEnabled d).

(** *** The flags *)

Lemma flagBit_nonneg f : 0 <= flagBit f.
Proof. destruct f; simpl; lia. Qed.

Lemma flagTest_flagSet d f g :
  flagTest (flagSet d f) g = (flagBit f =? flagBit g) || flagTest d g.
Proof.
  unfold flagTest, flagSet. cbn [m_flags setFlags].
  apply Z.setbit_eqb, flagBit_nonneg.
Qed.

Lemma flagTest_flagClr d f g :
  flagTest (flagClr d f) g = flagTest d g && negb (flagBit f =? flagBit g).
Proof.
  unfold flagTest, flagClr. cbn [m_flags setFlags].
  apply Z.clearbit_eqb.
Qed.

Lemma flagTest_flagSet_same d f : flagTest (flagSet d f) f = true.
Proof. rewrite flagTest_flagSet, Z.eqb_refl. reflexivity. Qed.

Lemma flagTest_flagSet_other d f g :
  (flagBit f =? flagBit g) = false -> flagTest (flagSet d f) g = flagTest d g.
Proof. intros H. rewrite flagTest_flagSet, H. reflexivity. Qed.

Lemma flagTest_flagClr_same d f : flagTest (flagClr d f) f = false.
Proof. rewrite flagTest_flagClr, Z.eqb_refl. apply andb_false_r. Qed.

Lemma flagTest_flagClr_other d f g :
  (flagBit f =? flagBit g) = false -> flagTest (flagClr d f) g = flagTest d g.
Proof. intros H. rewrite flagTest_flagClr, H. apply andb_true_r. Qed.

(** *** The commands recorded *)

Lemma lastSampleMask_snoc cmds cmd :
  lastSampleMask (cmds ++ [cmd])
  = match sampleMaskOf cmd with
    | Some m => Some m
    | None => lastSampleMask cmds
    end.
Proof. unfold lastSampleMask. rewrite fold_left_app. reflexivity. Qed.

Lemma boundSampleMask_EmitCs d cmd :
  boundSampleMask (EmitCs d cmd)
  = match sampleMaskOf cmd with
    | Some m => Some m
    | None => boundSampleMask d
    end.
Proof.
  unfold boundSampleMask. rewrite Flush9.recorded9_EmitCs.
  apply lastSampleMask_snoc.
Qed.

Lemma boundSampleMask_Flush d : boundSampleMask (Flush d) = boundSampleMask d.
Proof.
  unfold boundSampleMask. rewrite (proj1 (Flush9.Flush9_recorded d)).
  destruct (Flush9.hasWork d).
  - apply lastSampleMask_snoc.
  - rewrite app_nil_r. reflexivity.
Qed.

Lemma boundSampleMask_FlushImplicit d StrongHint :
  boundSampleMask (FlushImplicit d StrongHint) = boundSampleMask d.
Proof.
  unfold FlushImplicit.
  destruct (_ || _); [|reflexivity].
  destruct (_ >=? _); [apply boundSampleMask_Flush | reflexivity].
Qed.

Lemma maskFields_EmitCs d cmd : maskFields (EmitCs d cmd) = maskFields d.
Proof. unfold EmitCs. destruct (_ <? _)%nat; reflexivity. Qed.

Lemma maskFields_FlushCsChunk d : maskFields (FlushCsChunk d) = maskFields d.
Proof. unfold FlushCsChunk. destruct (m_csChunk d); reflexivity. Qed.

Lemma maskFields_Flush d : maskFields (Flush d) = maskFields d.
Proof.
  unfold Flush. destruct (_ || _); [|reflexivity].
  transitivity
    (maskFields (FlushCsChunk (EmitCs (addEvent d flushInitContext) flushCommandList)));
    [reflexivity|].
  rewrite maskFields_FlushCsChunk, maskFields_EmitCs. reflexivity.
Qed.

Lemma maskFields_FlushImplicit d StrongHint :
  maskFields (FlushImplicit d StrongHint) = maskFields d.
Proof.
  unfold FlushImplicit.
  destruct (_ || _); [|reflexivity].
  destruct (_ >=? _); [apply maskFields_Flush | reflexivity].
Qed.

(** *** Steps that leave the sample mask alone *)

Lemma benign_refl d : benign d d.
Proof. constructor; auto. Qed.

Lemma benign_trans d1 d2 d3 : benign d1 d2 -> benign d2 d3 -> benign d1 d3.
Proof.
  intros [A1 A2 A3 A4 A5 A6 A7] [B1 B2 B3 B4 B5 B6 B7].
  constructor; try congruence. auto.
Qed.

Lemma benign_fields d d' :
  maskFields d' = maskFields d -> boundSampleMask d' = boundSampleMask d ->
  benign d d'.
Proof.
  unfold maskFields. intros H Hb. injection H as Hf Hs Ht Hu.
  constructor; unfold rs, rt, flagTest; try congruence.
Qed.

Lemma benign_flagSet d f :
  (flagBit f =? flagBit ValidSampleMask) = false -> benign d (flagSet d f).
Proof.
  intros Hf. constructor; try reflexivity.
  - rewrite flagTest_flagSet, Hf. reflexivity.
  - intros H. rewrite flagTest_flagSet, H. apply orb_true_r.
Qed.

Lemma benign_EmitCs d cmd : sampleMaskOf cmd = None -> benign d (EmitCs d cmd).
Proof.
  intros H. apply benign_fields.
  - apply maskFields_EmitCs.
  - rewrite boundSampleMask_EmitCs, H. reflexivity.
Qed.

Lemma benign_FlushImplicit d StrongHint : benign d (FlushImplicit d StrongHint).
Proof.
  apply benign_fields.
  - apply maskFields_FlushImplicit.
  - apply boundSampleMask_FlushImplicit.
Qed.

Ltac benign_steps :=
  repeat first
    [ apply benign_refl
    | eapply benign_trans; [| apply benign_flagSet; reflexivity]
    | eapply benign_trans; [| apply benign_EmitCs; reflexivity] ].

Lemma renderStateChanged_benign d State oldATOC :
  benign d (renderStateChanged IsAlphaToCoverageEnabled d State oldATOC).
Proof.
  unfold renderStateChanged, BindBlendFactor, BindDepthStencilRefrence,
    UpdatePushConstant_AlphaRef.
  repeat match goal with
         | |- context [if ?b then _ else _] => destruct b
         end; benign_steps.
Qed.

Lemma alphaToCoverageChanged_benign d oldATOC :
  benign d (alphaToCoverageChanged IsAlphaToCoverageEnabled d oldATOC).
Proof. unfold alphaToCoverageChanged. destruct (negb _); benign_steps. Qed.

Lemma ResolveZ_benign d : benign d (ResolveZ d).
Proof.
  unfold ResolveZ. destruct (depthStencil d); [|apply benign_refl].
  destruct (texture0 d); [|apply benign_refl].
  destruct (_ >? _); benign_steps.
Qed.

Lemma sampleMaskInv_benign d d' : sampleMaskInv d -> benign d d' -> sampleMaskInv d'.
Proof.
  intros [I1 I2 I3] [B1 B2 B3 B4 B5 B6 B7]. constructor.
  - congruence.
  - unfold primaryMultiSampled in *. rewrite B5, B2, B4. exact I2.
  - unfold expectedSampleMask. rewrite B7, B5, B1.
    destruct I3 as [H|H]; [left; auto | right; exact H].
Qed.

(** *** The render target *)

Lemma primaryRenderTargetChanged_fields d p :
  renderStates (primaryRenderTargetChanged d p) = renderStates d
  /\ renderTargets (primaryRenderTargetChanged d p) = renderTargets d
  /\ surfaces (primaryRenderTargetChanged d p) = surfaces d
  /\ boundSampleMask (primaryRenderTargetChanged d p) = boundSampleMask d.
Proof.
  unfold primaryRenderTargetChanged.
  destruct (negb _); [destruct (_ >? _)|]; repeat split; reflexivity.
Qed.

Lemma flagTest_viewport d v r f :
  flagTest (setScissorRect (setViewport d v) r) f = flagTest d f.
Proof. reflexivity. Qed.

Lemma primaryRenderTargetChanged_flags d p :
  flagTest (primaryRenderTargetChanged d p) ValidSampleMask
  = (MultiSample (surfaces d p) >? D3DMULTISAMPLE_NONMASKABLE)
  /\ (flagTest d DirtyMultiSampleState = true ->
      flagTest (primaryRenderTargetChanged d p) DirtyMultiSampleState = true)
  /\ (flagTest (primaryRenderTargetChanged d p) ValidSampleMask
      <> flagTest d ValidSampleMask ->
      flagTest (primaryRenderTargetChanged d p) DirtyMultiSampleState = true).
Proof.
  unfold primaryRenderTargetChanged.
  destruct (MultiSample (surfaces d p) >? D3DMULTISAMPLE_NONMASKABLE),
    (flagTest d ValidSampleMask) eqn:Hv; cbn [eqb negb];
    rewrite !flagTest_flagSet, !flagTest_viewport;
    rewrite ?flagTest_flagSet, ?flagTest_flagClr, ?Hv; cbn;
    repeat split; auto; congruence.
Qed.

Lemma rt_insert_primary d p :
  (0 < List.length (renderTargets d))%nat ->
  rt (setRenderTargets d (<[0%nat := p]> (renderTargets d))) 0 = p.
Proof.
  intros H. unfold rt. cbn [renderTargets setRenderTargets Z.to_nat].
  rewrite list_lookup_insert_eq by exact H. reflexivity.
Qed.

Lemma SetRenderTarget_inv d RenderTargetIndex pRenderTarget :
  0 <= RenderTargetIndex -> sampleMaskInv d ->
  sampleMaskInv (snd (SetRenderTarget d RenderTargetIndex pRenderTarget)).
Proof.
  intros H0 I. unfold SetRenderTarget.
  destruct (orb (RenderTargetIndex >=? MaxSimultaneousRenderTargets) _)
    eqn:Hguard; [exact I|].
  destruct (bool_decide (rt d RenderTargetIndex = pRenderTarget)); [exact I|].
  apply orb_false_elim in Hguard as [_ Hnull].
  set (d2 := flagSet (FlushImplicit d (RenderTargetIndex =? 0)) DirtyFramebuffer).
  assert (B : benign d d2).
  { eapply benign_trans; [apply benign_FlushImplicit|].
    apply benign_flagSet. reflexivity. }
  pose proof (sampleMaskInv_benign d d2 I B) as [I1 I2 I3].
  destruct (Z.eqb_spec RenderTargetIndex 0) as [E|N].
  - subst RenderTargetIndex. rewrite andb_true_r in Hnull.
    destruct pRenderTarget as [p|]; [clear Hnull | discriminate Hnull].
    set (d3 := setRenderTargets d2 (<[Z.to_nat 0 := Some p]> (renderTargets d2))).
    assert (Hrt : rt d3 0 = Some p).
    { apply rt_insert_primary. rewrite I1. lia. }
    rewrite Hrt. cbn [snd].
    destruct (primaryRenderTargetChanged_fields d3 p) as (F1 & F2 & F3 & F4).
    destruct (primaryRenderTargetChanged_flags d3 p) as (G1 & G2 & G3).
    constructor.
    + rewrite F2. unfold d3. cbn [renderTargets setRenderTargets].
      rewrite length_insert. exact I1.
    + rewrite G1. unfold primaryMultiSampled, rt. rewrite F2, F3.
      fold (rt d3 0). rewrite Hrt. split.
      * intros H. exists p. split; [reflexivity|].
        apply Z.gtb_gt. exact H.
      * intros (q & Hq & H). injection Hq as <-. apply Z.gtb_gt. exact H.
    + destruct (Bool.bool_dec
                  (flagTest (primaryRenderTargetChanged d3 p) ValidSampleMask)
                  (flagTest d3 ValidSampleMask)) as [Hsame|Hdiff].
      * destruct I3 as [H|H]; [left; apply G2; exact H|right].
        unfold expectedSampleMask, rs. rewrite F4, Hsame, F1. exact H.
      * left. apply G3. exact Hdiff.
  - cbn [snd]. apply (sampleMaskInv_benign d2); [constructor; assumption|].
    constructor; try reflexivity.
    + unfold rt. cbn [renderTargets setRenderTargets].
      rewrite list_lookup_insert_ne; [reflexivity|]. lia.
    + cbn [renderTargets setRenderTargets]. apply length_insert.
    + auto.
Qed.

(** *** The render states *)

Lemma renderStateChanged_mask d oldATOC :
  renderStateChanged IsAlphaToCoverageEnabled d D3DRS_MULTISAMPLEMASK oldATOC
  = if flagTest d ValidSampleMask then flagSet d DirtyMultiSampleState else d.
Proof. reflexivity. Qed.

Lemma SetRenderState_inv d State Value :
  sampleMaskInv d ->
  sampleMaskInv (snd (SetRenderState IsAlphaToCoverageEnabled d State Value)).
Proof.
  intros I. unfold SetRenderState.
  destruct (orb (State >? 255) (andb (State <? D3DRS_ZENABLE) (negb (State =? 0))))
    eqn:Hrange; [exact I|].
  destruct (ShouldRecord d).
  { destruct (m_recorder d); [|exact I].
    apply (sampleMaskInv_benign d); [exact I|].
    apply benign_fields; reflexivity. }
  destruct (negb (rs d State =? Value)); [|exact I].
  destruct (andb (State =? D3DRS_POINTSIZE)
              (orb (Value =? AlphaToCoverageEnableAMD)
                 (Value =? AlphaToCoverageDisableAMD))).
  { apply (sampleMaskInv_benign d); [exact I|].
    eapply benign_trans; [|apply alphaToCoverageChanged_benign].
    apply benign_fields; reflexivity. }
  destruct (andb (State =? D3DRS_POINTSIZE) (Value =? RESZ)).
  { apply (sampleMaskInv_benign d); [exact I|]. apply ResolveZ_benign. }
  destruct (andb (State =? D3DRS_ADAPTIVETESS_Y)
              (orb (Value =? AlphaToCoverageEnableNV)
                 (Value =? AlphaToCoverageDisableNV))).
  { apply (sampleMaskInv_benign d); [exact I|].
    eapply benign_trans; [|apply alphaToCoverageChanged_benign].
    apply benign_fields; reflexivity. }
  cbn [snd].
  set (d1 := setRenderStates d (<[Z.to_nat State := Value]> (renderStates d))).
  destruct (Z.eq_dec State D3DRS_MULTISAMPLEMASK) as [E|N].
  - subst State. rewrite renderStateChanged_mask.
    change (flagTest d1 ValidSampleMask) with (flagTest d ValidSampleMask).
    destruct I as [I1 I2 I3].
    destruct (flagTest d ValidSampleMask) eqn:Hv.
    + constructor; [exact I1 | | left; apply flagTest_flagSet_same].
      rewrite flagTest_flagSet_other by reflexivity.
      change (flagTest d ValidSampleMask = true <-> primaryMultiSampled d).
      rewrite Hv. exact I2.
    + constructor; [exact I1 | |].
      * change (flagTest d ValidSampleMask = true <-> primaryMultiSampled d).
        rewrite Hv. exact I2.
      * unfold expectedSampleMask in *.
        change (flagTest d1 ValidSampleMask) with (flagTest d ValidSampleMask).
        rewrite Hv in *. exact I3.
  - apply (sampleMaskInv_benign d1); [|apply renderStateChanged_benign].
    apply (sampleMaskInv_benign d); [exact I|].
    constructor; try reflexivity; [|auto].
    unfold rs, d1. cbn [renderStates setRenderStates].
    rewrite list_lookup_insert_ne; [reflexivity|].
    apply orb_false_elim in Hrange as [_ Hlow].
    unfold D3DRS_ZENABLE, D3DRS_MULTISAMPLEMASK in *.
    destruct (Z.ltb_spec State 7), (Z.eqb_spec State 0);
      try discriminate; lia.
Qed.

(** *** Binding the multisample state *)

Lemma BindMultiSampleState_recorded d :
  Flush9.recorded (BindMultiSampleState IsAlphaToCoverageEnabled d)
  = Flush9.recorded d
    ++ [setMultisampleState (expectedSampleMask d)
          (IsAlphaToCoverageEnabled (flagClr d DirtyMultiSampleState))].
Proof.
  unfold BindMultiSampleState. rewrite Flush9.recorded9_EmitCs.
  unfold expectedSampleMask.
  rewrite flagTest_flagClr_other by reflexivity. reflexivity.
Qed.

Lemma BindMultiSampleState_flags d f :
  flagTest (BindMultiSampleState IsAlphaToCoverageEnabled d) f
  = flagTest d f && negb (flagBit DirtyMultiSampleState =? flagBit f).
Proof.
  unfold BindMultiSampleState.
  set (cmd := setMultisampleState _ _).
  pose proof (maskFields_EmitCs (flagClr d DirtyMultiSampleState) cmd) as H.
  assert (Hf : m_flags (EmitCs (flagClr d DirtyMultiSampleState) cmd)
               = m_flags (flagClr d DirtyMultiSampleState)).
  { exact (f_equal (fun x => fst (fst (fst x))) H). }
  unfold flagTest at 1. rewrite Hf. apply flagTest_flagClr.
Qed.

Lemma BindMultiSampleState_valid d :
  flagTest (BindMultiSampleState IsAlphaToCoverageEnabled d) ValidSampleMask
  = flagTest d ValidSampleMask.
Proof.
  rewrite BindMultiSampleState_flags.
  change (flagBit DirtyMultiSampleState =? flagBit ValidSampleMask) with false.
  apply andb_true_r.
Qed.

Lemma BindMultiSampleState_clean d :
  flagTest (BindMultiSampleState IsAlphaToCoverageEnabled d) DirtyMultiSampleState
  = false.
Proof.
  rewrite BindMultiSampleState_flags, Z.eqb_refl. apply andb_false_r.
Qed.

Lemma BindMultiSampleState_inv d :
  sampleMaskInv d -> sampleMaskInv (BindMultiSampleState IsAlphaToCoverageEnabled d).
Proof.
  intros [I1 I2 I3].
  pose proof (BindMultiSampleState_valid d) as Hv.
  assert (H : maskFields (BindMultiSampleState IsAlphaToCoverageEnabled d)
              = maskFields (flagClr d DirtyMultiSampleState)).
  { apply maskFields_EmitCs. }
  unfold maskFields in H. injection H as _ Hs Ht Hu.
  constructor.
  - rewrite Ht. exact I1.
  - unfold primaryMultiSampled, rt. rewrite Hv, Ht, Hu. exact I2.
  - right. right. unfold boundSampleMask.
    rewrite BindMultiSampleState_recorded, lastSampleMask_snoc.
    cbn [sampleMaskOf].
    unfold expectedSampleMask, rs. rewrite Hv, Hs. reflexivity.
Qed.

Lemma deviceReachable_inv d : deviceReachable d -> sampleMaskInv d.
Proof.
  induction 1 as [ext cap tex pend time | d State Value _ IH
                 | d Index p _ IH H0 | d r _ IH | d _ IH | d _ IH].
  - constructor.
    + reflexivity.
    + unfold primaryMultiSampled. split.
      * destruct ext; discriminate.
      * intros (p & Hp & _). discriminate Hp.
    + right. left. reflexivity.
  - apply SetRenderState_inv, IH.
  - apply SetRenderTarget_inv; assumption.
  - apply (sampleMaskInv_benign d); [exact IH|]. apply benign_fields; reflexivity.
  - apply (sampleMaskInv_benign d); [exact IH|]. apply benign_FlushImplicit.
  - unfold PrepareDraw_MultiSampleState.
    destruct (flagTest d DirtyMultiSampleState); [|exact IH].
    apply BindMultiSampleState_inv, IH.
Qed.

(** C8. On every device that a program can get to, the flag
    ValidSampleMask is set exactly when the primary render target is
    multisampled beyond NONMASKABLE. BindMultiSampleState records one
    command, which binds a multisample state whose sample mask is the
    render state MULTISAMPLEMASK when the flag is set and 0xffffffff
    when it is not. Once a draw has been prepared the multisample
    state is clean, the flag is as before, and the multisample state
    bound last, if one has been bound since the device was created,
    carries that sample mask. *)
Theorem ValidSampleMask_spec (d : D3D9DeviceEx.t) :
  deviceReachable d ->
  (flagTest d ValidSampleMask = true <-> primaryMultiSampled d)
  /\ Flush9.recorded (BindMultiSampleState IsAlphaToCoverageEnabled d)
     = Flush9.recorded d
       ++ [setMultisampleState
             (if flagTest d ValidSampleMask
              then rs d D3DRS_MULTISAMPLEMASK else 0xffffffff)
             (IsAlphaToCoverageEnabled (flagClr d DirtyMultiSampleState))]
  /\ (let drawn := PrepareDraw_MultiSampleState IsAlphaToCoverageEnabled d in
      flagTest drawn DirtyMultiSampleState = false
      /\ flagTest drawn ValidSampleMask = flagTest d ValidSampleMask
      /\ rs drawn D3DRS_MULTISAMPLEMASK = rs d D3DRS_MULTISAMPLEMASK
      /\ (boundSampleMask drawn = None
          \/ boundSampleMask drawn
             = Some (if flagTest d ValidSampleMask
                     then rs d D3DRS_MULTISAMPLEMASK else 0xffffffff))
      /\ (flagTest d DirtyMultiSampleState = true ->
          boundSampleMask drawn
          = Some (if flagTest d ValidSampleMask
                  then rs d D3DRS_MULTISAMPLEMASK else 0xffffffff))).
Proof.
  intros R. pose proof (deviceReachable_inv d R) as I.
  split; [apply I|]. split; [apply BindMultiSampleState_recorded|].
  cbv zeta. unfold PrepareDraw_MultiSampleState.
  destruct (flagTest d DirtyMultiSampleState) eqn:Hd.
  - pose proof (BindMultiSampleState_valid d) as Hv.
    assert (Hb : boundSampleMask (BindMultiSampleState IsAlphaToCoverageEnabled d)
                 = Some (expectedSampleMask d)).
    { unfold boundSampleMask.
      rewrite BindMultiSampleState_recorded, lastSampleMask_snoc. reflexivity. }
    split; [|split; [|split; [|split]]].
    + apply BindMultiSampleState_clean.
    + exact Hv.
    + assert (H : maskFields (BindMultiSampleState IsAlphaToCoverageEnabled d)
                  = maskFields (flagClr d DirtyMultiSampleState)).
      { apply maskFields_EmitCs. }
      unfold maskFields in H. injection H as _ Hs _ _.
      unfold rs. rewrite Hs. reflexivity.
    + right. exact Hb.
    + intros _. exact Hb.
  - split; [exact Hd|]. split; [reflexivity|]. split; [reflexivity|].
    split; [|discriminate].
    destruct (inv_bound d I) as [H|[H|H]]; [congruence | left; exact H | right; exact H].
Qed.

End SampleMask.

(** A device with two textures: texture 1 has four samples per pixel,
    every other texture has one. On the first device below texture 1
    is the primary render target, on the second texture 2; on both the
    program has then set the sample mask to 0xff. *)
Definition demoSurfaces (p : Z) : D3D9DeviceEx.D3D9CommonTexture :=
  {| D3D9DeviceEx.descWidth := 640; D3D9DeviceEx.descHeight := 480;
     D3D9DeviceEx.MultiSample := if p =? 1 then 4 else 0;
     D3D9DeviceEx.image := p |}.

Definition demoMaskedDevice (target : Z) : D3D9DeviceEx.t :=
  snd (D3D9DeviceEx.SetRenderState demoAlphaToCoverage
         (snd (D3D9DeviceEx.SetRenderTarget
                 (D3D9DeviceEx.new false 4 demoSurfaces 0 1000000)
                 0 (Some target)))
         D3D9DeviceEx.D3DRS_MULTISAMPLEMASK 0xff).

Example ValidSampleMask_demo :
  D3D9DeviceEx.flagTest (demoMaskedDevice 1) D3D9DeviceEx.ValidSampleMask = true
  /\ boundSampleMask
       (D3D9DeviceEx.PrepareDraw_MultiSampleState demoAlphaToCoverage
          (demoMaskedDevice 1))
     = Some 0xff
  /\ D3D9DeviceEx.flagTest (demoMaskedDevice 2) D3D9DeviceEx.ValidSampleMask = false
  /\ D3D9DeviceEx.rs (demoMaskedDevice 2) D3D9DeviceEx.D3DRS_MULTISAMPLEMASK = 0xff
  /\ boundSampleMask
       (D3D9DeviceEx.BindMultiSampleState demoAlphaToCoverage (demoMaskedDevice 2))
     = Some 0xffffffff.
Proof. repeat split; reflexivity. Qed.

Lemma ValidSampleMask_witness :
  deviceReachable demoAlphaToCoverage (demoMaskedDevice 1)
  /\ D3D9DeviceEx.flagTest (demoMaskedDevice 1) D3D9DeviceEx.ValidSampleMask = true
  /\ boundSampleMask
       (D3D9DeviceEx.PrepareDraw_MultiSampleState demoAlphaToCoverage
          (demoMaskedDevice 1))
     = Some 0xff.
Proof.
  assert (R : deviceReachable demoAlphaToCoverage (demoMaskedDevice 1)).
  { apply device_SetRenderState, device_SetRenderTarget; [apply device_new | lia]. }
  split; [exact R|].
  destruct (ValidSampleMask_spec demoAlphaToCoverage (demoMaskedDevice 1) R)
    as (Hflag & _ & _ & _ & _ & _ & Hdirty).
  split.
  - apply Hflag. exists 1. split; [reflexivity|].
    unfold D3D9DeviceEx.D3DMULTISAMPLE_NONMASKABLE. simpl. lia.
  - apply Hdirty. reflexivity.
Defined.

(** * The configuration file *)

Section ConfigFile.
Import Config.

(** The string made of some characters. *)
Local Abbreviation str := string_of_list_ascii.

Lemma skipWhile_app p (l1 l2 : list ascii) n :
  Forall (fun ch => p ch = true) l1 ->
  skipWhile p (l1 ++ l2) n = skipWhile p l2 (n + List.length l1)%nat.
Proof.
  intros H. revert n. induction H as [|ch l1 Hch _ IH]; intros n; simpl.
  - f_equal. lia.
  - rewrite Hch, IH. f_equal. lia.
Qed.

Lemma skipWhile_stop p (l : list ascii) n :
  match l with [] => True | ch :: _ => p ch = false end ->
  skipWhile p l n = n.
Proof. destruct l as [|ch l]; simpl; [reflexivity|]. intros ->. reflexivity. Qed.

Lemma drop_app_length' (l1 l2 : list ascii) n :
  n = List.length l1 -> drop n (l1 ++ l2) = l2.
Proof. intros ->. apply drop_app_length. Qed.

Lemma collected_app (l1 l2 l3 : list ascii) a b :
  a = List.length l1 -> b = (List.length l1 + List.length l2)%nat ->
  collected (l1 ++ l2 ++ l3) a b = str l2.
Proof.
  intros -> ->. unfold collected. rewrite drop_app_length.
  replace (List.length l1 + List.length l2 - List.length l1)%nat
    with (List.length l2) by lia.
  rewrite take_app_length. reflexivity.
Qed.

Lemma isValidKeyChar_not_bracket ch :
  isValidKeyChar ch = true -> ch <> "["%char.
Proof. intros H E. subst ch. discriminate H. Qed.

Lemma isWhitespace_cases ch :
  isWhitespace ch = true -> ch = " "%char \/ ch = "009"%char \/ ch = "013"%char.
Proof.
  unfold isWhitespace. intros H.
  destruct (Ascii.eqb_spec ch " ") as [E1|N1]; [auto|].
  destruct (Ascii.eqb_spec ch "009") as [E2|N2]; [auto|].
  destruct (Ascii.eqb_spec ch "013") as [E3|N3]; [auto|].
  discriminate H.
Qed.

Lemma isWhitespace_not_key ch : isWhitespace ch = true -> isValidKeyChar ch = false.
Proof.
  intros H. destruct (isWhitespace_cases ch H) as [E|[E|E]]; rewrite E; reflexivity.
Qed.

(** A run of characters that all satisfy [p], and what may follow it:
    the end of the line, or a character that fails [p]. *)
Definition allOf (p : ascii -> bool) (run : list ascii) : Prop :=
  Forall (fun ch => p ch = true) run.

Definition endsRun (p : ascii -> bool) (rest : list ascii) : Prop :=
  match rest with [] => True | ch :: _ => p ch = false end.

Definition notWhitespace (ch : ascii) : bool := negb (isWhitespace ch).

Lemma scan_run p (pre run rest : list ascii) n :
  n = List.length pre -> allOf p run -> endsRun p rest ->
  skipWhile p (drop n (pre ++ run ++ rest)) n
  = (List.length pre + List.length run)%nat.
Proof.
  intros -> Hrun Hrest. rewrite drop_app_length.
  rewrite (skipWhile_app p run rest _ Hrun). apply skipWhile_stop, Hrest.
Qed.

Lemma lookup_after (pre : list ascii) ch rest n :
  n = List.length pre -> (pre ++ ch :: rest) !! n = Some ch.
Proof. intros ->. apply list_lookup_middle. reflexivity. Qed.

Lemma endsRun_app p (l1 l2 : list ascii) :
  endsRun p l1 -> (l1 = [] -> endsRun p l2) -> endsRun p (l1 ++ l2).
Proof. destruct l1; simpl; auto. Qed.

Lemma endsRun_head p q (l1 l2 : list ascii) :
  allOf q l1 -> (forall ch, q ch = true -> p ch = false) ->
  (l1 = [] -> endsRun p l2) -> endsRun p (l1 ++ l2).
Proof.
  intros H Hq. destruct H as [|ch l1 Hch _]; simpl; auto.
Qed.

Lemma key_not_whitespace ch : isValidKeyChar ch = true -> isWhitespace ch = false.
Proof.
  intros H. destruct (isWhitespace ch) eqn:E; [|reflexivity].
  rewrite (isWhitespace_not_key ch E) in H. discriminate H.
Qed.

Lemma assignment_core exeName config ctx (ws1 key ws2 ws3 value rest : list ascii) :
  allOf isWhitespace ws1 -> allOf isValidKeyChar key ->
  allOf isWhitespace ws2 -> allOf isWhitespace ws3 ->
  allOf notWhitespace value -> endsRun notWhitespace rest ->
  (key = [] -> ws2 = []) -> (value = [] -> rest = []) ->
  parseUserConfigLine exeName config ctx
    (str (ws1 ++ key ++ ws2 ++ "="%char :: ws3 ++ value ++ rest))
  = (if active ctx then setOption config (str key) (str value) else config, ctx).
Proof.
  intros H1 Hk H2 H3 Hv Hr Hkey Hval. unfold parseUserConfigLine.
  rewrite list_ascii_of_string_of_list_ascii.
  set (L := ws1 ++ key ++ ws2 ++ "="%char :: ws3 ++ value ++ rest).
  (* the leading blanks *)
  assert (E0 : skipWhitespace L 0 = List.length ws1).
  { unfold skipWhitespace, L.
    apply (scan_run isWhitespace [] ws1
             (key ++ ws2 ++ "="%char :: ws3 ++ value ++ rest) 0 eq_refl H1).
    apply (endsRun_head _ isValidKeyChar); [exact Hk | apply key_not_whitespace |].
    intros ->. rewrite (Hkey eq_refl). reflexivity. }
  rewrite E0.
  assert (Hopen : L !! List.length ws1 <> Some "["%char).
  { unfold L. destruct key as [|k key].
    - rewrite (Hkey eq_refl). simpl. rewrite lookup_after by reflexivity.
      discriminate.
    - simpl. rewrite lookup_after by reflexivity. intros E. injection E as E.
      inversion Hk as [|? ? Hch _]. subst. discriminate Hch. }
  rewrite bool_decide_false by exact Hopen.
  (* the key *)
  assert (E1 : skipWhile isValidKeyChar (drop (List.length ws1) L) (List.length ws1)
               = (List.length ws1 + List.length key)%nat).
  { unfold L. apply scan_run; [reflexivity | exact Hk |].
    apply (endsRun_head _ isWhitespace); [exact H2 | apply isWhitespace_not_key |].
    intros _. reflexivity. }
  rewrite E1.
  assert (Ekey : collected L (List.length ws1) (List.length ws1 + List.length key)
                 = str key).
  { unfold L. apply collected_app; reflexivity. }
  rewrite Ekey.
  (* the blanks before the equals sign *)
  assert (L2 : L = (ws1 ++ key) ++ ws2 ++ "="%char :: ws3 ++ value ++ rest).
  { unfold L. rewrite <- app_assoc. reflexivity. }
  assert (E2 : skipWhitespace L (List.length ws1 + List.length key)
               = (List.length ws1 + List.length key + List.length ws2)%nat).
  { unfold skipWhitespace. rewrite L2.
    rewrite (scan_run isWhitespace (ws1 ++ key) ws2); auto.
    - rewrite length_app. reflexivity.
    - rewrite length_app. reflexivity.
    - reflexivity. }
  rewrite E2.
  assert (L3 : L = (ws1 ++ key ++ ws2) ++ "="%char :: ws3 ++ value ++ rest).
  { unfold L. rewrite <- !app_assoc. reflexivity. }
  assert (Eeq : L !! (List.length ws1 + List.length key + List.length ws2)%nat
                = Some "="%char).
  { rewrite L3. apply lookup_after. rewrite !length_app. lia. }
  rewrite bool_decide_true by exact Eeq. cbn [negb].
  (* the blanks after it, and the value *)
  assert (L4 : L = (ws1 ++ key ++ ws2 ++ ["="%char]) ++ ws3 ++ value ++ rest).
  { unfold L. rewrite <- !app_assoc. reflexivity. }
  set (n3 := S (List.length ws1 + List.length key + List.length ws2)).
  assert (Hn3 : n3 = List.length (ws1 ++ key ++ ws2 ++ ["="%char])).
  { unfold n3. rewrite !length_app. simpl. lia. }
  assert (E3 : skipWhitespace L n3 = (n3 + List.length ws3)%nat).
  { unfold skipWhitespace. rewrite L4.
    rewrite (scan_run isWhitespace _ ws3 _ n3 Hn3 H3); [lia|].
    apply (endsRun_head _ notWhitespace); [exact Hv | |].
    - intros ch Hch. unfold notWhitespace in Hch.
      destruct (isWhitespace ch); [discriminate Hch | reflexivity].
    - intros ->. rewrite (Hval eq_refl). reflexivity. }
  rewrite E3.
  assert (L5 : L = ((ws1 ++ key ++ ws2 ++ ["="%char]) ++ ws3) ++ value ++ rest).
  { rewrite L4. rewrite <- !app_assoc. reflexivity. }
  assert (Hn4 : (n3 + List.length ws3)%nat
                = List.length ((ws1 ++ key ++ ws2 ++ ["="%char]) ++ ws3)).
  { rewrite (length_app _ ws3), <- Hn3. reflexivity. }
  assert (E4 : skipWhile (fun ch => negb (isWhitespace ch))
                 (drop (n3 + List.length ws3) L) (n3 + List.length ws3)
               = (n3 + List.length ws3 + List.length value)%nat).
  { rewrite L5. change (fun ch => negb (isWhitespace ch)) with notWhitespace.
    rewrite (scan_run notWhitespace _ value rest _ Hn4 Hv Hr). lia. }
  rewrite E4.
  assert (Eval : collected L (n3 + List.length ws3)
                   (n3 + List.length ws3 + List.length value) = str value).
  { rewrite L5. apply collected_app; [exact Hn4 | lia]. }
  rewrite Eval. destruct (active ctx); reflexivity.
Qed.

Lemma allOf_app p (l1 l2 : list ascii) : allOf p l1 -> allOf p l2 -> allOf p (l1 ++ l2).
Proof. apply Forall_app_2. Qed.

(** X1. A line of the configuration file that assigns: blanks, a key
    of letters, digits, dots and underscores (it may be empty), blanks,
    an equals sign, blanks, and a value that runs up to the next blank
    or the end of the line (it may be empty at the end of the line).
    In an active section the line sets the option to the value,
    whatever follows the value, and replaces a value set before; in an
    inactive section the line changes nothing. *)
Theorem parseUserConfigLine_assignment exeName config ctx
  (ws1 key ws2 ws3 value rest : list ascii) :
  allOf isWhitespace ws1 -> allOf isValidKeyChar key ->
  allOf isWhitespace ws2 -> allOf isWhitespace ws3 ->
  allOf notWhitespace value -> endsRun notWhitespace rest ->
  (value = [] -> rest = []) ->
  parseUserConfigLine exeName config ctx
    (str (ws1 ++ key ++ ws2 ++ "="%char :: ws3 ++ value ++ rest))
  = (if active ctx then setOption config (str key) (str value) else config, ctx).
Proof.
  intros H1 Hk H2 H3 Hv Hr Hval. destruct key as [|k key].
  - change (ws1 ++ [] ++ ws2 ++ "="%char :: ws3 ++ value ++ rest)
      with (ws1 ++ ws2 ++ "="%char :: ws3 ++ value ++ rest).
    rewrite (app_assoc ws1 ws2).
    apply (assignment_core exeName config ctx (ws1 ++ ws2) [] [] ws3 value rest);
      auto using allOf_app. constructor.
  - apply assignment_core; auto. discriminate.
Qed.

Lemma parseUserConfigLine_assignment_witness :
  parseUserConfigLine "game.exe" empty {| active := true |}
    "  d3d9.strictPow = False   # as in the built-in profile"
  = (setOption empty "d3d9.strictPow" "False", {| active := true |}).
Proof.
  apply (parseUserConfigLine_assignment "game.exe" empty {| active := true |}
           (list_ascii_of_string "  ")
           (list_ascii_of_string "d3d9.strictPow")
           (list_ascii_of_string " ")
           (list_ascii_of_string " ")
           (list_ascii_of_string "False")
           (list_ascii_of_string "   # as in the built-in profile"));
    try (repeat constructor); discriminate.
Defined.

(** *** Section headers *)

Lemma findClosingBracket_last (line : list ascii) n m k :
  (n <= m)%nat -> line !! m = Some "]"%char ->
  (forall j, (1 <= j <= k)%nat -> line !! (m + j)%nat <> Some "]"%char) ->
  findClosingBracket line n (m + k) = m.
Proof.
  intros Hn Hm. induction k as [|k IH]; intros Hk.
  - rewrite Nat.add_0_r. destruct m as [|m]; [reflexivity|].
    cbn [findClosingBracket]. rewrite (bool_decide_true _ Hm).
    rewrite andb_false_r. reflexivity.
  - replace (m + S k)%nat with (S (m + k)) by lia.
    cbn [findClosingBracket].
    rewrite bool_decide_false
      by (replace (S (m + k)) with (m + S k)%nat by lia; apply Hk; lia).
    replace (n <? S (m + k))%nat with true
      by (symmetry; apply Nat.ltb_lt; lia).
    cbn [andb negb]. apply IH. intros j Hj. apply Hk. lia.
Qed.

Lemma findClosingBracket_none (line : list ascii) n e :
  (forall j, (n < j)%nat -> line !! j <> Some "]"%char) ->
  (findClosingBracket line n e <= n)%nat.
Proof.
  intros H. induction e as [|e IH]; cbn [findClosingBracket]; [lia|].
  destruct (Nat.ltb_spec n (S e)) as [Hlt|Hge]; cbn [andb]; [|lia].
  rewrite bool_decide_false by (apply H; lia). cbn [negb]. exact IH.
Qed.

Lemma section_line exeName config ctx (ws name tail : list ascii) :
  allOf isWhitespace ws -> Forall (fun ch => ch <> "]"%char) tail ->
  parseUserConfigLine exeName config ctx
    (str (ws ++ "["%char :: name ++ "]"%char :: tail))
  = (config, {| active := String.eqb (str name) exeName |}).
Proof.
  intros Hws Htail. unfold parseUserConfigLine.
  rewrite list_ascii_of_string_of_list_ascii.
  set (L := ws ++ "["%char :: name ++ "]"%char :: tail).
  assert (E0 : skipWhitespace L 0 = List.length ws).
  { unfold skipWhitespace, L.
    apply (scan_run isWhitespace [] ws _ 0 eq_refl Hws). reflexivity. }
  rewrite E0.
  rewrite bool_decide_true by (apply lookup_after; reflexivity).
  assert (L1 : L = (ws ++ "["%char :: name) ++ "]"%char :: tail).
  { unfold L. rewrite <- app_assoc. reflexivity. }
  set (m := List.length (ws ++ "["%char :: name)).
  assert (Hm : m = (S (List.length ws) + List.length name)%nat).
  { unfold m. rewrite length_app. simpl. lia. }
  assert (Elen : (List.length L - 1)%nat = (m + List.length tail)%nat).
  { rewrite L1, length_app. fold m. simpl. lia. }
  rewrite Elen.
  rewrite (findClosingBracket_last L (S (List.length ws)) m (List.length tail)).
  - f_equal. f_equal. f_equal. unfold L.
    change (ws ++ "["%char :: name ++ "]"%char :: tail)
      with (ws ++ ["["%char] ++ name ++ "]"%char :: tail).
    rewrite (app_assoc ws). apply collected_app.
    + rewrite length_app. simpl. lia.
    + rewrite length_app. simpl. lia.
  - lia.
  - rewrite L1. apply lookup_after. reflexivity.
  - intros j Hj. rewrite L1. unfold m.
    rewrite lookup_app_r by lia.
    replace (List.length (ws ++ "["%char :: name) + j
             - List.length (ws ++ "["%char :: name))%nat with j by lia.
    destruct j as [|j]; [lia|]. simpl. intros E.
    apply (proj1 (Forall_lookup _ _) Htail j "]"%char E). reflexivity.
Qed.


(** X2. A line that opens a section: blanks, an opening bracket, a
    name, a closing bracket, and anything without a closing bracket
    after it. The line changes no option; from it on the section is
    active exactly when the name is the name of the executable. The
    name runs up to the last closing bracket of the line; when the
    line has no closing bracket after the opening one, the name is
    empty. *)
Theorem parseUserConfigLine_section exeName config ctx
  (ws name tail : list ascii) :
  allOf isWhitespace ws -> Forall (fun ch => ch <> "]"%char) tail ->
  parseUserConfigLine exeName config ctx
    (str (ws ++ "["%char :: name ++ "]"%char :: tail))
  = (config, {| active := String.eqb (str name) exeName |})
  /\ parseUserConfigLine exeName config ctx (str (ws ++ "["%char :: tail))
     = (config, {| active := String.eqb "" exeName |}).
Proof.
  intros Hws Htail. split; [apply section_line; assumption|].
  unfold parseUserConfigLine. rewrite list_ascii_of_string_of_list_ascii.
  set (L := ws ++ "["%char :: tail).
  assert (E0 : skipWhitespace L 0 = List.length ws).
  { unfold skipWhitespace, L.
    apply (scan_run isWhitespace [] ws _ 0 eq_refl Hws). reflexivity. }
  rewrite E0.
  rewrite bool_decide_true by (apply lookup_after; reflexivity).
  assert (He : (findClosingBracket L (S (List.length ws)) (List.length L - 1)
                <= S (List.length ws))%nat).
  { apply findClosingBracket_none. intros j Hj E. unfold L in E.
    rewrite lookup_app_r in E by lia.
    destruct (j - List.length ws)%nat as [|k] eqn:Ek; [lia|]. cbn in E.
    apply (proj1 (Forall_lookup _ _) Htail k "]"%char E). reflexivity. }
  unfold collected.
  replace (findClosingBracket L (S (List.length ws)) (List.length L - 1)
           - S (List.length ws))%nat with 0%nat by lia.
  reflexivity.
Qed.

Lemma parseUserConfigLine_section_witness :
  parseUserConfigLine "game.exe" empty {| active := true |}
    " [other.exe] options of another game"
  = (empty, {| active := false |}).
Proof.
  apply (fun Hws Htail =>
           proj1 (parseUserConfigLine_section "game.exe" empty {| active := true |}
                    (list_ascii_of_string " ")
                    (list_ascii_of_string "other.exe")
                    (list_ascii_of_string " options of another game") Hws Htail)).
  - repeat constructor.
  - repeat (constructor; [discriminate|]). constructor.
Defined.

(** *** Sections of other executables *)

(** The first character of the line that is not a blank is an opening
    bracket. *)
Definition opensSection (line : string) : bool :=
  let chars := list_ascii_of_string line in
  bool_decide (chars !! skipWhitespace chars 0 = Some "["%char).

Lemma parseUserConfigLine_keeps_section exeName config ctx line :
  opensSection line = false ->
  snd (parseUserConfigLine exeName config ctx line) = ctx.
Proof.
  unfold opensSection, parseUserConfigLine. intros ->.
  destruct (negb _); [reflexivity|]. destruct (active ctx); reflexivity.
Qed.

Lemma parseUserConfigLine_inactive exeName config ctx line :
  active ctx = false \/ opensSection line = true ->
  fst (parseUserConfigLine exeName config ctx line) = config.
Proof.
  unfold opensSection, parseUserConfigLine. intros H.
  destruct (bool_decide _); [reflexivity|].
  destruct H as [H|H]; [|discriminate H].
  destruct (negb _); [reflexivity|]. rewrite H. reflexivity.
Qed.

Lemma parseUserConfigLines_inactive exeName body config ctx :
  active ctx = false -> Forall (fun line => opensSection line = false) body ->
  parseUserConfigLines exeName body config ctx = (config, ctx).
Proof.
  intros Hctx Hbody. unfold parseUserConfigLines.
  induction Hbody as [|line body Hline _ IH]; [reflexivity|].
  cbn [fold_left].
  rewrite (surjective_pairing (parseUserConfigLine exeName config ctx line)).
  rewrite parseUserConfigLine_keeps_section by exact Hline.
  rewrite parseUserConfigLine_inactive by auto. exact IH.
Qed.

(** X3. The options of a section for another executable are ignored:
    after a section line whose name is not the name of the executable,
    the lines up to the next section line set no option, whatever they
    hold. No line sets an option while the section is inactive, and a
    section line never sets one. *)
Theorem parseUserConfigLines_foreign_section exeName config ctx
  (ws name tail : list ascii) (body : list string) :
  allOf isWhitespace ws -> Forall (fun ch => ch <> "]"%char) tail ->
  str name <> exeName ->
  Forall (fun line => opensSection line = false) body ->
  parseUserConfigLines exeName
    (str (ws ++ "["%char :: name ++ "]"%char :: tail) :: body) config ctx
  = (config, {| active := false |})
  /\ (forall line config' ctx',
        active ctx' = false \/ opensSection line = true ->
        fst (parseUserConfigLine exeName config' ctx' line) = config').
Proof.
  intros Hws Htail Hname Hbody. split.
  - unfold parseUserConfigLines. cbn [fold_left].
    rewrite section_line by assumption.
    replace (String.eqb (str name) exeName) with false
      by (symmetry; apply String.eqb_neq; exact Hname).
    apply (parseUserConfigLines_inactive exeName body config {| active := false |});
      [reflexivity | exact Hbody].
  - intros line config' ctx'. apply parseUserConfigLine_inactive.
Qed.

Lemma parseUserConfigLines_foreign_section_witness :
  getUserConfig "game.exe"
    (Some ["[other.exe]"; "d3d9.strictPow = False"; "# a comment"; "";
           "dxgi.nvapiHack=True"])
  = empty.
Proof.
  unfold getUserConfig.
  exact (f_equal fst
           (proj1 (parseUserConfigLines_foreign_section "game.exe" empty
                     {| active := true |} [] (list_ascii_of_string "other.exe") []
                     ["d3d9.strictPow = False"; "# a comment"; "";
                      "dxgi.nvapiHack=True"]
                     ltac:(constructor) ltac:(constructor) ltac:(discriminate)
                     ltac:(repeat constructor)))).
Defined.

(** *** Numbers *)

(** The character of a decimal digit, and the number that a row of
    digits denotes. *)
Definition digitChar (d : Z) : ascii := ascii_of_nat (48 + Z.to_nat d).

Definition decimalValue (digits : list Z) : Z :=
  fold_left (fun value d => 10 * value + d) digits 0.

Definition isDigit (d : Z) : Prop := 0 <= d <= 9.

Lemma nat_of_digitChar d : isDigit d -> nat_of_ascii (digitChar d) = (48 + Z.to_nat d)%nat.
Proof.
  intros H. unfold digitChar. apply nat_ascii_embedding.
  unfold isDigit in H. lia.
Qed.

Lemma fold_digits_mono digits value :
  Forall isDigit digits -> 0 <= value ->
  value <= fold_left (fun value d => 10 * value + d) digits value.
Proof.
  intros H. revert value. induction H as [|d digits Hd _ IH]; intros value Hv.
  - simpl. lia.
  - simpl. unfold isDigit in Hd.
    specialize (IH (10 * value + d) ltac:(lia)). lia.
Qed.

Lemma parseDigits_digits digits value :
  Forall isDigit digits -> 0 <= value ->
  fold_left (fun value d => 10 * value + d) digits value <= INT32_MAX ->
  parseDigits (map digitChar digits) value
  = Some (Some (fold_left (fun value d => 10 * value + d) digits value)).
Proof.
  intros H. revert value. induction H as [|d digits Hd Hds IH]; intros value Hv Hmax.
  - reflexivity.
  - cbn [map parseDigits fold_left] in *.
    rewrite (nat_of_digitChar d Hd).
    pose proof (fold_digits_mono digits (10 * value + d) Hds) as Hmono.
    unfold isDigit in Hd.
    replace ((48 + Z.to_nat d <? 48)%nat) with false
      by (symmetry; apply Nat.ltb_ge; lia).
    replace ((57 <? 48 + Z.to_nat d)%nat) with false
      by (symmetry; apply Nat.ltb_ge; lia).
    cbn [orb].
    replace (value * 10 >? INT32_MAX) with false
      by (symmetry; rewrite Z.gtb_ltb; apply Z.ltb_ge; lia).
    replace (value * 10 + (Z.of_nat (48 + Z.to_nat d) - 48)) with (10 * value + d)
      by lia.
    replace (10 * value + d >? INT32_MAX) with false
      by (symmetry; rewrite Z.gtb_ltb; apply Z.ltb_ge; lia).
    apply IH; lia.
Qed.

Lemma digitChar_not_minus d : isDigit d -> Ascii.eqb (digitChar d) "-" = false.
Proof.
  intros H. apply Ascii.eqb_neq. intros E.
  apply (f_equal nat_of_ascii) in E. rewrite (nat_of_digitChar d H) in E.
  change (nat_of_ascii "-") with 45%nat in E. lia.
Qed.

(** X4. Numbers in the configuration file: a row of decimal digits
    whose value is at most 2147483647 is read as that value, leading
    zeros or not, and with a minus sign before it as its negative; a
    lone minus sign is read as zero. The empty string is refused, and
    so is such a row of digits, with a minus sign before it or
    without, that is followed by a character that is not a digit (a
    plus sign before the number, a second minus sign, a blank after
    the number or after the sign): the variable to receive the number
    is then left as it was. *)
Theorem parseOptionValue_int32_decimal (digits : list Z) (result : Z) :
  Forall isDigit digits -> decimalValue digits <= INT32_MAX ->
  (digits <> [] ->
   parseOptionValue_int32 (str (map digitChar digits)) result
   = Some (true, decimalValue digits))
  /\ parseOptionValue_int32 (str ("-"%char :: map digitChar digits)) result
     = Some (true, - decimalValue digits)
  /\ parseOptionValue_int32 "" result = Some (false, result)
  /\ (forall ch rest,
        (nat_of_ascii ch < 48 \/ 57 < nat_of_ascii ch)%nat ->
        (digits = [] -> ch <> "-"%char) ->
        parseOptionValue_int32 (str (map digitChar digits ++ ch :: rest)) result
        = Some (false, result))
  /\ (forall ch rest,
        (nat_of_ascii ch < 48 \/ 57 < nat_of_ascii ch)%nat ->
        parseOptionValue_int32
          (str ("-"%char :: map digitChar digits ++ ch :: rest)) result
        = Some (false, result)).
Proof.
  intros Hd Hmax. unfold decimalValue in *.
  pose proof (parseDigits_digits digits 0 Hd ltac:(lia) Hmax) as Hparse.
  assert (Hrej : forall ch rest value,
             (nat_of_ascii ch < 48 \/ 57 < nat_of_ascii ch)%nat ->
             0 <= value ->
             fold_left (fun value d => 10 * value + d) digits value <= INT32_MAX ->
             parseDigits (map digitChar digits ++ ch :: rest) value = Some None).
  { clear Hparse Hmax. intros ch rest value Hch.
    revert value. induction Hd as [|d digits Hd1 Hds IH];
      intros value Hv Hmax.
    - cbn [map app parseDigits].
      destruct Hch as [Hch|Hch].
      + replace (nat_of_ascii ch <? 48)%nat with true
          by (symmetry; apply Nat.ltb_lt; lia). reflexivity.
      + replace (57 <? nat_of_ascii ch)%nat with true
          by (symmetry; apply Nat.ltb_lt; lia).
        rewrite orb_true_r. reflexivity.
    - cbn [map app parseDigits fold_left] in *.
      rewrite (nat_of_digitChar d Hd1).
      pose proof (fold_digits_mono digits (10 * value + d) Hds) as Hmono.
      unfold isDigit in Hd1.
      replace ((48 + Z.to_nat d <? 48)%nat) with false
        by (symmetry; apply Nat.ltb_ge; lia).
      replace ((57 <? 48 + Z.to_nat d)%nat) with false
        by (symmetry; apply Nat.ltb_ge; lia).
      cbn [orb].
      replace (value * 10 >? INT32_MAX) with false
        by (symmetry; rewrite Z.gtb_ltb; apply Z.ltb_ge; lia).
      replace (value * 10 + (Z.of_nat (48 + Z.to_nat d) - 48))
        with (10 * value + d) by lia.
      replace (10 * value + d >? INT32_MAX) with false
        by (symmetry; rewrite Z.gtb_ltb; apply Z.ltb_ge; lia).
      apply IH; lia. }
  split; [|split; [|split; [|split]]].
  - intros Hne. unfold parseOptionValue_int32.
    rewrite list_ascii_of_string_of_list_ascii.
    destruct digits as [|d digits]; [contradiction|].
    cbn [map]. rewrite digitChar_not_minus by (inversion Hd; assumption).
    change (digitChar d :: map digitChar digits) with (map digitChar (d :: digits)).
    rewrite Hparse. f_equal; f_equal; lia.
  - unfold parseOptionValue_int32.
    rewrite list_ascii_of_string_of_list_ascii.
    rewrite Ascii.eqb_refl, Hparse. f_equal; f_equal; lia.
  - reflexivity.
  - intros ch rest Hch Hminus. unfold parseOptionValue_int32.
    rewrite list_ascii_of_string_of_list_ascii.
    destruct digits as [|d digits].
    + cbn [map app].
      rewrite (proj2 (Ascii.eqb_neq ch "-") (Hminus eq_refl)).
      change (ch :: rest) with (map digitChar [] ++ ch :: rest).
      rewrite Hrej by (try exact Hch; simpl; unfold INT32_MAX; lia). reflexivity.
    + cbn [map app]. rewrite digitChar_not_minus by (inversion Hd; assumption).
      change (digitChar d :: map digitChar digits ++ ch :: rest)
        with (map digitChar (d :: digits) ++ ch :: rest).
      rewrite Hrej by (try exact Hch; try exact Hmax; lia). reflexivity.
  - intros ch rest Hch. unfold parseOptionValue_int32.
    rewrite list_ascii_of_string_of_list_ascii.
    rewrite Ascii.eqb_refl.
    rewrite Hrej by (try exact Hch; try exact Hmax; lia). reflexivity.
Qed.

Lemma parseOptionValue_int32_witness :
  parseOptionValue_int32 "-0016" 7 = Some (true, -16)
  /\ parseOptionValue_int32 "-12x" 7 = Some (false, 7)
  /\ parseOptionValue_int32 "--1" 7 = Some (false, 7).
Proof.
  split; [|split].
  - apply (proj1 (proj2 (parseOptionValue_int32_decimal [0; 0; 1; 6] 7
                           ltac:(repeat constructor; unfold isDigit; lia)
                           ltac:(vm_compute; discriminate)))).
  - apply (proj2 (proj2 (proj2 (proj2
             (parseOptionValue_int32_decimal [1; 2] 7
                ltac:(repeat constructor; unfold isDigit; lia)
                ltac:(vm_compute; discriminate))))) "x"%char []).
    right. vm_compute. lia.
  - apply (proj2 (proj2 (proj2 (proj2
             (parseOptionValue_int32_decimal [] 7
                ltac:(constructor)
                ltac:(vm_compute; discriminate))))) "-"%char ["1"%char]).
    left. vm_compute. lia.
Defined.

(** *** The option map *)

Lemma merge_union (this other : Config.t) :
  m_options (merge this other) = m_options this ∪ m_options other.
Proof.
  unfold merge. cbn [m_options].
  apply (map_fold_weak_ind
           (fun r (m : gmap string string) => r = m_options this ∪ m)).
  - rewrite (right_id_L ∅ (∪)). reflexivity.
  - intros key value m r Hm ->.
    destruct ((m_options this ∪ m) !! key) as [v|] eqn:E.
    + apply lookup_union_Some_raw in E as [E|[_ E]]; [|congruence].
      apply map_eq. intros k. rewrite !lookup_union.
      destruct (decide (k = key)) as [->|N].
      * rewrite E, Hm, lookup_insert_eq. reflexivity.
      * rewrite lookup_insert_ne by congruence. reflexivity.
    + apply lookup_union_None in E as [E _].
      apply insert_union_r. exact E.
Qed.

(** X5. Merging configurations never overrides: after [merge], an
    option that the configuration had keeps its value, and an option
    it did not have takes the value of the other configuration, if
    that one has it; [setOption], in contrast, replaces the value. An
    option that is in neither reads as the empty string. *)
Theorem merge_keeps_own_options (this other : Config.t) (option : string) :
  getOptionValue (merge this other) option
  = match m_options this !! option with
    | Some value => value
    | None => getOptionValue other option
    end
  /\ (forall value,
        getOptionValue (merge (setOption this option value) other) option = value)
  /\ (m_options this !! option = None -> m_options other !! option = None ->
      getOptionValue (merge this other) option = ""%string).
Proof.
  assert (H : forall a b, getOptionValue (merge a b) option
                = match m_options a !! option with
                  | Some value => value
                  | None => getOptionValue b option
                  end).
  { intros a b. unfold getOptionValue. rewrite merge_union, lookup_union.
    destruct (m_options a !! option), (m_options b !! option); reflexivity. }
  split; [apply H|]. split.
  - intros value. rewrite H. cbn [setOption m_options].
    rewrite lookup_insert_eq. reflexivity.
  - intros Ha Hb. rewrite H, Ha. unfold getOptionValue. rewrite Hb. reflexivity.
Qed.

End ConfigFile.

(** * More on device memory *)

(** ** What a chunk has handed out *)

(** The bytes of the memory objects that are in use. *)
Definition liveBytes (live : list DxvkMemory) : Z :=
  foldr (fun m acc => DxvkMemory.m_length m + acc) 0 live.

Lemma liveBytes_delete (live : list DxvkMemory) (k : nat) m :
  live !! k = Some m ->
  liveBytes live = DxvkMemory.m_length m + liveBytes (delete k live).
Proof.
  revert k. induction live as [|x live IH]; intros [|k] H; simpl in *;
    try discriminate.
  - injection H as ->. reflexivity.
  - fold (liveBytes live). fold (liveBytes (delete k live)).
    rewrite (IH k H). lia.
Qed.

(** X6. The memory objects that a chunk has handed out and not got
    back lie within the chunk, have a positive length, do not overlap
    one another and do not overlap any slice of the free list. *)
Theorem chunk_blocks_never_overlap ty mem c live :
  reachable ty mem c live ->
  (forall (i : nat) m, live !! i = Some m ->
     0 <= DxvkMemory.m_offset m /\ 0 < DxvkMemory.m_length m
     /\ DxvkMemory.m_offset m + DxvkMemory.m_length m <= memSize mem)
  /\ (forall (i j : nat) m1 m2,
        i <> j -> live !! i = Some m1 -> live !! j = Some m2 ->
        disjoint (blockOf m1) (blockOf m2))
  /\ (forall (i j : nat) m s,
        live !! i = Some m -> DxvkMemoryChunk.m_freeList c !! j = Some s ->
        disjoint (blockOf m) s).
Proof.
  intros Hreach.
  destruct (reachable_inv _ _ _ _ Hreach) as [_ _ _ _ Hlive Hdis Hfree].
  split; [|split].
  - intros i m Hm. exact (Forall_lookup_1 _ _ _ _ Hlive Hm).
  - intros i j m1 m2 Hij H1 H2.
    apply (FOP_lookup (fun m1 m2 => disjoint (blockOf m1) (blockOf m2))
             (fun x y => disjoint_sym (blockOf x) (blockOf y)) live i j m1 m2);
      assumption.
  - intros i j m s Hm Hs.
    exact (Forall_lookup_1 _ _ _ _ (Forall_lookup_1 _ _ _ _ Hfree Hm) Hs).
Qed.

Lemma chunk_blocks_never_overlap_witness :
  disjoint (blockOf demoBlock1) (FreeSlice.mk 112 912).
Proof.
  destruct (chunk_blocks_never_overlap 3 demoMemory (snd demoChunk1) [demoBlock1]
              demoChunk1_reachable) as (_ & _ & Hfree).
  apply (Hfree 0%nat 0%nat); reflexivity.
Defined.

(** X7. A chunk neither loses nor invents memory: the bytes of its
    free list and the bytes of the memory objects in use add up to the
    size of the chunk, in every state it can reach. An allocation
    that fails leaves the chunk as it is; one that succeeds hands out
    at least the size asked for and takes just the bytes it hands out
    from the free list. *)
Theorem chunk_conserves_bytes ty mem c live :
  reachable ty mem c live ->
  freeBytes c + liveBytes live = memSize mem
  /\ (forall this flags size align_ prio c',
        DxvkMemoryChunk.alloc this c flags size align_ prio = (None, c') -> c' = c)
  /\ (forall this flags size align_ prio m c',
        validRequest mem size align_ ->
        DxvkMemoryChunk.alloc this c flags size align_ prio = (Some m, c') ->
        size <= DxvkMemory.m_length m
        /\ freeBytes c' = freeBytes c - DxvkMemory.m_length m).
Proof.
  intros Hreach.
  assert (Hstep : forall c live, reachable ty mem c live ->
            forall this flags size align_ prio m c',
              validRequest mem size align_ ->
              DxvkMemoryChunk.alloc this c flags size align_ prio = (Some m, c') ->
              size <= DxvkMemory.m_length m
              /\ freeBytes c' = freeBytes c - DxvkMemory.m_length m).
  { clear. intros c live Hreach this flags size align_ prio m c' Hreq Halloc.
    destruct (reachable_inv _ _ _ _ Hreach) as [_ _ Hin _ _ _ _].
    destruct Hreq as (Hsize & Ha & Hb).
    destruct (alloc_inv _ _ _ _ _ _ _ _ (memSize mem) Hin Hsize Ha Hb Halloc)
      as (i & s & Hs & Hlo & Hlen & Hhi & _ & _ & Hlist).
    split; [exact Hlen|].
    unfold freeBytes. rewrite Hlist, !totalLength_pushIf.
    rewrite (totalLength_delete _ _ _ Hs).
    unfold sliceEnd in *. simpl.
    destruct (Z.eqb_spec (DxvkMemory.m_offset m + DxvkMemory.m_length m)
                (FreeSlice.offset s + FreeSlice.length s));
      destruct (Z.eqb_spec (DxvkMemory.m_offset m) (FreeSlice.offset s));
      simpl; lia. }
  split; [|split].
  - induction Hreach as [Hsize | c live this flags size align_ prio m c' Hreach IH
                          Hreq Halloc | c live k m Hreach IH Hm].
    + unfold freeBytes. simpl. lia.
    + destruct (Hstep c live Hreach _ _ _ _ _ _ _ Hreq Halloc) as [_ E].
      rewrite E. simpl. fold (liveBytes live). lia.
    + destruct (reachable_inv _ _ _ _ Hreach) as [_ HM Hin _ Hlive _ _].
      pose proof (Forall_lookup_1 _ _ _ _ Hlive Hm) as (Hmo & Hml & Hme).
      rewrite (liveBytes_delete live k m Hm) in IH.
      unfold freeBytes, DxvkMemoryChunk.free in *.
      destruct (DxvkMemoryChunk.free_loop _ _ _) as [[kept o'] len'] eqn:Hloop.
      destruct (free_loop_basic _ _ _ _ _ _ _ (proj2 HM) Hin Hmo
                  (Z.lt_le_incl _ _ Hml) Hme Hloop) as (_ & _ & _ & _ & _ & Hsum).
      simpl. rewrite totalLength_app. simpl. lia.
  - intros this flags size align_ prio c'. unfold DxvkMemoryChunk.alloc.
    destruct (_ || _); [intros H; injection H as <-; reflexivity|].
    destruct (_ !! _); [|intros H; injection H as <-; reflexivity].
    destruct (_ >? _); [intros H; injection H as <-; reflexivity | discriminate].
  - apply (Hstep c live Hreach).
Qed.

Lemma chunk_conserves_bytes_witness :
  freeBytes (snd demoChunk1) + liveBytes [demoBlock1] = 1024.
Proof.
  exact (proj1 (chunk_conserves_bytes 3 demoMemory (snd demoChunk1) [demoBlock1]
                  demoChunk1_reachable)).
Defined.

(** ** The allocator over all memory types *)

Module MemoryTypes.

Definition usedOf (h : DxvkMemoryHeap) : Z := memoryUsed (stats h).
Definition allocatedOf (h : DxvkMemoryHeap) : Z := memoryAllocated (stats h).

(** The chunks of a memory type point back to the type. *)
Definition chunksOf (T : Z) (cs : list DxvkMemoryChunk) : Prop :=
  Forall (fun c => DxvkMemoryChunk.m_type c = T) cs.

Lemma chunk_alloc_type this c flags size a prio r c' :
  DxvkMemoryChunk.alloc this c flags size a prio = (r, c') ->
  DxvkMemoryChunk.m_type c' = DxvkMemoryChunk.m_type c
  /\ forall m, r = Some m ->
       DxvkMemory.m_type m = DxvkMemoryChunk.m_type c
       /\ DxvkMemory.m_chunk m = Some this.
Proof.
  unfold DxvkMemoryChunk.alloc.
  destruct (orb _ _); [intros H; injection H as <- <-; split; [auto|discriminate]|].
  destruct (_ !! _); [|intros H; injection H as <- <-; split; [auto|discriminate]].
  destruct (_ >? _); intros H; injection H as <- <-; split; auto; try discriminate.
  intros m Hm. injection Hm as <-. auto.
Qed.

Lemma allocFromChunks_type T flags size a prio :
  forall cs (base : nat) r cs',
    chunksOf T cs ->
    allocFromChunks cs base flags size a prio = (r, cs') ->
    chunksOf T cs'
    /\ forall m, r = Some m ->
         DxvkMemory.m_type m = T /\ DxvkMemory.m_chunk m <> None.
Proof.
  induction cs as [|c cs IH]; intros base r cs' Hcs; simpl.
  - intros H. injection H as <- <-. split; [constructor | discriminate].
  - apply Forall_cons in Hcs as [Hc Hcs].
    destruct (DxvkMemoryChunk.alloc base c flags size a prio) as [[m|] c1] eqn:E.
    + destruct (chunk_alloc_type _ _ _ _ _ _ _ _ E) as [Ht Hm].
      intros H. injection H as <- <-. split.
      * constructor; [congruence | exact Hcs].
      * intros m' Hm'. destruct (Hm m' Hm') as [-> ->]. split; [exact Hc | discriminate].
    + destruct (chunk_alloc_type _ _ _ _ _ _ _ _ E) as [Ht _].
      destruct (allocFromChunks cs (S base) flags size a prio) as [r2 cs2] eqn:E2.
      destruct (IH _ _ _ Hcs E2) as [Hcs2 Hm2].
      intros H. injection H as <- <-. split.
      * constructor; [congruence | exact Hcs2].
      * exact Hm2.
Qed.

(** What [tryAllocFromType] does to the type, to the heap of the type
    and to the statistics. *)
Record typeEffect (size : VkDeviceSize) (dedicated : bool)
  (v : DxvkMemoryAllocator.t) (r : option DxvkMemory) (v' : DxvkMemoryAllocator.t)
  : Prop := {
  eff_heapId : heapId (type v') = heapId (type v);
  eff_typeId : memTypeId (type v') = memTypeId (type v);
  eff_chunkSize : chunkSize (heap v') = chunkSize (heap v);
  eff_chunks :
    chunksOf (memTypeId (type v)) (chunks (type v)) ->
    chunksOf (memTypeId (type v)) (chunks (type v'));
  eff_used :
    memoryUsed (stats (heap v'))
    = match r with
      | Some m => u64 (memoryUsed (stats (heap v)) + DxvkMemory.m_length m)
      | None => memoryUsed (stats (heap v))
      end;
  eff_allocated :
    memoryAllocated (stats (heap v')) = memoryAllocated (stats (heap v))
    \/ exists n, memoryAllocated (stats (heap v')) = u64 n;
  eff_memory :
    forall m, r = Some m ->
      (chunksOf (memTypeId (type v)) (chunks (type v)) ->
       DxvkMemory.m_type m = memTypeId (type v))
      /\ (dedicated = true ->
          DxvkMemory.m_chunk m = None /\ DxvkMemory.m_length m = size
          /\ memoryAllocated (stats (heap v'))
             = u64 (memoryAllocated (stats (heap v)) + size))
      /\ (dedicated = false -> DxvkMemory.m_chunk m <> None);
}.

Lemma tryAllocDeviceMemory_effect s flags size prio ded d s' :
  tryAllocDeviceMemory s flags size prio ded = (d, s') ->
  type s' = type s /\ chunkSize (heap s') = chunkSize (heap s)
  /\ memoryUsed (stats (heap s')) = memoryUsed (stats (heap s))
  /\ (memoryAllocated (stats (heap s')) = memoryAllocated (stats (heap s))
      \/ memoryAllocated (stats (heap s'))
         = u64 (memoryAllocated (stats (heap s)) + size))
  /\ ((memHandle d =? VK_NULL_HANDLE) = false ->
      memoryAllocated (stats (heap s'))
      = u64 (memoryAllocated (stats (heap s)) + size)).
Proof.
  unfold tryAllocDeviceMemory, vkCall.
  destruct (vkAnswers s) as [|answer rest]; simpl.
  - intros H. injection H as <- <-. simpl. repeat split; auto. discriminate.
  - destruct (allocateMemory answer) as [h|].
    + destruct (if testFlag flags VK_MEMORY_PROPERTY_HOST_VISIBLE_BIT
                then mapMemory answer else Some 0).
      * intros H. injection H as <- <-. simpl. repeat split; auto.
      * intros H. injection H as <- <-. simpl. repeat split; auto. discriminate.
    + intros H. injection H as <- <-. simpl. repeat split; auto. discriminate.
Qed.

Lemma allocFromChunks_chunk flags size a prio :
  forall cs (base : nat) m cs',
    allocFromChunks cs base flags size a prio = (Some m, cs') ->
    DxvkMemory.m_chunk m <> None.
Proof.
  induction cs as [|c cs IH]; intros base m cs'; simpl; [discriminate|].
  destruct (DxvkMemoryChunk.alloc base c flags size a prio) as [[m1|] c1] eqn:E.
  - destruct (chunk_alloc_type _ _ _ _ _ _ _ _ E) as [_ Hm].
    intros H. injection H as <- <-. rewrite (proj2 (Hm m1 eq_refl)). discriminate.
  - destruct (allocFromChunks cs (S base) flags size a prio) as [r2 cs2] eqn:E2.
    intros H. injection H as -> <-. exact (IH _ _ _ E2).
Qed.

Lemma tryAllocFromType_effect v flags size a prio ded r v' :
  tryAllocFromType v flags size a prio ded = (r, v') ->
  typeEffect size
    ((size >=? chunkSize (heap v) / 4) || bool_decide (is_Some ded)) v r v'.
Proof.
  unfold tryAllocFromType.
  set (p := if negb (testFlag flags VK_MEMORY_PROPERTY_DEVICE_LOCAL_BIT)
            then 0%float else prio).
  destruct (orb (size >=? chunkSize (heap v) / 4) (bool_decide (is_Some ded))).
  - destruct (tryAllocDeviceMemory v flags size p ded) as [d s1] eqn:E.
    destruct (tryAllocDeviceMemory_effect _ _ _ _ _ _ _ E)
      as (Ht & Hc & Hu & Ha & Hh).
    destruct (memHandle d =? VK_NULL_HANDLE) eqn:Enull; cbn [negb].
    + intros H. injection H as <- <-.
      constructor; try congruence; try discriminate.
      destruct Ha as [Ha|Ha]; [left; exact Ha | right; eexists; exact Ha].
    + unfold accountUsed. intros H. injection H as <- <-.
      constructor; cbn; try congruence; try discriminate.
      * right. eexists. apply Hh. reflexivity.
      * intros m Hm. injection Hm as <-. cbn.
        split; [reflexivity|]. split; [|discriminate].
        intros _. split; [reflexivity|]. split; [reflexivity|].
        apply Hh. reflexivity.
  - destruct (allocFromChunks (chunks (type v)) 0 flags size a p) as [memory cs] eqn:E.
    destruct memory as [m|].
    + unfold accountUsed. intros H. injection H as <- <-.
      constructor; cbn; try congruence; try discriminate.
      * intros HT. exact (proj1 (allocFromChunks_type _ _ _ _ _ _ _ _ _ HT E)).
      * left. reflexivity.
      * intros m' Hm'. injection Hm' as <-. split; [|split; [discriminate|]].
        -- intros HT.
           exact (proj1 (proj2 (allocFromChunks_type _ _ _ _ _ _ _ _ _ HT E) m eq_refl)).
        -- intros _. exact (allocFromChunks_chunk _ _ _ _ _ _ _ _ E).
    + destruct (tryAllocDeviceMemory (setChunks v cs) flags
                  (chunkSize (heap (setChunks v cs))) p None) as [d s2] eqn:E2.
      destruct (tryAllocDeviceMemory_effect _ _ _ _ _ _ _ E2)
        as (Ht & Hc & Hu & Ha & Hh).
      cbn in Ht, Hc, Hu, Ha, Hh.
      destruct (memHandle d =? VK_NULL_HANDLE) eqn:Enull.
      * intros H. injection H as <- <-.
        constructor; try (rewrite ?Ht; cbn; congruence); try discriminate.
        -- intros HT. rewrite Ht. cbn.
           exact (proj1 (allocFromChunks_type _ _ _ _ _ _ _ _ _ HT E)).
        -- destruct Ha as [Ha|Ha]; [left; exact Ha | right; eexists; exact Ha].
      * destruct (DxvkMemoryChunk.alloc (List.length (chunks (type s2)))
                    (DxvkMemoryChunk.new (memTypeId (type s2)) d) flags size a p)
          as [memory chunk'] eqn:E3.
        destruct (chunk_alloc_type _ _ _ _ _ _ _ _ E3) as [Hty Hm].
        cbn in Hty.
        assert (Hchunks : chunksOf (memTypeId (type v)) (chunks (type v)) ->
                  chunksOf (memTypeId (type v)) (chunks (type s2) ++ [chunk'])).
        { intros HT. rewrite Ht. cbn. apply Forall_app. split.
          - exact (proj1 (allocFromChunks_type _ _ _ _ _ _ _ _ _ HT E)).
          - repeat constructor. rewrite Hty, Ht. reflexivity. }
        unfold accountUsed. destruct memory as [m|]; intros H; injection H as <- <-.
        -- constructor; cbn; try (rewrite ?Ht; cbn; congruence); try discriminate.
           ++ exact Hchunks.
           ++ destruct Ha as [Ha|Ha]; [left; exact Ha | right; eexists; exact Ha].
           ++ intros m' Hm'. injection Hm' as <-.
              destruct (Hm m eq_refl) as [Hmt Hmc]. cbn in Hmt.
              split; [|split; [discriminate|]].
              ** intros _. rewrite Hmt, Ht. reflexivity.
              ** intros _. rewrite Hmc. discriminate.
        -- constructor; cbn; try (rewrite ?Ht; cbn; congruence); try discriminate.
           ++ exact Hchunks.
           ++ destruct Ha as [Ha|Ha]; [left; exact Ha | right; eexists; exact Ha].
Qed.

(** ** The allocator over all memory types *)

Module MT := DxvkMemoryTypes.

Definition heapOf (p : MT.VkMemoryType * DxvkMemoryType) : nat :=
  Z.to_nat (heapId (snd p)).

(** Every memory type knows its own index, has its heap, and owns its
    chunks; the statistics are 64-bit numbers, and no chunk size
    exceeds [MaxChunkSize]. *)
Record wellFormed (s : MT.t) : Prop := {
  wf_types : forall (i : nat) p,
    MT.m_memTypes s !! i = Some p ->
    memTypeId (snd p) = Z.of_nat i
    /\ is_Some (MT.m_memHeaps s !! heapOf p)
    /\ chunksOf (Z.of_nat i) (chunks (snd p));
  wf_heaps :
    Forall (fun h => 0 <= usedOf h < 2 ^ 64 /\ chunkSize h <= MT.MaxChunkSize)
           (MT.m_memHeaps s);
}.

(** What no allocation changes: the memory types' properties and
    heaps, the chunk sizes, and the memory given back to the driver. *)
Record shape (s s' : MT.t) : Prop := {
  sh_memTypes : fst <$> MT.m_memTypes s' = fst <$> MT.m_memTypes s;
  sh_heapOf : heapOf <$> MT.m_memTypes s' = heapOf <$> MT.m_memTypes s;
  sh_chunkSize : chunkSize <$> MT.m_memHeaps s' = chunkSize <$> MT.m_memHeaps s;
  sh_vkFree : MT.vkFreeCalls s' = MT.vkFreeCalls s;
}.

Definition sameUsed (s s' : MT.t) : Prop :=
  usedOf <$> MT.m_memHeaps s' = usedOf <$> MT.m_memHeaps s.

(** The memory object [m] has been taken from the memory type [i] of
    [s]: the type's heap accounts for it, and it is a dedicated
    allocation of the size asked for exactly when the request is not
    below a quarter of the heap's chunk size or [ded] holds. *)
Record servedBy (s : MT.t) (size : VkDeviceSize) (ded : bool) (m : DxvkMemory)
  (s' : MT.t) (i : nat) : Prop := {
  sv_type : DxvkMemory.m_type m = Z.of_nat i;
  sv_used : exists (h : nat) used,
    (heapOf <$> MT.m_memTypes s) !! i = Some h
    /\ (usedOf <$> MT.m_memHeaps s) !! h = Some used
    /\ usedOf <$> MT.m_memHeaps s'
       = <[h := u64 (used + DxvkMemory.m_length m)]> (usedOf <$> MT.m_memHeaps s);
  sv_dedicated : exists (h : nat) cs,
    (heapOf <$> MT.m_memTypes s) !! i = Some h
    /\ (chunkSize <$> MT.m_memHeaps s) !! h = Some cs
    /\ (((size >=? cs / 4) || ded) = true ->
        DxvkMemory.m_chunk m = None /\ DxvkMemory.m_length m = size)
    /\ (((size >=? cs / 4) || ded) = false -> DxvkMemory.m_chunk m <> None);
}.

Lemma shape_refl s : shape s s.
Proof. constructor; reflexivity. Qed.

Lemma shape_trans s1 s2 s3 : shape s1 s2 -> shape s2 s3 -> shape s1 s3.
Proof. intros [] []. constructor; congruence. Qed.

Lemma servedBy_shape s0 s size ded m s' i :
  shape s0 s -> sameUsed s0 s -> servedBy s size ded m s' i ->
  servedBy s0 size ded m s' i.
Proof.
  intros [_ Hh Hc _] Hu [Ht Hused Hded]. unfold sameUsed in Hu.
  rewrite Hh, Hu in Hused. rewrite Hh, Hc in Hded.
  constructor; assumption.
Qed.

Lemma u64_range x : 0 <= u64 x < 2 ^ 64.
Proof. unfold u64. apply Z.mod_pos_bound. lia. Qed.

Lemma tryAllocFromTypeAt_effect s i flags size a prio ded r s' :
  wellFormed s ->
  MT.tryAllocFromTypeAt s i flags size a prio ded = (r, s') ->
  wellFormed s' /\ shape s s'
  /\ match r with
     | None => sameUsed s s'
     | Some m => servedBy s size (bool_decide (is_Some ded)) m s' i
     end.
Proof.
  intros Hwf. unfold MT.tryAllocFromTypeAt.
  destruct (MT.m_memTypes s !! i) as [[memType ty]|] eqn:Ei;
    [|intros H; injection H as <- <-;
      split; [exact Hwf | split; [apply shape_refl | reflexivity]]].
  destruct (wf_types s Hwf i _ Ei) as (Hid & [hp Eh] & Hcs).
  unfold heapOf in Eh. cbn [snd] in Hid, Eh, Hcs. rewrite Eh.
  destruct (tryAllocFromType (MT.view s hp ty) flags size a prio ded)
    as [memory v] eqn:E.
  intros H. injection H as <- <-.
  destruct (tryAllocFromType_effect _ _ _ _ _ _ _ _ E)
    as [Hhid Htid Hchunk Hchunks Hused Halloc Hmem].
  cbn [MT.view heap type] in Hhid, Htid, Hchunk, Hchunks, Hused, Halloc, Hmem.
  rewrite Hid in Hchunks, Hmem. specialize (Hchunks Hcs).
  assert (Hlen : (Z.to_nat (heapId ty) < List.length (MT.m_memHeaps s))%nat)
    by (eapply lookup_lt_Some; exact Eh).
  assert (Hilen : (i < List.length (MT.m_memTypes s))%nat)
    by (eapply lookup_lt_Some; exact Ei).
  assert (Hshape : shape s (MT.update s i memType v)).
  { constructor; cbn [MT.update MT.m_memTypes MT.m_memHeaps MT.vkFreeCalls].
    - rewrite list_fmap_insert. apply list_insert_id.
      rewrite list_lookup_fmap, Ei. reflexivity.
    - rewrite list_fmap_insert. apply list_insert_id.
      rewrite list_lookup_fmap, Ei. unfold heapOf. cbn. rewrite Hhid. reflexivity.
    - rewrite list_fmap_insert. apply list_insert_id.
      rewrite list_lookup_fmap, Hhid, Eh. cbn. rewrite Hchunk. reflexivity.
    - reflexivity. }
  assert (Hu : usedOf <$> MT.m_memHeaps (MT.update s i memType v)
               = <[Z.to_nat (heapId ty) := usedOf (heap v)]>
                   (usedOf <$> MT.m_memHeaps s)).
  { cbn [MT.update MT.m_memHeaps]. rewrite list_fmap_insert, Hhid. reflexivity. }
  split; [|split; [exact Hshape|]].
  - constructor; cbn [MT.update MT.m_memTypes MT.m_memHeaps].
    + intros j p Hj. apply list_lookup_insert_Some in Hj.
      assert (Hheap : forall p0, is_Some (MT.m_memHeaps s !! heapOf p0) ->
                is_Some (<[Z.to_nat (heapId (type v)) := heap v]> (MT.m_memHeaps s)
                           !! heapOf p0)).
      { intros p0 Hp0. apply lookup_lt_is_Some. rewrite length_insert.
        apply lookup_lt_is_Some. exact Hp0. }
      destruct Hj as [(<- & <- & _) | (Hne & Hj)].
      * cbn [snd]. split; [congruence|]. split; [|exact Hchunks].
        apply Hheap. unfold heapOf. cbn [snd]. rewrite Hhid, Eh. eauto.
      * destruct (wf_types s Hwf j p Hj) as (H1 & H2 & H3).
        split; [exact H1|]. split; [apply Hheap; exact H2 | exact H3].
    + apply Forall_insert; [exact (wf_heaps s Hwf)|].
      pose proof (Forall_lookup_1 _ _ _ _ (wf_heaps s Hwf) Eh) as [Hr Hc].
      split; [|rewrite Hchunk; exact Hc].
      unfold usedOf in *. rewrite Hused. destruct memory; [apply u64_range | exact Hr].
  - destruct memory as [m|].
    + destruct (Hmem m eq_refl) as (Hty & Hd1 & Hd2).
      constructor.
      * apply Hty. exact Hcs.
      * exists (Z.to_nat (heapId ty)), (usedOf hp). split; [|split].
        -- rewrite list_lookup_fmap, Ei. reflexivity.
        -- rewrite list_lookup_fmap, Eh. reflexivity.
        -- rewrite Hu. unfold usedOf at 1. rewrite Hused. reflexivity.
      * exists (Z.to_nat (heapId ty)), (chunkSize hp). split; [|split; [|split]].
        -- rewrite list_lookup_fmap, Ei. reflexivity.
        -- rewrite list_lookup_fmap, Eh. reflexivity.
        -- intros Hd. destruct (Hd1 Hd) as (H1 & H2 & _). auto.
        -- exact Hd2.
    + unfold sameUsed. rewrite Hu. apply list_insert_id.
      rewrite list_lookup_fmap, Eh. cbn. unfold usedOf. rewrite Hused. reflexivity.
Qed.

(** What an attempt of [tryAlloc] with the flags [flags] has come to,
    starting from [s]. *)
Definition attempt (s : MT.t) (req : MT.VkMemoryRequirements)
  (flags : VkMemoryPropertyFlags) (ded : bool)
  (r : option DxvkMemory * MT.t) : Prop :=
  wellFormed (snd r) /\ shape s (snd r)
  /\ match fst r with
     | None => sameUsed s (snd r)
     | Some m =>
         exists (i : nat) memType,
           (fst <$> MT.m_memTypes s) !! i = Some memType
           /\ MT.supported req i = true
           /\ MT.adequate memType flags = true
           /\ servedBy s (MT.size req) ded m (snd r) i
     end.

Lemma tryAllocStep_attempt s req ded flags prio r (i : nat) :
  attempt s req flags (bool_decide (is_Some ded)) r ->
  attempt s req flags (bool_decide (is_Some ded))
    (MT.tryAllocStep req ded flags prio r i).
Proof.
  destruct r as [[m|] s1]; [trivial|].
  intros (Hwf & Hsh & Hu). cbn [fst snd] in Hwf, Hsh, Hu.
  unfold MT.tryAllocStep.
  destruct (MT.m_memTypes s1 !! i) as [[memType ty]|] eqn:Ei;
    [|split; [exact Hwf | split; [exact Hsh | exact Hu]]].
  destruct (MT.supported req i) eqn:Esup; cbn [andb];
    [|split; [exact Hwf | split; [exact Hsh | exact Hu]]].
  destruct (MT.adequate memType flags) eqn:Eadq;
    [|split; [exact Hwf | split; [exact Hsh | exact Hu]]].
  destruct (MT.tryAllocFromTypeAt s1 i flags (MT.size req) (MT.alignment req)
              prio ded) as [r2 s2] eqn:E.
  destruct (tryAllocFromTypeAt_effect _ _ _ _ _ _ _ _ _ Hwf E) as (Hwf2 & Hsh2 & Hr).
  split; [exact Hwf2|]. split; [exact (shape_trans _ _ _ Hsh Hsh2)|].
  cbn [fst snd]. destruct r2 as [m|].
  - exists i, memType. split; [|split; [exact Esup | split; [exact Eadq|]]].
    + rewrite <- (sh_memTypes _ _ Hsh), list_lookup_fmap, Ei. reflexivity.
    + exact (servedBy_shape _ _ _ _ _ _ _ Hsh Hu Hr).
  - unfold sameUsed in *. congruence.
Qed.

Lemma tryAlloc_attempt s req ded flags prio :
  wellFormed s ->
  attempt s req flags (bool_decide (is_Some ded)) (MT.tryAlloc s req ded flags prio).
Proof.
  intros Hwf. unfold MT.tryAlloc.
  assert (H0 : attempt s req flags (bool_decide (is_Some ded)) (None, s)).
  { split; [exact Hwf|]. split; [apply shape_refl | reflexivity]. }
  revert H0. generalize (@None DxvkMemory, s).
  induction (seq 0 (List.length (MT.m_memTypes s))) as [|i l IH]; intros r Hr.
  - exact Hr.
  - cbn [fold_left]. apply IH. apply tryAllocStep_attempt. exact Hr.
Qed.

Lemma attempt_shape s0 s req flags ded r :
  shape s0 s -> sameUsed s0 s -> attempt s req flags ded r ->
  attempt s0 req flags ded r.
Proof.
  intros Hsh Hu (Hwf & Hsh2 & Hr).
  split; [exact Hwf|]. split; [exact (shape_trans _ _ _ Hsh Hsh2)|].
  destruct (fst r) as [m|].
  - destruct Hr as (i & memType & Hi & Hsup & Hadq & Hsv).
    exists i, memType. rewrite <- (sh_memTypes _ _ Hsh).
    split; [exact Hi|]. split; [exact Hsup|]. split; [exact Hadq|].
    exact (servedBy_shape _ _ _ _ _ _ _ Hsh Hu Hsv).
  - unfold sameUsed in *. congruence.
Qed.

Definition optFlags : Z :=
  Z.lor VK_MEMORY_PROPERTY_DEVICE_LOCAL_BIT VK_MEMORY_PROPERTY_HOST_CACHED_BIT.

Lemma adequate_fewer memType flags mask :
  MT.adequate memType flags = true ->
  MT.adequate memType (Z.land flags mask) = true.
Proof.
  unfold MT.adequate. rewrite !Z.eqb_eq. intros H.
  rewrite Z.land_assoc, H. reflexivity.
Qed.

(** [alloc] is one of its attempts: the memory comes out of a type that
    the requirements allow and that has the flags asked for, but for
    [DEVICE_LOCAL] and [HOST_CACHED]; a dedicated allocation has been
    insisted on if it is both preferred and required. *)
Lemma alloc_attempt s req dedReq dedInfo flags prio :
  wellFormed s ->
  exists ded : bool,
    attempt s req (Z.land flags (Z.lnot optFlags)) ded
      (MT.alloc s req dedReq dedInfo flags prio)
    /\ (MT.prefersDedicatedAllocation dedReq = true ->
        MT.requiresDedicatedAllocation dedReq = true -> ded = true)
    /\ (MT.prefersDedicatedAllocation dedReq = false -> ded = false).
Proof.
  intros Hwf. unfold MT.alloc. fold optFlags.
  assert (Hweak : forall s ded r,
            attempt s req flags ded r ->
            attempt s req (Z.land flags (Z.lnot optFlags)) ded r).
  { intros s0 ded r (H1 & H2 & H3). split; [exact H1|]. split; [exact H2|].
    destruct (fst r); [|exact H3].
    destruct H3 as (i & memType & Hi & Hsup & Hadq & Hsv).
    exists i, memType. repeat split; try assumption.
    - apply adequate_fewer. exact Hadq.
    - exact (sv_type _ _ _ _ _ _ Hsv).
    - exact (sv_used _ _ _ _ _ _ Hsv).
    - exact (sv_dedicated _ _ _ _ _ _ Hsv). }
  set (ptr := if MT.prefersDedicatedAllocation dedReq then Some dedInfo else None).
  pose proof (tryAlloc_attempt s req ptr flags prio Hwf) as H1.
  destruct (MT.tryAlloc s req ptr flags prio) as [[m|] s1] eqn:E1.
  - (* the first attempt has given the memory *)
    exists (bool_decide (is_Some ptr)).
    destruct ptr eqn:Eptr; unfold ptr in Eptr;
      destruct (MT.prefersDedicatedAllocation dedReq); try discriminate;
      cbn; (split; [apply Hweak; exact H1 | split; [reflexivity || discriminate |
                                                   reflexivity || discriminate]]).
  - destruct H1 as (Hwf1 & Hsh1 & Hu1). cbn [fst snd] in Hwf1, Hsh1, Hu1.
    assert (Hthird : forall s2 p,
              wellFormed s2 -> shape s s2 -> sameUsed s s2 ->
              attempt s req (Z.land flags (Z.lnot optFlags)) (bool_decide (is_Some p))
                (if negb (Z.land flags optFlags =? 0)
                 then MT.tryAlloc s2 req p (Z.land flags (Z.lnot optFlags)) prio
                 else (None, s2))).
    { intros s2 p Hwf2 Hsh2 Hu2. destruct (negb _).
      - apply (attempt_shape s s2); try assumption.
        apply tryAlloc_attempt. exact Hwf2.
      - split; [exact Hwf2|]. split; [exact Hsh2 | exact Hu2]. }
    destruct (MT.prefersDedicatedAllocation dedReq) eqn:Epref; unfold ptr; cbn [ptr].
    + destruct (MT.requiresDedicatedAllocation dedReq) eqn:Ereq; cbn [negb].
      * exists true. split; [|split; [reflexivity | discriminate]].
        exact (Hthird s1 (Some dedInfo) Hwf1 Hsh1 Hu1).
      * exists false. split; [|split; [discriminate | discriminate]].
        pose proof (tryAlloc_attempt s1 req None flags prio Hwf1) as H2.
        apply (attempt_shape s s1) in H2; try assumption.
        destruct (MT.tryAlloc s1 req None flags prio) as [[m|] s2] eqn:E2.
        -- apply Hweak. exact H2.
        -- destruct H2 as (Hwf2 & Hsh2 & Hu2).
           exact (Hthird s2 None Hwf2 Hsh2 Hu2).
    + exists false. split; [|split; [discriminate | reflexivity]].
      exact (Hthird s1 None Hwf1 Hsh1 Hu1).
Qed.

Lemma chunk_free_type c offset length :
  DxvkMemoryChunk.m_type (DxvkMemoryChunk.free c offset length)
  = DxvkMemoryChunk.m_type c.
Proof.
  unfold DxvkMemoryChunk.free.
  destruct (DxvkMemoryChunk.free_loop _ _ _) as [[kept o] len]. reflexivity.
Qed.

Lemma freeChunkMemory_effect s i chunk offset length :
  wellFormed s ->
  wellFormed (MT.freeChunkMemory s i chunk offset length)
  /\ MT.m_memHeaps (MT.freeChunkMemory s i chunk offset length) = MT.m_memHeaps s
  /\ MT.vkFreeCalls (MT.freeChunkMemory s i chunk offset length) = MT.vkFreeCalls s
  /\ shape s (MT.freeChunkMemory s i chunk offset length).
Proof.
  intros Hwf. unfold MT.freeChunkMemory.
  destruct (MT.m_memTypes s !! i) as [[memType ty]|] eqn:Ei;
    [|split; [exact Hwf | split; [reflexivity | split; [reflexivity | apply shape_refl]]]].
  destruct (chunks ty !! chunk) as [c|] eqn:Ec;
    [|split; [exact Hwf | split; [reflexivity | split; [reflexivity | apply shape_refl]]]].
  destruct (wf_types s Hwf i _ Ei) as (Hid & Hheap & Hcs). cbn [snd] in Hid, Hcs.
  split; [|split; [reflexivity | split; [reflexivity|]]].
  - constructor; cbn [MT.m_memTypes MT.m_memHeaps]; [|exact (wf_heaps s Hwf)].
    intros j p Hj. apply list_lookup_insert_Some in Hj.
    destruct Hj as [(<- & <- & _) | (Hne & Hj)]; [|exact (wf_types s Hwf j p Hj)].
    cbn [snd]. split; [exact Hid|]. split; [exact Hheap|].
    apply Forall_insert; [exact Hcs|].
    rewrite chunk_free_type. exact (Forall_lookup_1 _ _ _ _ Hcs Ec).
  - constructor; cbn [MT.m_memTypes MT.m_memHeaps MT.vkFreeCalls];
      try reflexivity;
      rewrite list_fmap_insert; apply list_insert_id;
      rewrite list_lookup_fmap, Ei; reflexivity.
Qed.

Lemma free_effect s m (i h : nat) used :
  wellFormed s ->
  DxvkMemory.m_type m = Z.of_nat i ->
  (heapOf <$> MT.m_memTypes s) !! i = Some h ->
  (usedOf <$> MT.m_memHeaps s) !! h = Some used ->
  usedOf <$> MT.m_memHeaps (MT.free s m)
  = <[h := u64 (used - DxvkMemory.m_length m)]> (usedOf <$> MT.m_memHeaps s)
  /\ MT.vkFreeCalls (MT.free s m)
     = MT.vkFreeCalls s
       ++ match DxvkMemory.m_chunk m with
          | None => [DxvkMemory.m_memory m]
          | Some _ => []
          end.
Proof.
  intros Hwf Hty Hi Hh. unfold MT.free. rewrite Hty, Nat2Z.id.
  rewrite list_lookup_fmap in Hi.
  destruct (MT.m_memTypes s !! i) as [[memType ty]|] eqn:Ei; [|discriminate].
  injection Hi as Hi. unfold heapOf in Hi. cbn [snd] in Hi.
  rewrite list_lookup_fmap in Hh.
  assert (Hrel : usedOf <$> MT.m_memHeaps (MT.releaseUsed s ty (DxvkMemory.m_length m))
                 = <[h := u64 (used - DxvkMemory.m_length m)]>
                     (usedOf <$> MT.m_memHeaps s)).
  { unfold MT.releaseUsed. cbn [MT.m_memHeaps]. rewrite Hi.
    destruct (MT.m_memHeaps s !! h) as [hp|]; [|discriminate].
    injection Hh as <-. rewrite list_fmap_insert. reflexivity. }
  destruct (DxvkMemory.m_chunk m) as [chunk|].
  - unfold MT.freeChunkMemory.
    change (MT.m_memTypes (MT.releaseUsed s ty (DxvkMemory.m_length m)))
      with (MT.m_memTypes s).
    rewrite Ei. destruct (chunks ty !! chunk);
      (split; [exact Hrel | cbn; rewrite app_nil_r; reflexivity]).
  - split; [|reflexivity].
    unfold MT.freeDeviceMemory. cbn [MT.m_memHeaps memSize].
    rewrite <- Hrel.
    destruct (MT.m_memHeaps (MT.releaseUsed s ty (DxvkMemory.m_length m))
                !! Z.to_nat (heapId ty)) as [hp|] eqn:E; [|reflexivity].
    rewrite list_fmap_insert. apply list_insert_id.
    rewrite list_lookup_fmap, E. reflexivity.
Qed.

Lemma free_wellFormed s m : wellFormed s -> wellFormed (MT.free s m).
Proof.
  intros Hwf. unfold MT.free.
  destruct (MT.m_memTypes s !! Z.to_nat (DxvkMemory.m_type m))
    as [[memType ty]|] eqn:Ei; [|exact Hwf].
  assert (Hrel : wellFormed (MT.releaseUsed s ty (DxvkMemory.m_length m))).
  { unfold MT.releaseUsed.
    destruct (MT.m_memHeaps s !! Z.to_nat (heapId ty)) as [hp|] eqn:Eh.
    - constructor; cbn [MT.m_memTypes MT.m_memHeaps].
      + intros j p Hj. destruct (wf_types s Hwf j p Hj) as (H1 & H2 & H3).
        split; [exact H1|]. split; [|exact H3].
        apply lookup_lt_is_Some. rewrite length_insert.
        apply lookup_lt_is_Some. exact H2.
      + apply Forall_insert; [exact (wf_heaps s Hwf)|].
        split; [apply u64_range|]. cbn.
        exact (proj2 (Forall_lookup_1 _ _ _ _ (wf_heaps s Hwf) Eh)).
    - destruct s. exact Hwf. }
  destruct (DxvkMemory.m_chunk m) as [chunk|].
  - exact (proj1 (freeChunkMemory_effect _ _ _ _ _ Hrel)).
  - unfold MT.freeDeviceMemory.
    destruct (MT.m_memHeaps (MT.releaseUsed s ty (DxvkMemory.m_length m))
                !! Z.to_nat (heapId ty)) as [hp|] eqn:Eh.
    + constructor; cbn [MT.m_memTypes MT.m_memHeaps].
      * intros j p Hj. destruct (wf_types _ Hrel j p Hj) as (H1 & H2 & H3).
        split; [exact H1|]. split; [|exact H3].
        apply lookup_lt_is_Some. rewrite length_insert.
        apply lookup_lt_is_Some. exact H2.
      * apply Forall_insert; [exact (wf_heaps _ Hrel)|].
        exact (Forall_lookup_1 _ _ _ _ (wf_heaps _ Hrel) Eh).
    + constructor; cbn [MT.m_memTypes MT.m_memHeaps];
        [exact (wf_types _ Hrel) | exact (wf_heaps _ Hrel)].
Qed.

Lemma new_wellFormed heapSizes memoryTypes priority answers :
  Forall (fun memType =>
            0 <= MT.heapIndex memType < Z.of_nat (List.length heapSizes))
         memoryTypes ->
  wellFormed (MT.new heapSizes memoryTypes priority answers).
Proof.
  intros Hidx. constructor; cbn [MT.new MT.m_memTypes MT.m_memHeaps].
  - intros i p Hi. rewrite list_lookup_imap in Hi.
    destruct (memoryTypes !! i) as [memType|] eqn:Ei; [|discriminate].
    injection Hi as <-. cbn. split; [reflexivity|]. split; [|constructor].
    apply lookup_lt_is_Some. rewrite length_map.
    pose proof (Forall_lookup_1 _ _ _ _ Hidx Ei) as Hr. cbn in Hr.
    unfold heapOf. cbn [snd heapId]. lia.
  - apply List.Forall_map. apply Forall_true. intros heapSize. cbn.
    unfold MT.pickChunkSize. lia.
Qed.

(** The states of the allocator: the constructor, on memory
    properties whose types name heaps that exist, followed by any
    calls of [alloc] (whether it returns or throws) and [free]. *)
Inductive allocatorReachable : MT.t -> Prop :=
| reachable_new heapSizes memoryTypes priority answers :
    Forall (fun memType =>
              0 <= MT.heapIndex memType < Z.of_nat (List.length heapSizes))
           memoryTypes ->
    allocatorReachable (MT.new heapSizes memoryTypes priority answers)
| reachable_alloc s req dedAllocReq dedAllocInfo flags prio :
    allocatorReachable s ->
    allocatorReachable (snd (MT.alloc s req dedAllocReq dedAllocInfo flags prio))
| reachable_free s memory :
    allocatorReachable s ->
    allocatorReachable (MT.free s memory).

Lemma allocatorReachable_wellFormed s : allocatorReachable s -> wellFormed s.
Proof.
  induction 1 as [hs mts p ans Hidx | s req dr di flags prio _ IH | s m _ IH].
  - apply new_wellFormed. exact Hidx.
  - destruct (alloc_attempt s req dr di flags prio IH) as (ded & (Hwf & _) & _).
    exact Hwf.
  - apply free_wellFormed. exact IH.
Qed.

Lemma supported_bit req (i : nat) :
  MT.supported req i = true ->
  (i < 32)%nat /\ Z.testbit (MT.memoryTypeBits req) (Z.of_nat i) = true.
Proof.
  unfold MT.supported, u32. rewrite Z.shiftl_1_l. intros H.
  apply negb_true_iff, Z.eqb_neq in H.
  destruct (Nat.lt_ge_cases i 32) as [Hlt|Hge].
  - split; [exact Hlt|].
    destruct (Z.testbit (MT.memoryTypeBits req) (Z.of_nat i)) eqn:Eb; [reflexivity|].
    exfalso. apply H. apply Z.bits_inj'. intros n Hn.
    rewrite Z.land_spec, Z.bits_0.
    rewrite Z.mod_small
      by (split; [apply Z.pow_nonneg; lia | apply Z.pow_lt_mono_r; lia]).
    rewrite Z.pow2_bits_eqb by lia.
    destruct (Z.eqb_spec (Z.of_nat i) n) as [<-|]; [rewrite Eb|]; 
      [reflexivity | apply andb_false_r].
  - exfalso. apply H.
    replace (Z.of_nat i) with (32 + (Z.of_nat i - 32)) by lia.
    rewrite Z.pow_add_r by lia. rewrite Z.mul_comm, Z.mod_mul by lia.
    apply Z.land_0_r.
Qed.

Lemma adequate_bits memType flags (n : Z) :
  MT.adequate memType (Z.land flags (Z.lnot optFlags)) = true ->
  0 <= n -> n <> 0 -> n <> 3 ->
  Z.testbit flags n = true ->
  Z.testbit (MT.propertyFlags memType) n = true.
Proof.
  unfold MT.adequate. rewrite Z.eqb_eq. intros H Hn H0 H3 Hbit.
  apply (f_equal (fun x => Z.testbit x n)) in H.
  rewrite !Z.land_spec, Z.lnot_spec, Hbit in H by exact Hn.
  assert (Hopt : Z.testbit optFlags n = false).
  { destruct (Z.lt_ge_cases n 4) as [Hlt|Hge].
    - assert (Hc : n = 1 \/ n = 2) by lia. destruct Hc as [-> | ->]; reflexivity.
    - apply Z.bits_above_log2; [discriminate|]. 
      change (Z.log2 optFlags) with 3. lia. }
  rewrite Hopt in H. cbn in H. rewrite andb_true_r in H. exact H.
Qed.

Lemma u64_add_sub used len : 0 <= used < 2 ^ 64 -> u64 (u64 (used + len) - len) = used.
Proof.
  intros H. unfold u64. rewrite Zminus_mod_idemp_l.
  replace (used + len - len) with used by lia. apply Z.mod_small. exact H.
Qed.

End MemoryTypes.

(** An allocator with one heap of 1 GiB and one device-local memory
    type, on a driver that grants the first allocation. *)
Definition demoMemoryTypes : DxvkMemoryTypes.t :=
  DxvkMemoryTypes.new [1024 * 1024 * 1024]
    [{| DxvkMemoryTypes.propertyFlags := 1; DxvkMemoryTypes.heapIndex := 0 |}]
    false [{| allocateMemory := Some 7; mapMemory := None |}].

Definition demoRequest (size : VkDeviceSize) : DxvkMemoryTypes.VkMemoryRequirements :=
  {| DxvkMemoryTypes.size := size; DxvkMemoryTypes.alignment := 256;
     DxvkMemoryTypes.memoryTypeBits := 1 |}.

Definition noDedicated : DxvkMemoryTypes.VkMemoryDedicatedRequirements :=
  {| DxvkMemoryTypes.prefersDedicatedAllocation := false;
     DxvkMemoryTypes.requiresDedicatedAllocation := false |}.

Definition demoAlloc (size : VkDeviceSize) : option DxvkMemory * DxvkMemoryTypes.t :=
  DxvkMemoryTypes.alloc demoMemoryTypes (demoRequest size) noDedicated
    {| image := 0; buffer := 0 |} 1 1%float.

Lemma demoMemoryTypes_reachable : MemoryTypes.allocatorReachable demoMemoryTypes.
Proof.
  apply MemoryTypes.reachable_new. constructor; [cbn; lia | constructor].
Qed.

(** X8. Memory that [alloc] returns comes from a memory type that the
    requirements allow (its bit is set in [memoryTypeBits]) and that
    has every property flag asked for, except possibly [DEVICE_LOCAL]
    (bit 0) and [HOST_CACHED] (bit 3), which the last attempt gives
    up. The memory object names that type. *)
Theorem alloc_placement s req dedAllocReq dedAllocInfo flags prio memory s' :
  MemoryTypes.allocatorReachable s ->
  DxvkMemoryTypes.alloc s req dedAllocReq dedAllocInfo flags prio
  = (Some memory, s') ->
  exists (i : nat) memType type,
    DxvkMemoryTypes.m_memTypes s !! i = Some (memType, type)
    /\ DxvkMemory.m_type memory = Z.of_nat i
    /\ (i < 32)%nat
    /\ Z.testbit (DxvkMemoryTypes.memoryTypeBits req) (Z.of_nat i) = true
    /\ forall n, 0 <= n -> n <> 0 -> n <> 3 ->
         Z.testbit flags n = true ->
         Z.testbit (DxvkMemoryTypes.propertyFlags memType) n = true.
Proof.
  intros Hreach Halloc.
  pose proof (MemoryTypes.allocatorReachable_wellFormed s Hreach) as Hwf.
  destruct (MemoryTypes.alloc_attempt s req dedAllocReq dedAllocInfo flags prio Hwf)
    as (ded & (_ & _ & Hr) & _).
  rewrite Halloc in Hr. cbn [fst snd] in Hr.
  destruct Hr as (i & memType & Hi & Hsup & Hadq & Hsv).
  rewrite list_lookup_fmap in Hi.
  destruct (DxvkMemoryTypes.m_memTypes s !! i) as [[memType' type]|] eqn:Ei;
    [|discriminate].
  injection Hi as ->.
  destruct (MemoryTypes.supported_bit _ _ Hsup) as [Hlt Hbit].
  exists i, memType, type. split; [exact Ei|].
  split; [exact (MemoryTypes.sv_type _ _ _ _ _ _ Hsv)|].
  split; [exact Hlt|]. split; [exact Hbit|].
  intros n Hn H0 H3 Hflag.
  exact (MemoryTypes.adequate_bits _ _ _ Hadq Hn H0 H3 Hflag).
Qed.

Lemma alloc_placement_witness :
  exists (i : nat) memType type,
    DxvkMemoryTypes.m_memTypes demoMemoryTypes !! i = Some (memType, type)
    /\ DxvkMemory.m_type
         {| DxvkMemory.m_chunk := Some 0%nat; DxvkMemory.m_type := 0;
            DxvkMemory.m_memory := 7; DxvkMemory.m_offset := 0;
            DxvkMemory.m_length := 4096; DxvkMemory.m_mapPtr := 0 |}
       = Z.of_nat i
    /\ (i < 32)%nat
    /\ Z.testbit 1 (Z.of_nat i) = true
    /\ forall n, 0 <= n -> n <> 0 -> n <> 3 ->
         Z.testbit 1 n = true ->
         Z.testbit (DxvkMemoryTypes.propertyFlags memType) n = true.
Proof.
  exact (alloc_placement demoMemoryTypes (demoRequest 4096) noDedicated
           {| image := 0; buffer := 0 |} 1 1%float _ (snd (demoAlloc 4096))
           demoMemoryTypes_reachable eq_refl).
Defined.

(** X9. A request of at least a quarter of [MaxChunkSize] (16 MiB), and
    one for which a dedicated allocation is both preferred and
    required, is never served from a chunk: the memory returned is an
    allocation of its own, of exactly the size asked for. A request
    that does not prefer a dedicated allocation is served from a chunk
    exactly when it is smaller than a quarter of the chunk size of the
    heap it is taken from. *)
Theorem alloc_dedicated s req dedAllocReq dedAllocInfo flags prio memory s' :
  MemoryTypes.allocatorReachable s ->
  DxvkMemoryTypes.alloc s req dedAllocReq dedAllocInfo flags prio
  = (Some memory, s') ->
  (DxvkMemoryTypes.MaxChunkSize / 4 <= DxvkMemoryTypes.size req
   \/ (DxvkMemoryTypes.prefersDedicatedAllocation dedAllocReq = true
       /\ DxvkMemoryTypes.requiresDedicatedAllocation dedAllocReq = true) ->
   DxvkMemory.m_chunk memory = None
   /\ DxvkMemory.m_length memory = DxvkMemoryTypes.size req)
  /\ (DxvkMemoryTypes.prefersDedicatedAllocation dedAllocReq = false ->
      exists memType type hp,
        DxvkMemoryTypes.m_memTypes s !! Z.to_nat (DxvkMemory.m_type memory)
        = Some (memType, type)
        /\ DxvkMemoryTypes.m_memHeaps s !! Z.to_nat (heapId type) = Some hp
        /\ (is_Some (DxvkMemory.m_chunk memory)
            <-> DxvkMemoryTypes.size req < chunkSize hp / 4)).
Proof.
  intros Hreach Halloc.
  pose proof (MemoryTypes.allocatorReachable_wellFormed s Hreach) as Hwf.
  destruct (MemoryTypes.alloc_attempt s req dedAllocReq dedAllocInfo flags prio Hwf)
    as (ded & (_ & _ & Hr) & Hded1 & Hded0).
  rewrite Halloc in Hr. cbn [fst snd] in Hr.
  destruct Hr as (i & memType & _ & _ & _ & [Hty _ (h & cs & Hh & Hcs & Hyes & Hno)]).
  rewrite list_lookup_fmap in Hh.
  destruct (DxvkMemoryTypes.m_memTypes s !! i) as [[memType' type]|] eqn:Ei;
    [|discriminate].
  injection Hh as <-. unfold MemoryTypes.heapOf in Hcs. cbn [snd] in Hcs.
  rewrite list_lookup_fmap in Hcs.
  destruct (DxvkMemoryTypes.m_memHeaps s !! Z.to_nat (heapId type)) as [hp|] eqn:Eh;
    [|discriminate].
  injection Hcs as <-.
  pose proof (Forall_lookup_1 _ _ _ _ (MemoryTypes.wf_heaps s Hwf) Eh) as [_ Hmax].
  split.
  - intros Hcase. apply Hyes. apply orb_true_iff.
    destruct Hcase as [Hbig | [Hp Hq]].
    + left. apply Z.geb_le.
      assert (chunkSize hp / 4 <= DxvkMemoryTypes.MaxChunkSize / 4)
        by (apply Z.div_le_mono; lia).
      lia.
    + right. exact (Hded1 Hp Hq).
  - intros Hp. rewrite (Hded0 Hp), orb_false_r in Hyes, Hno.
    exists memType', type, hp. rewrite Hty, Nat2Z.id.
    split; [exact Ei|]. split; [exact Eh|].
    destruct (DxvkMemoryTypes.size req >=? chunkSize hp / 4) eqn:E.
    + destruct (Hyes eq_refl) as [Hnone _]. rewrite Hnone.
      apply Z.geb_le in E. split; [intros [x Hx]; discriminate | lia].
    + specialize (Hno eq_refl).
      assert (~ chunkSize hp / 4 <= DxvkMemoryTypes.size req)
        by (intros Hle; apply Z.geb_le in Hle; congruence).
      split; [lia|]. intros _.
      destruct (DxvkMemory.m_chunk memory); [eauto | contradiction].
Qed.

Lemma alloc_dedicated_witness :
  fst (demoAlloc (32 * 1024 * 1024))
  = Some {| DxvkMemory.m_chunk := None; DxvkMemory.m_type := 0;
            DxvkMemory.m_memory := 7; DxvkMemory.m_offset := 0;
            DxvkMemory.m_length := 32 * 1024 * 1024; DxvkMemory.m_mapPtr := 0 |}
  /\ DxvkMemory.m_chunk
       {| DxvkMemory.m_chunk := None; DxvkMemory.m_type := 0;
          DxvkMemory.m_memory := 7; DxvkMemory.m_offset := 0;
          DxvkMemory.m_length := 32 * 1024 * 1024; DxvkMemory.m_mapPtr := 0 |}
     = None.
Proof.
  split; [reflexivity|].
  refine (proj1 (proj1 (alloc_dedicated demoMemoryTypes
                          (demoRequest (32 * 1024 * 1024)) noDedicated
                          {| image := 0; buffer := 0 |} 1 1%float _
                          (snd (demoAlloc (32 * 1024 * 1024)))
                          demoMemoryTypes_reachable eq_refl) _)).
  left. apply Z.leb_le. reflexivity.
Defined.

(** X10. The statistics of [memoryUsed] balance: an [alloc] that throws
    charges nothing to any heap, and freeing the memory that an [alloc]
    has returned puts [memoryUsed] of every heap back to what it was
    before the allocation. [alloc] gives no memory back to the driver,
    and [free] gives back the dedicated allocations only: memory that
    was cut from a chunk stays with the chunk. *)
Theorem alloc_free_accounting s req dedAllocReq dedAllocInfo flags prio r s' :
  MemoryTypes.allocatorReachable s ->
  DxvkMemoryTypes.alloc s req dedAllocReq dedAllocInfo flags prio = (r, s') ->
  DxvkMemoryTypes.vkFreeCalls s' = DxvkMemoryTypes.vkFreeCalls s
  /\ match r with
     | None =>
         MemoryTypes.usedOf <$> DxvkMemoryTypes.m_memHeaps s'
         = MemoryTypes.usedOf <$> DxvkMemoryTypes.m_memHeaps s
     | Some memory =>
         MemoryTypes.usedOf <$> DxvkMemoryTypes.m_memHeaps (DxvkMemoryTypes.free s' memory)
         = MemoryTypes.usedOf <$> DxvkMemoryTypes.m_memHeaps s
         /\ DxvkMemoryTypes.vkFreeCalls (DxvkMemoryTypes.free s' memory)
            = DxvkMemoryTypes.vkFreeCalls s
              ++ match DxvkMemory.m_chunk memory with
                 | None => [DxvkMemory.m_memory memory]
                 | Some _ => []
                 end
     end.
Proof.
  intros Hreach Halloc.
  pose proof (MemoryTypes.allocatorReachable_wellFormed s Hreach) as Hwf.
  destruct (MemoryTypes.alloc_attempt s req dedAllocReq dedAllocInfo flags prio Hwf)
    as (ded & (Hwf' & Hsh & Hr) & _).
  rewrite Halloc in Hwf', Hsh, Hr. cbn [fst snd] in Hwf', Hsh, Hr.
  split; [exact (MemoryTypes.sh_vkFree _ _ Hsh)|].
  destruct r as [memory|]; [|exact Hr].
  destruct Hr as (i & memType & _ & _ & _ & [Hty (h & used & Hh & Hused & Hu) _]).
  assert (Hlen : (h < List.length (MemoryTypes.usedOf <$> DxvkMemoryTypes.m_memHeaps s))%nat)
    by (eapply lookup_lt_Some; exact Hused).
  assert (Hrange : 0 <= used < 2 ^ 64).
  { rewrite list_lookup_fmap in Hused.
    destruct (DxvkMemoryTypes.m_memHeaps s !! h) as [hp|] eqn:Eh; [|discriminate].
    injection Hused as <-.
    exact (proj1 (Forall_lookup_1 _ _ _ _ (MemoryTypes.wf_heaps s Hwf) Eh)). }
  destruct (MemoryTypes.free_effect s' memory i h
              (u64 (used + DxvkMemory.m_length memory)) Hwf' Hty) as [Hf1 Hf2].
  - rewrite (MemoryTypes.sh_heapOf _ _ Hsh). exact Hh.
  - rewrite Hu. apply list_lookup_insert_eq. exact Hlen.
  - split.
    + rewrite Hf1, Hu, list_insert_insert_eq, MemoryTypes.u64_add_sub by exact Hrange.
      apply list_insert_id. exact Hused.
    + rewrite Hf2, (MemoryTypes.sh_vkFree _ _ Hsh). reflexivity.
Qed.

Lemma alloc_free_accounting_witness :
  MemoryTypes.usedOf
    <$> DxvkMemoryTypes.m_memHeaps
          (DxvkMemoryTypes.free (snd (demoAlloc 4096))
             {| DxvkMemory.m_chunk := Some 0%nat; DxvkMemory.m_type := 0;
                DxvkMemory.m_memory := 7; DxvkMemory.m_offset := 0;
                DxvkMemory.m_length := 4096; DxvkMemory.m_mapPtr := 0 |})
  = [0].
Proof.
  exact (proj1 (proj2 (alloc_free_accounting demoMemoryTypes (demoRequest 4096)
                         noDedicated {| image := 0; buffer := 0 |} 1 1%float _
                         (snd (demoAlloc 4096)) demoMemoryTypes_reachable eq_refl))).
Defined.

(** * More on mapping in version 11 *)

Section MapEdges.
Import D3D11ImmediateContext.

(** The resource cannot be mapped at this subresource: its map mode is
    none, or it is a texture without such a subresource. *)
Definition unmappable (res : ID3D11Resource) (Subresource : nat) : Prop :=
  match res with
  | Buffer b => D3D11Buffer.GetMapMode b = D3D11_COMMON_BUFFER_MAP_MODE_NONE
  | Texture tex =>
      D3D11CommonTexture.m_mapMode tex = D3D11_COMMON_TEXTURE_MAP_MODE_NONE
      \/ (D3D11CommonTexture.CountSubresources tex <= Subresource)%nat
  end.

(** X11. [Map] of a resource whose map mode is none, and of a texture
    subresource that does not exist, fails with the invalid-argument
    code before anything is done: the context is as it was (nothing is
    recorded, the worker is not waited for), the resource is as it was
    (no map type is noted), and the caller's structure is zeroed. *)
Theorem Map_rejects_unmappable (c : t) (res : ID3D11Resource) (Subresource : nat)
  (MapType MapFlags : Z) (out : D3D11_MAPPED_SUBRESOURCE) :
  unmappable res Subresource ->
  Map c (Some res) Subresource MapType MapFlags (Some out)
  = Some (mkResult E_INVALIDARG (Some zeroMappedSubresource) c (Some res)).
Proof.
  destruct res as [b|tex]; cbn [unmappable]; intros H.
  - unfold Map, MapBuffer. rewrite H. reflexivity.
  - unfold Map, MapImage. destruct H as [H|H].
    + rewrite H. reflexivity.
    + apply Nat.leb_le in H.
      destruct (D3D11CommonTexture.m_mapMode tex); [reflexivity| |];
        rewrite H; reflexivity.
Qed.

(** The maps that wait for the resource: of a buffer, those that are
    neither WRITE_DISCARD nor WRITE_NO_OVERWRITE; of a texture mapped
    directly, all; of a texture mapped through a staging buffer, all
    but WRITE_DISCARD. *)
Definition waitsFor (res : ID3D11Resource) (MapType : Z) : bool :=
  match res with
  | Buffer _ =>
      negb (MapType =? D3D11_MAP_WRITE_DISCARD)
      && negb (MapType =? D3D11_MAP_WRITE_NO_OVERWRITE)
  | Texture tex =>
      match D3D11CommonTexture.m_mapMode tex with
      | D3D11_COMMON_TEXTURE_MAP_MODE_DIRECT => true
      | _ => negb (MapType =? D3D11_MAP_WRITE_DISCARD)
      end
  end.

Lemma flushes_SynchronizeCsThread c :
  Flush11.flushes (SynchronizeCsThread c) = Flush11.flushes c.
Proof.
  unfold Flush11.flushes, Flush11.recorded, SynchronizeCsThread. cbn.
  rewrite dispatched_app. cbn. rewrite app_nil_r.
  destruct (Flush11.recorded_FlushCsChunk c) as [Hr _].
  unfold Flush11.recorded in Hr. rewrite Hr. reflexivity.
Qed.

Lemma flushes_beforeWait c res Subresource :
  Flush11.flushes (beforeWait c res Subresource) = Flush11.flushes c.
Proof.
  unfold beforeWait. destruct res as [b|tex]; [reflexivity|].
  destruct (_ !! _); [|reflexivity]. destruct (readsBack _); [|reflexivity].
  unfold UpdateMappedBuffer, Flush11.flushes. rewrite Flush11.recorded_EmitCs.
  rewrite flushCount_app. cbn. lia.
Qed.

Lemma WaitForResource_idle c (u : InUse) MapFlags :
  stillInUse u = false ->
  WaitForResource c u MapFlags = Some (true, SynchronizeCsThread c).
Proof. intros H. unfold WaitForResource. rewrite H. reflexivity. Qed.

(** X12. The maps that do not wait for the GPU. Mapping a mappable
    buffer with WRITE_NO_OVERWRITE succeeds at once with the pointer of
    the slice mapped last, whether or not the GPU uses the buffer, and
    leaves the context untouched: nothing is recorded and the worker
    is not waited for. Any other map that has to wait for the resource
    and finds it idle succeeds after waiting for the worker alone: the
    context gives up no time slice and records no flush. *)
Theorem Map_without_waiting (c : t) (Subresource : nat) (MapFlags : Z)
  (out : D3D11_MAPPED_SUBRESOURCE) :
  (forall b,
      D3D11Buffer.GetMapMode b <> D3D11_COMMON_BUFFER_MAP_MODE_NONE ->
      Map c (Some (Buffer b)) Subresource D3D11_MAP_WRITE_NO_OVERWRITE MapFlags
        (Some out)
      = Some (mkResult S_OK
                (Some {| pData :=
                           DxvkBufferSliceHandle.mapPtr (D3D11Buffer.GetMappedSlice b);
                         RowPitch := D3D11Buffer.ByteWidth b;
                         DepthPitch := D3D11Buffer.ByteWidth b |})
                c (Some (Buffer b))))
  /\ (forall res MapType,
        mappable res Subresource ->
        waitsFor res MapType = true ->
        stillInUse (waitsOn res Subresource) = false ->
        exists r,
          Map c (Some res) Subresource MapType MapFlags (Some out) = Some r
          /\ hr r = S_OK
          /\ context r = SynchronizeCsThread (beforeWait c res Subresource)
          /\ resource r = Some (afterMap res Subresource MapType)
          /\ yields (events (context r)) = yields (events c)
          /\ Flush11.flushes (context r) = Flush11.flushes c).
Proof.
  split.
  - intros b Hb. unfold Map, MapBuffer. unfold D3D11Buffer.GetMapMode in *.
    destruct (D3D11Buffer.m_mapMode b); [congruence|]. reflexivity.
  - intros res MapType Hmap Hw Hidle.
    assert (Hy : yields (events (SynchronizeCsThread (beforeWait c res Subresource)))
                 = yields (events c)).
    { destruct (Wait11.events_SynchronizeCsThread (beforeWait c res Subresource))
        as (l & -> & Hl).
      rewrite yields_app, Hl, yields_beforeWait. lia. }
    assert (Hf : Flush11.flushes (SynchronizeCsThread (beforeWait c res Subresource))
                 = Flush11.flushes c)
      by (rewrite flushes_SynchronizeCsThread; apply flushes_beforeWait).
    destruct res as [b|tex].
    + cbn in Hmap, Hw, Hidle. apply andb_true_iff in Hw as [Hd Hn].
      apply negb_true_iff in Hd, Hn.
      unfold Map, MapBuffer. unfold D3D11Buffer.GetMapMode in *.
      destruct (D3D11Buffer.m_mapMode b); [congruence|].
      rewrite Hd, Hn. cbn [negb].
      rewrite (WaitForResource_idle c _ MapFlags Hidle).
      eexists. split; [reflexivity|]. cbn.
      split; [reflexivity|]. split; [reflexivity|]. split; [reflexivity|].
      split; [exact Hy | exact Hf].
    + cbn in Hmap, Hw, Hidle. destruct Hmap as (Hmode & Hsub & Hbuf).
      apply Nat.leb_gt in Hsub. unfold Map, MapImage.
      destruct (D3D11CommonTexture.m_mapMode tex) eqn:Emode; [congruence| |].
      * rewrite Hsub. destruct (Hbuf eq_refl) as [mb Emb].
        rewrite Emb in Hidle |- *. apply negb_true_iff in Hw. rewrite Hw.
        change (D3D11CommonTexture.Usage
                  (D3D11CommonTexture.SetMapType tex Subresource MapType))
          with (D3D11CommonTexture.Usage tex).
        change (D3D11CommonTexture.canUpdateMappedBufferEarly
                  (D3D11CommonTexture.SetMapType tex Subresource MapType))
          with (D3D11CommonTexture.canUpdateMappedBufferEarly tex).
        unfold beforeWait, readsBack in Hy, Hf |- *. rewrite Emode, Emb in Hy, Hf |- *.
        destruct ((D3D11CommonTexture.Usage tex =? D3D11_USAGE_STAGING)
                  && negb (D3D11CommonTexture.canUpdateMappedBufferEarly tex));
          rewrite WaitForResource_idle by exact Hidle;
          (eexists; split; [reflexivity|]; cbn;
           split; [reflexivity|]; split; [reflexivity|]; split; [reflexivity|];
           split; [exact Hy | exact Hf]).
      * rewrite Hsub.
        change (D3D11CommonTexture.imageInUse
                  (D3D11CommonTexture.SetMapType tex Subresource MapType))
          with (D3D11CommonTexture.imageInUse tex).
        rewrite WaitForResource_idle by exact Hidle.
        assert (Hbw : beforeWait c (Texture tex) Subresource = c).
        { unfold beforeWait, readsBack. rewrite Emode.
          destruct (D3D11CommonTexture.m_buffers tex !! Subresource); reflexivity. }
        rewrite Hbw in Hy, Hf |- *.
        eexists. split; [reflexivity|]. cbn.
        split; [reflexivity|]. split; [reflexivity|]. split; [reflexivity|].
        split; assumption.
Qed.

End MapEdges.

Lemma Map_rejects_unmappable_witness :
  D3D11ImmediateContext.Map demoContext (Some (Buffer demoDeviceLocalBuffer)) 0
    D3D11_MAP_READ 0 (Some {| pData := 1; RowPitch := 2; DepthPitch := 3 |})
  = Some (D3D11ImmediateContext.mkResult E_INVALIDARG (Some zeroMappedSubresource)
            demoContext (Some (Buffer demoDeviceLocalBuffer))).
Proof.
  apply (Map_rejects_unmappable demoContext (Buffer demoDeviceLocalBuffer)).
  reflexivity.
Defined.

Lemma Map_without_waiting_witness :
  D3D11ImmediateContext.Map demoContext (Some (Buffer demoBuffer)) 0
    D3D11_MAP_WRITE_NO_OVERWRITE 0 (Some zeroMappedSubresource)
  = Some (D3D11ImmediateContext.mkResult S_OK
            (Some {| pData :=
                       DxvkBufferSliceHandle.mapPtr
                         (D3D11Buffer.GetMappedSlice demoBuffer);
                     RowPitch := 256; DepthPitch := 256 |})
            demoContext (Some (Buffer demoBuffer))).
Proof.
  apply (proj1 (Map_without_waiting demoContext 0 0 zeroMappedSubresource)).
  discriminate.
Defined.

(** * More on the version-9 device *)

(** ** What the command stream leaves alone *)

(** The state of the device apart from the command stream. *)
Definition stateFields (d : D3D9DeviceEx.t) :=
  (D3D9DeviceEx.renderStates d, D3D9DeviceEx.renderTargets d,
   D3D9DeviceEx.depthStencil d, D3D9DeviceEx.texture0 d,
   D3D9DeviceEx.viewport d, D3D9DeviceEx.scissorRect d,
   D3D9DeviceEx.m_flags d, D3D9DeviceEx.m_recorder d,
   D3D9DeviceEx.surfaces d).

Section StateFields.
Import D3D9DeviceEx.

Lemma stateFields_EmitCs d cmd : stateFields (EmitCs d cmd) = stateFields d.
Proof. unfold EmitCs. destruct (_ <? _)%nat; reflexivity. Qed.

Lemma stateFields_FlushCsChunk d : stateFields (FlushCsChunk d) = stateFields d.
Proof. unfold FlushCsChunk. destruct (m_csChunk d); reflexivity. Qed.

Lemma stateFields_Flush d : stateFields (Flush d) = stateFields d.
Proof.
  unfold Flush. destruct (_ || _); [|reflexivity].
  transitivity
    (stateFields (FlushCsChunk (EmitCs (addEvent d flushInitContext) flushCommandList)));
    [reflexivity|].
  rewrite stateFields_FlushCsChunk, stateFields_EmitCs. reflexivity.
Qed.

Lemma stateFields_FlushImplicit d StrongHint :
  stateFields (FlushImplicit d StrongHint) = stateFields d.
Proof.
  unfold FlushImplicit.
  destruct (_ || _); [|reflexivity].
  destruct (_ >=? _); [apply stateFields_Flush | reflexivity].
Qed.

Lemma stateFields_inv d d' :
  stateFields d' = stateFields d ->
  renderStates d' = renderStates d /\ renderTargets d' = renderTargets d
  /\ depthStencil d' = depthStencil d /\ viewport d' = viewport d
  /\ scissorRect d' = scissorRect d /\ m_flags d' = m_flags d
  /\ m_recorder d' = m_recorder d /\ surfaces d' = surfaces d.
Proof. unfold stateFields. intros H. injection H. auto 10. Qed.

End StateFields.

(** ** Render targets *)

Section Targets.
Import D3D9DeviceEx D3D9Targets.

(** The render targets after [SetRenderTarget]. *)
Lemma SetRenderTarget_targets d Index pRenderTarget :
  renderTargets (snd (SetRenderTarget d Index pRenderTarget))
  = if (Index >=? MaxSimultaneousRenderTargets)
       || (bool_decide (pRenderTarget = None) && (Index =? 0))
    then renderTargets d
    else <[Z.to_nat Index := pRenderTarget]> (renderTargets d).
Proof.
  unfold SetRenderTarget.
  destruct (orb _ _); [reflexivity|].
  destruct (bool_decide (rt d Index = pRenderTarget)) eqn:Esame.
  - apply bool_decide_eq_true in Esame. cbn [snd]. unfold rt in Esame.
    destruct (renderTargets d !! Z.to_nat Index) as [x|] eqn:E.
    + cbn in Esame. subst x. symmetry. apply list_insert_id. exact E.
    + symmetry. apply list_insert_ge. apply lookup_ge_None. exact E.
  - destruct (stateFields_inv _ _ (stateFields_FlushImplicit d (Index =? 0)))
      as (_ & Ht & _).
    set (d1 := setRenderTargets _ _).
    assert (H1 : renderTargets d1
                 = <[Z.to_nat Index := pRenderTarget]> (renderTargets d))
      by (unfold d1; cbn; rewrite Ht; reflexivity).
    destruct (Index =? 0); [|exact H1].
    destruct (rt d1 0); [|exact H1]. cbn [snd].
    rewrite (proj1 (proj2 (primaryRenderTargetChanged_fields d1 _))). exact H1.
Qed.

(** X13. Render targets are set and read back by index: for an index
    below 4 (and a surface, if the index is 0), [SetRenderTarget]
    succeeds, [GetRenderTarget] then returns that surface, or the
    not-found code with a null pointer after unbinding, and the other
    render targets are as before. [SetRenderTarget] rejects the
    indices from 4 on, and a null surface for index 0, without any
    change. [GetRenderTarget] rejects a null return pointer and the
    indices above 4; the index 4 itself passes its check and reads
    one past the end of the array. *)
Theorem SetRenderTarget_GetRenderTarget (d : t) (Index : Z)
  (pRenderTarget : option Z) (old : option Z) :
  List.length (renderTargets d) = 4%nat ->
  (0 <= Index < 4 -> (Index = 0 -> pRenderTarget <> None) ->
   fst (SetRenderTarget d Index pRenderTarget) = D3D_OK
   /\ GetRenderTarget (snd (SetRenderTarget d Index pRenderTarget)) Index (Some old)
      = Some match pRenderTarget with
             | Some surface => (D3D_OK, Some (Some surface))
             | None => (D3DERR_NOTFOUND, Some None)
             end
   /\ forall other, 0 <= other -> other <> Index ->
        rt (snd (SetRenderTarget d Index pRenderTarget)) other = rt d other)
  /\ (4 <= Index \/ (Index = 0 /\ pRenderTarget = None) ->
      SetRenderTarget d Index pRenderTarget = (D3DERR_INVALIDCALL, d))
  /\ (4 < Index -> GetRenderTarget d Index (Some old) = Some (D3DERR_INVALIDCALL, Some None))
  /\ GetRenderTarget d 4 (Some old) = None
  /\ GetRenderTarget d Index None = Some (D3DERR_INVALIDCALL, None).
Proof.
  intros Hlen. split; [|split; [|split; [|split]]].
  - intros Hi H0.
    assert (Hguard : (Index >=? MaxSimultaneousRenderTargets)
                     || (bool_decide (pRenderTarget = None) && (Index =? 0)) = false).
    { unfold MaxSimultaneousRenderTargets. apply orb_false_iff. split.
      - rewrite Z.geb_leb. apply Z.leb_gt. lia.
      - destruct (Z.eqb_spec Index 0) as [E|E]; [|apply andb_false_r].
        rewrite bool_decide_eq_false_2 by (apply H0; exact E). reflexivity. }
    pose proof (SetRenderTarget_targets d Index pRenderTarget) as Ht.
    rewrite Hguard in Ht.
    split; [|split].
    + unfold SetRenderTarget. rewrite Hguard.
      destruct (bool_decide (rt d Index = pRenderTarget)); [reflexivity|].
      destruct (Index =? 0); [|reflexivity].
      destruct (rt _ 0); reflexivity.
    + unfold GetRenderTarget. cbn [bool_decide orb].
      replace (Index >? MaxSimultaneousRenderTargets) with false
        by (symmetry; unfold MaxSimultaneousRenderTargets; rewrite Z.gtb_ltb;
            apply Z.ltb_ge; lia).
      rewrite bool_decide_eq_false_2 by discriminate. cbn [orb].
      rewrite Ht, list_lookup_insert_eq by lia.
      destruct pRenderTarget; reflexivity.
    + intros other Ho Hne. unfold rt. rewrite Ht.
      rewrite list_lookup_insert_ne by lia. reflexivity.
  - intros H. unfold SetRenderTarget.
    replace ((Index >=? MaxSimultaneousRenderTargets)
             || (bool_decide (pRenderTarget = None) && (Index =? 0))) with true;
      [reflexivity|].
    symmetry. apply orb_true_iff. unfold MaxSimultaneousRenderTargets.
    destruct H as [H | [-> ->]].
    + left. apply Z.geb_le. lia.
    + right. reflexivity.
  - intros H. unfold GetRenderTarget.
    replace (Index >? MaxSimultaneousRenderTargets) with true
      by (symmetry; unfold MaxSimultaneousRenderTargets; rewrite Z.gtb_ltb;
          apply Z.ltb_lt; lia).
    rewrite orb_true_r. reflexivity.
  - unfold GetRenderTarget. cbn.
    change (Z.to_nat 4) with 4%nat.
    rewrite (proj2 (lookup_ge_None (renderTargets d) 4)) by lia. reflexivity.
  - reflexivity.
Qed.

(** X14. Binding another surface as render target 0 resets the
    viewport and the scissor rectangle to the whole surface, depth
    range 0 to 1, and marks them dirty; binding the surface that is
    bound already changes nothing, and the other render targets leave
    the viewport and the scissor rectangle alone. *)
Theorem SetRenderTarget_resets_viewport (d : t) (surface : Z)
  (vp : D3DVIEWPORT9) (rect : RECT) :
  List.length (renderTargets d) = 4%nat ->
  (rt d 0 <> Some surface ->
   let d' := snd (SetRenderTarget d 0 (Some surface)) in
   GetViewport d' (Some vp)
   = (D3D_OK,
      Some {| X := 0; Y := 0;
              Width := descWidth (surfaces d surface);
              Height := descHeight (surfaces d surface);
              MinZ := 0%float; MaxZ := 1%float |})
   /\ GetScissorRect d' (Some rect)
      = (D3D_OK,
         Some {| left := 0; top := 0;
                 right := descWidth (surfaces d surface);
                 bottom := descHeight (surfaces d surface) |})
   /\ flagTest d' DirtyViewportScissor = true
   /\ flagTest d' DirtyFFViewport = true)
  /\ (rt d 0 = Some surface -> SetRenderTarget d 0 (Some surface) = (D3D_OK, d))
  /\ (forall Index pRenderTarget,
        Index <> 0 ->
        let d' := snd (SetRenderTarget d Index pRenderTarget) in
        viewport d' = viewport d /\ scissorRect d' = scissorRect d).
Proof.
  intros Hlen. split; [|split].
  - intros Hne. unfold SetRenderTarget. cbn [Z.geb Z.compare orb Z.eqb andb].
    change (0 >=? MaxSimultaneousRenderTargets) with false.
    rewrite bool_decide_eq_false_2 by discriminate. cbn [orb andb].
    rewrite bool_decide_eq_false_2 by exact Hne.
    destruct (stateFields_inv _ _ (stateFields_FlushImplicit d true))
      as (_ & Ht & _ & _ & _ & _ & _ & Hs).
    set (d1 := setRenderTargets _ _).
    assert (Hrt : rt d1 0 = Some surface).
    { unfold rt, d1. cbn [renderTargets setRenderTargets flagSet setFlags].
      rewrite Ht. change (Z.to_nat 0) with 0%nat.
      rewrite list_lookup_insert_eq by (rewrite Hlen; lia). reflexivity. }
    rewrite Hrt. cbn [snd].
    assert (Hsurf : surfaces d1 = surfaces d) by (unfold d1; cbn; exact Hs).
    unfold primaryRenderTargetChanged. rewrite Hsurf.
    set (d2 := if negb _ then _ else d1).
    split; [reflexivity|]. split; [reflexivity|]. split.
    + rewrite flagTest_flagSet_other by reflexivity. apply flagTest_flagSet_same.
    + apply flagTest_flagSet_same.
  - intros Hsame. unfold SetRenderTarget.
    change (0 >=? MaxSimultaneousRenderTargets) with false.
    rewrite bool_decide_eq_false_2 by discriminate. cbn [orb andb].
    rewrite bool_decide_eq_true_2 by exact Hsame. reflexivity.
  - intros Index p Hne. unfold SetRenderTarget.
    apply Z.eqb_neq in Hne. rewrite Hne, andb_false_r, orb_false_r.
    destruct (Index >=? MaxSimultaneousRenderTargets); [auto|].
    destruct (bool_decide _); [auto|]. cbn [snd].
    destruct (stateFields_inv _ _ (stateFields_FlushImplicit d false))
      as (_ & _ & _ & Hv & Hsc & _).
    cbn. auto.
Qed.

(** X15. The depth-stencil surface is set and read back:
    [SetDepthStencilSurface] always succeeds, and
    [GetDepthStencilSurface] then returns that surface, or the
    not-found code with a null pointer after unbinding. Setting the
    surface that is bound already changes nothing; setting another
    one marks the framebuffer dirty, leaves the render targets alone
    and never waits for the GPU. *)
Theorem SetDepthStencilSurface_GetDepthStencilSurface (d : t)
  (pNewZStencil : option Z) (old : option Z) :
  let d' := snd (SetDepthStencilSurface d pNewZStencil) in
  fst (SetDepthStencilSurface d pNewZStencil) = D3D_OK
  /\ GetDepthStencilSurface d' (Some old)
     = match pNewZStencil with
       | Some surface => (D3D_OK, Some (Some surface))
       | None => (D3DERR_NOTFOUND, Some None)
       end
  /\ GetDepthStencilSurface d' None = (D3DERR_INVALIDCALL, None)
  /\ (depthStencil d = pNewZStencil -> d' = d)
  /\ (depthStencil d <> pNewZStencil -> flagTest d' DirtyFramebuffer = true)
  /\ renderTargets d' = renderTargets d
  /\ yields (events d') = yields (events d).
Proof.
  unfold SetDepthStencilSurface.
  destruct (bool_decide (depthStencil d = pNewZStencil)) eqn:E; cbn [fst snd].
  - apply bool_decide_eq_true in E.
    split; [reflexivity|]. split; [|split; [reflexivity|]].
    + unfold GetDepthStencilSurface. cbn. rewrite E.
      destruct pNewZStencil; reflexivity.
    + split; [reflexivity|]. split; [congruence|]. split; reflexivity.
  - apply bool_decide_eq_false in E.
    destruct (stateFields_inv _ _ (stateFields_FlushImplicit d false))
      as (_ & Ht & _).
    split; [reflexivity|]. split; [|split; [reflexivity|]].
    + unfold GetDepthStencilSurface. cbn. destruct pNewZStencil; reflexivity.
    + split; [congruence|]. split; [|split].
      * intros _. apply (flagTest_flagSet_same (FlushImplicit d false)).
      * exact Ht.
      * change (yields (events (FlushImplicit d false)) = yields (events d)).
        destruct (Wait9.events9_FlushImplicit d false) as (l & -> & Hl).
        rewrite yields_app, Hl. lia.
Qed.

(** X16. The viewport and the scissor rectangle are set and read back
    while no state block is being recorded: [GetViewport] returns what
    [SetViewport] was given, [GetScissorRect] what [SetScissorRect] was
    given, each call marks the viewport and scissor state dirty, and
    neither touches the other's value. While a state block is being
    recorded the device keeps its viewport and its scissor rectangle,
    whatever the recorder does. A null rectangle is rejected without
    any change; a null viewport asks for the extent of render target
    0. *)
Theorem Viewport_ScissorRect_roundtrip (env : Environment) (d : t)
  (vp vp0 : D3DVIEWPORT9) (rect rect0 : RECT) :
  (ShouldRecord d = false ->
   (exists d',
       SetViewport env d (Some vp) = Some (D3D_OK, d')
       /\ GetViewport d' (Some vp0) = (D3D_OK, Some vp)
       /\ scissorRect d' = scissorRect d
       /\ flagTest d' DirtyViewportScissor = true
       /\ flagTest d' DirtyFFViewport = true)
   /\ (let d' := snd (SetScissorRect env d (Some rect)) in
       fst (SetScissorRect env d (Some rect)) = D3D_OK
       /\ GetScissorRect d' (Some rect0) = (D3D_OK, Some rect)
       /\ viewport d' = viewport d
       /\ flagTest d' DirtyViewportScissor = true))
  /\ (ShouldRecord d = true ->
      (exists hr d',
          SetViewport env d (Some vp) = Some (hr, d')
          /\ viewport d' = viewport d /\ scissorRect d' = scissorRect d
          /\ m_flags d' = m_flags d)
      /\ (let d' := snd (SetScissorRect env d (Some rect)) in
          viewport d' = viewport d /\ scissorRect d' = scissorRect d
          /\ m_flags d' = m_flags d))
  /\ SetScissorRect env d None = (D3DERR_INVALIDCALL, d)
  /\ GetViewport d None = (D3DERR_INVALIDCALL, None)
  /\ GetScissorRect d None = (D3DERR_INVALIDCALL, None)
  /\ (forall surface,
        rt d 0 = Some surface -> ShouldRecord d = false ->
        exists d',
          SetViewport env d None = Some (D3D_OK, d')
          /\ viewport d'
             = {| X := 0; Y := 0;
                  Width := fst (renderTargetExtent env surface);
                  Height := snd (renderTargetExtent env surface);
                  MinZ := 0%float; MaxZ := 1%float |}).
Proof.
  split; [|split; [|split; [|split; [|split]]]]; try reflexivity.
  - intros Hrec. split.
    + unfold SetViewport. rewrite Hrec. eexists. split; [reflexivity|].
      split; [reflexivity|]. split; [reflexivity|]. split.
      * rewrite flagTest_flagSet_other by reflexivity. apply flagTest_flagSet_same.
      * apply flagTest_flagSet_same.
    + unfold SetScissorRect. rewrite Hrec. cbn [fst snd].
      split; [reflexivity|]. split; [reflexivity|]. split; [reflexivity|].
      apply flagTest_flagSet_same.
  - intros Hrec.
    assert (Hrecord : forall (A : Type) call (a : A),
              viewport (snd (record d call a)) = viewport d
              /\ scissorRect (snd (record d call a)) = scissorRect d
              /\ m_flags (snd (record d call a)) = m_flags d).
    { intros A call a. unfold record. destruct (m_recorder d); [|auto].
      destruct (call _ a). cbn. auto. }
    split.
    + unfold SetViewport. rewrite Hrec.
      destruct (record d (recorder_SetViewport env) vp) as [hr d'] eqn:E.
      exists hr, d'. split; [reflexivity|].
      pose proof (Hrecord _ (recorder_SetViewport env) vp) as Hr.
      rewrite E in Hr. exact Hr.
    + unfold SetScissorRect. rewrite Hrec. apply Hrecord.
  - intros surface Hrt Hrec. unfold SetViewport. rewrite Hrt, Hrec.
    eexists. split; reflexivity.
Qed.

End Targets.

Lemma demoDevice_targets :
  List.length (D3D9DeviceEx.renderTargets demoDevice) = 4%nat.
Proof. reflexivity. Qed.

Lemma SetRenderTarget_GetRenderTarget_witness :
  D3D9Targets.GetRenderTarget
    (snd (D3D9DeviceEx.SetRenderTarget demoDevice 1 (Some 7))) 1 (Some None)
  = Some (D3D_OK, Some (Some 7)).
Proof.
  refine (proj1 (proj2 (proj1 (SetRenderTarget_GetRenderTarget demoDevice 1 (Some 7)
                                 None demoDevice_targets) _ _))).
  - lia.
  - discriminate.
Defined.

Lemma SetRenderTarget_resets_viewport_witness :
  D3D9Targets.GetScissorRect
    (snd (D3D9DeviceEx.SetRenderTarget
            (D3D9DeviceEx.new false 4 demoSurfaces 0 1000000) 0 (Some 2)))
    (Some {| D3D9DeviceEx.left := 1; D3D9DeviceEx.top := 1;
             D3D9DeviceEx.right := 2; D3D9DeviceEx.bottom := 2 |})
  = (D3D_OK,
     Some {| D3D9DeviceEx.left := 0; D3D9DeviceEx.top := 0;
             D3D9DeviceEx.right := 640; D3D9DeviceEx.bottom := 480 |}).
Proof.
  refine (proj1 (proj2 (proj1 (SetRenderTarget_resets_viewport
                                 (D3D9DeviceEx.new false 4 demoSurfaces 0 1000000) 2
                                 (D3D9DeviceEx.viewport demoDevice) _ eq_refl) _))).
  discriminate.
Defined.

(** The recorder of a device that records nothing but render states,
    and whose render targets are 640 by 480. *)
Definition demoEnvironment : D3D9Targets.Environment :=
  {| D3D9Targets.recorder_SetViewport := fun block _ => (D3D_OK, block);
     D3D9Targets.recorder_SetScissorRect := fun block _ => (D3D_OK, block);
     D3D9Targets.renderTargetExtent := fun _ => (640, 480) |}.

Lemma Viewport_ScissorRect_roundtrip_witness :
  D3D9Targets.GetScissorRect
    (snd (D3D9Targets.SetScissorRect demoEnvironment demoDevice
            (Some {| D3D9DeviceEx.left := 8; D3D9DeviceEx.top := 8;
                     D3D9DeviceEx.right := 72; D3D9DeviceEx.bottom := 40 |})))
    (Some (D3D9DeviceEx.scissorRect demoDevice))
  = (D3D_OK,
     Some {| D3D9DeviceEx.left := 8; D3D9DeviceEx.top := 8;
             D3D9DeviceEx.right := 72; D3D9DeviceEx.bottom := 40 |}).
Proof.
  refine (proj1 (proj2 (proj2 (proj1 (Viewport_ScissorRect_roundtrip demoEnvironment
                                        demoDevice (D3D9DeviceEx.viewport demoDevice)
                                        (D3D9DeviceEx.viewport demoDevice) _ _)
                                 eq_refl)))).
Defined.

(** ** State blocks *)

Section StateBlocks.
Import D3D9DeviceEx D3D9StateBlocks.

Variable IsAlphaToCoverageEnabled : D3D9DeviceEx.t -> bool.

(** Some calls of [SetRenderState], one after the other. *)
Definition SetRenderStates (d : t) (calls : list (Z * Z)) : t :=
  fold_left
    (fun d call =>
       snd (SetRenderState IsAlphaToCoverageEnabled d (fst call) (snd call)))
    calls d.

(** The calls whose state id [SetRenderState] does not ignore. *)
Definition accepted (call : Z * Z) : bool :=
  negb ((fst call >? 255) || ((fst call <? D3DRS_ZENABLE) && negb (fst call =? 0))).

Lemma SetRenderState_recording d block State Value :
  IsApplying block = false ->
  snd (SetRenderState IsAlphaToCoverageEnabled (setRecorder d (Some block)) State Value)
  = setRecorder d
      (Some (if accepted (State, Value)
             then recordRenderState block State Value else block)).
Proof.
  intros Hb. unfold SetRenderState, accepted. cbn [fst].
  destruct (orb (State >? 255) _); cbn [negb]; [reflexivity|].
  unfold ShouldRecord. cbn [m_recorder setRecorder]. rewrite Hb. reflexivity.
Qed.

Lemma SetRenderStates_recorded d calls :
  forall block,
    IsApplying block = false ->
    SetRenderStates (setRecorder d (Some block)) calls
    = setRecorder d
        (Some {| IsApplying := false;
                 recordedRenderStates :=
                   recordedRenderStates block ++ List.filter accepted calls |}).
Proof.
  induction calls as [|[State Value] calls IH]; intros block Hb.
  - cbn. rewrite app_nil_r. destruct block as [a l]. cbn in Hb. subst a. reflexivity.
  - change (SetRenderStates (setRecorder d (Some block)) ((State, Value) :: calls))
      with (SetRenderStates
              (snd (SetRenderState IsAlphaToCoverageEnabled
                      (setRecorder d (Some block)) State Value)) calls).
    rewrite SetRenderState_recording by exact Hb. cbn [List.filter].
    destruct (accepted (State, Value)).
    + rewrite IH by exact Hb. cbn. rewrite <- app_assoc. reflexivity.
    + apply IH. exact Hb.
Qed.

(** X17. Recording a state block. [BeginStateBlock] succeeds when no
    block is being recorded, and fails without any change when one is.
    The calls of [SetRenderState] that follow change nothing of the
    device: [EndStateBlock] hands out the block with the pairs of state
    and value of those calls, in their order and without the ones whose
    state id is out of range, and leaves the device exactly as it was
    before [BeginStateBlock]. [EndStateBlock] fails when no block is
    being recorded, and when it is given no place for the block. *)
Theorem StateBlock_records (d : t) (block : D3D9StateBlock)
  (calls : list (Z * Z)) (old : option D3D9StateBlock) :
  m_recorder d = None -> IsApplying block = false ->
  let d1 := snd (BeginStateBlock block d) in
  let d2 := SetRenderStates d1 calls in
  fst (BeginStateBlock block d) = D3D_OK
  /\ (forall block', BeginStateBlock block' d2 = (D3DERR_INVALIDCALL, d2))
  /\ EndStateBlock d2 (Some old)
     = (D3D_OK,
        Some (Some {| IsApplying := false;
                      recordedRenderStates :=
                        recordedRenderStates block ++ List.filter accepted calls |}),
        d)
  /\ EndStateBlock d2 None = (D3DERR_INVALIDCALL, None, d2)
  /\ EndStateBlock d (Some old) = (D3DERR_INVALIDCALL, Some None, d).
Proof.
  intros Hrec Hb. unfold BeginStateBlock. rewrite Hrec. cbn [fst snd].
  rewrite SetRenderStates_recorded by exact Hb.
  split; [reflexivity|]. split; [reflexivity|]. split; [|split].
  - unfold EndStateBlock. cbn. destruct d. cbn in Hrec. subst. reflexivity.
  - reflexivity.
  - unfold EndStateBlock. rewrite Hrec. reflexivity.
Qed.

End StateBlocks.

Lemma StateBlock_records_witness :
  D3D9StateBlocks.EndStateBlock
    (SetRenderStates demoAlphaToCoverage
       (snd (D3D9StateBlocks.BeginStateBlock
               {| D3D9DeviceEx.IsApplying := false;
                  D3D9DeviceEx.recordedRenderStates := [] |} demoDevice))
       [(D3D9DeviceEx.D3DRS_ZENABLE, 1); (300, 5); (D3D9DeviceEx.D3DRS_CULLMODE, 2)])
    (Some None)
  = (D3D_OK,
     Some (Some {| D3D9DeviceEx.IsApplying := false;
                   D3D9DeviceEx.recordedRenderStates :=
                     [(D3D9DeviceEx.D3DRS_ZENABLE, 1); (D3D9DeviceEx.D3DRS_CULLMODE, 2)] |}),
     demoDevice).
Proof.
  exact (proj1 (proj2 (proj2 (StateBlock_records demoAlphaToCoverage demoDevice
                                {| D3D9DeviceEx.IsApplying := false;
                                   D3D9DeviceEx.recordedRenderStates := [] |}
                                [(D3D9DeviceEx.D3DRS_ZENABLE, 1); (300, 5);
                                 (D3D9DeviceEx.D3DRS_CULLMODE, 2)]
                                None eq_refl eq_refl)))).
Defined.

(** ** Stream frequencies *)

Section Streams.
Import D3D9DeviceEx D3D9Streams.

Variable MaxStreams : Z.
Variable recorder : D3D9StateBlock -> Z * Z -> HRESULT * D3D9StateBlock.

Definition instanced (Setting : Z) : bool :=
  testFlag Setting D3DSTREAMSOURCE_INSTANCEDATA.

Definition indexed (Setting : Z) : bool :=
  testFlag Setting D3DSTREAMSOURCE_INDEXEDDATA.

(** The settings that [SetStreamSourceFreq] takes for a stream. *)
Definition validSetting (StreamNumber Setting : Z) : Prop :=
  Setting <> 0
  /\ ~ (StreamNumber = 0 /\ instanced Setting = true)
  /\ ~ (instanced Setting = true /\ indexed Setting = true).

(** [m_instancedData] is in step with [m_state.streamFreq]: the bit of
    a stream is set exactly when the setting of the stream has
    [D3DSTREAMSOURCE_INSTANCEDATA]. *)
Definition maskInStep (s : D3D9Streams.t) : Prop :=
  forall (n : nat) freq,
    streamFreq s !! n = Some freq ->
    Z.testbit (m_instancedData s) (Z.of_nat n) = instanced freq.

Lemma validSetting_test StreamNumber Setting :
  ((StreamNumber =? 0) && instanced Setting
   || instanced Setting && indexed Setting
   || (Setting =? 0)) = false
  <-> validSetting StreamNumber Setting.
Proof.
  unfold validSetting.
  destruct (Z.eqb_spec StreamNumber 0), (Z.eqb_spec Setting 0),
    (instanced Setting), (indexed Setting); cbn; split; intros Hx;
    try discriminate; try reflexivity; try (exfalso; tauto);
    repeat split; try congruence; try tauto; intros [? ?]; congruence.
Qed.

Lemma bit_of_stream (n m : Z) :
  0 <= n < 32 -> 0 <= m ->
  u32 (Z.shiftl 1 n) = 2 ^ n
  /\ Z.testbit (2 ^ n) m = (n =? m)
  /\ (m < 32 -> Z.testbit (u32 (Z.lnot (2 ^ n))) m = negb (n =? m)).
Proof.
  intros Hn Hm. split; [|split].
  - unfold u32. rewrite Z.shiftl_1_l. apply Z.mod_small. split.
    + apply Z.pow_nonneg. lia.
    + apply Z.pow_lt_mono_r; lia.
  - apply Z.pow2_bits_eqb. lia.
  - intros Hlt. unfold u32. rewrite Z.mod_pow2_bits_low by lia.
    rewrite Z.lnot_spec by lia. rewrite Z.pow2_bits_eqb by lia. reflexivity.
Qed.

(** X18. [SetStreamSourceFreq], while no state block is being recorded.
    It succeeds exactly for a stream below [MaxStreams] and a setting
    that is not zero, does not combine instance data with indexed data
    and does not make stream 0 carry instance data; otherwise it fails
    with the invalid-call code and changes nothing.
    [GetStreamSourceFreq] then returns the setting, and the settings of
    the other streams are as before. The mask of instanced streams
    stays in step with the settings: when each bit told whether its
    stream carries instance data before the call, it does so after
    it. *)
Theorem SetStreamSourceFreq_GetStreamSourceFreq (s : D3D9Streams.t)
  (StreamNumber Setting : Z) (old : Z) :
  0 < MaxStreams <= 32 ->
  List.length (streamFreq s) = Z.to_nat MaxStreams ->
  ShouldRecord (device s) = false ->
  0 <= StreamNumber ->
  exists hr s',
    SetStreamSourceFreq MaxStreams recorder s StreamNumber Setting = Some (hr, s')
    /\ (hr = D3D_OK
        <-> StreamNumber < MaxStreams /\ validSetting StreamNumber Setting)
    /\ (hr <> D3D_OK -> hr = D3DERR_INVALIDCALL /\ s' = s)
    /\ (hr = D3D_OK ->
        GetStreamSourceFreq MaxStreams s' StreamNumber (Some old)
        = Some (D3D_OK, Some Setting)
        /\ forall other : nat,
             other <> Z.to_nat StreamNumber ->
             streamFreq s' !! other = streamFreq s !! other)
    /\ (maskInStep s -> maskInStep s').
Proof.
  intros HM Hlen Hrec Hn. unfold SetStreamSourceFreq.
  destruct (Z.geb_spec StreamNumber MaxStreams) as [Hge|Hlt].
  { exists D3DERR_INVALIDCALL, s. split; [reflexivity|].
    split; [split; [discriminate | lia]|]. split; [auto|]. split; [discriminate|auto]. }
  fold (instanced Setting). fold (indexed Setting).
  pose proof (validSetting_test StreamNumber Setting) as Hvalid.
  destruct ((StreamNumber =? 0) && instanced Setting) eqn:E1.
  { exists D3DERR_INVALIDCALL, s. split; [reflexivity|].
    split; [split; [discriminate|]|].
    - intros [_ Hv]. apply Hvalid in Hv. discriminate.
    - split; [auto|]. split; [discriminate|auto]. }
  destruct (instanced Setting && indexed Setting) eqn:E2.
  { exists D3DERR_INVALIDCALL, s. split; [reflexivity|].
    split; [split; [discriminate|]|].
    - intros [_ Hv]. apply Hvalid in Hv. discriminate.
    - split; [auto|]. split; [discriminate|auto]. }
  destruct (Setting =? 0) eqn:E3.
  { exists D3DERR_INVALIDCALL, s. split; [reflexivity|].
    split; [split; [discriminate|]|].
    - intros [_ Hv]. apply Hvalid in Hv. discriminate.
    - split; [auto|]. split; [discriminate|auto]. }
  assert (Hv : validSetting StreamNumber Setting) by (apply Hvalid; reflexivity).
  rewrite Hrec.
  assert (Hidx : (Z.to_nat StreamNumber < List.length (streamFreq s))%nat) by lia.
  destruct (lookup_lt_is_Some_2 _ _ Hidx) as [freq Efreq]. rewrite Efreq.
  assert (Hget : forall s1,
            streamFreq s1 !! Z.to_nat StreamNumber = Some Setting ->
            GetStreamSourceFreq MaxStreams s1 StreamNumber (Some old)
            = Some (D3D_OK, Some Setting)).
  { intros s1 H1. unfold GetStreamSourceFreq.
    destruct (Z.geb_spec StreamNumber MaxStreams); [lia|]. rewrite H1. reflexivity. }
  destruct (Z.eqb_spec freq Setting) as [->|Hne].
  { exists D3D_OK, s. split; [reflexivity|]. split; [split; auto|].
    split; [congruence|]. split; [|auto]. intros _. split; [auto|reflexivity]. }
  eexists D3D_OK, _. split; [reflexivity|]. split; [split; auto|].
  split; [congruence|]. split.
  - intros _. split.
    + apply Hget. cbn. apply list_lookup_insert_eq. exact Hidx.
    + intros other Ho. cbn. apply list_lookup_insert_ne. congruence.
  - intros Hmask n f. cbn [streamFreq m_instancedData]. intros Hf.
    assert (Hn32 : Z.of_nat n < 32).
    { apply lookup_lt_Some in Hf. rewrite length_insert in Hf. lia. }
    destruct (bit_of_stream StreamNumber (Z.of_nat n)) as (Hbit & Hpow & Hnot);
      [lia | lia |].
    rewrite Hbit.
    destruct (Nat.eq_dec n (Z.to_nat StreamNumber)) as [->|Hother].
    + rewrite list_lookup_insert_eq in Hf by exact Hidx. injection Hf as <-.
      rewrite Z2Nat.id in * by lia.
      destruct (instanced Setting).
      * rewrite Z.lor_spec, Hpow, Z.eqb_refl. apply orb_true_r.
      * rewrite Z.land_spec, (Hnot Hn32), Z.eqb_refl. apply andb_false_r.
    + rewrite list_lookup_insert_ne in Hf by congruence.
      assert (Hneq : (StreamNumber =? Z.of_nat n) = false) by (apply Z.eqb_neq; lia).
      destruct (instanced Setting).
      * rewrite Z.lor_spec, Hpow, Hneq, orb_false_r. exact (Hmask n f Hf).
      * rewrite Z.land_spec, (Hnot Hn32), Hneq, andb_true_r. exact (Hmask n f Hf).
Qed.

End Streams.

(** A device with sixteen streams, none of them instanced. *)
Definition demoStreams : D3D9Streams.t :=
  {| D3D9Streams.device := demoDevice;
     D3D9Streams.streamFreq := replicate 16 1;
     D3D9Streams.m_instancedData := 0 |}.

Lemma SetStreamSourceFreq_GetStreamSourceFreq_witness :
  exists hr s',
    D3D9Streams.SetStreamSourceFreq 16 (fun block _ => (D3D_OK, block)) demoStreams 1
      (Z.lor D3D9Streams.D3DSTREAMSOURCE_INSTANCEDATA 1)
    = Some (hr, s')
    /\ (hr = D3D_OK
        <-> 1 < 16
            /\ validSetting 1 (Z.lor D3D9Streams.D3DSTREAMSOURCE_INSTANCEDATA 1))
    /\ (hr <> D3D_OK -> hr = D3DERR_INVALIDCALL /\ s' = demoStreams)
    /\ (hr = D3D_OK ->
        D3D9Streams.GetStreamSourceFreq 16 s' 1 (Some 0)
        = Some (D3D_OK, Some (Z.lor D3D9Streams.D3DSTREAMSOURCE_INSTANCEDATA 1))
        /\ forall other : nat,
             other <> Z.to_nat 1 ->
             D3D9Streams.streamFreq s' !! other
             = D3D9Streams.streamFreq demoStreams !! other)
    /\ (maskInStep demoStreams -> maskInStep s').
Proof.
  apply (SetStreamSourceFreq_GetStreamSourceFreq 16 (fun block _ => (D3D_OK, block))
           demoStreams 1 (Z.lor D3D9Streams.D3DSTREAMSOURCE_INSTANCEDATA 1) 0).
  - lia.
  - reflexivity.
  - reflexivity.
  - lia.
Defined.

(** ** The scissor rectangle *)

Section Scissor.
Import D3D9DeviceEx D3D9Targets.

(** X19. The scissor rectangle that [BindViewportAndScissor] binds
    never has a negative offset or extent. With the scissor test
    enabled it holds, of the points with coordinates that are not
    negative, exactly those of the rectangle set with [SetScissorRect];
    with the scissor test disabled it is the square of 16383 by 16383
    at the origin. *)
Theorem BindViewportAndScissor_scissor_spec (d : t) :
  let sr := scissorRect d in
  let scissor := BindViewportAndScissor_scissor d in
  - 2 ^ 31 <= left sr < 2 ^ 31 -> - 2 ^ 31 <= top sr < 2 ^ 31 ->
  - 2 ^ 31 <= right sr < 2 ^ 31 -> - 2 ^ 31 <= bottom sr < 2 ^ 31 ->
  0 <= offset_x scissor /\ 0 <= offset_y scissor
  /\ 0 <= extent_width scissor < 2 ^ 31 /\ 0 <= extent_height scissor < 2 ^ 31
  /\ (rs d D3DRS_SCISSORTESTENABLE <> 0 ->
      forall x y, 0 <= x -> 0 <= y ->
        (offset_x scissor <= x < offset_x scissor + extent_width scissor
         /\ offset_y scissor <= y < offset_y scissor + extent_height scissor)
        <-> (left sr <= x < right sr /\ top sr <= y < bottom sr))
  /\ (rs d D3DRS_SCISSORTESTENABLE = 0 ->
      scissor = {| offset_x := 0; offset_y := 0;
                   extent_width := 16383; extent_height := 16383 |}).
Proof.
  intros sr scissor Hl Ht Hr Hb. unfold scissor, BindViewportAndScissor_scissor.
  fold sr. destruct (Z.eqb_spec (rs d D3DRS_SCISSORTESTENABLE) 0) as [E|E]; cbn [negb].
  - cbn [offset_x offset_y extent_width extent_height].
    split; [lia|]. split; [lia|]. split; [lia|]. split; [lia|].
    split; [congruence | reflexivity].
  - cbn [offset_x offset_y extent_width extent_height].
    assert (Hw : u32 (Z.max (Z.max 0 (left sr)) (right sr) - Z.max 0 (left sr))
                 = Z.max (Z.max 0 (left sr)) (right sr) - Z.max 0 (left sr))
      by (unfold u32; apply Z.mod_small; lia).
    assert (Hh : u32 (Z.max (Z.max 0 (top sr)) (bottom sr) - Z.max 0 (top sr))
                 = Z.max (Z.max 0 (top sr)) (bottom sr) - Z.max 0 (top sr))
      by (unfold u32; apply Z.mod_small; lia).
    rewrite Hw, Hh.
    split; [lia|]. split; [lia|]. split; [lia|]. split; [lia|].
    split; [|congruence]. intros _ x y Hx Hy. lia.
Qed.

End Scissor.

Lemma BindViewportAndScissor_scissor_witness :
  D3D9Targets.BindViewportAndScissor_scissor demoDevice
  = {| D3D9Targets.offset_x := 0; D3D9Targets.offset_y := 0;
       D3D9Targets.extent_width := 16383; D3D9Targets.extent_height := 16383 |}.
Proof.
  refine (proj2 (proj2 (proj2 (proj2 (proj2
            (BindViewportAndScissor_scissor_spec demoDevice _ _ _ _))))) eq_refl);
    cbn; lia.
Defined.

(** ** Shader constants *)

Section ShaderConstants.
Import D3D9Constants.

Context {S T : Type}.
Variables regCountHardware regCountSoftware : Z.
Variable ShouldRecord : S -> bool.
Variable recorder_SetShaderConstants : S -> Z -> list T -> Z -> HRESULT * S.
Variable setDirty : S -> S.
Variable UpdateStateConstants : S -> Z -> list T -> Z -> S.

Local Abbreviation Set_ :=
  (SetShaderConstants regCountHardware regCountSoftware ShouldRecord
     recorder_SetShaderConstants setDirty UpdateStateConstants).

(** X20. [SetShaderConstants] on registers whose numbers do not wrap
    around in 32 bits. A range that ends beyond the software register
    count is rejected without any change. Otherwise the constants
    beyond the hardware register count are dropped: the device is
    updated with the constants from [StartRegister] up to the hardware
    register count, never beyond it; when none are left the call
    succeeds without doing anything and without looking at the data,
    and when some are left a null data pointer is rejected. *)
Theorem SetShaderConstants_bounds (s : S) (StartRegister Count : Z)
  (pConstantData : option (list T)) :
  0 <= regCountHardware <= regCountSoftware -> regCountSoftware < 2 ^ 31 ->
  0 <= StartRegister -> 0 <= Count -> StartRegister + Count < 2 ^ 32 ->
  let kept := Z.max (Z.min (StartRegister + Count) regCountHardware - StartRegister) 0 in
  (regCountSoftware < StartRegister + Count ->
   Set_ s StartRegister pConstantData Count = Some (D3DERR_INVALIDCALL, s))
  /\ (StartRegister + Count <= regCountSoftware ->
      kept <= Count
      /\ (0 < kept -> StartRegister + kept <= regCountHardware)
      /\ Set_ s StartRegister pConstantData Count
         = Some (if kept =? 0 then (D3D_OK, s)
                 else match pConstantData with
                      | None => (D3DERR_INVALIDCALL, s)
                      | Some data =>
                          if ShouldRecord s
                          then recorder_SetShaderConstants s StartRegister data kept
                          else (D3D_OK,
                                UpdateStateConstants (setDirty s) StartRegister
                                  data kept)
                      end)).
Proof.
  intros Hhw Hsw Hs Hc Hsum kept.
  assert (Hu : u32 (StartRegister + Count) = StartRegister + Count)
    by (unfold u32; apply Z.mod_small; lia).
  unfold SetShaderConstants. rewrite Hu. split.
  - intros Hbig. destruct (Z.gtb_spec (StartRegister + Count) regCountSoftware);
      [reflexivity | lia].
  - intros Hfit.
    destruct (Z.gtb_spec (StartRegister + Count) regCountSoftware); [lia|].
    assert (Hclamped : clampedCount regCountHardware StartRegister Count = Some kept).
    { unfold clampedCount, INT, clamp. rewrite (Z.add_comm Count), Hu.
      destruct (Z.ltb_spec (StartRegister + Count) (2 ^ 31)); [|lia].
      destruct (Z.ltb_spec regCountHardware (2 ^ 31)); [|lia].
      destruct (Z.ltb_spec StartRegister (2 ^ 31)); [|lia].
      destruct (Z.ltb_spec (StartRegister + Count) 0); [lia|].
      assert (Hmin : (if regCountHardware <? StartRegister + Count
                      then regCountHardware else StartRegister + Count)
                     = Z.min (StartRegister + Count) regCountHardware)
        by (destruct (Z.ltb_spec regCountHardware (StartRegister + Count)); lia).
      rewrite Hmin.
      destruct (Z.ltb_spec (Z.min (StartRegister + Count) regCountHardware
                            - StartRegister) (- 2 ^ 31)); [lia|].
      destruct (Z.leb_spec (2 ^ 31)
                  (Z.min (StartRegister + Count) regCountHardware - StartRegister));
        [lia|].
      cbn [orb]. f_equal. unfold u32. apply Z.mod_small. unfold kept. lia. }
    rewrite Hclamped. split; [unfold kept; lia|]. split; [unfold kept; lia|].
    destruct (kept =? 0); [reflexivity|].
    destruct pConstantData; [|reflexivity]. destruct (ShouldRecord s); reflexivity.
Qed.

End ShaderConstants.

Lemma SetShaderConstants_bounds_witness :
  D3D9Constants.SetShaderConstants 256 8192 (fun _ : list (Z * Z) => false)
    (fun s _ _ _ => (D3D_OK, s)) (fun s => s)
    (fun s StartRegister (data : list Z) Count => s ++ [(StartRegister, Count)])
    [] 250 (Some [1; 2; 3]) 10
  = Some (D3D_OK, [(250, 6)]).
Proof.
  refine (proj2 (proj2 (proj2 (SetShaderConstants_bounds 256 8192
                                 (fun _ : list (Z * Z) => false)
                                 (fun s _ _ _ => (D3D_OK, s)) (fun s => s)
                                 (fun s StartRegister (data : list Z) Count =>
                                    s ++ [(StartRegister, Count)])
                                 [] 250 10 (Some [1; 2; 3]) _ _ _ _ _) _)));
    lia.
Defined.

(** ** Locking and unlocking buffers *)

Section Buffers.
Import D3D9DeviceEx D3D9Buffers.

Context {B : Type} `{D3D9CommonBufferClass B}.

Lemma d3d9_EmitCs_waits d cmd : waits (events (EmitCs d cmd)) = waits (events d).
Proof.
  unfold EmitCs. destruct (_ <? _)%nat; cbn; [reflexivity|].
  rewrite waits_app. cbn. apply app_nil_r.
Qed.

Lemma d3d9_EmitCs_chunk d cmd : last (m_csChunk (EmitCs d cmd)) = Some cmd.
Proof.
  unfold EmitCs. destruct (_ <? _)%nat; cbn; [apply last_snoc | reflexivity].
Qed.

(** The flags that [LockBuffer] goes by. *)
Definition lockFlags (allowLockFlagReadonly : bool) (Flags : Z) : Z :=
  if negb allowLockFlagReadonly then clearFlag Flags D3DLOCK_READONLY else Flags.

(** The locks that do not wait: those with [D3DLOCK_DISCARD] or
    [D3DLOCK_NOOVERWRITE], and all locks of a buffer that is mapped
    through a staging buffer. *)
Definition locksAtOnce (allowLockFlagReadonly : bool) (pResource : B) (Flags : Z)
  : Prop :=
  let Flags := lockFlags allowLockFlagReadonly Flags in
  testFlag Flags D3DLOCK_DISCARD = true
  \/ testFlag Flags D3DLOCK_NOOVERWRITE = true
  \/ GetMapMode (snd (SetMapFlags pResource Flags)) = D3D9_COMMON_BUFFER_MAP_MODE_BUFFER.

(** X21. [LockBuffer] without waiting. A lock with [D3DLOCK_DISCARD] or
    [D3DLOCK_NOOVERWRITE], and any lock of a buffer that is mapped
    through a staging buffer, succeeds without waiting for the worker
    or the GPU and hands out the slice's pointer advanced by the
    offset. Without [D3DLOCK_DISCARD] the device is left as it was;
    with it, the command recorded last is the [invalidateBuffer] of the
    mapping buffer with the slice that [DiscardMapSlice] gave. A lock
    that is given no place for the pointer fails before anything is
    done. *)
Theorem LockBuffer_at_once (allowLockFlagReadonly : bool) (d : t) (pResource : B)
  (OffsetToLock SizeToLock data Flags : Z) :
  let F := lockFlags allowLockFlagReadonly Flags in
  let flagged := snd (SetMapFlags pResource F) in
  (locksAtOnce allowLockFlagReadonly pResource Flags ->
   exists r,
     LockBuffer allowLockFlagReadonly d pResource OffsetToLock SizeToLock
       (Some data) Flags = Some r
     /\ lock_hr r = D3D_OK
     /\ waits (events (lock_device r)) = waits (events d)
     /\ (testFlag F D3DLOCK_DISCARD = false ->
         lock_device r = d /\ lock_resource r = flagged
         /\ lock_data r
            = Some (DxvkBufferSliceHandle.mapPtr (GetMappedSlice flagged)
                    + OffsetToLock))
     /\ (testFlag F D3DLOCK_DISCARD = true ->
         let discarded := DiscardMapSlice flagged in
         lock_resource r = snd discarded
         /\ lock_data r
            = Some (DxvkBufferSliceHandle.mapPtr (fst discarded) + OffsetToLock)
         /\ last (m_csChunk (lock_device r))
            = Some (invalidateBuffer
                      (DxvkBuffer.id (GetBuffer_MAPPING (snd discarded)))
                      (fst discarded))))
  /\ LockBuffer allowLockFlagReadonly d pResource OffsetToLock SizeToLock None Flags
     = Some (mkLock D3DERR_INVALIDCALL None d pResource).
Proof.
  intros F flagged. split; [|reflexivity].
  unfold locksAtOnce. fold F. fold flagged. intros Hcase.
  unfold LockBuffer. fold (lockFlags allowLockFlagReadonly Flags). fold F. fold flagged.
  destruct (testFlag F D3DLOCK_DISCARD) eqn:Ed.
  - destruct (DiscardMapSlice flagged) as [physSlice b'] eqn:Edis.
    eexists. split; [reflexivity|]. cbn [lock_hr lock_device lock_resource lock_data].
    split; [reflexivity|]. split; [apply d3d9_EmitCs_waits|].
    split; [discriminate|]. intros _. cbn [fst snd].
    split; [reflexivity|]. split; [reflexivity|]. apply d3d9_EmitCs_chunk.
  - assert (Hnowait : negb (testFlag F D3DLOCK_NOOVERWRITE)
                      && match GetMapMode flagged with
                         | D3D9_COMMON_BUFFER_MAP_MODE_DIRECT => true
                         | D3D9_COMMON_BUFFER_MAP_MODE_BUFFER => false
                         end = false).
    { destruct Hcase as [Hc | [Hc | Hc]]; [discriminate | |].
      - rewrite Hc. reflexivity.
      - rewrite Hc. apply andb_false_r. }
    rewrite Hnowait.
    eexists. split; [reflexivity|]. cbn [lock_hr lock_device lock_resource lock_data].
    split; [reflexivity|]. split; [reflexivity|].
    split; [|discriminate]. intros _. auto.
Qed.

(** What [LockBuffer] and [UnlockBuffer] expect of the buffer class:
    [SetMapFlags] returns the flags it replaces, and neither it nor
    [DiscardMapSlice] changes the map mode or, for the latter, the
    flags. [flagsOf] reads the flags of a buffer. *)
Record keepsMapFlags (flagsOf : B -> Z) : Prop := {
  SetMapFlags_returns : forall b f, fst (SetMapFlags b f) = flagsOf b;
  SetMapFlags_sets : forall b f, flagsOf (snd (SetMapFlags b f)) = f;
  SetMapFlags_mode : forall b f, GetMapMode (snd (SetMapFlags b f)) = GetMapMode b;
  DiscardMapSlice_flags : forall b, flagsOf (snd (DiscardMapSlice b)) = flagsOf b;
  DiscardMapSlice_mode : forall b,
    GetMapMode (snd (DiscardMapSlice b)) = GetMapMode b;
}.

Lemma LockBuffer_staged (allowLockFlagReadonly : bool) (d : t) (pResource : B)
  (OffsetToLock SizeToLock data Flags : Z) :
  let F := lockFlags allowLockFlagReadonly Flags in
  let flagged := snd (SetMapFlags pResource F) in
  GetMapMode flagged = D3D9_COMMON_BUFFER_MAP_MODE_BUFFER ->
  exists r,
    LockBuffer allowLockFlagReadonly d pResource OffsetToLock SizeToLock
      (Some data) Flags = Some r
    /\ lock_hr r = D3D_OK
    /\ lock_resource r
       = if testFlag F D3DLOCK_DISCARD then snd (DiscardMapSlice flagged)
         else flagged.
Proof.
  intros F flagged Hmode.
  unfold LockBuffer. fold (lockFlags allowLockFlagReadonly Flags). fold F. fold flagged.
  destruct (testFlag F D3DLOCK_DISCARD).
  - destruct (DiscardMapSlice flagged) as [physSlice b']. eexists. repeat split.
  - rewrite Hmode, andb_false_r. eexists. repeat split.
Qed.

(** X22. [UnlockBuffer] after [LockBuffer]. For a buffer that is mapped
    through a staging buffer, every lock succeeds, and the unlock that
    follows it records the copy of the staging slice into the real
    buffer as the last command, unless the lock was read-only: the
    lock had [D3DLOCK_READONLY] and the option [allowLockFlagReadonly]
    is on. A read-only lock is unlocked without any change of the
    device; when the option is off the flag is dropped and the copy is
    recorded all the same. [UnlockBuffer] of a buffer that is mapped
    directly does nothing. *)
Theorem UnlockBuffer_after_LockBuffer (flagsOf : B -> Z)
  (allowLockFlagReadonly : bool) (d : t) (pResource : B)
  (OffsetToLock SizeToLock data Flags : Z) :
  keepsMapFlags flagsOf ->
  (GetMapMode pResource = D3D9_COMMON_BUFFER_MAP_MODE_BUFFER ->
   exists r,
     LockBuffer allowLockFlagReadonly d pResource OffsetToLock SizeToLock
       (Some data) Flags = Some r
     /\ lock_hr r = D3D_OK
     /\ let '(hr, d', b') := UnlockBuffer (lock_device r) (lock_resource r) in
        hr = D3D_OK /\ flagsOf b' = 0
        /\ if allowLockFlagReadonly && testFlag Flags D3DLOCK_READONLY
           then d' = lock_device r
           else last (m_csChunk d')
                = Some (copyBuffer (GetBufferSlice_REAL b')
                                   (GetBufferSlice_STAGING b')))
  /\ (GetMapMode pResource = D3D9_COMMON_BUFFER_MAP_MODE_DIRECT ->
      UnlockBuffer d pResource = (D3D_OK, d, pResource)).
Proof.
  intros [Hret Hset Hmode Hdflags Hdmode]. split.
  - intros Hbuf.
    set (F := lockFlags allowLockFlagReadonly Flags).
    set (flagged := snd (SetMapFlags pResource F)).
    destruct (LockBuffer_staged allowLockFlagReadonly d pResource OffsetToLock
                SizeToLock data Flags) as (r & Hr & Hhr & Hres0).
    { rewrite Hmode. exact Hbuf. }
    fold F in Hres0. fold flagged in Hres0.
    exists r. split; [exact Hr|]. split; [exact Hhr|].
    assert (Hres : GetMapMode (lock_resource r) = D3D9_COMMON_BUFFER_MAP_MODE_BUFFER
                   /\ flagsOf (lock_resource r) = F).
    { rewrite Hres0. destruct (testFlag F D3DLOCK_DISCARD).
      - rewrite Hdmode, Hdflags. unfold flagged. rewrite Hmode, Hset. auto.
      - unfold flagged. rewrite Hmode, Hset. auto. }
    destruct Hres as [Hm Hf].
    unfold UnlockBuffer. rewrite Hm.
    destruct (SetMapFlags (lock_resource r) 0) as [flags b'] eqn:Eset.
    assert (Hflags : flags = F)
      by (rewrite <- Hf, <- (Hret (lock_resource r) 0), Eset; reflexivity).
    assert (Hb' : flagsOf b' = 0)
      by (rewrite <- (Hset (lock_resource r) 0), Eset; reflexivity).
    assert (Hro : testFlag flags D3DLOCK_READONLY
                  = allowLockFlagReadonly && testFlag Flags D3DLOCK_READONLY).
    { rewrite Hflags. unfold F, lockFlags. destruct allowLockFlagReadonly; cbn.
      - reflexivity.
      - apply testFlag_clearFlag. }
    rewrite Hro.
    destruct (allowLockFlagReadonly && testFlag Flags D3DLOCK_READONLY).
    + auto.
    + split; [reflexivity|]. split; [exact Hb'|]. apply d3d9_EmitCs_chunk.
  - intros Hdir. unfold UnlockBuffer. rewrite Hdir. reflexivity.
Qed.

(** X23. [LockBuffer] of a buffer that is mapped directly and still in
    use by the GPU, with neither [D3DLOCK_DISCARD] nor
    [D3DLOCK_NOOVERWRITE]: with [D3DLOCK_DONOTWAIT] the lock fails with
    the still-drawing code, gives up no time slice and leaves the
    caller's pointer as it was; without it the lock flushes, gives up
    its time slice until the GPU lets go of the buffer and succeeds,
    and it never returns if the GPU never lets go. *)
Theorem LockBuffer_waits (allowLockFlagReadonly : bool) (d : t) (pResource : B)
  (OffsetToLock SizeToLock data Flags : Z) :
  let F := lockFlags allowLockFlagReadonly Flags in
  let flagged := snd (SetMapFlags pResource F) in
  let inUse := DxvkBuffer.inUse (GetBuffer_REAL flagged) in
  testFlag F D3DLOCK_DISCARD = false ->
  testFlag F D3DLOCK_NOOVERWRITE = false ->
  GetMapMode flagged = D3D9_COMMON_BUFFER_MAP_MODE_DIRECT ->
  stillInUse inUse = true ->
  (testFlag F D3DLOCK_DONOTWAIT = true ->
   LockBuffer allowLockFlagReadonly d pResource OffsetToLock SizeToLock
     (Some data) Flags
   = Some (mkLock D3DERR_WASSTILLDRAWING (Some data) (Wait9.stillDrawing d) flagged)
   /\ yields (events (Wait9.stillDrawing d)) = yields (events d))
  /\ (testFlag F D3DLOCK_DONOTWAIT = false ->
      (forall n, inUse = Some (Datatypes.S n) ->
         LockBuffer allowLockFlagReadonly d pResource OffsetToLock SizeToLock
           (Some data) Flags
         = Some (mkLock D3D_OK
                   (Some (DxvkBufferSliceHandle.mapPtr (GetMappedSlice flagged)
                          + OffsetToLock))
                   (Wait9.waited d n) flagged)
         /\ yields (events (Wait9.waited d n)) = (yields (events d) + n)%nat)
      /\ (inUse = None ->
          LockBuffer allowLockFlagReadonly d pResource OffsetToLock SizeToLock
            (Some data) Flags = None)).
Proof.
  intros F flagged inUse Hd Hn Hm Hu.
  unfold LockBuffer. fold (lockFlags allowLockFlagReadonly Flags). fold F. fold flagged.
  rewrite Hd, Hn, Hm. cbn [negb andb]. fold inUse.
  destruct (Wait9.WaitForResource9_spec d inUse F Hu) as [Hno Hyes].
  split.
  - intros Hnw. rewrite (Hno Hnw). split; [reflexivity|].
    apply Wait9.yields9_stillDrawing.
  - intros Hnw. destruct (Hyes Hnw) as [Hsome Hnone]. split.
    + intros n En. rewrite (Hsome n En). split; [reflexivity|].
      apply Wait9.yields9_waited.
    + intros En. rewrite (Hnone En). reflexivity.
Qed.

End Buffers.

(** A buffer class for the examples: the buffer is its map mode, its
    map flags, the slice that is mapped and the number of slices it has
    discarded; slices are numbered. *)
Record DemoCommonBuffer := {
  demoMapMode : D3D9_COMMON_BUFFER_MAP_MODE;
  demoMapFlags : Z;
  demoMapped : Z;
  demoInUse : InUse;
}.

Definition demoBufferOf (k : Z) (u : InUse) : DxvkBuffer :=
  {| DxvkBuffer.id := k; DxvkBuffer.inUse := u;
     DxvkBuffer.m_physSlice := demoSlice 0; DxvkBuffer.m_freeSlices := [];
     DxvkBuffer.m_fresh := fun n => demoSlice (Z.of_nat n);
     DxvkBuffer.m_grown := 0 |}.

#[local] Instance demoCommonBufferClass : D3D9CommonBufferClass DemoCommonBuffer := {|
  GetMapMode := demoMapMode;
  SetMapFlags := fun b f =>
    (demoMapFlags b,
     {| demoMapMode := demoMapMode b; demoMapFlags := f;
        demoMapped := demoMapped b; demoInUse := demoInUse b |});
  DiscardMapSlice := fun b =>
    (demoSlice (demoMapped b + 1),
     {| demoMapMode := demoMapMode b; demoMapFlags := demoMapFlags b;
        demoMapped := demoMapped b + 1; demoInUse := demoInUse b |});
  GetMappedSlice := fun b => demoSlice (demoMapped b);
  GetBuffer_MAPPING := fun b =>
    demoBufferOf (match demoMapMode b with
                  | D3D9_COMMON_BUFFER_MAP_MODE_BUFFER => 2
                  | D3D9_COMMON_BUFFER_MAP_MODE_DIRECT => 1
                  end) (demoInUse b);
  GetBuffer_REAL := fun b => demoBufferOf 1 (demoInUse b);
  GetBufferSlice_REAL := fun b => demoSlice 100;
  GetBufferSlice_STAGING := fun b => demoSlice (demoMapped b);
|}.

Definition demoStagedBuffer : DemoCommonBuffer :=
  {| demoMapMode := D3D9_COMMON_BUFFER_MAP_MODE_BUFFER; demoMapFlags := 0;
     demoMapped := 0; demoInUse := Some 2%nat |}.

Definition demoDirectBuffer : DemoCommonBuffer :=
  {| demoMapMode := D3D9_COMMON_BUFFER_MAP_MODE_DIRECT; demoMapFlags := 0;
     demoMapped := 0; demoInUse := Some 2%nat |}.

Lemma demoCommonBuffer_keepsMapFlags : keepsMapFlags demoMapFlags.
Proof. constructor; reflexivity. Qed.

Lemma LockBuffer_at_once_witness :
  exists r,
    D3D9Buffers.LockBuffer false demoDevice demoDirectBuffer 16 64 (Some 0)
      D3DLOCK_NOOVERWRITE = Some r
    /\ D3D9Buffers.lock_hr r = D3D_OK
    /\ D3D9Buffers.lock_device r = demoDevice
    /\ D3D9Buffers.lock_data r = Some (0x10000 + 16).
Proof.
  destruct (proj1 (LockBuffer_at_once false demoDevice demoDirectBuffer 16 64 0
                     D3DLOCK_NOOVERWRITE))
    as (r & Hr & Hhr & _ & Hplain & _).
  - right. left. reflexivity.
  - exists r. destruct (Hplain eq_refl) as (Hd & _ & Hdata). auto.
Defined.

Lemma UnlockBuffer_after_LockBuffer_witness :
  exists r,
    D3D9Buffers.LockBuffer false demoDevice demoStagedBuffer 0 64 (Some 0)
      D3DLOCK_READONLY = Some r
    /\ D3D9Buffers.lock_hr r = D3D_OK
    /\ let '(hr, d', b') :=
         D3D9Buffers.UnlockBuffer (D3D9Buffers.lock_device r)
           (D3D9Buffers.lock_resource r) in
       hr = D3D_OK /\ demoMapFlags b' = 0
       /\ if false && testFlag D3DLOCK_READONLY D3DLOCK_READONLY
          then d' = D3D9Buffers.lock_device r
          else last (D3D9DeviceEx.m_csChunk d')
               = Some (copyBuffer (GetBufferSlice_REAL b')
                                  (GetBufferSlice_STAGING b')).
Proof.
  exact (proj1 (UnlockBuffer_after_LockBuffer demoMapFlags false demoDevice
                  demoStagedBuffer 0 64 0 D3DLOCK_READONLY
                  demoCommonBuffer_keepsMapFlags) eq_refl).
Defined.

Lemma LockBuffer_waits_witness :
  D3D9Buffers.LockBuffer true demoDevice demoDirectBuffer 0 64 (Some 7)
    D3D9DeviceEx.D3DLOCK_DONOTWAIT
  = Some (D3D9Buffers.mkLock D3DERR_WASSTILLDRAWING (Some 7)
            (Wait9.stillDrawing demoDevice)
            {| demoMapMode := D3D9_COMMON_BUFFER_MAP_MODE_DIRECT;
               demoMapFlags := D3D9DeviceEx.D3DLOCK_DONOTWAIT;
               demoMapped := 0; demoInUse := Some 2%nat |}).
Proof.
  exact (proj1 (proj1 (LockBuffer_waits true demoDevice demoDirectBuffer 0 64 7
                         D3D9DeviceEx.D3DLOCK_DONOTWAIT eq_refl eq_refl eq_refl
                         eq_refl) eq_refl)).
Defined.

(** * Feature levels and multisampling in version 11 *)

Section FeatureLevels.
Import D3D11DeviceCaps.

Lemma GetMaxFeatureLevel_range maxLevel :
  D3D_FEATURE_LEVEL_9_1 <= GetMaxFeatureLevel maxLevel <= D3D_FEATURE_LEVEL_11_1.
Proof.
  unfold GetMaxFeatureLevel, s_featureLevels. cbn [List.find fst snd].
  repeat (destruct (String.eqb _ maxLevel); [cbv; split; discriminate|]).
  cbv. split; discriminate.
Qed.

Lemma CheckFeatureLevelSupport_true adapter level :
  CheckFeatureLevelSupport adapter level = true ->
  level <= GetMaxFeatureLevel (maxFeatureLevel adapter)
  /\ checkFeatureSupport adapter level = true.
Proof.
  unfold CheckFeatureLevelSupport.
  destruct (Z.gtb_spec level (GetMaxFeatureLevel (maxFeatureLevel adapter)));
    [discriminate|].
  destruct (checkFeatureSupport adapter level); [|discriminate]. intros _. lia.
Qed.

Lemma findFeatureLevel_find adapter (levels : list D3D_FEATURE_LEVEL) :
  forall (before : list D3D_FEATURE_LEVEL),
    findFeatureLevel adapter (before ++ levels) (List.length before)
      (List.length levels)
    = Some (List.find (CheckFeatureLevelSupport adapter) levels).
Proof.
  induction levels as [|level levels IH]; intros before; [reflexivity|].
  cbn [List.length findFeatureLevel List.find].
  rewrite list_lookup_middle by reflexivity.
  destruct (CheckFeatureLevelSupport adapter level); [reflexivity|].
  specialize (IH (before ++ [level])).
  rewrite <- app_assoc, length_app in IH. cbn in IH.
  rewrite Nat.add_1_r in IH. exact IH.
Qed.

(** X24. [CreateDeviceContextState] picks the first feature level of
    the caller's array that the device supports, in the caller's
    order: a level that is not above the configured maximum (11_1
    unless the configuration names a lower one) and whose features the
    adapter has. The feature level of the device is raised to that
    level and never lowered, so that it never exceeds the larger of
    its old value and 11_1; the level is stored in the caller's
    variable, if there is one. The call returns the false code when it
    is given no place for the state object, and the OK code with a new
    object otherwise. When no level of the array is supported, the
    array is null or empty, or the interface is not a device interface
    of version 10 or 11, it fails with the invalid-argument code and
    changes nothing. *)
Theorem CreateDeviceContextState_spec (adapter : Adapter)
  (m_featureLevel : D3D_FEATURE_LEVEL) (Flags SDKVersion : Z)
  (EmulatedInterface : IID) (pChosenFeatureLevel : option D3D_FEATURE_LEVEL)
  (ppContextState : D3D11Device.ReturnPtr D3D11DeviceContextState) :
  let invalid :=
    Some (mkContextStateResult E_INVALIDARG m_featureLevel pChosenFeatureLevel
            (D3D11Device.InitReturnPtr ppContextState)) in
  (forall pFeatureLevels FeatureLevels,
      pFeatureLevels = None \/ FeatureLevels = 0%nat
      \/ emulates EmulatedInterface = false ->
      CreateDeviceContextState adapter m_featureLevel Flags pFeatureLevels
        FeatureLevels SDKVersion EmulatedInterface pChosenFeatureLevel ppContextState
      = invalid)
  /\ (forall levels,
        levels <> [] -> emulates EmulatedInterface = true ->
        let result :=
          CreateDeviceContextState adapter m_featureLevel Flags (Some levels)
            (List.length levels) SDKVersion EmulatedInterface pChosenFeatureLevel
            ppContextState in
        match List.find (CheckFeatureLevelSupport adapter) levels with
        | None => result = invalid
        | Some level =>
            result
            = Some (mkContextStateResult
                      (match ppContextState with
                       | Some _ => S_OK
                       | None => S_FALSE
                       end)
                      (Z.max m_featureLevel level)
                      (match pChosenFeatureLevel with
                       | Some _ => Some level
                       | None => None
                       end)
                      (match ppContextState with
                       | Some _ => Some (Some mkDeviceContextState)
                       | None => None
                       end))
            /\ level <= GetMaxFeatureLevel (maxFeatureLevel adapter)
                     <= D3D_FEATURE_LEVEL_11_1
            /\ checkFeatureSupport adapter level = true
            /\ m_featureLevel <= Z.max m_featureLevel level
                              <= Z.max m_featureLevel D3D_FEATURE_LEVEL_11_1
        end).
Proof.
  intros invalid. split.
  - intros pFeatureLevels FeatureLevels Hcase. unfold CreateDeviceContextState.
    destruct pFeatureLevels as [levels|]; [|reflexivity].
    destruct Hcase as [Hc | [-> | Hc]]; [discriminate | reflexivity |].
    rewrite Hc. destruct (_ =? _)%nat; reflexivity.
  - intros levels Hne Hem result. unfold result, CreateDeviceContextState.
    destruct levels as [|l0 levels0] eqn:El; [congruence|]. rewrite <- El.
    replace (List.length levels =? 0)%nat with false
      by (rewrite El; reflexivity).
    rewrite Hem. cbn [negb].
    pose proof (findFeatureLevel_find adapter levels []) as Hfind.
    cbn [app List.length] in Hfind. rewrite Hfind. clear Hfind.
    destruct (List.find (CheckFeatureLevelSupport adapter) levels) as [level|] eqn:Ef;
      [|reflexivity].
    apply find_some in Ef. destruct Ef as [_ Hsup].
    destruct (CheckFeatureLevelSupport_true _ _ Hsup) as [Hmax Hfeat].
    pose proof (GetMaxFeatureLevel_range (maxFeatureLevel adapter)) as Hrange.
    assert (Hlevel : (if level >? m_featureLevel then level else m_featureLevel)
                     = Z.max m_featureLevel level)
      by (destruct (Z.gtb_spec level m_featureLevel); lia).
    rewrite Hlevel.
    split; [destruct ppContextState, pChosenFeatureLevel; reflexivity|].
    split; [lia|]. split; [exact Hfeat | lia].
Qed.

End FeatureLevels.

Section QualityLevels.
Import D3D11DeviceCaps.

(** X25. [CheckMultisampleQualityLevels] never reports more than one
    quality level. It rejects a null pointer, and a format that is
    not known, with the invalid-argument code, and then leaves the
    caller's variable as it was; in every other case the variable is
    written. A query that is supported (the format is unknown to DXGI
    and one sample is asked for, or the format is known and the sample
    count decodes to a flag that is among the sample counts the
    adapter reports for the format) is answered with the OK code and
    one quality level; every other query that is not rejected writes
    0. The call fails exactly when no sample is asked for of the
    format unknown to DXGI, or the sample count of a known format does
    not decode and is 0 or above 32. *)
Theorem CheckMultisampleQualityLevels_spec (formats : Formats)
  (Format SampleCount levels : Z) :
  let result :=
    CheckMultisampleQualityLevels formats Format SampleCount (Some levels) in
  let supported :=
    if Format =? DXGI_FORMAT_UNKNOWN then SampleCount =? 1
    else
      match DecodeSampleCount formats SampleCount,
            imageFormatProperties formats (LookupFormat formats Format) with
      | Some flag, Some sampleCounts => testFlag sampleCounts flag
      | _, _ => false
      end in
  let rejected :=
    Format <> DXGI_FORMAT_UNKNOWN
    /\ LookupFormat formats Format = VK_FORMAT_UNDEFINED in
  CheckMultisampleQualityLevels formats Format SampleCount None
  = (E_INVALIDARG, None)
  /\ (fst result = S_OK \/ fst result = E_FAIL \/ fst result = E_INVALIDARG)
  /\ (fst result = E_INVALIDARG <-> rejected)
  /\ (fst result = E_INVALIDARG -> snd result = Some levels)
  /\ (fst result = E_FAIL -> snd result = Some 0)
  /\ (fst result = S_OK -> snd result = Some (if supported then 1 else 0))
  /\ (~ rejected -> supported = true -> result = (S_OK, Some 1))
  /\ (~ rejected -> supported = false -> snd result = Some 0)
  /\ (fst result = E_FAIL
      <-> (Format = DXGI_FORMAT_UNKNOWN /\ SampleCount = 0)
          \/ (Format <> DXGI_FORMAT_UNKNOWN
              /\ LookupFormat formats Format <> VK_FORMAT_UNDEFINED
              /\ DecodeSampleCount formats SampleCount = None
              /\ (SampleCount = 0 \/ 32 < SampleCount))).
Proof.
  intros result supported rejected.
  unfold result, supported, rejected, CheckMultisampleQualityLevels.
  split; [reflexivity|].
  assert (Hok : S_OK <> E_FAIL /\ S_OK <> E_INVALIDARG /\ E_FAIL <> E_INVALIDARG)
    by (repeat split; discriminate).
  destruct Hok as (Hok1 & Hok2 & Hok3).
  destruct (Z.eqb_spec Format DXGI_FORMAT_UNKNOWN) as [EF|EF];
    [destruct (Z.eqb_spec SampleCount 0) as [E0|E0];
     destruct (Z.eqb_spec SampleCount 1) as [E1|E1]
    |destruct (Z.eqb_spec (LookupFormat formats Format) VK_FORMAT_UNDEFINED)
       as [EV|EV];
     [|destruct (DecodeSampleCount formats SampleCount) as [flag|] eqn:Ed;
       [destruct (imageFormatProperties formats (LookupFormat formats Format))
          as [sampleCounts|];
        [destruct (testFlag sampleCounts flag)|]
       |destruct (Z.eqb_spec SampleCount 0) as [E0|E0];
        destruct (Z.leb_spec SampleCount 32) as [E32|E32]]]];
    cbn [negb andb fst snd];
    repeat match goal with
           | |- _ /\ _ => split
           | |- _ <-> _ => split
           end;
    intros;
    repeat match goal with
           | H : _ /\ _ |- _ => destruct H
           | H : _ \/ _ |- _ => destruct H
           end;
    try reflexivity; try congruence; try lia; try tauto; auto;
    try (exfalso; auto; fail);
    right; repeat split; auto; lia.
Qed.

End QualityLevels.

(** * Alignment of the memory a chunk hands out *)

Lemma align_pow2 x k :
  0 <= x -> 0 <= k -> x + 2 ^ k <= 2 ^ 64 ->
  align x (2 ^ k) = (x + 2 ^ k - 1) / 2 ^ k * 2 ^ k.
Proof.
  intros Hx Hk Hb. unfold align.
  assert (Hp : 0 < 2 ^ k) by (apply Z.pow_pos_nonneg; lia).
  rewrite !u64_small by lia.
  replace (2 ^ k - 1) with (Z.ones k) by (rewrite Z.ones_equiv; lia).
  rewrite <- Z.ldiff_land, Z.ldiff_ones_r by exact Hk.
  rewrite Z.shiftl_mul_pow2, Z.shiftr_div_pow2 by exact Hk. reflexivity.
Qed.

Lemma alloc_offsets this c flags size a prio m c' M :
  Forall (inChunk M) (DxvkMemoryChunk.m_freeList c) ->
  0 < size -> 1 <= a -> M + size + 2 * a <= 2 ^ 64 ->
  DxvkMemoryChunk.alloc this c flags size a prio = (Some m, c') ->
  exists s : FreeSlice,
    0 <= FreeSlice.offset s <= M
    /\ DxvkMemory.m_offset m = align (FreeSlice.offset s) a
    /\ DxvkMemory.m_offset m + DxvkMemory.m_length m
       = align (DxvkMemory.m_offset m + size) a
    /\ FreeSlice.offset s <= DxvkMemory.m_offset m
    /\ memFlags (DxvkMemoryChunk.m_memory c) = flags
    /\ PrimFloat.eqb (priority (DxvkMemoryChunk.m_memory c)) prio = true
    /\ DxvkMemory.m_memory m = memHandle (DxvkMemoryChunk.m_memory c)
    /\ DxvkMemory.m_mapPtr m
       = memPointer (DxvkMemoryChunk.m_memory c) + DxvkMemory.m_offset m.
Proof.
  intros Hin Hsize Ha Hbound. unfold DxvkMemoryChunk.alloc.
  destruct (memFlags (DxvkMemoryChunk.m_memory c) =? flags) eqn:Ef;
    [|discriminate].
  destruct (PrimFloat.eqb (priority (DxvkMemoryChunk.m_memory c)) prio) eqn:Ep;
    [|discriminate].
  cbn [negb orb].
  set (i := DxvkMemoryChunk.bestSliceIndex _ _).
  destruct (DxvkMemoryChunk.m_freeList c !! i) as [s|] eqn:Hs; [|discriminate].
  pose proof (proj1 (Forall_lookup _ _) Hin i s Hs) as (Ho & Hl & He).
  unfold sliceEnd in He.
  pose proof (align_bounds (FreeSlice.offset s) a).
  set (allocStart := align (FreeSlice.offset s) a) in *.
  rewrite (u64_small (FreeSlice.offset s + FreeSlice.length s)) by lia.
  rewrite (u64_small (allocStart + size)) by lia.
  pose proof (align_bounds (allocStart + size) a).
  set (allocEnd := align (allocStart + size) a) in *.
  destruct (Z.gtb_spec allocEnd (FreeSlice.offset s + FreeSlice.length s));
    [discriminate|].
  intros H'. injection H' as <- <-. cbn.
  rewrite !u64_small by lia.
  exists s. apply Z.eqb_eq in Ef.
  split; [lia|]. split; [reflexivity|]. split; [fold allocEnd; lia|].
  split; [lia|]. auto.
Qed.

(** X26. The memory that a chunk hands out is aligned: for an
    alignment that is a power of two, the offset and the length of the
    memory object are multiples of the alignment, and the length
    exceeds the size asked for by less than the alignment. A chunk
    serves a request only with the memory property flags and the
    priority of its own memory, and the memory object carries the
    handle of that memory and its host pointer advanced by the
    offset. *)
Theorem chunk_alloc_aligned ty mem c live this flags size align_ prio m c' k :
  reachable ty mem c live ->
  validRequest mem size align_ ->
  0 <= k -> align_ = 2 ^ k ->
  DxvkMemoryChunk.alloc this c flags size align_ prio = (Some m, c') ->
  DxvkMemory.m_offset m mod align_ = 0
  /\ DxvkMemory.m_length m mod align_ = 0
  /\ size <= DxvkMemory.m_length m < size + align_
  /\ memFlags mem = flags
  /\ PrimFloat.eqb (priority mem) prio = true
  /\ DxvkMemory.m_memory m = memHandle mem
  /\ DxvkMemory.m_mapPtr m = memPointer mem + DxvkMemory.m_offset m.
Proof.
  intros Hreach (Hsize & Ha & Hbound) Hk -> Halloc.
  destruct (reachable_inv _ _ _ _ Hreach) as [Hmem Hsz Hin _ _ _ _].
  destruct (alloc_offsets _ _ _ _ _ _ _ _ _ Hin Hsize Ha Hbound Halloc)
    as (s & Hs & Hoff & Hend & Hle & Hflags & Hprio & Hhandle & Hptr).
  rewrite Hmem in Hflags, Hprio, Hhandle, Hptr.
  assert (Hp : 0 < 2 ^ k) by (apply Z.pow_pos_nonneg; lia).
  pose proof (align_bounds (FreeSlice.offset s) (2 ^ k)) as Hb1.
  pose proof (align_bounds (DxvkMemory.m_offset m + size) (2 ^ k)) as Hb2.
  rewrite <- Hoff in Hb1. rewrite <- Hend in Hb2.
  rewrite align_pow2 in Hoff by lia.
  assert (Hoffmod : DxvkMemory.m_offset m mod 2 ^ k = 0)
    by (rewrite Hoff; apply Z.mod_mul; lia).
  rewrite align_pow2 in Hend by lia.
  assert (Hendmod : (DxvkMemory.m_offset m + DxvkMemory.m_length m) mod 2 ^ k = 0)
    by (rewrite Hend; apply Z.mod_mul; lia).
  split; [exact Hoffmod|]. split.
  - replace (DxvkMemory.m_length m)
      with (DxvkMemory.m_offset m + DxvkMemory.m_length m - DxvkMemory.m_offset m)
      by lia.
    rewrite Zminus_mod, Hendmod, Hoffmod. reflexivity.
  - split; [lia|]. auto.
Qed.

Lemma chunk_alloc_aligned_witness :
  DxvkMemory.m_offset demoBlock1 mod 16 = 0
  /\ DxvkMemory.m_length demoBlock1 mod 16 = 0
  /\ 100 <= DxvkMemory.m_length demoBlock1 < 100 + 16
  /\ memFlags demoMemory = 6
  /\ PrimFloat.eqb (priority demoMemory) 0.5%float = true
  /\ DxvkMemory.m_memory demoBlock1 = memHandle demoMemory
  /\ DxvkMemory.m_mapPtr demoBlock1
     = memPointer demoMemory + DxvkMemory.m_offset demoBlock1.
Proof.
  refine (chunk_alloc_aligned 3 demoMemory (DxvkMemoryChunk.new 3 demoMemory) []
            0%nat 6 100 16 0.5%float demoBlock1 (snd demoChunk1) 4 _ _ _ _ _).
  - constructor. cbn. lia.
  - unfold validRequest. cbn. lia.
  - lia.
  - reflexivity.
  - reflexivity.
Defined.
